(** * The SaaS migration scripts of RistorazioneVittoria

    A shallow embedding of the three source-rewriting scripts
    [migrate_to_saas.py], [migrate_to_saas_phase2.py] and
    [wire_org_context.py], and the properties of their text patching,
    of their dry-run and apply modes and of their backups.

    Modelling conventions.
    - A Python [str] is a list of Unicode code points ([list N]).  A file
      holds the text that [read_text(encoding='utf-8')] returns for it and
      that [write_text(..., encoding='utf-8')] stores; [shutil.copy2]
      copies that content verbatim.  Files that are not valid UTF-8,
      permissions and newline translation are outside the model.
    - Paths are lists of components relative to [PROJECT_ROOT], the
      directory of the scripts.
    - The file system is a finite map from paths to file contents together
      with a finite set of directories.  Every primitive that changes it
      appends an event to a trace, so that the order of copies and writes
      can be stated.
    - Python exceptions and [sys.exit] are outcomes of a state-and-error
      monad; the process exit status is computed from the outcome of
      [main].
    - Console output ([print]) is not part of the modelled state; the
      [MigrationReport] object of the first script is. *)

From Stdlib Require Import ZArith NArith Ascii String List Lia Bool.
From stdpp Require Import base option list numbers strings gmap sets.

(** ** Text *)

Module Text.
Local Open Scope N_scope.

(** The code points of a string literal (ASCII literals only). *)
Definition txt (s : string) : list N :=
  map N_of_ascii (list_ascii_of_string s).

(** [s.startswith(x)] *)
Fixpoint starts_with (x s : list N) : bool :=
  match x, s with
  | [], _ => true
  | _ :: _, [] => false
  | a :: x', b :: s' => (a =? b) && starts_with x' s'
  end.

(** [s.endswith(x)] *)
Definition ends_with (x s : list N) : bool :=
  starts_with (rev x) (rev s).

(** First index [>= i] (counting the head of [s] as [i]) where [x]
    occurs in [s]. *)
Fixpoint find_at (x s : list N) (i : nat) : option nat :=
  if starts_with x s then Some i
  else match s with
       | [] => None
       | _ :: s' => find_at x s' (S i)
       end.

(** Last index where [x] occurs in [s]. *)
Fixpoint rfind_at (x s : list N) (i : nat) : option nat :=
  match s with
  | [] => if starts_with x [] then Some i else None
  | _ :: s' =>
      match rfind_at x s' (S i) with
      | Some j => Some j
      | None => if starts_with x s then Some i else None
      end
  end.

Definition index_or_minus1 (o : option nat) : Z :=
  match o with
  | Some i => Z.of_nat i
  | None => (-1)%Z
  end.

(** [s.find(x)] *)
Definition str_find (x s : list N) : Z :=
  index_or_minus1 (find_at x s 0%nat).

(** [s.find(x, start)], for [0 <= start]. *)
Definition str_find_from (x s : list N) (start : Z) : Z :=
  index_or_minus1 (find_at x (drop (Z.to_nat start) s) (Z.to_nat start)).

(** [s.rfind(x)] *)
Definition str_rfind (x s : list N) : Z :=
  index_or_minus1 (rfind_at x s 0%nat).

(** [x in s] *)
Definition str_in (x s : list N) : bool :=
  match find_at x s 0%nat with
  | Some _ => true
  | None => false
  end.

(** [s[i:j]] for [0 <= i], [0 <= j]. *)
Definition slice (s : list N) (i j : nat) : list N :=
  take (j - i) (drop i s).

End Text.
Export Text.

(** ** Regular expressions

    The patterns of the scripts are sequences of single characters,
    character classes, greedy and lazy repetitions of a class, group
    parentheses and the line anchor.  The matcher is the backtracking
    matcher of Python's [re]: a greedy repetition tries the longest run
    first, a lazy one the shortest, and [re.search] tries the start
    positions from left to right. *)

Module Regex.
Local Open Scope N_scope.

(** [str.isalnum] for the code points from 128 on: Python's Unicode
    database, which is not part of the scripts. *)
Class UnicodeTable := unicode_alnum : N -> bool.

(** The table without alphanumeric code points from 128 on; a match on an
    ASCII text never consults the table. *)
Definition ascii_table : UnicodeTable := fun _ => false.

Definition ascii_alnum (c : N) : bool :=
  ((48 <=? c) && (c <=? 57)) || ((65 <=? c) && (c <=? 90))
  || ((97 <=? c) && (c <=? 122)).

(** [\w] on a [str] pattern *)
Definition is_word `{UnicodeTable} (c : N) : bool :=
  if c <? 128 then ascii_alnum c || (c =? 95) else unicode_alnum c.

(** [\s] on a [str] pattern: [str.isspace] *)
Definition is_space (c : N) : bool :=
  ((9 <=? c) && (c <=? 13)) || ((28 <=? c) && (c <=? 32))
  || (c =? 133) || (c =? 160) || (c =? 5760)
  || ((8192 <=? c) && (c <=? 8202))
  || (c =? 8232) || (c =? 8233) || (c =? 8239) || (c =? 8287)
  || (c =? 12288).

Inductive cls :=
| Is (c : N)             (* the character [c] *)
| Not (c : N)            (* [[^c]] *)
| OneOf (cs : list N)    (* [[...]] *)
| Word                   (* [\w] *)
| Space.                 (* [\s] *)

Definition in_cls `{UnicodeTable} (k : cls) (c : N) : bool :=
  match k with
  | Is a => c =? a
  | Not a => negb (c =? a)
  | OneOf cs => existsb (N.eqb c) cs
  | Word => is_word c
  | Space => is_space c
  end.

Inductive atom :=
| One (k : cls)          (* one character of the class *)
| Star (k : cls)         (* [k*] *)
| Lazy (k : cls)         (* [k*?] *)
| Open                   (* [(] *)
| Close                  (* [)] *)
| Bol.                   (* [^] under [re.MULTILINE] *)

(** A literal string, and [k+]. *)
Definition lit (s : string) : list atom := map (fun c => One (Is c)) (txt s).
Definition plus (k : cls) : list atom := [One k; Star k].

Section Matcher.
Context `{UnicodeTable}.

(** The continuation of a repetition: the rest of the pattern, run
    from the character before the position, the position and the
    remaining text. *)
Definition cont := option N -> nat -> list N -> option (nat * list nat).

Fixpoint greedy (k : cls) (rest : cont)
    (prev : option N) (pos : nat) (s : list N) : option (nat * list nat) :=
  match s with
  | c :: s' =>
      if in_cls k c then
        match greedy k rest (Some c) (S pos) s' with
        | Some m => Some m
        | None => rest prev pos s
        end
      else rest prev pos s
  | [] => rest prev pos s
  end.

Fixpoint lazy (k : cls) (rest : cont)
    (prev : option N) (pos : nat) (s : list N) : option (nat * list nat) :=
  match rest prev pos s with
  | Some m => Some m
  | None =>
      match s with
      | c :: s' => if in_cls k c then lazy k rest (Some c) (S pos) s' else None
      | [] => None
      end
  end.

(** Is the position a line start ([^] with [re.MULTILINE])? *)
Definition at_bol (prev : option N) : bool :=
  match prev with
  | None => true
  | Some c => c =? 10
  end.

(** Match the pattern at the position; the result is the end of the
    match and the positions of the group parentheses in the order of
    the pattern. *)
Fixpoint match_here (r : list atom) (marks : list nat)
    (prev : option N) (pos : nat) (s : list N) : option (nat * list nat) :=
  match r with
  | [] => Some (pos, rev marks)
  | One k :: r' =>
      match s with
      | c :: s' =>
          if in_cls k c then match_here r' marks (Some c) (S pos) s' else None
      | [] => None
      end
  | Star k :: r' => greedy k (match_here r' marks) prev pos s
  | Lazy k :: r' => lazy k (match_here r' marks) prev pos s
  | Open :: r' => match_here r' (pos :: marks) prev pos s
  | Close :: r' => match_here r' (pos :: marks) prev pos s
  | Bol :: r' => if at_bol prev then match_here r' marks prev pos s else None
  end.

(** A match object: [m.start()], [m.end()] and the group boundaries. *)
Record re_match := { m_start : nat; m_end : nat; m_marks : list nat }.

Fixpoint search_from (r : list atom)
    (prev : option N) (pos : nat) (s : list N) : option re_match :=
  match match_here r [] prev pos s with
  | Some (e, marks) => Some {| m_start := pos; m_end := e; m_marks := marks |}
  | None =>
      match s with
      | [] => None
      | c :: s' => search_from r (Some c) (S pos) s'
      end
  end.

(** [re.search(r, content)] *)
Definition re_search (r : list atom) (content : list N) : option re_match :=
  search_from r None 0%nat content.

(** [m.group(n)]: the text between the [n]-th pair of parentheses (the
    groups of the scripts' patterns are not nested); [m.group(0)] is
    the whole match. *)
Definition group_start (m : re_match) (n : nat) : nat :=
  match n with
  | O => m_start m
  | S n' => nth (2 * n') (m_marks m) 0%nat
  end.

Definition group_end (m : re_match) (n : nat) : nat :=
  match n with
  | O => m_end m
  | S n' => nth (2 * n' + 1) (m_marks m) 0%nat
  end.

Definition group (content : list N) (m : re_match) (n : nat) : list N :=
  slice content (group_start m n) (group_end m n).

End Matcher.

End Regex.
Export Regex.


(** ** The file system and the monad of the scripts *)

Module FS.

(** [Path.parent] and [Path.name] *)
Definition parent (p : list string) : list string := removelast p.
Definition name (p : list string) : string := List.last p EmptyString.

(** [str.endswith] on names *)
Definition name_ends_with (suffix s : string) : bool :=
  let n := String.length s in
  let m := String.length suffix in
  (m <=? n)%nat && String.eqb (substring (n - m) m s) suffix.

Record filesystem := {
  files : gmap (list string) (list N);
  dirs : gset (list string)
}.

Inductive event :=
| Wrote (p : list string)              (* [write_text] *)
| Copied (src dst : list string)       (* [shutil.copy2] *)
| MadeDir (p : list string).           (* [mkdir] *)

Record world := { fs : filesystem; trace : list event }.

Inductive exn :=
| FileNotFoundError
| IsADirectoryError
| NotADirectoryError
| FileExistsError
| SystemExit (code : Z).

Inductive outcome (A : Type) :=
| Return (a : A)
| Raise (e : exn).
Arguments Return {A} a.
Arguments Raise {A} e.

Definition M (A : Type) : Type := world -> outcome A * world.

#[global] Instance M_ret : MRet M := fun A a w => (Return a, w).
#[global] Instance M_bind : MBind M := fun A B f m w =>
  match m w with
  | (Return a, w') => f a w'
  | (Raise e, w') => (Raise e, w')
  end.

Definition bind {A B} (m : M A) (f : A -> M B) : M B := mbind f m.

Notation "'let*' x ':=' m 'in' k" := (bind m (fun x => k))
  (at level 10, x pattern, m at level 100, k at level 200).

Definition raise {A} (e : exn) : M A := fun w => (Raise e, w).

(** [sys.exit(code)] *)
Definition sys_exit {A} (code : Z) : M A := raise (SystemExit code).


Definition is_file (f : filesystem) (p : list string) : bool :=
  bool_decide (is_Some (files f !! p)).

(** The project root is the directory of the running script. *)
Definition is_dir (f : filesystem) (p : list string) : bool :=
  bool_decide (p = []) || bool_decide (p ∈ dirs f).

(** [p.exists()] *)
Definition path_exists (p : list string) : M bool := fun w =>
  (Return (is_file (fs w) p || is_dir (fs w) p), w).

(** The exception of opening [p], which is not a file, for reading. *)
Definition open_error (f : filesystem) (p : list string) : exn :=
  if is_dir f p then IsADirectoryError else FileNotFoundError.

(** [p.read_text(encoding='utf-8')] *)
Definition read_text (p : list string) : M (list N) := fun w =>
  match files (fs w) !! p with
  | Some t => (Return t, w)
  | None => (Raise (open_error (fs w) p), w)
  end.

Definition store (p : list string) (t : list N) (e : event) (w : world) : world :=
  {| fs := {| files := <[p := t]> (files (fs w)); dirs := dirs (fs w) |};
     trace := trace w ++ [e] |}.

(** Can [p] be opened for writing?  Its parent must be a directory and
    [p] itself must not be one. *)
Definition create_error (f : filesystem) (p : list string) : option exn :=
  if is_dir f p then Some IsADirectoryError
  else if is_dir f (parent p) then None
  else if is_file f (parent p) then Some NotADirectoryError
  else Some FileNotFoundError.

(** [p.write_text(t, encoding='utf-8')] *)
Definition write_text (p : list string) (t : list N) : M unit := fun w =>
  match create_error (fs w) p with
  | Some e => (Raise e, w)
  | None => (Return tt, store p t (Wrote p) w)
  end.

(** [shutil.copy2(src, dst)]; a [dst] that is a directory stands for
    the file of the same name in it. *)
Definition copy2 (src dst : list string) : M unit := fun w =>
  match files (fs w) !! src with
  | None => (Raise (open_error (fs w) src), w)
  | Some t =>
      let dst' := if is_dir (fs w) dst then dst ++ [name src] else dst in
      match create_error (fs w) dst' with
      | Some e => (Raise e, w)
      | None => (Return tt, store dst' t (Copied src dst') w)
      end
  end.

Definition add_dir (p : list string) (w : world) : world :=
  {| fs := {| files := files (fs w); dirs := {[p]} ∪ dirs (fs w) |};
     trace := trace w ++ [MadeDir p] |}.

(** [p.mkdir(parents=True, exist_ok=True)], from the first missing
    ancestor down to [p = above ++ below]. *)
Fixpoint mkdir_from (above below : list string) : M unit :=
  match below with
  | [] => mret tt
  | c :: below' =>
      let p := above ++ [c] in
      fun w =>
        if is_file (fs w) p then
          (Raise (match below' with [] => FileExistsError | _ => NotADirectoryError end), w)
        else if is_dir (fs w) p then mkdir_from p below' w
        else mkdir_from p below' (add_dir p w)
  end.

Definition mkdir_parents (p : list string) : M unit := mkdir_from [] p.

(** [d.glob("*.dart")]: the entries of the directory [d] whose name ends
    in [.dart] (the order is the file system's; names are compared as on
    a case-sensitive file system). *)
Definition glob_dart (d : list string) : M (list (list string)) := fun w =>
  (Return
     (List.filter
        (fun p => negb (bool_decide (p = [])) && bool_decide (parent p = d)
                  && name_ends_with ".dart" (name p))
        (elements (dom (files (fs w)) ∪ dirs (fs w)))),
   w).

(** [if b: body] *)
Definition when (b : bool) (body : M unit) : M unit :=
  if b then body else mret tt.

(** [for x in xs: body(x)] *)
Fixpoint for_each {A} (xs : list A) (body : A -> M unit) : M unit :=
  match xs with
  | [] => mret tt
  | x :: xs' => body x;; for_each xs' body
  end.

(** [for x in xs: acc = body(acc, x)] *)
Fixpoint for_fold {A S} (xs : list A) (body : S -> A -> M S) (acc : S) : M S :=
  match xs with
  | [] => mret acc
  | x :: xs' => let* acc' := body acc x in for_fold xs' body acc'
  end.

End FS.
Export FS.

(** ** The factory constructor rule

    [add_organization_id_to_model] of the first script and
    [update_settings_models] of the second hold the same pattern and the
    same field text. *)

Module Factory.

(** [(factory\s+\w+\s*\(\s*\{)([^}]*?)(\}\s*\)\s*=\s*_\w+;)]: the inside of the
    first group, of the third group, and the pattern. *)
Definition factory_open : list atom :=
  lit "factory" ++ plus Space ++ plus Word ++ [Star Space]
  ++ lit "(" ++ [Star Space] ++ lit "{".

Definition factory_close : list atom :=
  lit "}" ++ [Star Space] ++ lit ")" ++ [Star Space] ++ lit "="
  ++ [Star Space] ++ lit "_" ++ plus Word ++ lit ";".

Definition factory_pattern : list atom :=
  [Open] ++ factory_open ++ [Close]
  ++ [Open; Lazy (Not 125); Close]
  ++ [Open] ++ factory_close ++ [Close].

(** A line feed and the field declaration. *)
Definition new_field : list N :=
  10%N :: txt "    @JsonKey(name: 'organization_id') String? organizationId,".

(** The guard of the two functions:
    ['organizationId' in content or 'organization_id' in content]. *)
Definition has_organization_id (content : list N) : bool :=
  str_in (txt "organizationId") content || str_in (txt "organization_id") content.

End Factory.
Export Factory.

(** ** [migrate_to_saas.py] *)

Module MigrateToSaas.
Section Script.
Context `{UnicodeTable}.

Definition LIB_DIR : list string := ["lib"].
Definition BACKUP_DIR : list string := ["migration_backup"].
Definition MODELS_DIR : list string := LIB_DIR ++ ["core"; "models"].
Definition SERVICES_DIR : list string := LIB_DIR ++ ["core"; "services"].
Definition DATABASE_SERVICE : list string := SERVICES_DIR ++ ["database_service.dart"].

(** A [set] in the source: the order in which the loop of
    [update_database_service] visits it is not determined there; the
    order of the source text is taken. *)
Definition ORG_TABLES : list string :=
  ["organizations"; "organization_members"; "profiles"; "categorie_menu";
   "sizes_master"; "ingredients"; "ingredient_size_prices"; "menu_items";
   "menu_item_sizes"; "menu_item_included_ingredients"; "menu_item_extra_ingredients";
   "allowed_cities"; "delivery_zones"; "cashier_customers"; "daily_order_counters";
   "ordini"; "ordini_items"; "order_reminders"; "notifiche"; "business_rules";
   "delivery_configuration"; "order_management"; "kitchen_management";
   "display_branding"; "dashboard_security"; "promotional_banners";
   "ingredient_consumption_rules"; "inventory_logs"; "payment_transactions";
   "statistiche_giornaliere"].

Definition MODEL_FILES_TO_UPDATE : list string :=
  ["menu_item_model.dart";
   "category_model.dart";
   "ingredient_model.dart";
   "order_model.dart";
   "order_item_model.dart";
   "promotional_banner_model.dart";
   "delivery_zone_model.dart";
   "allowed_city_model.dart";
   "cashier_customer_model.dart";
   "ingredient_size_price_model.dart";
   "menu_item_size_assignment_model.dart";
   "menu_item_extra_ingredient_model.dart";
   "menu_item_included_ingredient_model.dart"].

Record MigrationReport := {
  model_updates : list string;
  service_updates : list string;
  errors : list string;
  warnings : list string
}.

Definition new_report : MigrationReport :=
  {| model_updates := []; service_updates := []; errors := []; warnings := [] |}.

Definition add_model_update (r : MigrationReport) (file change : string) : MigrationReport :=
  {| model_updates := model_updates r ++ [file +:+ ": " +:+ change];
     service_updates := service_updates r;
     errors := errors r;
     warnings := warnings r |}.

Definition add_service_update (r : MigrationReport) (method change : string) : MigrationReport :=
  {| model_updates := model_updates r;
     service_updates := service_updates r ++ [method +:+ ": " +:+ change];
     errors := errors r;
     warnings := warnings r |}.

Definition add_error (r : MigrationReport) (msg : string) : MigrationReport :=
  {| model_updates := model_updates r;
     service_updates := service_updates r;
     errors := errors r ++ [msg];
     warnings := warnings r |}.

Definition add_warning (r : MigrationReport) (msg : string) : MigrationReport :=
  {| model_updates := model_updates r;
     service_updates := service_updates r;
     errors := errors r;
     warnings := warnings r ++ [msg] |}.

(** [str(path)], written relative to [PROJECT_ROOT]. *)
Definition path_str (p : list string) : string := String.concat "/" p.

(** [create_backup()]; [timestamp] is the reading of the clock,
    [datetime.now().strftime("%Y%m%d_%H%M%S")]. *)
Definition create_backup (timestamp : string) : M (list string) :=
  let backup_path := BACKUP_DIR ++ [timestamp] in
  let models_backup := backup_path ++ ["models"] in
  mkdir_parents models_backup;;
  let* model_files := glob_dart MODELS_DIR in
  for_each model_files (fun model_file =>
    when (negb (name_ends_with ".freezed.dart" (name model_file)
                || name_ends_with ".g.dart" (name model_file)))
      (copy2 model_file (models_backup ++ [name model_file])));;
  let services_backup := backup_path ++ ["services"] in
  mkdir_parents services_backup;;
  let* e := path_exists DATABASE_SERVICE in
  when e (copy2 DATABASE_SERVICE (services_backup ++ [name DATABASE_SERVICE]));;
  mret backup_path.

Definition add_organization_id_to_model
    (file_path : list string) (report : MigrationReport) (dry_run : bool)
    : M (bool * MigrationReport) :=
  let* e := path_exists file_path in
  if negb e then
    mret (false, add_warning report ("File not found: " +:+ name file_path))
  else
    let* content := read_text file_path in
    if has_organization_id content then
      mret (false, add_warning report (name file_path +:+ ": Already has organizationId, skipping"))
    else
      match re_search factory_pattern content with
      | None =>
          mret (false, add_warning report (name file_path +:+ ": Could not find factory constructor"))
      | Some m =>
          let before := group content m 1 in
          let fields := group content m 2 in
          let after := group content m 3 in
          let new_fields := new_field ++ fields in
          let new_content :=
            take (m_start m) content ++ before ++ new_fields ++ after
              ++ drop (m_end m) content in
          if dry_run then
            mret (true, add_model_update report (name file_path) "Would add organizationId field")
          else
            write_text file_path new_content;;
            mret (true, add_model_update report (name file_path) "Added organizationId field")
      end.

(** The character class of the single and the double quote. *)
Definition quotes : list N := [39%N; 34%N].

(** [\.from\s*\(\s*Q(table)Q\s*\)\s*\.op\s*\(], where [Q] is the class
    of the two quote characters. *)
Definition from_call (table op : string) : list atom :=
  lit ".from" ++ [Star Space] ++ lit "(" ++ [Star Space; One (OneOf quotes); Open]
  ++ lit table ++ [Close; One (OneOf quotes); Star Space] ++ lit ")" ++ [Star Space]
  ++ lit ("." +:+ op) ++ [Star Space] ++ lit "(".

(** The patterns of one table; the replacement texts that the source
    pairs with them are never used. *)
Definition patterns (table : string) : list (list atom) :=
  [from_call table "select"; from_call table "insert"; from_call table "update"].

(** [^class DatabaseService] with [re.MULTILINE] *)
Definition class_pattern : list atom := [Bol] ++ lit "class DatabaseService".

(** The comment block of [update_database_service] *)
Definition todo_header : list N := txt
"
// =============================================================================
// TODO: SAAS MIGRATION - Organization Filtering Required
// =============================================================================
// The following tables need organization_id filtering:
// - categorie_menu, menu_items, ingredients, sizes_master
// - ordini, ordini_items, notifiche, cashier_customers
// - delivery_zones, allowed_cities, promotional_banners
// - business_rules, delivery_configuration, order_management
// - kitchen_management, display_branding, dashboard_security
// - ingredient_consumption_rules, inventory_logs, payment_transactions
//
// For each query:
// 1. Add String? organizationId parameter to the method
// 2. Add .eq('organization_id', organizationId) to SELECT queries
// 3. Add 'organization_id': organizationId to INSERT payloads
//
// Example:
//   Future<List<MenuItem>> getMenuItems({String? organizationId}) async {
//     var query = _client.from('menu_items').select();
//     if (organizationId != null) {
//       query = query.eq('organization_id', organizationId);
//     }
//     return query...
//   }
// =============================================================================

".

(** The loop over the tables and their patterns. *)
Definition mark_tables (content : list N) (report : MigrationReport)
    : MigrationReport * nat :=
  fold_left
    (fun acc table =>
       fold_left
         (fun '(report, updates_count) pattern =>
            match re_search pattern content with
            | Some _ =>
                (add_service_update report table "Marked for organization filtering",
                 S updates_count)
            | None => (report, updates_count)
            end)
         (patterns table) acc)
    ORG_TABLES (report, 0%nat).

Definition update_database_service (report : MigrationReport) (dry_run : bool)
    : M (nat * MigrationReport) :=
  let* e := path_exists DATABASE_SERVICE in
  if negb e then
    mret (0%nat, add_error report ("DatabaseService not found at " +:+ path_str DATABASE_SERVICE))
  else
    let* content := read_text DATABASE_SERVICE in
    let '(report, updates_count) := mark_tables content report in
    if (0 <? updates_count)%nat && negb dry_run then
      if negb (str_in (txt "SAAS MIGRATION") content) then
        match re_search class_pattern content with
        | Some class_match =>
            let content :=
              take (m_start class_match) content ++ todo_header
                ++ drop (m_start class_match) content in
            write_text DATABASE_SERVICE content;;
            mret (updates_count,
                  add_service_update report "DatabaseService" "Added migration TODO header")
        | None => mret (updates_count, report)
        end
      else mret (updates_count, report)
    else mret (updates_count, report).

(** The file written by [create_organization_provider] *)
Definition provider_content : list N := txt
("import 'package:riverpod_annotation/riverpod_annotation.dart';
import 'package:supabase_flutter/supabase_flutter.dart';

part 'organization_provider.g.dart';

/// Current organization ID for multi-tenant queries
/// 
/// TODO: Implement organization selection/switching logic
/// For now, returns the first organization or null
@riverpod
class CurrentOrganization extends _$CurrentOrganization {
  @override
  Future<String?> build() async {
    final client = Supabase.instance.client;
    
    // Get user's current organization from profile
    final userId = client.auth.currentUser?.id;
    if (userId == null) return null;
    
    try {
      final response = await client
          .from('profiles')
          .select('current_organization_id')
          .eq('id', userId)
          .single();
      
      return response['current_organization_id'] as String?;
    } catch (e) {
      // If profile doesn't exist or no org set, try to get first org
      try {
        final orgs = await client
            .from('organizations')
            .select('id')
            .eq('is_active', true)
            .limit(1);
        
        if (orgs.isNotEmpty) {
          return orgs.first['id'] as String;
        }
      } catch (_) {}
      return null;
    }
  }
  
  /// Switch to a different organization
  Future<void> switchOrganization(String organizationId) async {
    final client = Supabase.instance.client;
    final userId = client.auth.currentUser?.id;
    if (userId == null) return;
    
    await client
        .from('profiles')
        .update({'current_organization_id': organizationId})
        .eq('id', userId);
    
    ref.invalidateSelf();
  }
}

/// List of organizations the current user belongs to
@riverpod
Future<List<Map<String, dynamic>>> userOrganizations(UserOrganizationsRef ref) async {
  final client = Supabase.instance.client;
  final userId = client.auth.currentUser?.id;
  if (userId == null) return [];
  
  final response = await client
      .from('organization_members')
      .select('organization:organizations(" +:+
"*)')
      .eq('user_id', userId)
      .eq('is_active', true);
  
  return response
      .map((e) => e['organization'] as Map<String, dynamic>)
      .toList();
}
").

Definition create_organization_provider (report : MigrationReport) (dry_run : bool)
    : M (bool * MigrationReport) :=
  let provider_path := LIB_DIR ++ ["providers"; "organization_provider.dart"] in
  let* e := path_exists provider_path in
  if e then
    mret (false, add_warning report "organization_provider.dart already exists")
  else if dry_run then
    mret (true, add_model_update report "organization_provider.dart" "Would create new provider")
  else
    write_text provider_path provider_content;;
    mret (true, add_model_update report "organization_provider.dart"
                  "Created new organization provider").

(** The parsed command line. *)
Record args := {
  arg_dry_run : bool;
  arg_apply : bool;
  arg_report : bool;
  arg_skip_backup : bool
}.

(** [main()]; the result is the report that [print_summary] renders. *)
Definition main (a : args) (timestamp : string) : M MigrationReport :=
  if negb (arg_dry_run a || arg_apply a || arg_report a) then sys_exit 1
  else
    let* e := path_exists LIB_DIR in
    if negb e then sys_exit 1
    else
      let report := new_report in
      let dry_run := arg_dry_run a || arg_report a in
      when (arg_apply a && negb (arg_skip_backup a))
        (create_backup timestamp;; mret tt);;
      let* report := for_fold MODEL_FILES_TO_UPDATE
                 (fun report model_file =>
                    let model_path := MODELS_DIR ++ [model_file] in
                    let* r := add_organization_id_to_model model_path report dry_run in
                    mret (snd r))
                 report in
      let* r := update_database_service report dry_run in
      let report := snd r in
      let* r := create_organization_provider report dry_run in
      let report := snd r in
      mret report.

End Script.
End MigrateToSaas.

(** ** [migrate_to_saas_phase2.py] *)

Module Phase2.
Section Script.
Context `{UnicodeTable}.

Definition LIB_DIR : list string := ["lib"].
Definition BACKUP_DIR : list string := ["migration_backup_phase2"].

(** [f.relative_to(LIB_DIR)], for a path under [LIB_DIR]. *)
Definition relative_to_lib (f : list string) : list string :=
  drop (length LIB_DIR) f.

(** [create_backup()]; [timestamp] is the reading of the clock. *)
Definition create_backup (timestamp : string) : M (list string) :=
  let backup_path := BACKUP_DIR ++ [timestamp] in
  mkdir_parents backup_path;;
  let files_to_backup :=
    [LIB_DIR ++ ["core"; "services"; "database_service.dart"];
     LIB_DIR ++ ["providers"; "organization_provider.dart"]] in
  let providers_dir := LIB_DIR ++ ["providers"] in
  let* entries := glob_dart providers_dir in
  let files_to_backup :=
    files_to_backup
      ++ List.filter (fun f => negb (name_ends_with ".g.dart" (name f))) entries in
  for_each files_to_backup (fun f =>
    let* e := path_exists f in
    when e
      (let dest := backup_path ++ relative_to_lib f in
       mkdir_parents (parent dest);;
       copy2 f dest));;
  mret backup_path.

(** The file written by [update_organization_provider] *)
Definition new_content : list N := txt
("import 'package:riverpod_annotation/riverpod_annotation.dart';
import 'package:supabase_flutter/supabase_flutter.dart';

part 'organization_provider.g.dart';

/// Current organization ID for multi-tenant queries
/// 
/// This is THE source of truth for org context across the app.
/// All data-fetching providers should watch this.
@riverpod
class CurrentOrganization extends _$CurrentOrganization {
  @override
  Future<String?> build() async {
    final client = Supabase.instance.client;
    final userId = client.auth.currentUser?.id;
    if (userId == null) return null;
    
    try {
      // Get user's current organization from profile
      final response = await client
          .from('profiles')
          .select('current_organization_id')
          .eq('id', userId)
          .maybeSingle();
      
      final orgId = response?['current_organization_id'] as String?;
      if (orgId != null) return orgId;
      
      // Fallback: get first organization user belongs to
      final orgs = await client
          .from('organization_members')
          .select('organization_id')
          .eq('user_id', userId)
          .eq('is_active', true)
          .limit(1);
      
      if (orgs.isNotEmpty) {
        final firstOrgId = orgs.first['organization_id'] as String;
        // Set as current
        await client
            .from('profiles')
            .update({'current_organization_id': firstOrgId})
            .eq('id', userId);
        return firstOrgId;
      }
      
      // Fallback: get any active organization (for single-tenant compatibility)
      final anyOrg = await client
          .from('organizations')
          .select('id')
          .eq('is_active', true)
          .limit(1);
      
      if (anyOrg.isNotEmpty) {
        return anyOrg.first['id'] as String;
      }
      
      return null;
    } catch (e) {
      // Fallback for compatibility
      try {
        final orgs = await client
            .from('organizations')
            .select('id')
            .eq('is_active', true)
            .limit(1);
        if (orgs.isNotEmpty) {
          return orgs.first['id'] as String;
        }
      } catch (_) {}
      return null;
    }
  }
  
  /// Switch to a different organization
  Future<void> switchOrganization(String organizationId) async {
    final client = Supabase.instance.client;
    final userId = client.auth.currentUser?.id;
    if (userId == null) return;
    
    await client
        .from('profiles')
        .update({'current_organization_id': organizationId})
        .eq('id', userId);
    
    ref.invalidateSelf();
  }
  
  /// Refresh organization context
  Future<void> refresh() async {
    ref.invalidateSelf();
  }
}

/// List of organizations the current user belongs to
@riverpod
Future<List<Map<String, dynamic>>> userOrganizations(UserOrganizationsRef ref) async {
  final client = Supabase.instance.client;
  final userId = client.auth.currentUser?.id;
  if (userId == null) return [];
  
  final response = await client
      .from('organization_members')
      .select('organization:organizations(" +:+
"*)')
      .eq('user_id', userId)
      .eq('is_active', true);
  
  return response
      .map((e) => e['organization'] as Map<String, dynamic>)
      .toList();
}

/// Check if user is member of specific organization
@riverpod
Future<bool> isOrganizationMember(IsOrganizationMemberRef ref, String organizationId) async {
  final client = Supabase.instance.client;
  final userId = client.auth.currentUser?.id;
  if (userId == null) return false;
  
  final response = await client
      .from('organization_members')
      .select('id')
      .eq('user_id', userId)
      .eq('organization_id', organizationId)
      .eq('is_active', true)
      .maybeSingle();
  
  return response != null;
}

/// Get user's role in current organization
@riverpod
Future<String?> organizationRole(OrganizationRoleRef ref) async {
  final orgId = await ref.watch(currentOrganizationProvider.future);
  if (orgId == null) return null;
  
  final client = Supabase.instance.client;
  final userId = client.auth.currentUser?.id;
  if (userId == null) return null;
  
  final response = await client
      .from('organization_members')
      .select('role')
      .eq('user_id', userId)
      .eq('organization_id', orgId)
      .maybeSingle();
  
  return response?['role'] as String?;
}
").

Definition update_organization_provider (dry_run : bool) : M bool :=
  let provider_path := LIB_DIR ++ ["providers"; "organization_provider.dart"] in
  if dry_run then mret true
  else
    write_text provider_path new_content;;
    mret true.

(** Lexicographic order of paths by their components, the order of
    [sorted] on [Path] objects. *)
Fixpoint path_leb (p q : list string) : bool :=
  match p, q with
  | [], _ => true
  | _ :: _, [] => false
  | a :: p', b :: q' => if String.eqb a b then path_leb p' q' else String.ltb a b
  end.

Fixpoint insert_sorted (p : list string) (l : list (list string)) : list (list string) :=
  match l with
  | [] => [p]
  | q :: l' => if path_leb p q then p :: l else q :: insert_sorted p l'
  end.

Definition sorted (l : list (list string)) : list (list string) :=
  fold_right insert_sorted [] l.

Definition get_provider_files : M (list (list string)) :=
  let providers_dir := LIB_DIR ++ ["providers"] in
  let* entries := glob_dart providers_dir in
  let files :=
    List.filter
      (fun f => negb (name_ends_with ".g.dart" (name f))
                && negb (String.eqb (name f) "organization_provider.dart"))
      entries in
  mret (sorted files).

Definition org_import : list N := txt "import 'organization_provider.dart';".

(** [^import ] with [re.MULTILINE] *)
Definition import_pattern : list atom := [Bol] ++ lit "import ".

Definition update_provider_file (file_path : list string) (dry_run : bool)
    : M (bool * nat) :=
  let* content := read_text file_path in
  let changes := 0%nat in
  if negb (str_in (txt "Supabase.instance.client") content) then mret (false, 0%nat)
  else if str_in (txt "currentOrganizationProvider") content then mret (false, 0%nat)
  else
    let '(content, changes) :=
      if negb (str_in org_import content)
         && negb (str_in (txt "organization_provider.dart") content)
      then
        match re_search import_pattern content with
        | Some import_match =>
            (take (m_start import_match) content ++ org_import ++ [10%N]
               ++ drop (m_start import_match) content,
             (changes + 1)%nat)
        | None => (content, changes)
        end
      else (content, changes) in
    if (0 <? changes)%nat || str_in (txt "Supabase.instance.client") content then
      if dry_run then mret (true, 1%nat)
      else
        write_text file_path content;;
        mret (true, changes)
    else mret (false, 0%nat).

Definition settings_files : list string :=
  ["business_rules_settings.dart";
   "delivery_configuration_settings.dart";
   "display_branding_settings.dart";
   "kitchen_management_settings.dart";
   "order_management_settings.dart"].

(** The body of the loop of [update_settings_models]; [continue] leaves
    the counter as it is. *)
Definition update_settings_file (settings_dir : list string) (dry_run : bool)
    (updates : nat) (filename : string) : M nat :=
  let file_path := settings_dir ++ [filename] in
  let* e := path_exists file_path in
  if negb e then mret updates
  else
    let* content := read_text file_path in
    if has_organization_id content then mret updates
    else
      match re_search factory_pattern content with
      | None => mret updates
      | Some m =>
          let before := group content m 1 in
          let fields := group content m 2 in
          let after := group content m 3 in
          let new_content :=
            take (m_start m) content ++ before ++ new_field ++ fields ++ after
              ++ drop (m_end m) content in
          when (negb dry_run) (write_text file_path new_content);;
          mret (updates + 1)%nat
      end.

Definition update_settings_models (dry_run : bool) : M nat :=
  let settings_dir := LIB_DIR ++ ["core"; "models"; "settings"] in
  for_fold settings_files (update_settings_file settings_dir dry_run) 0%nat.

(** The file of [create_org_aware_database_service_helper] *)
Definition helper_content : list N := txt
"/// Organization-aware database helpers
/// 
/// Use these extensions to easily add organization filtering to queries.

import 'package:supabase_flutter/supabase_flutter.dart';

extension OrganizationAwareQuery on PostgrestFilterBuilder {
  /// Add organization filter if orgId is provided
  PostgrestFilterBuilder orgFilter(String? organizationId) {
    if (organizationId != null) {
      return eq('organization_id', organizationId);
    }
    return this;
  }
}

extension OrganizationAwareInsert on Map<String, dynamic> {
  /// Add organization_id to insert payload
  Map<String, dynamic> withOrgId(String? organizationId) {
    if (organizationId != null) {
      this['organization_id'] = organizationId;
    }
    return this;
  }
}
".

Definition create_org_aware_database_service_helper : list N * list string :=
  let helper_path := LIB_DIR ++ ["core"; "utils"; "org_aware_helpers.dart"] in
  (helper_content, helper_path).

(** The parsed command line. *)
Record args := {
  arg_dry_run : bool;
  arg_apply : bool;
  arg_skip_backup : bool
}.

(** [main()]; the result is the pair of counters of the summary. *)
Definition main (a : args) (timestamp : string) : M (nat * nat) :=
  if negb (arg_dry_run a || arg_apply a) then sys_exit 1
  else
    let* e := path_exists LIB_DIR in
    if negb e then sys_exit 1
    else
      let dry_run := arg_dry_run a in
      when (arg_apply a && negb (arg_skip_backup a))
        (create_backup timestamp;; mret tt);;
      update_organization_provider dry_run;;
      let* settings_updates := update_settings_models dry_run in
      let* provider_files := get_provider_files in
      let* provider_updates :=
        for_fold provider_files
          (fun provider_updates f =>
             let* r := update_provider_file f dry_run in
             mret (if fst r then (provider_updates + 1)%nat else provider_updates))
          0%nat in
      let '(helper_content, helper_path) := create_org_aware_database_service_helper in
      when (negb dry_run)
        (mkdir_parents (parent helper_path);;
         write_text helper_path helper_content);;
      mret (settings_updates, provider_updates).

End Script.
End Phase2.

(** ** [wire_org_context.py] *)

Module Wire.
Section Script.
Context `{UnicodeTable}.

Definition LIB_DIR : list string := ["lib"].

Definition SKIP_METHODS : list string :=
  ["_parseDateTime"; "_nowUtcIso"; "_handleDbError";
   "_menuItemInsertPayload"; "_sanitizeMenuItemUpdates";
   "_fetchSettingsRow"; "_upsertSettingsRow"; "_menuItemFromJson";
   "_buildNameSearchPatterns"; "parseDateTime";
   "getMenuItems"; "createMenuItem"; "getOrders";
   "placeOrder"; "verifyOrderPayment";
   "getOrder";
   "updateOrderStatus"; "assignOrderToKitchen"; "assignOrderToDelivery";
   "cancelOrder"; "deleteOrder"; "updateOrder"; "markOrderAsNotPrinted";
   "toggleOrderPagato";
   "updateMenuItem"; "deleteMenuItem"].

Definition methods_to_update : list (string * string) :=
  [("searchCashierCustomers", "cashier_customers");
   ("findMatchingCustomer", "cashier_customers");
   ("createCashierCustomer", "cashier_customers");
   ("updateCashierCustomer", "cashier_customers");
   ("incrementCustomerOrders", "cashier_customers");
   ("getCashierCustomerById", "cashier_customers");
   ("countItemsInSlot", "ordini");
   ("countOrdersInSlot", "ordini");
   ("getItemCountsBySlotRange", "ordini");
   ("getPizzeria", "business_rules");
   ("getPizzeriaSettings", "business_rules");
   ("updateBusinessRules", "business_rules");
   ("saveOrderManagementSettings", "order_management");
   ("saveOrderManagementSettingsRaw", "order_management");
   ("saveDeliveryConfigurationSettings", "delivery_configuration");
   ("saveDisplayBrandingSettings", "display_branding");
   ("saveKitchenManagementSettings", "kitchen_management");
   ("saveBusinessRulesSettings", "business_rules");
   ("getOrderManagementSettingsRaw", "order_management")].

(** [(Future<[^>]+>\s+method_name\s*\(C)], where [C] is the greedy
    repetition of the class of all characters but the closing parenthesis. *)
Definition method_pattern (method_name : string) : list atom :=
  [Open] ++ lit "Future<" ++ plus (Not 62) ++ lit ">" ++ plus Space
  ++ lit method_name ++ [Star Space] ++ lit "(" ++ [Star (Not 41)] ++ [Close].

(** The body of the loop of [update_database_service]; the two branches
    on [dry_run] differ in the printed line only. *)
Definition count_method (content : list N) (dry_run : bool)
    (changes : nat) (entry : string * string) : nat :=
  let '(method_name, table) := entry in
  if bool_decide (method_name ∈ SKIP_METHODS) then changes
  else if str_in (txt method_name) content then
    match re_search (method_pattern method_name) content with
    | Some m =>
        let method_sig := group content m 1 in
        if str_in (txt "organizationId") method_sig then changes
        else if dry_run then (changes + 1)%nat
        else (changes + 1)%nat
    | None => changes
    end
  else changes.

Definition update_database_service (dry_run : bool) : M nat :=
  let db_service_path := LIB_DIR ++ ["core"; "services"; "database_service.dart"] in
  let* content := read_text db_service_path in
  let changes := fold_left (count_method content dry_run) methods_to_update 0%nat in
  mret changes.

Definition import_line : list N := txt "import 'organization_provider.dart';" ++ [10%N].

(** [(import '[^']+';)] *)
Definition quoted_import_pattern : list atom :=
  [Open] ++ lit "import '" ++ plus (Not 39) ++ lit "';" ++ [Close].

(** [re.sub(pattern, repl, content, count=1)] with a function [repl]. *)
Definition re_sub_first (r : list atom) (repl : re_match -> list N)
    (content : list N) : list N :=
  match re_search r content with
  | Some m => take (m_start m) content ++ repl m ++ drop (m_end m) content
  | None => content
  end.

(** The comment of [update_provider_org_context] *)
Definition todo_comment : list N := txt
"
// TODO: Multi-tenant - Watch currentOrganizationProvider:
//   final orgId = await ref.watch(currentOrganizationProvider.future);
//   Add .eq('organization_id', orgId) to queries
".

(** In the replacement function, [content.index(m.group(0))] finds the
    matched text, which occurs in [content]. *)
Definition update_provider_org_context (provider_path : list string) (dry_run : bool)
    : M bool :=
  let* content := read_text provider_path in
  if negb (str_in (txt "Supabase.instance.client") content) then mret false
  else if str_in (txt "currentOrganizationProvider.future") content then mret false
  else
    let has_import := str_in (txt "organization_provider.dart") content in
    if dry_run then mret true
    else
      let content :=
        if negb has_import then
          if str_in (txt "import '") content then
            re_sub_first quoted_import_pattern
              (fun m =>
                 if (str_find (group content m 0) content
                       =? str_find (txt "import '") content)%Z
                 then group content m 0 ++ [10%N] ++ import_line
                 else group content m 0)
              content
          else content
        else content in
      let content :=
        if negb (str_in (txt "TODO: Multi-tenant") content) then
          let import_end := str_rfind (txt "import ") content in
          if negb (import_end =? -1)%Z then
            let line_end := str_find_from [10%N] content import_end in
            take (Z.to_nat (line_end + 1)) content ++ todo_comment
              ++ drop (Z.to_nat (line_end + 1)) content
          else content
        else content in
      write_text provider_path content;;
      mret true.

Definition key_providers : list string :=
  ["categories_provider.dart";
   "ingredients_provider.dart";
   "sizes_master_provider.dart";
   "sizes_provider.dart";
   "product_sizes_provider.dart";
   "product_extra_ingredients_provider.dart";
   "product_included_ingredients_provider.dart";
   "recommended_ingredients_provider.dart";
   "filtered_menu_provider.dart";
   "manager_orders_provider.dart";
   "dashboard_analytics_provider.dart";
   "delivery_zones_provider.dart";
   "promotional_banners_provider.dart";
   "inventory_ui_providers.dart";
   "product_analytics_provider.dart";
   "product_monthly_sales_provider.dart";
   "top_products_per_category_provider.dart";
   "order_price_calculator_provider.dart"].

(** The body of the loop of [update_providers]. *)
Definition update_provider (providers_dir : list string) (dry_run : bool)
    (updates : nat) (provider_name : string) : M nat :=
  let provider_path := providers_dir ++ [provider_name] in
  let* e := path_exists provider_path in
  if e then
    let* updated := update_provider_org_context provider_path dry_run in
    mret (if updated then (updates + 1)%nat else updates)
  else mret updates.

Definition update_providers (dry_run : bool) : M nat :=
  let providers_dir := LIB_DIR ++ ["providers"] in
  for_fold key_providers (update_provider providers_dir dry_run) 0%nat.

(** The parsed command line. *)
Record args := {
  arg_dry_run : bool;
  arg_apply : bool
}.

(** [main()]; the result is the pair of counters of the summary. *)
Definition main (a : args) : M (nat * nat) :=
  if negb (arg_dry_run a || arg_apply a) then sys_exit 1
  else
    let dry_run := arg_dry_run a in
    let* db_updates := update_database_service dry_run in
    let* provider_updates := update_providers dry_run in
    mret (db_updates, provider_updates).

End Script.
End Wire.

(** ** Vocabulary of the statements *)

Module Spec.

(** [content] with [insertion] put in at offset [k]. *)
Definition splice (content insertion : list N) (k : nat) : list N :=
  take k content ++ insertion ++ drop k content.

(** The character before offset [k] of a text that follows [prev]. *)
Definition prev_of (prev : option N) (s : list N) (k : nat) : option N :=
  match k with
  | O => prev
  | S j => s !! j
  end.

(** The factory constructor rule on a text: the new text when the rule
    applies, [None] when the guard holds or the pattern does not match. *)
Definition factory_rule `{UnicodeTable} (content : list N) : option (list N) :=
  if has_organization_id content then None
  else match re_search factory_pattern content with
       | Some m => Some (splice content new_field (group_end m 1))
       | None => None
       end.

(** The text that the rule leaves behind. *)
Definition patched `{UnicodeTable} (content : list N) : list N :=
  match factory_rule content with
  | Some content' => content'
  | None => content
  end.

(** The loop of [main] of the first script over the model files. *)
Definition model_batch `{UnicodeTable} (dry_run : bool)
    (report : MigrateToSaas.MigrationReport) : M MigrateToSaas.MigrationReport :=
  for_fold MigrateToSaas.MODEL_FILES_TO_UPDATE
    (fun report model_file =>
       let model_path := MigrateToSaas.MODELS_DIR ++ [model_file] in
       let* r := MigrateToSaas.add_organization_id_to_model model_path report dry_run in
       mret (snd r))
    report.

(** The updates of [main] of the first script, after the backup. *)
Definition first_updates `{UnicodeTable} (dry_run : bool)
    : M MigrateToSaas.MigrationReport :=
  let* report := model_batch dry_run MigrateToSaas.new_report in
  let* r := MigrateToSaas.update_database_service report dry_run in
  let report := snd r in
  let* r := MigrateToSaas.create_organization_provider report dry_run in
  let report := snd r in
  mret report.

(** The updates of [main] of the second script, after the backup. *)
Definition second_updates `{UnicodeTable} (dry_run : bool) : M (nat * nat) :=
  Phase2.update_organization_provider dry_run;;
  let* settings_updates := Phase2.update_settings_models dry_run in
  let* provider_files := Phase2.get_provider_files in
  let* provider_updates :=
    for_fold provider_files
      (fun provider_updates f =>
         let* r := Phase2.update_provider_file f dry_run in
         mret (if fst r then (provider_updates + 1)%nat else provider_updates))
      0%nat in
  let '(helper_content, helper_path) := Phase2.create_org_aware_database_service_helper in
  when (negb dry_run)
    (mkdir_parents (parent helper_path);;
     write_text helper_path helper_content);;
  mret (settings_updates, provider_updates).

(** The body of the loop of [create_backup] of the second script. *)
Definition providers_body (backup_path : list string) (f : list string) : M unit :=
  let* e := path_exists f in
  when e
    (let dest := backup_path ++ Phase2.relative_to_lib f in
     mkdir_parents (parent dest);;
     copy2 f dest).

(** The files that the backup of the second script looks at: the
    database service and what lies in the providers directory. *)
Definition provider_source (f : list string) : Prop :=
  f = Phase2.LIB_DIR ++ ["core"; "services"; "database_service.dart"]
  \/ (f <> [] /\ parent f = Phase2.LIB_DIR ++ ["providers"]).

(** The directory of the settings models of the second script. *)
Definition settings_dir : list string :=
  Phase2.LIB_DIR ++ ["core"; "models"; "settings"].

(** A settings file on which the loop of [update_settings_models] does
    nothing: no file with a text to which the rule applies, and no
    directory in its place. *)
Definition settled `{UnicodeTable} (f : filesystem) (filename : string) : Prop :=
  match files f !! (settings_dir ++ [filename]) with
  | Some content => factory_rule content = None
  | None => is_dir f (settings_dir ++ [filename]) = false
  end.

(** Does the rule apply to the settings file of that name? *)
Definition applies `{UnicodeTable} (f : filesystem) (filename : string) : bool :=
  match files f !! (settings_dir ++ [filename]) with
  | Some content => bool_decide (is_Some (factory_rule content))
  | None => false
  end.

(** Group parentheses are the only atoms that record a position. *)
Definition markless (r : list atom) : bool :=
  forallb (fun a => match a with Open | Close => false | _ => true end) r.

(** A computation that leaves the file system and the trace as they
    are, whatever it returns or raises. *)
Definition readonly {A} (m : M A) : Prop := forall w, snd (m w) = w.

(** A computation that, run in [w], returns a value and leaves [w] as it
    is. *)
Definition returns_at {A} (m : M A) (w : world) : Prop :=
  exists a, m w = (Return a, w).

(** The event records a change of the file at [q]. *)
Definition touches (e : event) (q : list string) : Prop :=
  e = Wrote q \/ exists src, e = Copied src q.

(** A computation whose events all satisfy [P] and that changes no file
    but those its events touch. *)
Definition effect {A} (P : event -> Prop) (m : M A) : Prop :=
  forall w, exists evs,
    trace (snd (m w)) = trace w ++ evs
    /\ Forall P evs
    /\ forall q, (forall e, e ∈ evs -> ~ touches e q) ->
         files (fs (snd (m w))) !! q = files (fs w) !! q.

(** The places where [shutil.copy2(src, dst)] may put its copy. *)
Definition copy_places (src dst : list string) : list (list string) :=
  [dst; dst ++ [name src]].

(** The models that the backup of the first script copies. *)
Definition model_kept (f : list string) : bool :=
  negb (name_ends_with ".freezed.dart" (name f) || name_ends_with ".g.dart" (name f)).

(** The events of a backup into [backup_path]: directories made and
    copies put under [backup_path]. *)
Definition backup_event (backup_path : list string) (e : event) : Prop :=
  (exists d, e = MadeDir d) \/ exists src rest, e = Copied src (backup_path ++ rest).

(** The events of the updates of the second script: directories made,
    and writes to the organization provider, to a settings model, to a
    provider file or to the helper file. *)
Definition second_event (e : event) : Prop :=
  (exists d, e = MadeDir d)
  \/ exists q,
       e = Wrote q
       /\ (q = Phase2.LIB_DIR ++ ["providers"; "organization_provider.dart"]
           \/ (exists f, f ∈ Phase2.settings_files /\ q = settings_dir ++ [f])
           \/ (q <> [] /\ parent q = Phase2.LIB_DIR ++ ["providers"]
               /\ name_ends_with ".dart" (name q) = true
               /\ name_ends_with ".g.dart" (name q) = false)
           \/ q = Phase2.LIB_DIR ++ ["core"; "utils"; "org_aware_helpers.dart"]).

(** The loop of [create_backup] over the models. *)
Definition models_body (models_backup : list string) (model_file : list string) : M unit :=
  when (negb (name_ends_with ".freezed.dart" (name model_file)
              || name_ends_with ".g.dart" (name model_file)))
    (copy2 model_file (models_backup ++ [name model_file])).

(** The events that a computation added to the trace. *)
Definition events_of {A} (m : M A) (w : world) : list event :=
  drop (length (trace w)) (trace (snd (m w))).

(** Every entry of the file system other than the root has a directory
    as its parent, and nothing is the root or both a file and a
    directory. *)
Definition entry_ok (f : filesystem) (p : list string) : bool :=
  negb (bool_decide (p = [])) && is_dir f (parent p)
  && negb (is_file f p && bool_decide (p ∈ dirs f)).

Definition well_formed (f : filesystem) : bool :=
  forallb (entry_ok f) (elements (dom (files f) ∪ dirs f)).

(** No directory has a name that ends in [.dart]. *)
Definition no_dart_dirs (f : filesystem) : bool :=
  forallb (fun p => negb (name_ends_with ".dart" (name p))) (elements (dirs f)).

(** The report [r'] holds the entries of [r], in their order, and
    possibly further ones after them. *)
Definition extends (r r' : MigrateToSaas.MigrationReport) : Prop :=
  MigrateToSaas.model_updates r `prefix_of` MigrateToSaas.model_updates r'
  /\ MigrateToSaas.service_updates r `prefix_of` MigrateToSaas.service_updates r'
  /\ MigrateToSaas.errors r `prefix_of` MigrateToSaas.errors r'
  /\ MigrateToSaas.warnings r `prefix_of` MigrateToSaas.warnings r'.

(** A position of a text at which a line starts. *)
Definition line_start (content : list N) (k : nat) : Prop :=
  k = 0%nat \/ content !! (k - 1)%nat = Some 10%N.

(** The text that [update_provider_file] of the second script reaches
    for a text that passes its two tests, and its count of changes. *)
Definition with_org_import `{UnicodeTable} (content : list N) : list N * nat :=
  if negb (str_in Phase2.org_import content)
     && negb (str_in (txt "organization_provider.dart") content)
  then
    match re_search Phase2.import_pattern content with
    | Some m => (splice content (Phase2.org_import ++ [10%N]) (m_start m), 1%nat)
    | None => (content, 0%nat)
    end
  else (content, 0%nat).

(** Every path of the list is at most those after it, in the order by
    which [sorted] compares paths. *)
Fixpoint ascending (l : list (list string)) : Prop :=
  match l with
  | [] => True
  | p :: l' => Forall (fun q => Phase2.path_leb p q = true) l' /\ ascending l'
  end.

(** The events of a run of the first script that makes its backup under
    [backup_path]. *)
Definition first_run_event (backup_path : list string) (e : event) : Prop :=
  backup_event backup_path e
  \/ (exists f, f ∈ MigrateToSaas.MODEL_FILES_TO_UPDATE
                /\ e = Wrote (MigrateToSaas.MODELS_DIR ++ [f]))
  \/ e = Wrote MigrateToSaas.DATABASE_SERVICE
  \/ e = Wrote (MigrateToSaas.LIB_DIR ++ ["providers"; "organization_provider.dart"]).

(** The events of a run of the third script. *)
Definition third_run_event (e : event) : Prop :=
  exists provider_name,
    provider_name ∈ Wire.key_providers
    /\ e = Wrote (Wire.LIB_DIR ++ ["providers"] ++ [provider_name]).

(** The text of a provider after the import step of
    [update_provider_org_context] of the third script. *)
Definition with_import_line `{UnicodeTable} (content : list N) : list N :=
  if negb (str_in (txt "organization_provider.dart") content) then
    if str_in (txt "import '") content then
      Wire.re_sub_first Wire.quoted_import_pattern
        (fun m =>
           if (str_find (group content m 0) content
                 =? str_find (txt "import '") content)%Z
           then group content m 0 ++ [10%N] ++ Wire.import_line
           else group content m 0)
        content
    else content
  else content.

(** ... and after its comment step. *)
Definition with_todo_comment (content : list N) : list N :=
  if negb (str_in (txt "TODO: Multi-tenant") content) then
    let import_end := str_rfind (txt "import ") content in
    if negb (import_end =? -1)%Z then
      let line_end := str_find_from [10%N] content import_end in
      take (Z.to_nat (line_end + 1)) content ++ Wire.todo_comment
        ++ drop (Z.to_nat (line_end + 1)) content
    else content
  else content.

(** The world [w] differs from [w0] by directories of the list
    [dirs_made] and by files under [backup_path] only. *)
Definition backed_up_into (backup_path : list string) (dirs_made : list (list string))
    (w0 w : world) : Prop :=
  (forall d, d ∈ dirs (fs w) -> d ∈ dirs (fs w0) \/ d ∈ dirs_made)
  /\ (forall q, (forall rest, q <> backup_path ++ rest) ->
        files (fs w) !! q = files (fs w0) !! q).

(** The directories that a backup of the second script makes. *)
Definition second_backup_dirs (timestamp : string) : list (list string) :=
  [Phase2.BACKUP_DIR;
   Phase2.BACKUP_DIR ++ [timestamp];
   Phase2.BACKUP_DIR ++ [timestamp; "core"];
   Phase2.BACKUP_DIR ++ [timestamp; "core"; "services"];
   Phase2.BACKUP_DIR ++ [timestamp; "providers"]].

(** The directories that a backup of the first script makes. *)
Definition first_backup_dirs (timestamp : string) : list (list string) :=
  [MigrateToSaas.BACKUP_DIR;
   MigrateToSaas.BACKUP_DIR ++ [timestamp];
   MigrateToSaas.BACKUP_DIR ++ [timestamp; "models"];
   MigrateToSaas.BACKUP_DIR ++ [timestamp; "services"]].

(** A computation that changes nothing when it is run in [w]. *)
Definition idle_at {A} (m : M A) (w : world) : Prop := snd (m w) = w.

(** A model file to which the factory rule does not apply. *)
Definition model_settled `{UnicodeTable} (f : filesystem) (p : list string) : Prop :=
  match files f !! p with
  | Some content => factory_rule content = None
  | None => True
  end.

(** A database service into which [update_database_service] of the first
    script writes nothing. *)
Definition service_settled `{UnicodeTable} (f : filesystem) : Prop :=
  match files f !! MigrateToSaas.DATABASE_SERVICE with
  | Some content =>
      (0 <? snd (MigrateToSaas.mark_tables content MigrateToSaas.new_report))%nat = false
      \/ str_in (txt "SAAS MIGRATION") content = true
      \/ re_search MigrateToSaas.class_pattern content = None
  | None => True
  end.

(** A computation that leaves the file system [F] as it is. *)
Definition keeps {A} (F : filesystem) (m : M A) : Prop :=
  forall w, fs w = F -> fs (snd (m w)) = F.

(** A provider that [update_provider_org_context] of the third script
    skips or writes back as it is. *)
Definition provider_settled `{UnicodeTable} (f : filesystem) (p : list string) : Prop :=
  match files f !! p with
  | Some content =>
      str_in (txt "Supabase.instance.client") content = false
      \/ str_in (txt "currentOrganizationProvider.future") content = true
      \/ with_todo_comment (with_import_line content) = content
  | None => True
  end.

(** A provider that [update_provider_file] of the second script skips or
    writes back as it is. *)
Definition import_settled `{UnicodeTable} (f : filesystem) (p : list string) : Prop :=
  match files f !! p with
  | Some content =>
      str_in (txt "Supabase.instance.client") content = false
      \/ str_in (txt "currentOrganizationProvider") content = true
      \/ fst (with_org_import content) = content
  | None => True
  end.

(** A computation that removes no file and no directory, and whose new
    directories all satisfy [P]. *)
Definition makes {A} (P : list string -> Prop) (m : M A) : Prop :=
  forall w,
    (forall d, d ∈ dirs (fs w) -> d ∈ dirs (fs (snd (m w))))
    /\ (forall d, d ∈ dirs (fs (snd (m w))) -> d ∈ dirs (fs w) \/ P d)
    /\ (forall q, is_Some (files (fs w) !! q) -> is_Some (files (fs (snd (m w))) !! q)).

(** The directories of a backup: the backup directory of the script and
    what lies at or under the directory of the run. *)
Definition backup_place (backup_dir : list string) (timestamp : string)
    (d : list string) : Prop :=
  d = backup_dir \/ exists rest, d = (backup_dir ++ [timestamp]) ++ rest.


(** The part of a project that the scripts rely on: every file in [lib]
    lies in a directory and is no directory itself, and no directory in
    [lib] has a name that ends in [.dart]. *)
Definition sane (f : filesystem) : Prop :=
  (forall rest, is_Some (files f !! ("lib" :: rest)) ->
     is_dir f (parent ("lib" :: rest)) = true /\ is_dir f ("lib" :: rest) = false)
  /\ (forall rest, name_ends_with ".dart" (name ("lib" :: rest)) = true ->
        is_dir f ("lib" :: rest) = false).

(** The backup directory of the run does not exist yet, and nothing
    stands in the way of making it. *)
Definition fresh_backup (f : filesystem) (backup_dir : list string)
    (timestamp : string) : Prop :=
  is_file f backup_dir = false
  /\ forall rest,
       files f !! ((backup_dir ++ [timestamp]) ++ rest) = None
       /\ (backup_dir ++ [timestamp]) ++ rest ∉ dirs f.

(** A computation that returns whenever it is run in a file system that
    satisfies [I], and leaves one that satisfies [I]. *)
Definition succeeds {A} (I : filesystem -> Prop) (m : M A) : Prop :=
  forall w, I (fs w) -> exists a w', m w = (Return a, w') /\ I (fs w').

(** A backup in progress: what lies in [lib] is as in [F0], the backup
    directory of the script is no file, and at or under the directory of
    the run there are only files at the places [Pf] and directories at
    the places [Pd]. *)
Definition backup_inv (F0 : filesystem) (root timestamp : string)
    (Pf Pd : list string -> Prop) (f : filesystem) : Prop :=
  (forall rest, files f !! ("lib" :: rest) = files F0 !! ("lib" :: rest))
  /\ (forall rest, is_dir f ("lib" :: rest) = is_dir F0 ("lib" :: rest))
  /\ is_file f [root] = false
  /\ (forall q, is_Some (files f !! ([root; timestamp] ++ q)) -> Pf q)
  /\ (forall q, [root; timestamp] ++ q ∈ dirs f -> Pd q).

End Spec.
Export Spec.

(** ** Sample projects *)

Module Samples.

(** The world with the given files (path and ASCII text) and directories
    and an empty trace. *)
Definition world_of (fl : list (list string * string)) (dl : list (list string))
    : world :=
  {| fs := {| files := list_to_map (map (fun '(p, s) => (p, txt s)) fl);
              dirs := list_to_set dl |};
     trace := [] |}.

(** The directories of a project. *)
Definition project_dirs : list (list string) :=
  [["lib"]; ["lib"; "core"]; ["lib"; "core"; "models"];
   ["lib"; "core"; "models"; "settings"]; ["lib"; "core"; "services"];
   ["lib"; "providers"]].

Definition order_model : list string := ["lib"; "core"; "models"; "order_model.dart"].

Definition sizes_provider : list string := ["lib"; "providers"; "sizes_provider.dart"].

(** A project that has only its [lib/] directory. *)
Definition bare_project : world := world_of [] [["lib"]].

(** A project with one model. *)
Definition one_model : world :=
  world_of [(order_model, "factory Foo({String? a,}) = _Foo;")] project_dirs.

(** A project with one model that already has the field. *)
Definition migrated_model : world :=
  world_of [(order_model, "factory Foo({String? organizationId,}) = _Foo;")]
    project_dirs.


(** A project with one provider that imports the organization provider
    already. *)
Definition wired_provider : world :=
  world_of
    [(sizes_provider,
      "import 'organization_provider.dart';
final c = Supabase.instance.client;
")]
    project_dirs.


Definition database_service : list string :=
  ["lib"; "core"; "services"; "database_service.dart"].

(** A project with the database service and one provider that uses the
    client and does not watch the organization yet. *)
Definition unwired_provider : world :=
  world_of
    [(database_service,
      "class DatabaseService {}
");
     (sizes_provider,
      "import 'a.dart';
final c = Supabase.instance.client;
")]
    project_dirs.

(** A project whose database service queries one of the tables. *)
Definition service_project : world :=
  world_of
    [(database_service,
      "import 'x.dart';
class DatabaseService {
  final q = _client.from('menu_items').select();
}
")]
    project_dirs.

(** A project with one provider that uses the client and has an import
    line after a comment. *)
Definition plain_provider : world :=
  world_of
    [(sizes_provider,
      "// sizes
import 'a.dart';
final c = Supabase.instance.client;
")]
    project_dirs.

Definition user_model : list string := ["lib"; "core"; "models"; "user_model.dart"].

(** A project with a listed model and one that is not listed. *)
Definition two_models : world :=
  world_of
    [(order_model, "factory Foo({String? a,}) = _Foo;");
     (user_model, "factory User({String? a,}) = _User;")]
    project_dirs.

(** A project with the database service and one provider that uses the
    client and has no import at all. *)
Definition bare_provider : world :=
  world_of
    [(database_service,
      "class DatabaseService {}
");
     (sizes_provider,
      "final c = Supabase.instance.client;
")]
    project_dirs.

(** A project with [lib/] and nothing in it. *)
Definition bare_lib : world := world_of [] [["lib"]].

End Samples.
Export Samples.

(** * Properties *)

(** ** Text *)

Section TextFacts.

Lemma starts_with_spec (x s : list N) :
  starts_with x s = true <-> exists t, s = x ++ t.
Proof.
  revert s. induction x as [|a x IH]; intros s; simpl.
  - split; eauto.
  - destruct s as [|b s].
    + split; [discriminate | intros [t Ht]; discriminate].
    + rewrite andb_true_iff, N.eqb_eq, IH. split.
      * intros [-> [t ->]]. eauto.
      * intros [t Ht]. injection Ht as -> ->. eauto.
Qed.

Lemma find_at_Some (x s : list N) (i j : nat) :
  find_at x s i = Some j ->
  exists pre post, s = pre ++ x ++ post /\ j = (i + length pre)%nat.
Proof.
  revert i. induction s as [|c s IH]; intros i; simpl.
  - destruct (starts_with x []) eqn:E; [|discriminate].
    intros [= <-]. apply starts_with_spec in E as [t Ht].
    exists [], t. simpl. split; [done | lia].
  - destruct (starts_with x (c :: s)) eqn:E.
    + intros [= <-]. apply starts_with_spec in E as [t Ht].
      exists [], t. simpl. split; [done | lia].
    + intros Hf. apply IH in Hf as (pre & post & -> & ->).
      exists (c :: pre), post. simpl. split; [done | lia].
Qed.

Lemma find_at_None (x s : list N) (i : nat) (pre post : list N) :
  find_at x s i = None -> s <> pre ++ x ++ post.
Proof.
  revert i pre. induction s as [|c s IH]; intros i pre; simpl.
  - destruct (starts_with x []) eqn:E; [discriminate|].
    intros _ Hs. destruct pre; [|discriminate]. simpl in Hs.
    assert (starts_with x [] = true) by (apply starts_with_spec; eauto).
    congruence.
  - destruct (starts_with x (c :: s)) eqn:E; [discriminate|].
    intros Hf Hs. destruct pre as [|d pre]; simpl in Hs.
    + assert (starts_with x (c :: s) = true) by (apply starts_with_spec; eauto).
      congruence.
    + injection Hs as -> Hs. by eapply IH.
Qed.

Lemma str_in_spec (x s : list N) :
  str_in x s = true <-> exists pre post, s = pre ++ x ++ post.
Proof.
  unfold str_in. destruct (find_at x s 0) eqn:E.
  - apply find_at_Some in E as (pre & post & -> & _). split; eauto.
  - split; [discriminate|]. intros (pre & post & Hs).
    by eapply find_at_None in E.
Qed.

Lemma str_in_middle (x a b c : list N) :
  str_in x b = true -> str_in x (a ++ b ++ c) = true.
Proof.
  rewrite !str_in_spec. intros (pre & post & ->).
  exists (a ++ pre), (post ++ c). by rewrite <- !app_assoc.
Qed.

Lemma splice_length (content insertion : list N) (k : nat) :
  length (splice content insertion k) = (length content + length insertion)%nat.
Proof.
  unfold splice. rewrite !length_app, length_take, length_drop. lia.
Qed.

Lemma splice_neq (content insertion : list N) (k : nat) :
  insertion <> [] -> splice content insertion k <> content.
Proof.
  intros Hne Heq. apply (f_equal length) in Heq.
  rewrite splice_length in Heq. destruct insertion; [done | simpl in Heq; lia].
Qed.

Lemma take_slice (s : list N) (i j : nat) :
  (i <= j)%nat -> take i s ++ slice s i j = take j s.
Proof.
  intros Hij. unfold slice.
  rewrite take_take_drop. f_equal. lia.
Qed.

Lemma slice_drop (s : list N) (i j : nat) :
  (i <= j)%nat -> slice s i j ++ drop j s = drop i s.
Proof.
  intros Hij. unfold slice.
  replace (drop j s) with (drop (j - i) (drop i s)).
  - apply take_drop.
  - rewrite drop_drop. f_equal. lia.
Qed.

End TextFacts.

(** ** The matcher *)

Section RegexFacts.
Context `{UnicodeTable}.

(** A greedy repetition consumes a run of the class and hands over to the
    rest of the pattern. *)
Lemma greedy_inv (k : cls) (rest : cont) prev pos s res :
  greedy k rest prev pos s = Some res ->
  exists n prev',
    (n <= length s)%nat /\ forallb (in_cls k) (take n s) = true
    /\ rest prev' (pos + n)%nat (drop n s) = Some res.
Proof.
  revert prev pos. induction s as [|c s IH]; intros prev pos; simpl.
  - intros Hr. exists 0%nat, prev. rewrite Nat.add_0_r. auto.
  - destruct (in_cls k c) eqn:Ec.
    + destruct (greedy k rest (Some c) (S pos) s) as [m|] eqn:Eg.
      * intros [= ->]. apply IH in Eg as (n & prev' & Hn & Hall & Hr).
        exists (S n), prev'. simpl. rewrite Ec, Nat.add_succ_r.
        split_and!; try done; lia.
      * intros Hr. exists 0%nat, prev. rewrite Nat.add_0_r.
        split_and!; try done; lia.
    + intros Hr. exists 0%nat, prev. rewrite Nat.add_0_r.
      split_and!; try done; lia.
Qed.

(** So does a lazy one. *)
Lemma lazy_inv (k : cls) (rest : cont) prev pos s res :
  lazy k rest prev pos s = Some res ->
  exists n prev',
    (n <= length s)%nat /\ forallb (in_cls k) (take n s) = true
    /\ rest prev' (pos + n)%nat (drop n s) = Some res.
Proof.
  revert prev pos. induction s as [|c s IH]; intros prev pos; simpl.
  - destruct (rest prev pos []) as [m|] eqn:Er; [|discriminate].
    intros [= ->]. exists 0%nat, prev. rewrite Nat.add_0_r. auto.
  - destruct (rest prev pos (c :: s)) as [m|] eqn:Er.
    + intros [= ->]. exists 0%nat, prev. rewrite Nat.add_0_r.
      split_and!; try done; lia.
    + destruct (in_cls k c) eqn:Ec; [|discriminate].
      intros Hl. apply IH in Hl as (n & prev' & Hn & Hall & Hr).
      exists (S n), prev'. simpl. rewrite Ec, Nat.add_succ_r.
      split_and!; try done; lia.
Qed.

(** A part of the pattern without group parentheses consumes a stretch of
    the text and leaves the recorded positions as they are. *)
Lemma match_here_markless (r1 r2 : list atom) marks prev pos s res :
  markless r1 = true ->
  match_here (r1 ++ r2) marks prev pos s = Some res ->
  exists n prev',
    (n <= length s)%nat
    /\ match_here r2 marks prev' (pos + n)%nat (drop n s) = Some res.
Proof.
  revert prev pos s.
  induction r1 as [|a r1 IH]; intros prev pos s Hm Hr.
  - exists 0%nat, prev. rewrite Nat.add_0_r. split; [lia | done].
  - simpl in Hm. apply andb_true_iff in Hm as [Ha Hm].
    destruct a as [k|k|k| | |]; try discriminate; simpl in Hr.
    + destruct s as [|c s]; [discriminate|].
      destruct (in_cls k c); [|discriminate].
      apply IH in Hr as (n & prev' & Hn & Hr); [|done].
      exists (S n), prev'. rewrite Nat.add_succ_r. simpl. split; [lia | done].
    + apply greedy_inv in Hr as (n1 & prev1 & Hn1 & _ & Hr).
      apply IH in Hr as (n2 & prev2 & Hn2 & Hr); [|done].
      rewrite length_drop in Hn2.
      exists (n1 + n2)%nat, prev2. rewrite drop_drop in Hr.
      rewrite Nat.add_assoc. split; [lia | done].
    + apply lazy_inv in Hr as (n1 & prev1 & Hn1 & _ & Hr).
      apply IH in Hr as (n2 & prev2 & Hn2 & Hr); [|done].
      rewrite length_drop in Hn2.
      exists (n1 + n2)%nat, prev2. rewrite drop_drop in Hr.
      rewrite Nat.add_assoc. split; [lia | done].
    + destruct (at_bol prev); [|discriminate].
      by apply IH in Hr.
Qed.

(** [re.search] returns the leftmost position at which the pattern
    matches. *)
Lemma search_from_inv (r : list atom) prev pos s m :
  search_from r prev pos s = Some m ->
  exists k,
    (k <= length s)%nat /\ m_start m = (pos + k)%nat
    /\ match_here r [] (prev_of prev s k) (pos + k)%nat (drop k s)
       = Some (m_end m, m_marks m)
    /\ forall j, (j < k)%nat ->
         match_here r [] (prev_of prev s j) (pos + j)%nat (drop j s) = None.
Proof.
  revert prev pos. induction s as [|c s IH]; intros prev pos; simpl.
  - destruct (match_here r [] prev pos []) as [[e ms]|] eqn:Em; [|discriminate].
    intros [= <-]. exists 0%nat. simpl. rewrite Nat.add_0_r.
    split_and!; try done; try lia; intros; lia.
  - destruct (match_here r [] prev pos (c :: s)) as [[e ms]|] eqn:Em.
    + intros [= <-]. exists 0%nat. simpl. rewrite Nat.add_0_r.
      split_and!; try done; try lia; intros; lia.
    + intros Hs. apply IH in Hs as (k & Hk & Hst & Hm & Hleft).
      exists (S k). rewrite Nat.add_succ_r. simpl.
      split_and!; [lia | done | | ].
      * destruct k; simpl in *; done.
      * intros [|j] Hj; simpl.
        -- by rewrite Nat.add_0_r.
        -- rewrite Nat.add_succ_r. specialize (Hleft j ltac:(lia)).
           destruct j; simpl in *; done.
Qed.

Lemma re_search_inv (r : list atom) content m :
  re_search r content = Some m ->
  (m_start m <= length content)%nat
  /\ match_here r [] (prev_of None content (m_start m)) (m_start m)
       (drop (m_start m) content) = Some (m_end m, m_marks m)
  /\ forall j, (j < m_start m)%nat ->
       match_here r [] (prev_of None content j) j (drop j content) = None.
Proof.
  intros Hs. apply search_from_inv in Hs as (k & Hk & Hst & Hm & Hleft).
  simpl in Hst. subst k. auto.
Qed.

End RegexFacts.

(** ** The factory constructor pattern *)

Section FactoryFacts.
Context `{UnicodeTable}.

(** The shape of a match of three consecutive groups whose middle one is
    a lazy repetition. *)
Lemma three_groups_shape (g1 g3 : list atom) (k : cls) prev pos s e ms :
  markless g1 = true -> markless g3 = true ->
  match_here (Open :: g1 ++ Close :: Open :: Lazy k :: Close :: Open :: g3 ++ [Close])
    [] prev pos s = Some (e, ms) ->
  exists n1 n2 n3,
    ms = [pos; pos + n1; pos + n1; pos + n1 + n2; pos + n1 + n2; e]%nat
    /\ e = (pos + n1 + n2 + n3)%nat
    /\ (n1 + n2 + n3 <= length s)%nat
    /\ forallb (in_cls k) (take n2 (drop n1 s)) = true.
Proof.
  intros Hg1 Hg3 Hm. simpl in Hm.
  apply match_here_markless in Hm as (n1 & p1 & Hn1 & Hm); [|done].
  simpl in Hm.
  apply lazy_inv in Hm as (n2 & p2 & Hn2 & Hall & Hm).
  simpl in Hm.
  apply match_here_markless in Hm as (n3 & p3 & Hn3 & Hm); [|done].
  simpl in Hm. injection Hm as <- <-.
  rewrite !length_drop in *.
  exists n1, n2, n3. split_and!; try done; lia.
Qed.

Lemma factory_match_shape prev pos s e ms :
  match_here factory_pattern [] prev pos s = Some (e, ms) ->
  exists n1 n2 n3,
    ms = [pos; pos + n1; pos + n1; pos + n1 + n2; pos + n1 + n2; e]%nat
    /\ e = (pos + n1 + n2 + n3)%nat
    /\ (n1 + n2 + n3 <= length s)%nat
    /\ forallb (in_cls (Not 125)) (take n2 (drop n1 s)) = true.
Proof.
  apply (three_groups_shape factory_open factory_close); reflexivity.
Qed.

(** The text that the two factory functions build from a match is the
    content with the field put in at the end of the first group, and the
    second group holds no closing brace. *)
Lemma factory_new_content content m (insertion : list N) :
  re_search factory_pattern content = Some m ->
  (m_start m <= group_end m 1)%nat
  /\ (group_end m 1 <= group_end m 2)%nat
  /\ (group_end m 2 <= m_end m)%nat
  /\ (m_end m <= length content)%nat
  /\ group_start m 2 = group_end m 1
  /\ take (m_start m) content ++ group content m 1 ++ insertion
       ++ group content m 2 ++ group content m 3 ++ drop (m_end m) content
     = splice content insertion (group_end m 1)
  /\ Forall (fun c => c <> 125%N) (group content m 2).
Proof.
  intros Hs. apply re_search_inv in Hs as (Hst & Hm & _).
  apply factory_match_shape in Hm as (n1 & n2 & n3 & Hms & He & Hlen & Hall).
  rewrite length_drop in Hlen.
  unfold group, group_start, group_end. rewrite Hms. simpl.
  set (a := m_start m) in *. set (e := m_end m) in *.
  split_and!; try lia.
  - unfold splice.
    rewrite (app_assoc (take a content)), take_slice by lia.
    do 2 f_equal.
    rewrite (slice_drop content (a + n1 + n2) e) by lia.
    apply slice_drop. lia.
  - unfold slice. rewrite drop_drop in Hall.
    replace (a + n1 + n2 - (a + n1))%nat with n2 by lia.
    apply Forall_forall. intros c Hc.
    rewrite forallb_forall in Hall. apply list_elem_of_In in Hc.
    specialize (Hall c Hc). simpl in Hall.
    intros ->. by rewrite N.eqb_refl in Hall.
Qed.

End FactoryFacts.

(** ** The monad *)

Section MonadFacts.

Lemma bind_run {A B} (m : M A) (f : A -> M B) (w : world) :
  bind m f w =
  match m w with
  | (Return a, w') => f a w'
  | (Raise e, w') => (Raise e, w')
  end.
Proof. reflexivity. Qed.

Lemma seq_run {A B} (m : M A) (k : M B) (w : world) :
  (m;; k) w =
  match m w with
  | (Return _, w') => k w'
  | (Raise e, w') => (Raise e, w')
  end.
Proof. reflexivity. Qed.

Lemma ret_run {A} (a : A) (w : world) : (mret a : M A) w = (Return a, w).
Proof. reflexivity. Qed.

Lemma path_exists_file (p : list string) (w : world) (t : list N) :
  files (fs w) !! p = Some t -> path_exists p w = (Return true, w).
Proof.
  intros Hf. unfold path_exists, is_file. rewrite Hf.
  by rewrite bool_decide_eq_true_2 by eauto.
Qed.

Lemma read_text_file (p : list string) (w : world) (t : list N) :
  files (fs w) !! p = Some t -> read_text p w = (Return t, w).
Proof. intros Hf. unfold read_text. by rewrite Hf. Qed.

Lemma readonly_ret {A} (a : A) : readonly (mret a : M A).
Proof. by intros w. Qed.

Lemma readonly_raise {A} (e : exn) : readonly (raise e : M A).
Proof. by intros w. Qed.

Lemma readonly_bind {A B} (m : M A) (f : A -> M B) :
  readonly m -> (forall a, readonly (f a)) -> readonly (bind m f).
Proof.
  intros Hm Hf w. rewrite bind_run. specialize (Hm w).
  destruct (m w) as [[a|e] w']; simpl in Hm; subst w'; [apply Hf | done].
Qed.

Lemma readonly_seq {A B} (m : M A) (k : M B) :
  readonly m -> readonly k -> readonly (m;; k).
Proof. intros Hm Hk. by apply (readonly_bind m (fun _ => k)). Qed.

Lemma readonly_path_exists (p : list string) : readonly (path_exists p).
Proof. by intros w. Qed.

Lemma readonly_read_text (p : list string) : readonly (read_text p).
Proof. intros w. unfold read_text. by destruct (files (fs w) !! p). Qed.

Lemma readonly_glob_dart (d : list string) : readonly (glob_dart d).
Proof. by intros w. Qed.

Lemma readonly_when_false (body : M unit) : readonly (when false body).
Proof. by intros w. Qed.

Lemma readonly_for_fold {A S} (xs : list A) (body : S -> A -> M S) (acc : S) :
  (forall s x, readonly (body s x)) -> readonly (for_fold xs body acc).
Proof.
  intros Hb. revert acc. induction xs as [|x xs IH]; intros acc; simpl.
  - apply readonly_ret.
  - apply readonly_bind; [apply Hb | apply IH].
Qed.

End MonadFacts.

(** The steps of a proof that a computation is read-only. *)
Ltac readonly_step :=
  first
    [ apply readonly_ret
    | apply readonly_raise
    | apply readonly_path_exists
    | apply readonly_read_text
    | apply readonly_glob_dart
    | apply readonly_when_false
    | apply readonly_bind; [|intros ?]
    | apply readonly_seq
    | apply readonly_for_fold; intros ? ?
    | match goal with
      | |- readonly (if ?b then _ else _) => destruct b
      | |- readonly (match ?x with _ => _ end) => destruct x
      | |- readonly (let '(_, _) := ?x in _) => destruct x
      end ].

(** ** The first script *)

Section MigrateToSaasFacts.
Context `{UnicodeTable}.
Import MigrateToSaas.

(** What [add_organization_id_to_model] does with a file that exists. *)
Lemma add_organization_id_to_model_run p report dry_run w content :
  files (fs w) !! p = Some content ->
  add_organization_id_to_model p report dry_run w =
  if has_organization_id content then
    (Return (false, add_warning report (name p +:+ ": Already has organizationId, skipping")), w)
  else
    match re_search factory_pattern content with
    | None =>
        (Return (false, add_warning report (name p +:+ ": Could not find factory constructor")), w)
    | Some m =>
        if dry_run then
          (Return (true, add_model_update report (name p) "Would add organizationId field"), w)
        else
          match create_error (fs w) p with
          | Some e => (Raise e, w)
          | None =>
              (Return (true, add_model_update report (name p) "Added organizationId field"),
               store p (splice content new_field (group_end m 1)) (Wrote p) w)
          end
    end.
Proof.
  intros Hf. unfold add_organization_id_to_model.
  rewrite bind_run, (path_exists_file _ _ _ Hf). cbv beta iota. unfold negb at 1.
  rewrite bind_run, (read_text_file _ _ _ Hf). cbv beta iota.
  destruct (has_organization_id content); [reflexivity|].
  destruct (re_search factory_pattern content) as [m|] eqn:Em; [|reflexivity].
  destruct dry_run; [reflexivity|].
  rewrite seq_run. unfold write_text.
  destruct (create_error (fs w) p); [reflexivity|].
  rewrite ret_run.
  pose proof (factory_new_content content m new_field Em) as (_ & _ & _ & _ & _ & Hnew & _).
  cbv zeta. by rewrite <- (app_assoc new_field), Hnew.
Qed.


End MigrateToSaasFacts.

(** ** The factory constructor rule *)

Section RuleFacts.
Context `{UnicodeTable}.

Lemma new_field_nonempty : new_field <> [].
Proof. discriminate. Qed.

Lemma splice_has_organization_id (content : list N) (k : nat) :
  has_organization_id (splice content new_field k) = true.
Proof.
  unfold has_organization_id, splice.
  rewrite (str_in_middle (txt "organizationId")); [done|].
  vm_compute. reflexivity.
Qed.

(** The rule applies to no text that it produced. *)
Lemma factory_rule_once (content content' : list N) :
  factory_rule content = Some content' -> factory_rule content' = None.
Proof.
  unfold factory_rule at 1.
  destruct (has_organization_id content); [discriminate|].
  destruct (re_search factory_pattern content) as [m|]; [|discriminate].
  intros [= <-]. unfold factory_rule.
  by rewrite splice_has_organization_id.
Qed.

(** What the rule produces: the field put in at the end of the first
    group of the leftmost match. *)
Lemma factory_rule_Some (content content' : list N) :
  factory_rule content = Some content' ->
  has_organization_id content = false
  /\ exists m,
       re_search factory_pattern content = Some m
       /\ content' = splice content new_field (group_end m 1)
       /\ (m_start m <= group_end m 1 <= m_end m)%nat
       /\ (m_end m <= length content)%nat
       /\ (forall j, (j < m_start m)%nat ->
             match_here factory_pattern [] (prev_of None content j) j (drop j content)
             = None).
Proof.
  unfold factory_rule.
  destruct (has_organization_id content); [discriminate|].
  destruct (re_search factory_pattern content) as [m|] eqn:Em; [|discriminate].
  intros [= <-]. split; [done|]. exists m.
  pose proof (factory_new_content content m [] Em) as (H1 & H2 & H3 & H4 & _).
  pose proof (re_search_inv _ _ _ Em) as (_ & _ & Hleft).
  split_and!; try done; lia.
Qed.

Lemma factory_rule_neq (content content' : list N) :
  factory_rule content = Some content' -> content' <> content.
Proof.
  intros Hr. apply factory_rule_Some in Hr as (_ & m & _ & -> & _).
  apply splice_neq, new_field_nonempty.
Qed.

End RuleFacts.

(** ** The settings models of the second script *)

Section SettingsFacts.
Context `{UnicodeTable}.
Import Phase2.

Lemma store_lookup p t e w : files (fs (store p t e w)) !! p = Some t.
Proof. apply lookup_insert_eq. Qed.

Lemma store_lookup_ne p q t e w :
  q <> p -> files (fs (store p t e w)) !! q = files (fs w) !! q.
Proof. intros Hne. by apply lookup_insert_ne. Qed.

Lemma update_settings_file_run dry_run updates filename w content :
  files (fs w) !! (settings_dir ++ [filename]) = Some content ->
  update_settings_file settings_dir dry_run updates filename w =
  match factory_rule content with
  | None => (Return updates, w)
  | Some content' =>
      if dry_run then (Return (updates + 1)%nat, w)
      else
        match create_error (fs w) (settings_dir ++ [filename]) with
        | Some e => (Raise e, w)
        | None =>
            (Return (updates + 1)%nat,
             store (settings_dir ++ [filename]) content'
               (Wrote (settings_dir ++ [filename])) w)
        end
  end.
Proof.
  intros Hf. unfold update_settings_file, factory_rule.
  rewrite bind_run, (path_exists_file _ _ _ Hf). cbv beta iota. unfold negb at 1.
  rewrite bind_run, (read_text_file _ _ _ Hf). cbv beta iota.
  destruct (has_organization_id content); [reflexivity|].
  destruct (re_search factory_pattern content) as [m|] eqn:Em; [|reflexivity].
  pose proof (factory_new_content content m new_field Em) as (_ & _ & _ & _ & _ & Hnew & _).
  cbv zeta. rewrite Hnew.
  destruct dry_run; [reflexivity|].
  rewrite seq_run. unfold when, negb, write_text.
  by destruct (create_error (fs w) (settings_dir ++ [filename])).
Qed.

Lemma update_settings_file_absent dry_run updates filename w :
  files (fs w) !! (settings_dir ++ [filename]) = None ->
  update_settings_file settings_dir dry_run updates filename w =
  if is_dir (fs w) (settings_dir ++ [filename]) then (Raise IsADirectoryError, w)
  else (Return updates, w).
Proof.
  intros Hf. unfold update_settings_file.
  rewrite bind_run. unfold path_exists, is_file. rewrite Hf.
  rewrite bool_decide_eq_false_2 by (intros [? ?]; discriminate).
  cbv beta iota. rewrite orb_false_l.
  destruct (is_dir (fs w) (settings_dir ++ [filename])) eqn:Ed; [|reflexivity].
  cbv beta iota. unfold negb. rewrite bind_run. unfold read_text, open_error.
  by rewrite Hf, Ed.
Qed.



(** One round of the loop. *)
Lemma update_settings_file_step dry_run updates filename w n w' :
  update_settings_file settings_dir dry_run updates filename w = (Return n, w') ->
  dirs (fs w') = dirs (fs w)
  /\ (forall q, q <> settings_dir ++ [filename] ->
        files (fs w') !! q = files (fs w) !! q)
  /\ files (fs w') !! (settings_dir ++ [filename])
     = (if dry_run then id else patched) <$> files (fs w) !! (settings_dir ++ [filename])
  /\ n = (updates + if applies (fs w) filename then 1 else 0)%nat
  /\ (dry_run = false -> settled (fs w') filename).
Proof.
  unfold applies, settled, patched.
  destruct (files (fs w) !! (settings_dir ++ [filename])) as [content|] eqn:Hf.
  - rewrite (update_settings_file_run _ _ _ _ _ Hf).
    destruct (factory_rule content) as [content'|] eqn:Hr.
    + rewrite bool_decide_eq_true_2 by eauto.
      destruct dry_run.
      * intros [= <- <-]. rewrite Hf. split_and!; try done.
      * destruct (create_error (fs w) (settings_dir ++ [filename])); [discriminate|].
        intros [= <- <-]. rewrite store_lookup. split_and!; try done.
        -- intros q Hq. by apply store_lookup_ne.
        -- simpl. by rewrite Hr.
        -- intros _. by apply factory_rule_once in Hr.
    + rewrite bool_decide_eq_false_2 by (intros [? ?]; discriminate).
      intros [= <- <-]. rewrite Hf, Hr, Nat.add_0_r.
      split_and!; try done. destruct dry_run; simpl; [done | by rewrite Hr].
  - rewrite (update_settings_file_absent _ _ _ _ Hf).
    destruct (is_dir (fs w) (settings_dir ++ [filename])) eqn:Ed; [discriminate|].
    intros [= <- <-]. rewrite Hf, Nat.add_0_r. split_and!; try done.
Qed.

Lemma settled_transfer (f f' : filesystem) filename :
  dirs f' = dirs f ->
  files f' !! (settings_dir ++ [filename]) = files f !! (settings_dir ++ [filename]) ->
  settled f filename -> settled f' filename.
Proof.
  unfold settled, is_dir. by intros -> ->.
Qed.

Lemma applies_transfer (f f' : filesystem) filename :
  files f' !! (settings_dir ++ [filename]) = files f !! (settings_dir ++ [filename]) ->
  applies f' filename = applies f filename.
Proof. unfold applies. by intros ->. Qed.

(** The whole loop over distinct file names. *)
Lemma update_settings_loop dry_run (l : list string) :
  NoDup l ->
  forall updates w n w',
    for_fold l (update_settings_file settings_dir dry_run) updates w = (Return n, w') ->
    dirs (fs w') = dirs (fs w)
    /\ (forall q, (forall f, f ∈ l -> q <> settings_dir ++ [f]) ->
          files (fs w') !! q = files (fs w) !! q)
    /\ (forall f, f ∈ l ->
          files (fs w') !! (settings_dir ++ [f])
          = (if dry_run then id else patched) <$> files (fs w) !! (settings_dir ++ [f]))
    /\ n = (updates + length (List.filter (applies (fs w)) l))%nat
    /\ (dry_run = false -> forall f, f ∈ l -> settled (fs w') f).
Proof.
  induction l as [|f l IH]; intros Hnd updates w n w'; cbn [for_fold].
  - intros [= <- <-]. cbn [List.filter length]. rewrite Nat.add_0_r.
    split_and!; try done; intros; by exfalso; eapply not_elem_of_nil.
  - apply NoDup_cons in Hnd as [Hfl Hnd].
    rewrite bind_run.
    destruct (update_settings_file settings_dir dry_run updates f w)
      as [[u1|e] w1] eqn:Hstep; [|discriminate].
    intros Hloop.
    apply update_settings_file_step in Hstep as (Hd1 & Hframe1 & Hown1 & Hu1 & Hset1).
    apply (IH Hnd) in Hloop as (Hd & Hframe & Hown & Hn & Hset).
    assert (Hother : forall g, g ∈ l -> settings_dir ++ [f] <> settings_dir ++ [g]).
    { intros g Hg Heq. apply app_inv_head in Heq. injection Heq as ->. done. }
    assert (Hkeep : files (fs w') !! (settings_dir ++ [f])
                    = files (fs w1) !! (settings_dir ++ [f])).
    { apply Hframe. intros g Hg. by apply Hother. }
    split_and!.
    + congruence.
    + intros q Hq. rewrite Hframe, Hframe1; [done | |].
      * apply Hq. left.
      * intros g Hg. apply Hq. by right.
    + intros g Hg. apply elem_of_cons in Hg as [Heq | Hg].
      * subst g. by rewrite Hkeep.
      * rewrite (Hown g Hg), Hframe1; [done|]. intros Heq. by eapply Hother.
    + rewrite Hn, Hu1.
      assert (Hfilter : List.filter (applies (fs w1)) l = List.filter (applies (fs w)) l).
      { apply filter_ext_in. intros g Hg. apply applies_transfer, Hframe1.
        intros Heq. apply list_elem_of_In in Hg. by eapply Hother. }
      rewrite Hfilter. cbn [List.filter length].
      destruct (applies (fs w) f); cbn [length]; lia.
    + intros Hdry g Hg. apply elem_of_cons in Hg as [Heq | Hg].
      * subst g. eapply settled_transfer; [done | done | by apply Hset1].
      * by apply Hset.
Qed.

Lemma settings_files_NoDup : NoDup settings_files.
Proof. apply (bool_decide_unpack _). vm_compute. exact I. Qed.

End SettingsFacts.

(** ** The claims on the factory constructor rule *)

Section FactoryClaims.
Context `{UnicodeTable}.
Import MigrateToSaas.

(** The model update reports [True] only for a file to which the rule
    applies. *)
Lemma add_organization_id_to_model_applied p report dry_run w report' w' :
  add_organization_id_to_model p report dry_run w = (Return (true, report'), w') ->
  exists content content',
    files (fs w) !! p = Some content
    /\ factory_rule content = Some content'
    /\ w' = (if dry_run then w else store p content' (Wrote p) w).
Proof.
  destruct (files (fs w) !! p) as [content|] eqn:Hf.
  - rewrite (add_organization_id_to_model_run _ _ _ _ _ Hf).
    destruct (has_organization_id content) eqn:Hg; [discriminate|].
    destruct (re_search factory_pattern content) as [m|] eqn:Em; [|discriminate].
    assert (Hr : factory_rule content
                 = Some (splice content new_field (group_end m 1))).
    { unfold factory_rule. by rewrite Hg, Em. }
    destruct dry_run.
    + intros [= _ <-]. by exists content, (splice content new_field (group_end m 1)).
    + destruct (create_error (fs w) p); [discriminate|].
      intros [= _ <-]. by exists content, (splice content new_field (group_end m 1)).
  - unfold add_organization_id_to_model.
    rewrite bind_run. unfold path_exists, is_file. rewrite Hf.
    rewrite bool_decide_eq_false_2 by (intros [? ?]; discriminate).
    cbv beta iota. rewrite orb_false_l.
    destruct (is_dir (fs w) p); cbv beta iota; unfold negb; [|discriminate].
    rewrite bind_run. unfold read_text. rewrite Hf. discriminate.
Qed.


(** C6: a text that holds the marker [organizationId] or
    [organization_id] anywhere is skipped as already present, whatever the
    factory pattern would find in it, and there are such texts in which
    the pattern does match: in the first script the call returns [False]
    with the warning and changes nothing, in the second the round of the
    loop leaves the counter and the files as they are. *)
Theorem guard_precedes_matcher :
  (forall p report dry_run w content,
      files (fs w) !! p = Some content ->
      has_organization_id content = true ->
      add_organization_id_to_model p report dry_run w
      = (Return (false,
                 add_warning report (name p +:+ ": Already has organizationId, skipping")),
         w))
  /\ (forall dry_run updates filename w content,
        files (fs w) !! (settings_dir ++ [filename]) = Some content ->
        has_organization_id content = true ->
        Phase2.update_settings_file settings_dir dry_run updates filename w
        = (Return updates, w))
  /\ (let content := txt "factory Foo({String? organizationId,}) = _Foo;" in
      has_organization_id content = true
      /\ is_Some (re_search factory_pattern content)).
Proof.
  split_and!.
  - intros p report dry_run w content Hf Hg.
    by rewrite (add_organization_id_to_model_run _ _ _ _ _ Hf), Hg.
  - intros dry_run updates filename w content Hf Hg.
    rewrite (update_settings_file_run _ _ _ _ _ Hf).
    unfold factory_rule. by rewrite Hg.
  - split; [vm_compute; reflexivity|].
    vm_compute. eauto.
Qed.


(** C4, for the factory constructor rule: when
    [add_organization_id_to_model] reports the applied outcome, or
    [update_settings_models] counts a file, the new content that it
    produces, and writes unless in dry-run mode, differs from the
    original content, and the guard did not hold in the original
    content. *)
Theorem applied_rule_changes_text :
  (forall p report dry_run w report' w',
      add_organization_id_to_model p report dry_run w = (Return (true, report'), w') ->
      exists content content',
        files (fs w) !! p = Some content
        /\ has_organization_id content = false
        /\ factory_rule content = Some content'
        /\ content' <> content
        /\ (dry_run = false -> files (fs w') !! p = Some content')
        /\ (dry_run = true -> w' = w))
  /\ (forall dry_run w n w',
        Phase2.update_settings_models dry_run w = (Return n, w') ->
        n = length (List.filter (applies (fs w)) Phase2.settings_files)
        /\ forall f,
             f ∈ Phase2.settings_files -> applies (fs w) f = true ->
             exists content content',
               files (fs w) !! (settings_dir ++ [f]) = Some content
               /\ has_organization_id content = false
               /\ factory_rule content = Some content'
               /\ content' <> content
               /\ (dry_run = false ->
                   files (fs w') !! (settings_dir ++ [f]) = Some content')).
Proof.
  split.
  - intros p report dry_run w report' w' Hrun.
    apply add_organization_id_to_model_applied in Hrun
      as (content & content' & Hf & Hr & ->).
    exists content, content'. split_and!; try done.
    + by apply factory_rule_Some in Hr as [? _].
    + by apply factory_rule_neq.
    + intros ->. apply store_lookup.
    + by intros ->.
  - intros dry_run w n w' Hrun.
    apply (update_settings_loop _ _ settings_files_NoDup) in Hrun
      as (_ & _ & Hown & Hn & _).
    split; [done|]. intros f Hin Happ. unfold applies in Happ.
    destruct (files (fs w) !! (settings_dir ++ [f])) as [content|] eqn:Hf;
      [|discriminate].
    apply bool_decide_eq_true_1 in Happ as [content' Hr].
    exists content, content'. split_and!; try done.
    + by apply factory_rule_Some in Hr as [? _].
    + by apply factory_rule_neq.
    + intros ->. rewrite (Hown f Hin), Hf. unfold patched.
      cbn [fmap option_fmap option_map]. by rewrite Hr.
Qed.

End FactoryClaims.

(** ** Nested braces *)

Section NestedBraces.
Context `{UnicodeTable}.
Import MigrateToSaas.


End NestedBraces.

(** ** Dry runs and the analysis step *)

Section ReadOnly.
Context `{UnicodeTable}.






Lemma readonly_get_provider_files : readonly Phase2.get_provider_files.
Proof. unfold Phase2.get_provider_files. repeat readonly_step. Qed.

Lemma readonly_wire_update_database_service dry_run :
  readonly (Wire.update_database_service dry_run).
Proof. unfold Wire.update_database_service. repeat readonly_step. Qed.

Lemma readonly_update_provider_org_context p :
  readonly (Wire.update_provider_org_context p true).
Proof.
  unfold Wire.update_provider_org_context. cbv beta iota zeta.
  repeat readonly_step.
Qed.


(** C10: the analysis step of the third script changes nothing, in
    dry-run and in apply mode alike: [update_database_service] reads
    [database_service.dart], counts the methods that need the parameter and
    returns the count, or raises when the file cannot be read; the file
    system and the trace after the call are those before it, and the count
    does not depend on the mode. *)
Theorem database_service_analysis_changes_nothing (dry_run : bool) (w : world) :
  Wire.update_database_service dry_run w
  = match files (fs w) !! (Wire.LIB_DIR ++ ["core"; "services"; "database_service.dart"]) with
    | Some content =>
        (Return (fold_left (Wire.count_method content dry_run) Wire.methods_to_update 0%nat),
         w)
    | None =>
        (Raise (open_error (fs w)
                  (Wire.LIB_DIR ++ ["core"; "services"; "database_service.dart"])),
         w)
    end
  /\ snd (Wire.update_database_service dry_run w) = w
  /\ fst (Wire.update_database_service true w) = fst (Wire.update_database_service false w).
Proof.
  assert (Hrun : forall d,
    Wire.update_database_service d w
    = match files (fs w) !! (Wire.LIB_DIR ++ ["core"; "services"; "database_service.dart"]) with
      | Some content =>
          (Return (fold_left (Wire.count_method content d) Wire.methods_to_update 0%nat), w)
      | None =>
          (Raise (open_error (fs w)
                    (Wire.LIB_DIR ++ ["core"; "services"; "database_service.dart"])),
           w)
      end).
  { intros d. unfold Wire.update_database_service.
    rewrite bind_run. unfold read_text.
    by destruct (files (fs w) !! _). }
  split_and!.
  - apply Hrun.
  - apply readonly_wire_update_database_service.
  - rewrite !Hrun. destruct (files (fs w) !! _) as [content|]; [|done].
    cbn [fst]. f_equal.
Qed.





End ReadOnly.


(** ** Well-formed file systems *)

Section FileSystemFacts.

Lemma well_formed_entry (f : filesystem) (p : list string) :
  well_formed f = true ->
  is_Some (files f !! p) \/ p ∈ dirs f ->
  entry_ok f p = true.
Proof.
  unfold well_formed. rewrite forallb_forall. intros Hwf Hp.
  apply Hwf, list_elem_of_In, elem_of_elements, elem_of_union.
  destruct Hp as [Hp | Hp]; [left | by right].
  by apply elem_of_dom.
Qed.


Lemma well_formed_file (f : filesystem) (p : list string) (t : list N) :
  well_formed f = true -> files f !! p = Some t ->
  is_dir f (parent p) = true /\ is_dir f p = false.
Proof.
  intros Hwf Hp.
  pose proof (well_formed_entry f p Hwf (or_introl (mk_is_Some _ _ Hp))) as Hok.
  unfold entry_ok in Hok. apply andb_true_iff in Hok as [Hok Hboth].
  apply andb_true_iff in Hok as [Hroot Hparent]. split; [done|].
  unfold is_dir, is_file in *. rewrite Hp in Hboth.
  rewrite bool_decide_eq_true_2 in Hboth by eauto.
  apply negb_true_iff in Hroot. rewrite Hroot. simpl in *.
  by apply negb_true_iff in Hboth.
Qed.

Lemma well_formed_create (f : filesystem) (p : list string) (t : list N) :
  well_formed f = true -> files f !! p = Some t -> create_error f p = None.
Proof.
  intros Hwf Hp. destruct (well_formed_file f p t Hwf Hp) as [Hparent Hdir].
  unfold create_error. by rewrite Hdir, Hparent.
Qed.

Lemma is_dir_dirs (f : filesystem) (p : list string) :
  p <> [] -> is_dir f p = true -> p ∈ dirs f.
Proof.
  intros Hne. unfold is_dir. rewrite bool_decide_eq_false_2 by done. simpl.
  apply bool_decide_eq_true_1.
Qed.

Lemma no_dart_dirs_is_dir (f : filesystem) (p : list string) :
  no_dart_dirs f = true -> name_ends_with ".dart" (name p) = true ->
  is_dir f p = false.
Proof.
  unfold no_dart_dirs. rewrite forallb_forall. intros Hnd Hname.
  destruct (is_dir f p) eqn:Hd; [|done].
  destruct (decide (p = [])) as [-> | Hne]; [by vm_compute in Hname|].
  apply is_dir_dirs in Hd; [|done].
  apply elem_of_elements, list_elem_of_In, Hnd in Hd.
  by rewrite Hname in Hd.
Qed.


End FileSystemFacts.

(** ** Computations that return *)

Section Returns.





Lemma returns_glob_dart (d : list string) (w : world) :
  returns_at (glob_dart d) w.
Proof. by eexists. Qed.




End Returns.

(** ** Exit status *)

Section ExitStatus.
Context `{UnicodeTable}.


Lemma model_files_dart (f : string) :
  f ∈ MigrateToSaas.MODEL_FILES_TO_UPDATE ->
  name_ends_with ".dart" (name (MigrateToSaas.MODELS_DIR ++ [f])) = true.
Proof.
  intros Hf. apply list_elem_of_In in Hf. revert f Hf. apply forallb_forall.
  vm_compute. reflexivity.
Qed.








Lemma insert_sorted_elem (p q : list string) (l : list (list string)) :
  q ∈ Phase2.insert_sorted p l -> q = p \/ q ∈ l.
Proof.
  induction l as [|r l IH]; cbn [Phase2.insert_sorted].
  - intros Hq. apply list_elem_of_singleton in Hq. by left.
  - destruct (Phase2.path_leb p r).
    + intros Hq. apply elem_of_cons in Hq as [-> | Hq]; [by left | by right].
    + intros Hq. apply elem_of_cons in Hq as [-> | Hq]; [right; left|].
      destruct (IH Hq) as [-> | Hl]; [by left | right; by right].
Qed.

Lemma sorted_elem (q : list string) (l : list (list string)) :
  q ∈ Phase2.sorted l -> q ∈ l.
Proof.
  induction l as [|p l IH]; cbn [Phase2.sorted fold_right]; [done|].
  intros Hq. apply insert_sorted_elem in Hq as [-> | Hq]; [left | right; by apply IH].
Qed.











End ExitStatus.

(** ** Missing files *)

Section MissingFiles.
Context `{UnicodeTable}.
Import MigrateToSaas.




Lemma parent_last (d : list string) (f : string) : parent (d ++ [f]) = d.
Proof. unfold parent. apply removelast_last. Qed.



Lemma model_files_NoDup : NoDup MODEL_FILES_TO_UPDATE.
Proof. apply (bool_decide_unpack _). vm_compute. exact I. Qed.


End MissingFiles.

(** ** Effects *)

Section Effects.

Lemma effect_mono {A} (P Q : event -> Prop) (m : M A) :
  (forall e, P e -> Q e) -> effect P m -> effect Q m.
Proof.
  intros HPQ Hm w. destruct (Hm w) as (evs & Ht & HP & Hfr).
  exists evs. split_and!; [done | | done].
  eapply Forall_impl; [exact HP | exact HPQ].
Qed.

Lemma effect_readonly {A} (P : event -> Prop) (m : M A) :
  readonly m -> effect P m.
Proof.
  intros Hm w. exists []. rewrite (Hm w), app_nil_r. split_and!; done.
Qed.

Lemma effect_ret {A} (P : event -> Prop) (a : A) : effect P (mret a : M A).
Proof. apply effect_readonly, readonly_ret. Qed.

Lemma effect_bind {A B} (P : event -> Prop) (m : M A) (f : A -> M B) :
  effect P m -> (forall a, effect P (f a)) -> effect P (bind m f).
Proof.
  intros Hm Hf w. rewrite bind_run.
  destruct (Hm w) as (evs1 & Ht1 & HP1 & Hfr1).
  destruct (m w) as [[a|e] w1]; cbn [snd] in *.
  - destruct (Hf a w1) as (evs2 & Ht2 & HP2 & Hfr2).
    exists (evs1 ++ evs2). split_and!.
    + by rewrite Ht2, Ht1, app_assoc.
    + by apply Forall_app.
    + intros q Hq. rewrite Hfr2, Hfr1; [done | |].
      * intros e He. apply Hq, elem_of_app. by left.
      * intros e He. apply Hq, elem_of_app. by right.
  - by exists evs1.
Qed.

Lemma effect_seq {A B} (P : event -> Prop) (m : M A) (k : M B) :
  effect P m -> effect P k -> effect P (m;; k).
Proof. intros Hm Hk. by apply (effect_bind P m (fun _ => k)). Qed.

Lemma effect_when (P : event -> Prop) (b : bool) (body : M unit) :
  effect P body -> effect P (when b body).
Proof. intros Hb. destruct b; [done | apply effect_ret]. Qed.

Lemma effect_for_each {A} (P : event -> Prop) (xs : list A) (body : A -> M unit) :
  (forall x, x ∈ xs -> effect P (body x)) -> effect P (for_each xs body).
Proof.
  induction xs as [|x xs IH]; intros Hb; cbn [for_each].
  - apply effect_ret.
  - apply effect_seq; [apply Hb; left | apply IH].
    intros y Hy. apply Hb. by right.
Qed.

Lemma effect_for_fold {A S} (P : event -> Prop) (xs : list A)
    (body : S -> A -> M S) (acc : S) :
  (forall s x, x ∈ xs -> effect P (body s x)) -> effect P (for_fold xs body acc).
Proof.
  revert acc. induction xs as [|x xs IH]; intros acc Hb; cbn [for_fold].
  - apply effect_ret.
  - apply effect_bind; [apply Hb; left | intros s; apply IH].
    intros s' y Hy. apply Hb. by right.
Qed.

Lemma store_effect (p : list string) (t : list N) (e : event) (w : world) :
  touches e p ->
  trace (store p t e w) = trace w ++ [e]
  /\ forall q, (forall e', e' ∈ [e] -> ~ touches e' q) ->
       files (fs (store p t e w)) !! q = files (fs w) !! q.
Proof.
  intros Ht. split; [done|]. intros q Hq. apply store_lookup_ne.
  intros ->. apply (Hq e); [left | done].
Qed.

Lemma effect_write_text (p : list string) (t : list N) :
  effect (fun e => e = Wrote p) (write_text p t).
Proof.
  intros w. unfold write_text. destruct (create_error (fs w) p).
  - exists []. rewrite app_nil_r. split_and!; done.
  - exists [Wrote p]. destruct (store_effect p t (Wrote p) w) as [Ht Hfr]; [by left|].
    split_and!; [done | by repeat constructor | done].
Qed.

Lemma effect_copy2 (src dst : list string) :
  effect (fun e => e = Copied src dst \/ e = Copied src (dst ++ [name src]))
    (copy2 src dst).
Proof.
  intros w. unfold copy2. destruct (files (fs w) !! src) as [t|].
  2:{ exists []. rewrite app_nil_r. split_and!; done. }
  cbv zeta.
  set (dst' := if is_dir (fs w) dst then dst ++ [name src] else dst).
  destruct (create_error (fs w) dst').
  { exists []. rewrite app_nil_r. split_and!; done. }
  exists [Copied src dst'].
  destruct (store_effect dst' t (Copied src dst') w) as [Ht Hfr]; [right; by eexists|].
  split_and!; [exact Ht | | exact Hfr].
  apply Forall_cons. split; [|by apply Forall_nil].
  unfold dst'. destruct (is_dir (fs w) dst); [by right | by left].
Qed.

Lemma effect_mkdir_from (above below : list string) :
  effect (fun e => exists d, e = MadeDir d) (mkdir_from above below).
Proof.
  revert above. induction below as [|c below IH]; intros above; cbn [mkdir_from].
  - apply effect_ret.
  - intros w. destruct (is_file (fs w) (above ++ [c])).
    { exists []. rewrite app_nil_r. split_and!; done. }
    destruct (is_dir (fs w) (above ++ [c])); [apply IH|].
    destruct (IH (above ++ [c]) (add_dir (above ++ [c]) w)) as (evs & Ht & HP & Hfr).
    exists (MadeDir (above ++ [c]) :: evs). split_and!.
    + rewrite Ht. cbn [add_dir trace]. by rewrite <- app_assoc.
    + constructor; [by eexists | done].
    + intros q Hq. rewrite Hfr; [done|]. intros e He. apply Hq. by right.
Qed.

Lemma effect_mkdir_parents (p : list string) :
  effect (fun e => exists d, e = MadeDir d) (mkdir_parents p).
Proof. apply effect_mkdir_from. Qed.

(** What the events of a computation do not touch is as before. *)
Lemma effect_frame {A} (P : event -> Prop) (m : M A) (w : world) (q : list string) :
  effect P m -> (forall e, P e -> ~ touches e q) ->
  files (fs (snd (m w))) !! q = files (fs w) !! q.
Proof.
  intros Hm HP. destruct (Hm w) as (evs & _ & Hall & Hfr).
  apply Hfr. intros e He. apply HP. by eapply Forall_forall in Hall.
Qed.

End Effects.

(** ** Backup loops *)

Section BackupLoop.

(** A loop that copies each of its members into one of the candidate
    places of that member. *)
Variable body : list string -> M unit.
Variable cands : list string -> list (list string).
Variable member : list string -> Prop.
Variable copied : list string -> Prop.

Hypothesis body_effect : forall f,
  effect (fun e => (exists d, e = MadeDir d)
                   \/ exists dst, dst ∈ cands f /\ e = Copied f dst)
    (body f).

Hypothesis body_copies : forall f w w2 c,
  member f -> copied f -> files (fs w) !! f = Some c ->
  body f w = (Return tt, w2) ->
  exists dst evs,
    trace w2 = trace w ++ evs /\ dst ∈ cands f /\ Copied f dst ∈ evs
    /\ files (fs w2) !! dst = Some c.

Hypothesis cands_disjoint : forall f g d,
  member f -> member g -> f <> g -> d ∈ cands f -> d ∉ cands g.

Hypothesis cands_fresh : forall f g d, member f -> d ∈ cands g -> d <> f.

Lemma backup_loop_effect (l : list (list string)) :
  effect (fun e => (exists d, e = MadeDir d)
                   \/ exists g dst, g ∈ l /\ dst ∈ cands g /\ e = Copied g dst)
    (for_each l body).
Proof.
  apply effect_for_each. intros f Hf.
  eapply effect_mono; [|apply body_effect].
  intros e [Hd | (dst & Hdst & ->)]; [by left | right; eauto].
Qed.

Lemma backup_loop (l : list (list string)) :
  (forall f, f ∈ l -> member f) ->
  forall w w1,
    for_each l body w = (Return tt, w1) ->
    forall p c,
      p ∈ l -> copied p -> files (fs w) !! p = Some c ->
      exists dst evs,
        trace w1 = trace w ++ evs /\ dst ∈ cands p /\ Copied p dst ∈ evs
        /\ files (fs w1) !! dst = Some c.
Proof.
  induction l as [|q l IH]; intros Hmem w w1 Hrun p c Hp Hcp Hf.
  { by apply not_elem_of_nil in Hp. }
  cbn [for_each] in Hrun. rewrite seq_run in Hrun.
  destruct (body q w) as [[[]|e] w2] eqn:Hq; [|discriminate].
  destruct (body_effect q w) as (evs_q & Htq & HPq & Hfrq).
  rewrite Hq in Htq, Hfrq. cbn [snd] in Htq, Hfrq.
  destruct (decide (p ∈ l)) as [Hpl | Hpl].
  - (* a later round copies [p] *)
    assert (Hf2 : files (fs w2) !! p = Some c).
    { rewrite Hfrq; [done|]. intros e He Ht.
      eapply Forall_forall in HPq; [|done].
      destruct HPq as [[d ->] | (dst & Hdst & ->)].
      - destruct Ht as [Ht | [src Ht]]; discriminate.
      - destruct Ht as [Ht | [src Ht]]; [discriminate|]. injection Ht as _ ->.
        eapply (cands_fresh p q p); [|done|done]. apply Hmem. by right. }
    destruct (IH (fun f Hfl => Hmem f (list_elem_of_further _ _ _ Hfl))
                w2 w1 Hrun p c Hpl Hcp Hf2)
      as (dst & evs & Ht & Hdst & Hev & Hc).
    exists dst, (evs_q ++ evs). split_and!; [|done| |done].
    + by rewrite Ht, Htq, app_assoc.
    + apply elem_of_app. by right.
  - (* this round is the one that copies [p] *)
    apply elem_of_cons in Hp as [-> | Hp]; [|done].
    destruct (body_copies q w w2 c) as (dst & evs & Ht & Hdst & Hev & Hc);
      [apply Hmem; left | done | done | done |].
    destruct (backup_loop_effect l w2) as (evs_l & Htl & HPl & Hfrl).
    rewrite Hrun in Htl, Hfrl. cbn [snd] in Htl, Hfrl.
    exists dst, (evs ++ evs_l). split_and!; [|done| |].
    + by rewrite Htl, Ht, app_assoc.
    + apply elem_of_app. by left.
    + rewrite Hfrl; [done|]. intros e He Htouch.
      eapply Forall_forall in HPl; [|done].
      destruct HPl as [[d ->] | (g & dst' & Hg & Hdst' & ->)].
      * destruct Htouch as [Htouch | [src Htouch]]; discriminate.
      * destruct Htouch as [Htouch | [src Htouch]]; [discriminate|].
        injection Htouch as _ ->.
        eapply (cands_disjoint q g dst); [apply Hmem; left | | | done | done].
        -- apply Hmem. by right.
        -- intros ->. done.
Qed.

End BackupLoop.

(** ** The backup of the first script *)

Section FirstBackup.
Context `{UnicodeTable}.
Import MigrateToSaas.

Lemma path_split (f : list string) : f <> [] -> f = parent f ++ [name f].
Proof. intros Hf. unfold parent, name. by apply app_removelast_last. Qed.

Lemma copy2_copies (src dst : list string) (w w2 : world) (c : list N) :
  files (fs w) !! src = Some c ->
  copy2 src dst w = (Return tt, w2) ->
  exists d,
    d ∈ copy_places src dst
    /\ trace w2 = trace w ++ [Copied src d]
    /\ files (fs w2) !! d = Some c.
Proof.
  intros Hsrc. unfold copy2. rewrite Hsrc. cbv zeta.
  set (dst' := if is_dir (fs w) dst then dst ++ [name src] else dst).
  destruct (create_error (fs w) dst'); [discriminate|].
  intros [= <-]. exists dst'. split_and!.
  - unfold dst', copy_places. destruct (is_dir (fs w) dst); set_solver.
  - done.
  - apply store_lookup.
Qed.

Lemma mkdir_parents_files (p q : list string) (w : world) :
  files (fs (snd (mkdir_parents p w))) !! q = files (fs w) !! q.
Proof.
  eapply effect_frame; [apply effect_mkdir_parents|].
  intros e [d ->] [Ht | [src Ht]]; discriminate.
Qed.

Lemma models_body_effect (mb f : list string) :
  effect (fun e => (exists d, e = MadeDir d)
                   \/ exists dst, dst ∈ copy_places f (mb ++ [name f]) /\ e = Copied f dst)
    (models_body mb f).
Proof.
  unfold models_body. apply effect_when.
  eapply effect_mono; [|apply effect_copy2].
  intros e [-> | ->]; right; eexists; (split; [|done]); unfold copy_places; set_solver.
Qed.

Lemma models_body_copies (mb f : list string) (w w2 : world) (c : list N) :
  model_kept f = true -> files (fs w) !! f = Some c ->
  models_body mb f w = (Return tt, w2) ->
  exists dst evs,
    trace w2 = trace w ++ evs /\ dst ∈ copy_places f (mb ++ [name f])
    /\ Copied f dst ∈ evs /\ files (fs w2) !! dst = Some c.
Proof.
  unfold model_kept, models_body. intros -> Hf Hrun. cbn [when] in Hrun.
  destruct (copy2_copies _ _ _ _ _ Hf Hrun) as (d & Hd & Ht & Hc).
  exists d, [Copied f d]. split_and!; try done. by left.
Qed.

Lemma models_places_disjoint (ts : string) (f g d : list string) :
  f <> [] /\ parent f = MODELS_DIR -> g <> [] /\ parent g = MODELS_DIR -> f <> g ->
  d ∈ copy_places f ((BACKUP_DIR ++ [ts]) ++ ["models"] ++ [name f]) ->
  d ∉ copy_places g ((BACKUP_DIR ++ [ts]) ++ ["models"] ++ [name g]).
Proof.
  intros [Hf Hpf] [Hg Hpg] Hne Hd Hd'.
  assert (Hn : name f <> name g).
  { intros Hn. apply Hne. rewrite (path_split f Hf), (path_split g Hg). congruence. }
  unfold copy_places in *. cbn in Hd, Hd'.
  set_unfold. destruct Hd as [Hd | [Hd | []]]; destruct Hd' as [Hd' | [Hd' | []]];
    rewrite Hd in Hd'; injection Hd' as ?; done.
Qed.

Lemma models_places_fresh (ts : string) (f g d : list string) :
  f <> [] /\ parent f = MODELS_DIR ->
  d ∈ copy_places g ((BACKUP_DIR ++ [ts]) ++ ["models"] ++ [name g]) -> d <> f.
Proof.
  intros [Hf Hpf] Hd ->. rewrite (path_split f Hf), Hpf in Hd.
  unfold copy_places in Hd. cbn in Hd. set_unfold.
  destruct Hd as [Hd | [Hd | []]]; discriminate.
Qed.

End FirstBackup.

Section FirstBackupSpec.
Context `{UnicodeTable}.
Import MigrateToSaas.

Lemma backup_event_models (ts : string) (f d : list string) :
  d ∈ copy_places f ((BACKUP_DIR ++ [ts]) ++ ["models"] ++ [name f]) ->
  exists rest, d = (BACKUP_DIR ++ [ts]) ++ rest.
Proof.
  unfold copy_places. set_unfold. intros [-> | [-> | []]]; eexists; reflexivity.
Qed.

Lemma backup_event_services (ts : string) (d : list string) :
  d ∈ copy_places DATABASE_SERVICE
        ((BACKUP_DIR ++ [ts]) ++ ["services"] ++ [name DATABASE_SERVICE]) ->
  exists rest, d = (BACKUP_DIR ++ [ts]) ++ rest.
Proof.
  unfold copy_places. set_unfold. intros [-> | [-> | []]]; eexists; reflexivity.
Qed.

Lemma first_backup_effect (ts : string) :
  effect (backup_event (BACKUP_DIR ++ [ts])) (create_backup ts).
Proof.
  unfold create_backup. cbv zeta.
  apply effect_seq.
  { eapply effect_mono; [|apply effect_mkdir_parents]. intros e He. by left. }
  apply effect_bind; [apply effect_readonly, readonly_glob_dart | intros l].
  apply effect_seq.
  { apply effect_for_each. intros f Hf. apply effect_when.
    eapply effect_mono; [|apply effect_copy2].
    intros e He. right. exists f.
    destruct (backup_event_models ts f
                (match e with Copied _ d => d | _ => [] end)) as [rest Hrest].
    { unfold copy_places. rewrite <- !app_assoc.
      destruct He as [-> | ->]; set_solver. }
    exists rest. destruct He as [-> | ->]; by rewrite <- Hrest. }
  apply effect_seq.
  { eapply effect_mono; [|apply effect_mkdir_parents]. intros e He. by left. }
  apply effect_bind; [apply effect_readonly, readonly_path_exists | intros e].
  apply effect_seq; [|apply effect_ret].
  apply effect_when.
  eapply effect_mono; [|apply effect_copy2].
  intros e' He. right. exists DATABASE_SERVICE.
  destruct (backup_event_services ts
              (match e' with Copied _ d => d | _ => [] end)) as [rest Hrest].
  { unfold copy_places. rewrite <- !app_assoc.
    destruct He as [-> | ->]; set_solver. }
  exists rest. destruct He as [-> | ->]; by rewrite <- Hrest.
Qed.

End FirstBackupSpec.

Section FirstBackupCopies.
Context `{UnicodeTable}.
Import MigrateToSaas.

(** What follows from the effect of a computation for one of its runs. *)
Lemma effect_run {A} (P : event -> Prop) (m : M A) (w w' : world) (o : outcome A) :
  effect P m -> m w = (o, w') ->
  exists evs,
    trace w' = trace w ++ evs /\ Forall P evs
    /\ forall q, (forall e, e ∈ evs -> ~ touches e q) ->
         files (fs w') !! q = files (fs w) !! q.
Proof. intros Hm Hrun. specialize (Hm w). by rewrite Hrun in Hm. Qed.

Lemma made_dir_touches_nothing (evs : list event) (q : list string) :
  Forall (fun e => exists d, e = MadeDir d) evs ->
  forall e, e ∈ evs -> ~ touches e q.
Proof.
  intros Hall e He [Ht | [src Ht]]; eapply Forall_forall in Hall; [|done| |done];
    destruct Hall as [d ->]; discriminate.
Qed.

(** A backup that returns has copied every kept model and the database
    service, as they were, to a place under the backup path. *)
Lemma first_backup_copies (ts : string) (w w1 : world) (bp : list string) :
  create_backup ts w = (Return bp, w1) ->
  exists evs,
    trace w1 = trace w ++ evs
    /\ forall p c,
         files (fs w) !! p = Some c ->
         (p <> [] /\ parent p = MODELS_DIR
          /\ name_ends_with ".dart" (name p) = true /\ model_kept p = true)
         \/ p = DATABASE_SERVICE ->
         exists rest,
           Copied p ((BACKUP_DIR ++ [ts]) ++ rest) ∈ evs
           /\ files (fs w1) !! ((BACKUP_DIR ++ [ts]) ++ rest) = Some c.
Proof.
  intros Hrun. unfold create_backup in Hrun. cbv zeta in Hrun.
  rewrite seq_run in Hrun.
  destruct (mkdir_parents ((BACKUP_DIR ++ [ts]) ++ ["models"]) w)
    as [[[]|e] wa] eqn:Ha; [|discriminate].
  rewrite bind_run in Hrun. unfold glob_dart at 1 in Hrun. cbv beta iota in Hrun.
  set (l := List.filter _ _) in Hrun.
  rewrite seq_run in Hrun.
  change (fun model_file : list string => when _ _)
    with (models_body ((BACKUP_DIR ++ [ts]) ++ ["models"])) in Hrun.
  destruct (for_each l (models_body ((BACKUP_DIR ++ [ts]) ++ ["models"])) wa)
    as [[[]|e] wb] eqn:Hb; [|discriminate].
  rewrite seq_run in Hrun.
  destruct (mkdir_parents ((BACKUP_DIR ++ [ts]) ++ ["services"]) wb)
    as [[[]|e] wc] eqn:Hc; [|discriminate].
  rewrite bind_run in Hrun. unfold path_exists at 1 in Hrun. cbv beta iota in Hrun.
  rewrite seq_run in Hrun.
  destruct (when _ _ wc) as [[[]|e] wd] eqn:Hd; [|discriminate].
  injection Hrun as _ <-.
  (* the steps *)
  destruct (effect_run _ _ _ _ _ (effect_mkdir_parents _) Ha) as (ea & Hta & Hpa & Hfa).
  destruct (effect_run _ _ _ _ _
              (backup_loop_effect _ _ (models_body_effect _) l) Hb)
    as (eb & Htb & Hpb & Hfb).
  destruct (effect_run _ _ _ _ _ (effect_mkdir_parents _) Hc) as (ec & Htc & Hpc & Hfc).
  assert (Hwa : forall q, files (fs wa) !! q = files (fs w) !! q).
  { intros q. apply Hfa. by apply made_dir_touches_nothing. }
  assert (Hwc : forall q, files (fs wc) !! q = files (fs wb) !! q).
  { intros q. apply Hfc. by apply made_dir_touches_nothing. }
  assert (Hlib : forall q, (exists rest, q = "lib" :: rest) ->
                   files (fs wb) !! q = files (fs wa) !! q).
  { intros q [rest ->]. apply Hfb. intros e He Ht.
    eapply Forall_forall in Hpb; [|done].
    destruct Hpb as [[d ->] | (g & dst & Hg & Hdst & ->)].
    - destruct Ht as [Ht | [src Ht]]; discriminate.
    - destruct Ht as [Ht | [src Ht]]; [discriminate|]. injection Ht as _ ->.
      unfold copy_places in Hdst. cbn in Hdst. set_unfold.
      destruct Hdst as [Hdst | [Hdst | []]]; discriminate. }
  set (body_d := when _ _) in Hd.
  assert (Heff_d : effect (fun e => e = Copied DATABASE_SERVICE
                                         (((BACKUP_DIR ++ [ts]) ++ ["services"])
                                            ++ [name DATABASE_SERVICE])
                                    \/ e = Copied DATABASE_SERVICE
                                            ((((BACKUP_DIR ++ [ts]) ++ ["services"])
                                                ++ [name DATABASE_SERVICE])
                                               ++ [name DATABASE_SERVICE]))
                     body_d).
  { unfold body_d. apply effect_when, effect_copy2. }
  destruct (effect_run _ _ _ _ _ Heff_d Hd) as (ed & Htd & Hpd & Hfd).
  exists (ea ++ eb ++ ec ++ ed). split.
  { by rewrite Htd, Htc, Htb, Hta, <- !app_assoc. }
  intros p c Hp [(Hne & Hparent & Hdart & Hkept) | ->].
  - (* a model *)
    assert (Hin : p ∈ l).
    { unfold l. apply list_elem_of_In, filter_In. split.
      - apply list_elem_of_In, elem_of_elements, elem_of_union. left.
        apply elem_of_dom. rewrite Hwa. eauto.
      - rewrite bool_decide_eq_false_2 by done.
        by rewrite bool_decide_eq_true_2, Hdart by done. }
    assert (Hmem : forall f, f ∈ l -> f <> [] /\ parent f = MODELS_DIR).
    { intros f Hf. unfold l in Hf. apply list_elem_of_In, filter_In in Hf as [_ Hf].
      apply andb_true_iff in Hf as [Hf _]. apply andb_true_iff in Hf as [Hf1 Hf2].
      apply negb_true_iff, bool_decide_eq_false_1 in Hf1.
      by apply bool_decide_eq_true_1 in Hf2. }
    destruct (backup_loop (models_body ((BACKUP_DIR ++ [ts]) ++ ["models"]))
                (fun f => copy_places f (((BACKUP_DIR ++ [ts]) ++ ["models"]) ++ [name f]))
                (fun f => f <> [] /\ parent f = MODELS_DIR)
                (fun f => model_kept f = true)
                (models_body_effect _)
                (fun f w w2 c _ => models_body_copies _ f w w2 c)
                (fun f g d => models_places_disjoint ts f g d)
                (fun f g d => models_places_fresh ts f g d)
                l Hmem wa wb Hb p c Hin Hkept)
      as (dst & evs & Ht & Hdst & Hev & Hc').
    { by rewrite Hwa. }
    assert (Hkeep : files (fs wd) !! dst = files (fs wb) !! dst).
    { rewrite Hfd, Hwc; [done|]. intros e He Ht'.
      eapply Forall_forall in Hpd; [|done].
      unfold copy_places in Hdst. cbn in Hdst. set_unfold.
      destruct Ht' as [Ht' | [src Ht']];
        destruct Hpd as [-> | ->]; try discriminate;
        injection Ht' as _ Ht'; cbn in Ht'; subst dst;
        destruct Hdst as [Hdst | [Hdst | []]]; discriminate. }
    destruct (backup_event_models ts p dst) as [rest ->].
    { by rewrite <- app_assoc in Hdst. }
    exists rest. split.
    + rewrite Htb in Ht. apply app_inv_head in Ht. subst evs.
      rewrite !elem_of_app. right. by left.
    + by rewrite Hkeep.
  - (* the database service *)
    assert (Hc' : files (fs wc) !! DATABASE_SERVICE = Some c).
    { rewrite Hwc, Hlib, Hwa; [done|]. by eexists. }
    unfold body_d in Hd. unfold is_file in Hd. rewrite Hc' in Hd.
    rewrite bool_decide_eq_true_2 in Hd by eauto. cbn [orb when] in Hd.
    destruct (copy2_copies _ _ _ _ _ Hc' Hd) as (d & Hplace & Ht & Hcopy).
    destruct (backup_event_services ts d) as [rest ->].
    { by rewrite <- app_assoc in Hplace. }
    exists rest. split; [|done].
    rewrite Htd in Ht. apply app_inv_head in Ht. subst ed.
    rewrite !elem_of_app. do 3 right. by left.
Qed.

End FirstBackupCopies.

(** The steps of a proof about the effect of a computation. *)
Ltac effect_step :=
  first
    [ apply effect_ret
    | apply effect_write_text
    | apply effect_readonly, readonly_path_exists
    | apply effect_readonly, readonly_read_text
    | apply effect_readonly, readonly_glob_dart
    | apply effect_readonly, readonly_raise
    | apply effect_bind; [|intros ?]
    | apply effect_seq
    | apply effect_when
    | match goal with
      | |- effect _ (if ?b then _ else _) => destruct b
      | |- effect _ (match ?x with _ => _ end) => destruct x
      | |- effect _ (let '(_, _) := ?x in _) => destruct x
      end ].

Section FirstUpdates.
Context `{UnicodeTable}.
Import MigrateToSaas.

Lemma effect_add_organization_id_to_model p report dry_run :
  effect (fun e => e = Wrote p) (add_organization_id_to_model p report dry_run).
Proof.
  unfold add_organization_id_to_model. cbv zeta. repeat effect_step.
Qed.

Lemma effect_model_batch dry_run report :
  effect (fun e => exists f, f ∈ MODEL_FILES_TO_UPDATE /\ e = Wrote (MODELS_DIR ++ [f]))
    (model_batch dry_run report).
Proof.
  unfold model_batch. apply effect_for_fold. intros r f Hf. cbv zeta.
  apply effect_bind; [|intros ?; apply effect_ret].
  eapply effect_mono; [|apply effect_add_organization_id_to_model].
  intros e ->. eauto.
Qed.

Lemma effect_update_database_service report dry_run :
  effect (fun e => e = Wrote DATABASE_SERVICE) (update_database_service report dry_run).
Proof.
  unfold update_database_service. repeat effect_step.
Qed.

(** The provider file is written only where nothing exists. *)
Lemma create_organization_provider_events report dry_run w :
  exists evs,
    trace (snd (create_organization_provider report dry_run w)) = trace w ++ evs
    /\ (evs = []
        \/ evs = [Wrote (LIB_DIR ++ ["providers"; "organization_provider.dart"])]
           /\ files (fs w) !! (LIB_DIR ++ ["providers"; "organization_provider.dart"])
              = None)
    /\ forall q, (forall e, e ∈ evs -> ~ touches e q) ->
         files (fs (snd (create_organization_provider report dry_run w))) !! q
         = files (fs w) !! q.
Proof.
  unfold create_organization_provider. cbv zeta. rewrite bind_run.
  unfold path_exists, is_file.
  destruct (files (fs w) !! (LIB_DIR ++ ["providers"; "organization_provider.dart"]))
    as [c|] eqn:Hf.
  { rewrite bool_decide_eq_true_2 by eauto. cbn [orb].
    exists []. rewrite ret_run, app_nil_r. split_and!; [done | by left | done]. }
  rewrite bool_decide_eq_false_2 by (intros [? ?]; discriminate). cbn [orb].
  destruct (is_dir (fs w) _) eqn:Hd.
  { exists []. rewrite ret_run, app_nil_r. split_and!; [done | by left | done]. }
  destruct dry_run.
  { exists []. rewrite ret_run, app_nil_r. split_and!; [done | by left | done]. }
  rewrite seq_run. unfold write_text.
  destruct (create_error (fs w) _).
  { exists []. rewrite app_nil_r. split_and!; [done | by left | done]. }
  rewrite ret_run. eexists. cbn [snd]. split_and!; [done | by right |].
  intros q Hq. apply store_lookup_ne. intros ->.
  apply (Hq (Wrote (LIB_DIR ++ ["providers"; "organization_provider.dart"])));
    [left | by left].
Qed.

(** The paths that the updates of the first script may write: a listed
    model, the database service, or the provider file where nothing
    existed. *)
Lemma first_updates_events dry_run w :
  exists evs,
    trace (snd (first_updates dry_run w)) = trace w ++ evs
    /\ (forall e, e ∈ evs ->
          exists p, e = Wrote p
            /\ ((exists f, f ∈ MODEL_FILES_TO_UPDATE /\ p = MODELS_DIR ++ [f])
                \/ p = DATABASE_SERVICE
                \/ (p = LIB_DIR ++ ["providers"; "organization_provider.dart"]
                    /\ files (fs w) !! p = None)))
    /\ forall q, (forall e, e ∈ evs -> ~ touches e q) ->
         files (fs (snd (first_updates dry_run w))) !! q = files (fs w) !! q.
Proof.
  unfold first_updates. rewrite bind_run.
  destruct (model_batch dry_run new_report w) as [[report|e] w2] eqn:H2.
  2:{ destruct (effect_run _ _ _ _ _ (effect_model_batch _ _) H2) as (e2 & Ht2 & Hp2 & Hf2).
      exists e2. cbn [snd]. split_and!; [done | | done].
      intros e' He. destruct (proj1 (Forall_forall _ _) Hp2 e' He) as (f & Hf & Heq); subst e'. eauto 10. }
  destruct (effect_run _ _ _ _ _ (effect_model_batch _ _) H2) as (e2 & Ht2 & Hp2 & Hf2).
  rewrite bind_run.
  destruct (update_database_service report dry_run w2) as [[r|e] w3] eqn:H3.
  2:{ destruct (effect_run _ _ _ _ _ (effect_update_database_service _ _) H3)
        as (e3 & Ht3 & Hp3 & Hf3).
      exists (e2 ++ e3). cbn [snd]. split_and!.
      - by rewrite Ht3, Ht2, app_assoc.
      - intros e' He. apply elem_of_app in He as [He | He].
        + destruct (proj1 (Forall_forall _ _) Hp2 e' He) as (f & Hf & Heq); subst e'. eauto 10.
        + pose proof (proj1 (Forall_forall _ _) Hp3 e' He) as Heq; cbv beta in Heq; subst e'. eauto 10.
      - intros q Hq. rewrite Hf3, Hf2; [done | |]; intros e' He; apply Hq, elem_of_app;
          [by left | by right]. }
  destruct (effect_run _ _ _ _ _ (effect_update_database_service _ _) H3)
    as (e3 & Ht3 & Hp3 & Hf3).
  cbv zeta. rewrite bind_run.
  destruct (create_organization_provider_events (snd r) dry_run w3)
    as (e4 & Ht4 & He4 & Hf4).
  assert (Hsnd : snd (match create_organization_provider r.2 dry_run w3 with
                      | (Return a, w') => (mret (snd a) : M MigrationReport) w'
                      | (Raise e, w') => (Raise e, w')
                      end)
                 = snd (create_organization_provider (snd r) dry_run w3)).
  { by destruct (create_organization_provider (snd r) dry_run w3) as [[?|?] ?]. }
  rewrite Hsnd.
  assert (Hprov : files (fs w3) !! (LIB_DIR ++ ["providers"; "organization_provider.dart"])
                  = files (fs w) !! (LIB_DIR ++ ["providers"; "organization_provider.dart"])).
  { rewrite Hf3, Hf2; [done | |]; intros e' He [Ht | [src Ht]].
    - destruct (proj1 (Forall_forall _ _) Hp2 e' He) as (f & Hf & Heq); subst e'. discriminate.
    - destruct (proj1 (Forall_forall _ _) Hp2 e' He) as (f & Hf & Heq); subst e'. discriminate.
    - pose proof (proj1 (Forall_forall _ _) Hp3 e' He) as Heq; cbv beta in Heq; subst e'. discriminate.
    - pose proof (proj1 (Forall_forall _ _) Hp3 e' He) as Heq; cbv beta in Heq; subst e'. discriminate. }
  exists (e2 ++ e3 ++ e4). split_and!.
  - by rewrite Ht4, Ht3, Ht2, <- !app_assoc.
  - intros e' He. apply elem_of_app in He as [He | He];
      [|apply elem_of_app in He as [He | He]].
    + destruct (proj1 (Forall_forall _ _) Hp2 e' He) as (f & Hf & Heq); subst e'. eauto 10.
    + pose proof (proj1 (Forall_forall _ _) Hp3 e' He) as Heq; cbv beta in Heq; subst e'. eauto 10.
    + destruct He4 as [-> | [-> Hnone]]; [by apply not_elem_of_nil in He|].
      apply list_elem_of_singleton in He as ->. rewrite Hprov in Hnone. eauto 10.
  - intros q Hq. rewrite Hf4, Hf3, Hf2; [done | | |]; intros e' He; apply Hq;
      rewrite !elem_of_app; auto.
Qed.

End FirstUpdates.

Section FirstOrdering.
Context `{UnicodeTable}.
Import MigrateToSaas.

Lemma main_first_unfold a timestamp :
  main a timestamp =
  if negb (arg_dry_run a || arg_apply a || arg_report a) then sys_exit 1
  else
    let* e := path_exists LIB_DIR in
    if negb e then sys_exit 1
    else
      when (arg_apply a && negb (arg_skip_backup a))
        (create_backup timestamp;; mret tt);;
      first_updates (arg_dry_run a || arg_report a).
Proof. reflexivity. Qed.

Lemma model_files_kept (f : string) :
  f ∈ MODEL_FILES_TO_UPDATE -> model_kept (MODELS_DIR ++ [f]) = true.
Proof.
  intros Hf. apply list_elem_of_In in Hf. revert f Hf. apply forallb_forall.
  vm_compute. reflexivity.
Qed.

Lemma events_of_app {A} (m : M A) (w : world) (evs : list event) :
  trace (snd (m w)) = trace w ++ evs -> events_of m w = evs.
Proof. intros Ht. unfold events_of. by rewrite Ht, drop_app_length. Qed.

Lemma backup_event_not_wrote (bp : list string) (evs : list event) (q : list string) :
  Forall (backup_event bp) evs -> Wrote q ∉ evs.
Proof.
  intros Hall Hq. eapply Forall_forall in Hall; [|done].
  destruct Hall as [[d Hd] | (src & rest & Hd)]; discriminate.
Qed.

(** The backup of the first script comes before its writes. *)
Lemma first_backup_before_write a timestamp w p c :
  arg_apply a = true -> arg_skip_backup a = false ->
  files (fs w) !! p = Some c ->
  Wrote p ∈ events_of (main a timestamp) w ->
  exists rest evs1 evs2,
    events_of (main a timestamp) w
    = evs1 ++ Copied p ((BACKUP_DIR ++ [timestamp]) ++ rest) :: evs2
    /\ (forall q, Wrote q ∉ evs1)
    /\ files (fs (snd (main a timestamp w))) !! ((BACKUP_DIR ++ [timestamp]) ++ rest)
       = Some c.
Proof.
  intros Happly Hskip Hp. rewrite main_first_unfold, Happly, Hskip. cbn [negb andb].
  destruct (negb _).
  { intros Hw. rewrite (events_of_app _ _ []) in Hw; [|by rewrite app_nil_r].
    by apply not_elem_of_nil in Hw. }
  set (rest_of_main := fun e : bool => if negb e then sys_exit 1 else _).
  assert (Hlib : bind (path_exists LIB_DIR) rest_of_main w
                 = rest_of_main (is_file (fs w) LIB_DIR || is_dir (fs w) LIB_DIR) w)
    by reflexivity.
  unfold events_of. rewrite Hlib. unfold rest_of_main. clear Hlib rest_of_main.
  destruct (negb _).
  { cbn [snd sys_exit raise]. rewrite drop_all. intros Hw. by apply not_elem_of_nil in Hw. }
  cbn [when]. rewrite !seq_run.
  destruct (create_backup timestamp w) as [[bp|e] w1] eqn:Hb.
  2:{ cbn [snd]. intros Hw.
      destruct (effect_run _ _ _ _ _ (first_backup_effect timestamp) Hb)
        as (eb & Htb & Hpb & _).
      rewrite Htb, drop_app_length in Hw.
      exfalso. exact (backup_event_not_wrote _ _ _ Hpb Hw). }
  rewrite ret_run.
  destruct (effect_run _ _ _ _ _ (first_backup_effect timestamp) Hb)
    as (eb & Htb & Hpb & Hfb).
  destruct (first_backup_copies _ _ _ _ Hb) as (eb' & Htb' & Hcopies).
  assert (eb' = eb) as -> by (rewrite Htb in Htb'; by apply app_inv_head in Htb').
  destruct (first_updates_events (arg_dry_run a || arg_report a) w1)
    as (eu & Htu & Hpu & Hfu).
  rewrite Htu, Htb, <- app_assoc, drop_app_length.
  intros Hw. apply elem_of_app in Hw as [Hw | Hw].
  { exfalso. exact (backup_event_not_wrote _ _ _ Hpb Hw). }
  assert (Hsafe : forall rest e, e ∈ eu -> ~ touches e ((BACKUP_DIR ++ [timestamp]) ++ rest)).
  { intros rest e He Ht. destruct (Hpu e He) as (q & -> & Hq).
    destruct Ht as [Ht | [src Ht]]; [|discriminate]. injection Ht as ->.
    destruct Hq as [(f & _ & Hq) | [Hq | [Hq _]]]; discriminate. }
  assert (Hdone : forall rest,
            Copied p ((BACKUP_DIR ++ [timestamp]) ++ rest) ∈ eb ->
            files (fs w1) !! ((BACKUP_DIR ++ [timestamp]) ++ rest) = Some c ->
            exists rest evs1 evs2,
              eb ++ eu = evs1 ++ Copied p ((BACKUP_DIR ++ [timestamp]) ++ rest) :: evs2
              /\ (forall q, Wrote q ∉ evs1)
              /\ files (fs (snd (first_updates (arg_dry_run a || arg_report a) w1)))
                   !! ((BACKUP_DIR ++ [timestamp]) ++ rest) = Some c).
  { intros rest Hev Hc. apply list_elem_of_split in Hev as (l1 & l2 & ->).
    exists rest, l1, (l2 ++ eu). split_and!.
    - by rewrite <- app_assoc.
    - intros q. apply (backup_event_not_wrote (BACKUP_DIR ++ [timestamp])).
      by apply Forall_app in Hpb as [? _].
    - rewrite Hfu; [done|]. by apply Hsafe. }
  destruct (Hpu _ Hw) as (q & [= <-] & [(f & Hf & ->) | [-> | [-> Hnone]]]).
  - destruct (Hcopies _ c Hp) as (rest & Hev & Hc); [|by apply (Hdone rest)].
    left. split_and!.
    + by destruct MODELS_DIR.
    + apply parent_last.
    + by apply model_files_dart.
    + by apply model_files_kept.
  - destruct (Hcopies _ c Hp) as (rest & Hev & Hc); [by right | by apply (Hdone rest)].
  - rewrite Hfb in Hnone; [congruence|].
    intros e He Ht. eapply Forall_forall in Hpb; [|done].
    destruct Hpb as [[d ->] | (src & rest & ->)];
      destruct Ht as [Ht | [src' Ht]]; discriminate.
Qed.

End FirstOrdering.

(** ** The backup of the second script *)

Section SecondBackup.
Context `{UnicodeTable}.
Import Phase2.

Lemma effect_bind_post {A B} (P : event -> Prop) (Q : A -> Prop)
    (m : M A) (f : A -> M B) :
  effect P m ->
  (forall w a w', m w = (Return a, w') -> Q a) ->
  (forall a, Q a -> effect P (f a)) ->
  effect P (bind m f).
Proof.
  intros Hm HQ Hf w. rewrite bind_run.
  destruct (Hm w) as (evs1 & Ht1 & HP1 & Hfr1).
  destruct (m w) as [[a|e] w1] eqn:Hrun; cbn [snd] in *.
  - destruct (Hf a (HQ _ _ _ Hrun) w1) as (evs2 & Ht2 & HP2 & Hfr2).
    exists (evs1 ++ evs2). split_and!.
    + by rewrite Ht2, Ht1, app_assoc.
    + by apply Forall_app.
    + intros q Hq. rewrite Hfr2, Hfr1; [done | |].
      * intros e He. apply Hq, elem_of_app. by left.
      * intros e He. apply Hq, elem_of_app. by right.
  - by exists evs1.
Qed.

Lemma provider_source_lib (f : list string) :
  provider_source f -> exists rest, f = "lib" :: rest.
Proof.
  intros [-> | [Hne Hp]]; [by eexists|].
  rewrite (path_split f Hne), Hp. by eexists.
Qed.

Lemma providers_body_effect (bp f : list string) :
  effect (fun e => (exists d, e = MadeDir d)
                   \/ exists dst, dst ∈ copy_places f (bp ++ relative_to_lib f)
                                  /\ e = Copied f dst)
    (providers_body bp f).
Proof.
  unfold providers_body. cbv zeta.
  apply effect_bind; [apply effect_readonly, readonly_path_exists | intros e].
  apply effect_when, effect_seq.
  - eapply effect_mono; [|apply effect_mkdir_parents]. intros e' He. by left.
  - eapply effect_mono; [|apply effect_copy2].
    intros e' [-> | ->]; right; eexists; (split; [|done]); unfold copy_places; set_solver.
Qed.

Lemma providers_body_copies (bp f : list string) (w w2 : world) (c : list N) :
  files (fs w) !! f = Some c ->
  providers_body bp f w = (Return tt, w2) ->
  exists dst evs,
    trace w2 = trace w ++ evs /\ dst ∈ copy_places f (bp ++ relative_to_lib f)
    /\ Copied f dst ∈ evs /\ files (fs w2) !! dst = Some c.
Proof.
  intros Hf. unfold providers_body. cbv zeta.
  rewrite bind_run, (path_exists_file _ _ _ Hf). cbv beta iota. cbn [when].
  rewrite seq_run.
  destruct (mkdir_parents (parent (bp ++ relative_to_lib f)) w)
    as [[[]|e] wa] eqn:Ha; [|discriminate].
  destruct (effect_run _ _ _ _ _ (effect_mkdir_parents _) Ha) as (ea & Hta & Hpa & Hfa).
  intros Hrun.
  assert (Hfa' : files (fs wa) !! f = Some c).
  { rewrite Hfa; [done|]. by apply made_dir_touches_nothing. }
  destruct (copy2_copies _ _ _ _ _ Hfa' Hrun) as (d & Hd & Ht & Hc).
  exists d, (ea ++ [Copied f d]). split_and!; try done.
  - by rewrite Ht, Hta, app_assoc.
  - apply elem_of_app. right. by left.
Qed.

Lemma providers_places_disjoint (bp f g d : list string) :
  provider_source f -> provider_source g -> f <> g ->
  d ∈ copy_places f (bp ++ relative_to_lib f) ->
  d ∉ copy_places g (bp ++ relative_to_lib g).
Proof.
  intros Hf Hg Hne Hd Hd'.
  assert (Hshape : forall x, provider_source x ->
            x = ["lib"; "core"; "services"; "database_service.dart"]
            \/ x = ["lib"; "providers"; name x]).
  { intros x [-> | [Hx Hp]]; [by left | right].
    rewrite (path_split x Hx) at 1. by rewrite Hp. }
  unfold copy_places in *. set_unfold.
  destruct (Hshape f Hf) as [Ef | Ef]; destruct (Hshape g Hg) as [Eg | Eg];
    rewrite Ef, Eg in Hne; rewrite Ef in Hd; rewrite Eg in Hd';
    cbn in Hd, Hd';
    destruct Hd as [Hd | [Hd | []]]; destruct Hd' as [Hd' | [Hd' | []]];
    rewrite Hd in Hd'; rewrite <- ?app_assoc in Hd'; apply app_inv_head in Hd';
    cbn in Hd';
    first [ done | discriminate | injection Hd' as ?; congruence ].
Qed.

Lemma providers_places_fresh (ts : string) (f g d : list string) :
  provider_source f ->
  d ∈ copy_places g ((BACKUP_DIR ++ [ts]) ++ relative_to_lib g) -> d <> f.
Proof.
  intros Hf Hd ->. apply provider_source_lib in Hf as [rest ->].
  unfold copy_places in Hd. set_unfold.
  destruct Hd as [Hd | [Hd | []]]; discriminate.
Qed.

End SecondBackup.

Section SecondBackupSpec.
Context `{UnicodeTable}.
Import Phase2.

Lemma backup_event_providers (ts : string) (f d : list string) :
  d ∈ copy_places f ((BACKUP_DIR ++ [ts]) ++ relative_to_lib f) ->
  exists rest, d = (BACKUP_DIR ++ [ts]) ++ rest.
Proof.
  unfold copy_places. set_unfold. intros [-> | [-> | []]]; eexists; reflexivity.
Qed.

Lemma second_backup_effect (ts : string) :
  effect (backup_event (BACKUP_DIR ++ [ts])) (create_backup ts).
Proof.
  unfold create_backup. cbv zeta.
  apply effect_seq.
  { eapply effect_mono; [|apply effect_mkdir_parents]. intros e He. by left. }
  apply effect_bind; [apply effect_readonly, readonly_glob_dart | intros l].
  apply effect_seq; [|apply effect_ret].
  apply effect_for_each. intros f Hf.
  eapply effect_mono; [|apply (providers_body_effect (BACKUP_DIR ++ [ts]) f)].
  intros e [Hd | (dst & Hdst & ->)]; [by left | right].
  destruct (backup_event_providers ts f dst Hdst) as [rest ->]. eauto.
Qed.

(** A backup that returns has copied the database service, the
    organization provider and every provider file that is not generated,
    as they were, to a place under the backup path. *)
Lemma second_backup_copies (ts : string) (w w1 : world) (bp : list string) :
  create_backup ts w = (Return bp, w1) ->
  exists evs,
    trace w1 = trace w ++ evs
    /\ forall p c,
         files (fs w) !! p = Some c ->
         p = LIB_DIR ++ ["core"; "services"; "database_service.dart"]
         \/ p = LIB_DIR ++ ["providers"; "organization_provider.dart"]
         \/ (p <> [] /\ parent p = LIB_DIR ++ ["providers"]
             /\ name_ends_with ".dart" (name p) = true
             /\ name_ends_with ".g.dart" (name p) = false) ->
         exists rest,
           Copied p ((BACKUP_DIR ++ [ts]) ++ rest) ∈ evs
           /\ files (fs w1) !! ((BACKUP_DIR ++ [ts]) ++ rest) = Some c.
Proof.
  intros Hrun. unfold create_backup in Hrun. cbv zeta in Hrun.
  rewrite seq_run in Hrun.
  destruct (mkdir_parents (BACKUP_DIR ++ [ts]) w) as [[[]|e] wa] eqn:Ha; [|discriminate].
  rewrite bind_run in Hrun. unfold glob_dart at 1 in Hrun. cbv beta iota in Hrun.
  set (entries := List.filter _ (elements _)) in Hrun.
  set (l := _ ++ List.filter _ entries) in Hrun.
  rewrite seq_run in Hrun.
  change (fun f : list string => bind (path_exists f) _)
    with (providers_body (BACKUP_DIR ++ [ts])) in Hrun.
  destruct (for_each l (providers_body (BACKUP_DIR ++ [ts])) wa)
    as [[[]|e] wb] eqn:Hb; [|discriminate].
  injection Hrun as _ <-.
  destruct (effect_run _ _ _ _ _ (effect_mkdir_parents _) Ha) as (ea & Hta & Hpa & Hfa).
  destruct (effect_run _ _ _ _ _
              (backup_loop_effect _ _ (providers_body_effect _) l) Hb)
    as (eb & Htb & Hpb & Hfb).
  assert (Hwa : forall q, files (fs wa) !! q = files (fs w) !! q).
  { intros q. apply Hfa. by apply made_dir_touches_nothing. }
  exists (ea ++ eb). split.
  { by rewrite Htb, Hta, <- app_assoc. }
  assert (Hmem : forall f, f ∈ l -> provider_source f).
  { intros f Hf. unfold l in Hf. apply elem_of_app in Hf as [Hf | Hf].
    - set_unfold. destruct Hf as [-> | [-> | []]]; [by left | right; by split].
    - apply list_elem_of_In, filter_In in Hf as [Hf _].
      unfold entries in Hf. apply filter_In in Hf as [_ Hf].
      apply andb_true_iff in Hf as [Hf _]. apply andb_true_iff in Hf as [Hf1 Hf2].
      apply negb_true_iff, bool_decide_eq_false_1 in Hf1.
      apply bool_decide_eq_true_1 in Hf2. right. by split. }
  intros p c Hp Hcase.
  assert (Hin : p ∈ l).
  { unfold l. destruct Hcase as [-> | [-> | (Hne & Hparent & Hdart & Hgen)]].
    - apply elem_of_app. left. set_solver.
    - apply elem_of_app. left. set_solver.
    - apply elem_of_app. right. apply list_elem_of_In, filter_In. split.
      + unfold entries. apply filter_In. split.
        * apply list_elem_of_In, elem_of_elements, elem_of_union. left.
          apply elem_of_dom. rewrite Hwa. eauto.
        * rewrite bool_decide_eq_false_2 by done.
          by rewrite bool_decide_eq_true_2, Hdart by done.
      + by rewrite Hgen. }
  destruct (backup_loop (providers_body (BACKUP_DIR ++ [ts]))
              (fun f => copy_places f ((BACKUP_DIR ++ [ts]) ++ relative_to_lib f))
              provider_source (fun _ => True)
              (providers_body_effect _)
              (fun f w w2 c _ _ => providers_body_copies _ f w w2 c)
              (fun f g d => providers_places_disjoint _ f g d)
              (fun f g d => providers_places_fresh ts f g d)
              l Hmem wa wb Hb p c Hin I)
    as (dst & evs & Ht & Hdst & Hev & Hc').
  { by rewrite Hwa. }
  destruct (backup_event_providers ts p dst Hdst) as [rest ->].
  exists rest. split; [|done].
  rewrite Htb in Ht. apply app_inv_head in Ht. subst evs.
  apply elem_of_app. by right.
Qed.

End SecondBackupSpec.

Section SecondOrdering.
Context `{UnicodeTable}.
Import Phase2.

Lemma main_second_unfold a timestamp :
  main a timestamp =
  if negb (arg_dry_run a || arg_apply a) then sys_exit 1
  else
    let* e := path_exists LIB_DIR in
    if negb e then sys_exit 1
    else
      when (arg_apply a && negb (arg_skip_backup a))
        (create_backup timestamp;; mret tt);;
      second_updates (arg_dry_run a).
Proof. reflexivity. Qed.

Lemma effect_update_settings_file dry_run updates filename :
  effect (fun e => e = Wrote (settings_dir ++ [filename]))
    (update_settings_file settings_dir dry_run updates filename).
Proof.
  unfold update_settings_file. cbv zeta. repeat effect_step.
Qed.

Lemma effect_update_provider_file f dry_run :
  effect (fun e => e = Wrote f) (update_provider_file f dry_run).
Proof.
  unfold update_provider_file. cbv zeta. repeat effect_step.
Qed.

Lemma get_provider_files_post w l w' :
  get_provider_files w = (Return l, w') ->
  forall f, f ∈ l ->
    f <> [] /\ parent f = LIB_DIR ++ ["providers"]
    /\ name_ends_with ".dart" (name f) = true
    /\ name_ends_with ".g.dart" (name f) = false.
Proof.
  unfold get_provider_files. cbv zeta. rewrite bind_run.
  unfold glob_dart at 1. cbv beta iota. rewrite ret_run.
  intros [= <- _] f Hf.
  apply sorted_elem, list_elem_of_In, filter_In in Hf as [Hf Hkeep].
  apply filter_In in Hf as [_ Hf].
  apply andb_true_iff in Hf as [Hf Hdart]. apply andb_true_iff in Hf as [Hf1 Hf2].
  apply negb_true_iff, bool_decide_eq_false_1 in Hf1.
  apply bool_decide_eq_true_1 in Hf2.
  apply andb_true_iff in Hkeep as [Hgen _]. apply negb_true_iff in Hgen.
  by split_and!.
Qed.

Lemma effect_second_updates dry_run : effect second_event (second_updates dry_run).
Proof.
  unfold second_updates.
  apply effect_seq.
  { unfold update_organization_provider. cbv zeta.
    destruct dry_run; [apply effect_ret|].
    apply effect_seq; [|apply effect_ret].
    eapply effect_mono; [|apply effect_write_text].
    intros e ->. right. eexists. split; [done|]. by left. }
  apply effect_bind; [|intros settings_updates].
  { unfold update_settings_models. cbv zeta.
    apply effect_for_fold. intros updates f Hf.
    eapply effect_mono; [|apply effect_update_settings_file].
    intros e ->. right. eexists. split; [done|]. right. left. eauto. }
  eapply effect_bind_post;
    [apply effect_readonly, readonly_get_provider_files
    | intros w l w' Hrun; exact (get_provider_files_post w l w' Hrun)
    | intros l Hl; cbv beta].
  apply effect_bind; [|intros provider_updates].
  { apply effect_for_fold. intros updates f Hf.
    apply effect_bind; [|intros r; apply effect_ret].
    eapply effect_mono; [|apply effect_update_provider_file].
    intros e ->. right. eexists. split; [done|]. right. right. left. by apply Hl. }
  unfold create_org_aware_database_service_helper. cbv beta iota zeta.
  apply effect_seq; [|apply effect_ret].
  apply effect_when, effect_seq.
  - eapply effect_mono; [|apply effect_mkdir_parents]. intros e He. by left.
  - eapply effect_mono; [|apply effect_write_text].
    intros e ->. right. eexists. split; [done|]. by do 3 right.
Qed.

(** The backup of the second script comes before its writes to the
    providers directory. *)
Lemma second_backup_before_write a timestamp w p c :
  arg_apply a = true -> arg_skip_backup a = false ->
  files (fs w) !! p = Some c ->
  p <> [] -> parent p = LIB_DIR ++ ["providers"] ->
  Wrote p ∈ events_of (main a timestamp) w ->
  exists rest evs1 evs2,
    events_of (main a timestamp) w
    = evs1 ++ Copied p ((BACKUP_DIR ++ [timestamp]) ++ rest) :: evs2
    /\ (forall q, Wrote q ∉ evs1)
    /\ files (fs (snd (main a timestamp w))) !! ((BACKUP_DIR ++ [timestamp]) ++ rest)
       = Some c.
Proof.
  intros Happly Hskip Hp Hne Hparent.
  rewrite main_second_unfold, Happly, Hskip. cbn [negb andb].
  destruct (negb _).
  { intros Hw. rewrite (events_of_app _ _ []) in Hw; [|by rewrite app_nil_r].
    by apply not_elem_of_nil in Hw. }
  set (rest_of_main := fun e : bool => if negb e then sys_exit 1 else _).
  assert (Hlib : bind (path_exists LIB_DIR) rest_of_main w
                 = rest_of_main (is_file (fs w) LIB_DIR || is_dir (fs w) LIB_DIR) w)
    by reflexivity.
  unfold events_of. rewrite Hlib. unfold rest_of_main. clear Hlib rest_of_main.
  destruct (negb _).
  { cbn [snd sys_exit raise]. rewrite drop_all. intros Hw. by apply not_elem_of_nil in Hw. }
  cbn [when]. rewrite !seq_run.
  destruct (create_backup timestamp w) as [[bp|e] w1] eqn:Hb.
  2:{ cbn [snd]. intros Hw.
      destruct (effect_run _ _ _ _ _ (second_backup_effect timestamp) Hb)
        as (eb & Htb & Hpb & _).
      rewrite Htb, drop_app_length in Hw.
      exfalso. exact (backup_event_not_wrote _ _ _ Hpb Hw). }
  rewrite ret_run.
  destruct (effect_run _ _ _ _ _ (second_backup_effect timestamp) Hb)
    as (eb & Htb & Hpb & Hfb).
  destruct (second_backup_copies _ _ _ _ Hb) as (eb' & Htb' & Hcopies).
  assert (eb' = eb) as -> by (rewrite Htb in Htb'; by apply app_inv_head in Htb').
  destruct (effect_second_updates (arg_dry_run a) w1) as (eu & Htu & Hpu & Hfu).
  rewrite Htu, Htb, <- app_assoc, drop_app_length.
  intros Hw. apply elem_of_app in Hw as [Hw | Hw].
  { exfalso. exact (backup_event_not_wrote _ _ _ Hpb Hw). }
  assert (Hcase : p = LIB_DIR ++ ["providers"; "organization_provider.dart"]
                  \/ (name_ends_with ".dart" (name p) = true
                      /\ name_ends_with ".g.dart" (name p) = false)).
  { pose proof (proj1 (Forall_forall _ _) Hpu _ Hw) as [[d Hd] | (q & [= <-] & Hq)];
      [discriminate|].
    destruct Hq as [-> | [(f & Hf & ->) | [(_ & _ & Hd & Hg) | ->]]].
    - by left.
    - rewrite parent_last in Hparent. discriminate.
    - by right.
    - discriminate. }
  destruct (Hcopies p c Hp) as (rest & Hev & Hc).
  { destruct Hcase as [-> | [Hd Hg]]; [right; by left | by do 2 right]. }
  apply list_elem_of_split in Hev as (l1 & l2 & ->).
  exists rest, l1, (l2 ++ eu). split_and!.
  - by rewrite <- app_assoc.
  - intros q. apply (backup_event_not_wrote (BACKUP_DIR ++ [timestamp])).
    by apply Forall_app in Hpb as [? _].
  - rewrite Hfu; [done|]. intros e He Ht.
    pose proof (proj1 (Forall_forall _ _) Hpu _ He) as [[d ->] | (q & -> & Hq)].
    + destruct Ht as [Ht | [src Ht]]; discriminate.
    + destruct Ht as [Ht | [src Ht]]; [|discriminate]. injection Ht as ->.
      destruct Hq as [Hq | [(f & Hf & Hq) | [(Hq1 & Hq2 & _) | Hq]]];
        discriminate.
Qed.

End SecondOrdering.

(** ** Backup before write *)

Section BackupBeforeWrite.
Context `{UnicodeTable}.

(** C1, as the code has it.  In an apply run without [--skip-backup], a
    file that existed before the run and that the first script writes, and
    a file of [lib/providers] that existed before the run and that the
    second script writes, is copied into the backup directory of the run
    before the first write of the run, and at the end of the run the copy
    still holds the text that the file had before the run.  (The third
    script makes no backup, and the backup of the second script leaves out
    the settings models.) *)
Theorem backup_precedes_writes :
  (forall a timestamp w p c,
      MigrateToSaas.arg_apply a = true ->
      MigrateToSaas.arg_skip_backup a = false ->
      files (fs w) !! p = Some c ->
      Wrote p ∈ events_of (MigrateToSaas.main a timestamp) w ->
      exists rest evs1 evs2,
        events_of (MigrateToSaas.main a timestamp) w
        = evs1 ++ Copied p ((MigrateToSaas.BACKUP_DIR ++ [timestamp]) ++ rest) :: evs2
        /\ (forall q, Wrote q ∉ evs1)
        /\ files (fs (snd (MigrateToSaas.main a timestamp w)))
             !! ((MigrateToSaas.BACKUP_DIR ++ [timestamp]) ++ rest)
           = Some c)
  /\ (forall a timestamp w p c,
        Phase2.arg_apply a = true ->
        Phase2.arg_skip_backup a = false ->
        files (fs w) !! p = Some c ->
        p <> [] -> parent p = Phase2.LIB_DIR ++ ["providers"] ->
        Wrote p ∈ events_of (Phase2.main a timestamp) w ->
        exists rest evs1 evs2,
          events_of (Phase2.main a timestamp) w
          = evs1 ++ Copied p ((Phase2.BACKUP_DIR ++ [timestamp]) ++ rest) :: evs2
          /\ (forall q, Wrote q ∉ evs1)
          /\ files (fs (snd (Phase2.main a timestamp w)))
               !! ((Phase2.BACKUP_DIR ++ [timestamp]) ++ rest)
             = Some c).
Proof.
  split.
  - intros a timestamp w p c. apply first_backup_before_write.
  - intros a timestamp w p c. apply second_backup_before_write.
Qed.

End BackupBeforeWrite.

(** ** The claims on sample projects *)

Section SampleRuns.
Import MigrateToSaas.


Lemma guard_precedes_matcher_witness :
  files (fs migrated_model) !! order_model
  = Some (txt "factory Foo({String? organizationId,}) = _Foo;")
  /\ has_organization_id (txt "factory Foo({String? organizationId,}) = _Foo;") = true
  /\ @add_organization_id_to_model ascii_table order_model new_report false migrated_model
     = (Return (false,
                add_warning new_report
                  (name order_model +:+ ": Already has organizationId, skipping")),
        migrated_model).
Proof.
  assert (Hf : files (fs migrated_model) !! order_model
               = Some (txt "factory Foo({String? organizationId,}) = _Foo;"))
    by (vm_compute; reflexivity).
  assert (Hg : has_organization_id
                 (txt "factory Foo({String? organizationId,}) = _Foo;") = true)
    by (vm_compute; reflexivity).
  split_and!; [exact Hf | exact Hg |].
  exact (proj1 (@guard_precedes_matcher ascii_table) _ _ _ _ _ Hf Hg).
Defined.


Lemma applied_rule_changes_text_witness :
  let r := @add_organization_id_to_model ascii_table order_model new_report false one_model in
  r = (Return (true, add_model_update new_report "order_model.dart"
                       "Added organizationId field"),
       snd r)
  /\ exists content content',
       files (fs one_model) !! order_model = Some content
       /\ has_organization_id content = false
       /\ @factory_rule ascii_table content = Some content'
       /\ content' <> content
       /\ (false = false -> files (fs (snd r)) !! order_model = Some content')
       /\ (false = true -> snd r = one_model).
Proof.
  cbv zeta.
  assert (Hrun :
    @add_organization_id_to_model ascii_table order_model new_report false one_model
    = (Return (true, add_model_update new_report "order_model.dart"
                       "Added organizationId field"),
       snd (@add_organization_id_to_model ascii_table order_model new_report false
              one_model))).
  { rewrite (surjective_pairing (add_organization_id_to_model _ _ _ _)) at 1.
    f_equal; vm_compute; reflexivity. }
  split; [exact Hrun|].
  exact (proj1 (@applied_rule_changes_text ascii_table) _ _ _ _ _ _ Hrun).
Defined.

(** C4 as stated fails for [update_provider_file] of the second script:
    on a provider that imports the organization provider already, the
    apply mode reports the file as updated, with no change counted, and
    writes back the text that it read. *)
Lemma unchanged_provider_reported_as_updated :
  let r := @Phase2.update_provider_file ascii_table sizes_provider false wired_provider in
  fst r = Return (true, 0%nat)
  /\ trace (snd r) = [Wrote sizes_provider]
  /\ files (fs (snd r)) !! sizes_provider = files (fs wired_provider) !! sizes_provider.
Proof. vm_compute. auto. Qed.






Lemma backup_precedes_writes_witness :
  let a := {| arg_dry_run := false; arg_apply := true; arg_report := false;
              arg_skip_backup := false |} in
  files (fs one_model) !! order_model = Some (txt "factory Foo({String? a,}) = _Foo;")
  /\ Wrote order_model ∈ events_of (@main ascii_table a "20240101_120000") one_model
  /\ exists rest evs1 evs2,
       events_of (@main ascii_table a "20240101_120000") one_model
       = evs1 ++ Copied order_model ((BACKUP_DIR ++ ["20240101_120000"]) ++ rest) :: evs2
       /\ (forall q, Wrote q ∉ evs1)
       /\ files (fs (snd (@main ascii_table a "20240101_120000" one_model)))
            !! ((BACKUP_DIR ++ ["20240101_120000"]) ++ rest)
          = Some (txt "factory Foo({String? a,}) = _Foo;").
Proof.
  cbv zeta.
  assert (Hf : files (fs one_model) !! order_model
               = Some (txt "factory Foo({String? a,}) = _Foo;"))
    by (vm_compute; reflexivity).
  assert (Hw : Wrote order_model
               ∈ events_of
                   (@main ascii_table
                      {| arg_dry_run := false; arg_apply := true; arg_report := false;
                         arg_skip_backup := false |} "20240101_120000")
                   one_model).
  { apply list_elem_of_In. vm_compute.
    repeat first [left; reflexivity | right]. }
  split_and!; [exact Hf | exact Hw |].
  exact (proj1 (@backup_precedes_writes ascii_table)
           {| arg_dry_run := false; arg_apply := true; arg_report := false;
              arg_skip_backup := false |}
           "20240101_120000" one_model order_model _ eq_refl eq_refl Hf Hw).
Defined.

(** C1 as stated fails for the third script, which makes no backup: in
    apply mode it rewrites the provider, the write is the only event of
    the run, and after the run no file holds the text that the provider
    had before. *)
Lemma wire_writes_without_backup :
  let a := {| Wire.arg_dry_run := false; Wire.arg_apply := true |} in
  let w' := snd (@Wire.main ascii_table a unwired_provider) in
  trace w' = [Wrote sizes_provider]
  /\ files (fs w') !! sizes_provider <> files (fs unwired_provider) !! sizes_provider
  /\ forallb
       (fun e => negb (bool_decide (Some e.2 = files (fs unwired_provider) !! sizes_provider)))
       (map_to_list (files (fs w')))
     = true.
Proof.
  cbv zeta. split_and!.
  - vm_compute. reflexivity.
  - intros Heq. apply (f_equal (fmap (M := option) length)) in Heq.
    vm_compute in Heq. discriminate.
  - vm_compute. reflexivity.
Qed.


End SampleRuns.

(** * Further properties of the scripts *)

(** ** The report of the first script *)

Section ReportFacts.
Context `{UnicodeTable}.
Import MigrateToSaas.

Lemma extends_refl r : extends r r.
Proof. by split_and!. Qed.

Lemma extends_trans r1 r2 r3 : extends r1 r2 -> extends r2 r3 -> extends r1 r3.
Proof.
  intros (? & ? & ? & ?) (? & ? & ? & ?).
  split_and!; by etrans.
Qed.

Lemma extends_add_warning r msg : extends r (add_warning r msg).
Proof. split_and!; try done. by apply prefix_app_r. Qed.

Lemma extends_add_error r msg : extends r (add_error r msg).
Proof. split_and!; try done. by apply prefix_app_r. Qed.

Lemma extends_add_model_update r f c : extends r (add_model_update r f c).
Proof. split_and!; try done. by apply prefix_app_r. Qed.

Lemma extends_add_service_update r f c : extends r (add_service_update r f c).
Proof. split_and!; try done. by apply prefix_app_r. Qed.

(** A loop whose rounds keep a preorder between the accumulator they get
    and the one they return keeps it as a whole. *)
Lemma for_fold_related {A St} (R : St -> St -> Prop) (xs : list A)
    (body : St -> A -> M St) :
  (forall s, R s s) ->
  (forall s1 s2 s3, R s1 s2 -> R s2 s3 -> R s1 s3) ->
  (forall s x w s' w', x ∈ xs -> body s x w = (Return s', w') -> R s s') ->
  forall acc w acc' w',
    for_fold xs body acc w = (Return acc', w') -> R acc acc'.
Proof.
  intros Hrefl Htrans. induction xs as [|x xs IH]; intros Hbody acc w acc' w'; cbn [for_fold].
  - intros [= <- _]. apply Hrefl.
  - rewrite bind_run. destruct (body acc x w) as [[s1|e] w1] eqn:Hstep; [|discriminate].
    intros Hloop. apply (Htrans _ s1).
    + eapply Hbody; [left | exact Hstep].
    + eapply IH; [|exact Hloop]. intros s y w2 s' w2' Hy. apply Hbody. by right.
Qed.

(** A loop whose rounds each add one to a measure of the accumulator adds
    the number of its rounds. *)
Lemma for_fold_counts {A St} (f : St -> nat) (xs : list A) (body : St -> A -> M St) :
  (forall s x w s' w', body s x w = (Return s', w') -> f s' = S (f s)) ->
  forall acc w acc' w',
    for_fold xs body acc w = (Return acc', w') -> f acc' = (f acc + length xs)%nat.
Proof.
  intros Hbody. induction xs as [|x xs IH]; intros acc w acc' w'; cbn [for_fold length].
  - intros [= <- _]. lia.
  - rewrite bind_run. destruct (body acc x w) as [[s1|e] w1] eqn:Hstep; [|discriminate].
    intros Hloop. apply IH in Hloop. apply Hbody in Hstep. lia.
Qed.

(** A call of [add_organization_id_to_model] that returns has added one
    entry: a warning when it returns [False], a model update for the file
    when it returns [True]. *)
Lemma add_organization_id_to_model_report p report dry_run w b report' w' :
  add_organization_id_to_model p report dry_run w = (Return (b, report'), w') ->
  (b = false /\ exists msg, report' = add_warning report msg)
  \/ (b = true /\ exists change, report' = add_model_update report (name p) change).
Proof.
  destruct (files (fs w) !! p) as [content|] eqn:Hf.
  - rewrite (add_organization_id_to_model_run _ _ _ _ _ Hf).
    destruct (has_organization_id content); [intros [= <- <- _]; left; eauto|].
    destruct (re_search factory_pattern content); [|intros [= <- <- _]; left; eauto].
    destruct dry_run; [intros [= <- <- _]; right; eauto|].
    destruct (create_error (fs w) p); [discriminate|].
    intros [= <- <- _]; right; eauto.
  - unfold add_organization_id_to_model. rewrite bind_run.
    unfold path_exists. cbv beta iota.
    destruct (negb _); [rewrite ret_run; intros [= <- <- _]; left; eauto|].
    rewrite bind_run. unfold read_text. rewrite Hf. discriminate.
Qed.

(** The loop over the tables leaves the other three lists as they are and
    appends one service update for each pattern that it counts. *)
Lemma mark_tables_report content report :
  model_updates (fst (mark_tables content report)) = model_updates report
  /\ errors (fst (mark_tables content report)) = errors report
  /\ warnings (fst (mark_tables content report)) = warnings report
  /\ exists l,
       service_updates (fst (mark_tables content report)) = service_updates report ++ l
       /\ length l = snd (mark_tables content report)
       /\ (snd (mark_tables content report) <= 3 * length ORG_TABLES)%nat.
Proof.
  unfold mark_tables.
  assert (Hgen : forall ts acc l0,
    model_updates (fst acc) = model_updates report ->
    errors (fst acc) = errors report ->
    warnings (fst acc) = warnings report ->
    service_updates (fst acc) = service_updates report ++ l0 ->
    length l0 = snd acc ->
    let res :=
      fold_left
        (fun acc table =>
           fold_left
             (fun '(report, updates_count) pattern =>
                match re_search pattern content with
                | Some _ =>
                    (add_service_update report table "Marked for organization filtering",
                     S updates_count)
                | None => (report, updates_count)
                end)
             (patterns table) acc)
        ts acc in
    model_updates (fst res) = model_updates report
    /\ errors (fst res) = errors report
    /\ warnings (fst res) = warnings report
    /\ exists l,
         service_updates (fst res) = service_updates report ++ l
         /\ length l = snd res
         /\ (snd res <= snd acc + 3 * length ts)%nat).
  { induction ts as [|t ts IH]; intros [r n] l0 Hm He Hw Hs Hl; cbn [fold_left].
    - cbv zeta. split_and!; try done. exists l0. cbn [length snd] in *.
      split_and!; [done | done | lia].
    - cbv zeta.
      assert (Hin : forall ps acc l0,
        model_updates (fst acc) = model_updates report ->
        errors (fst acc) = errors report ->
        warnings (fst acc) = warnings report ->
        service_updates (fst acc) = service_updates report ++ l0 ->
        length l0 = snd acc ->
        let res :=
          fold_left
            (fun '(report, updates_count) pattern =>
               match re_search pattern content with
               | Some _ =>
                   (add_service_update report t "Marked for organization filtering",
                    S updates_count)
               | None => (report, updates_count)
               end)
            ps acc in
        model_updates (fst res) = model_updates report
        /\ errors (fst res) = errors report
        /\ warnings (fst res) = warnings report
        /\ exists l,
             service_updates (fst res) = service_updates report ++ l
             /\ length l = snd res
             /\ (snd res <= snd acc + length ps)%nat).
      { clear. induction ps as [|p ps IHp]; intros [r n] l0 Hm He Hw Hs Hl; cbn [fold_left].
        - cbv zeta. split_and!; try done. exists l0. cbn [length snd] in *.
          split_and!; [done | done | lia].
        - destruct (re_search p content).
          + cbn [fst snd] in *.
            destruct (IHp (add_service_update r t "Marked for organization filtering", S n)
                        (l0 ++ [t +:+ ": " +:+ "Marked for organization filtering"]))
              as (Hm' & He' & Hw' & l & Hs' & Hl' & Hn'); cbn [fst snd]; try done.
            * cbn [service_updates add_service_update]. by rewrite Hs, <- app_assoc.
            * rewrite length_app. cbn [length]. lia.
            * cbv zeta. split_and!; try done. exists l.
              cbn [snd length] in *. split_and!; [done | done | lia].
          + destruct (IHp (r, n) l0) as (Hm' & He' & Hw' & l & Hs' & Hl' & Hn'); try done.
            cbv zeta. split_and!; try done. exists l.
            cbn [snd length] in *. split_and!; [done | done | lia]. }
      destruct (Hin (patterns t) (r, n) l0 Hm He Hw Hs Hl) as (Hm1 & He1 & Hw1 & l1 & Hs1 & Hl1 & Hn1).
      destruct (IH _ l1 Hm1 He1 Hw1 Hs1 Hl1) as (Hm2 & He2 & Hw2 & l2 & Hs2 & Hl2 & Hn2).
      split_and!; try done. exists l2. split_and!; [done | done |].
      cbn [patterns length snd] in *. lia. }
  destruct (Hgen ORG_TABLES (report, 0%nat) []) as (Hm & He & Hw & l & Hs & Hl & Hn);
    cbn [fst snd length]; try done.
  - by rewrite app_nil_r.
  - split_and!; try done. exists l. cbn [snd] in Hn. split_and!; [done | done | lia].
Qed.

End ReportFacts.

(** ** The remaining updates of the first script *)

Section FirstScriptUpdates.
Context `{UnicodeTable}.
Import MigrateToSaas.

(** A literal matches where the text starts with it. *)
Lemma match_here_literal (x : list N) marks prev pos t :
  match_here (map (fun c => One (Is c)) x) marks prev pos t
  = if starts_with x t then Some ((pos + length x)%nat, rev marks) else None.
Proof.
  revert prev pos t. induction x as [|a x IH]; intros prev pos t.
  - cbn. by rewrite Nat.add_0_r.
  - cbn [map match_here starts_with length]. destruct t as [|c t]; [done|].
    cbn [in_cls]. rewrite (N.eqb_sym a c).
    destruct (c =? a)%N; [|done]. cbn [andb]. rewrite IH.
    by rewrite Nat.add_succ_r.
Qed.

(** A line anchor followed by a literal. *)
Lemma match_here_bol_literal (s : string) prev pos t :
  match_here ([Bol] ++ lit s) [] prev pos t
  = if at_bol prev && starts_with (txt s) t
    then Some ((pos + length (txt s))%nat, []) else None.
Proof.
  cbn [app match_here]. unfold lit. rewrite match_here_literal.
  by destruct (at_bol prev), (starts_with (txt s) t).
Qed.

Lemma at_bol_line_start (content : list N) (k : nat) :
  (k <= length content)%nat ->
  at_bol (prev_of None content k) = true <-> line_start content k.
Proof.
  intros Hk. unfold line_start. destruct k as [|j]; cbn [prev_of at_bol].
  - split; [by left | done].
  - replace (S j - 1)%nat with j by lia.
    destruct (content !! j) as [c|] eqn:Hc.
    + cbn. rewrite N.eqb_eq. split.
      * intros ->. by right.
      * intros [? | [= ->]]; [lia | done].
    + apply lookup_ge_None in Hc. lia.
Qed.

(** The leftmost line that starts with a literal. *)
Lemma re_search_bol_literal (s : string) content m :
  re_search ([Bol] ++ lit s) content = Some m ->
  (m_start m <= length content)%nat
  /\ line_start content (m_start m)
  /\ starts_with (txt s) (drop (m_start m) content) = true
  /\ forall j, (j < m_start m)%nat -> line_start content j ->
       starts_with (txt s) (drop j content) = false.
Proof.
  intros Hm. apply re_search_inv in Hm as (Hk & Hhere & Hleft).
  rewrite match_here_bol_literal in Hhere.
  destruct (at_bol _) eqn:Hb; [|discriminate].
  destruct (starts_with _ _) eqn:Hs; [|discriminate].
  split_and!; [done | by apply at_bol_line_start | done |].
  intros j Hj Hl. specialize (Hleft j Hj).
  rewrite match_here_bol_literal in Hleft.
  apply at_bol_line_start in Hl; [|lia]. rewrite Hl in Hleft.
  cbn [andb] in Hleft. by destruct (starts_with (txt s) (drop j content)).
Qed.

(** The count of [mark_tables] does not depend on the report. *)
Lemma mark_tables_count content r1 r2 :
  snd (mark_tables content r1) = snd (mark_tables content r2).
Proof.
  unfold mark_tables.
  assert (Hgen : forall ts (acc1 acc2 : MigrationReport * nat),
    snd acc1 = snd acc2 ->
    snd (fold_left
           (fun acc table =>
              fold_left
                (fun '(report, updates_count) pattern =>
                   match re_search pattern content with
                   | Some _ =>
                       (add_service_update report table "Marked for organization filtering",
                        S updates_count)
                   | None => (report, updates_count)
                   end)
                (patterns table) acc)
           ts acc1)
    = snd (fold_left
             (fun acc table =>
                fold_left
                  (fun '(report, updates_count) pattern =>
                     match re_search pattern content with
                     | Some _ =>
                         (add_service_update report table "Marked for organization filtering",
                          S updates_count)
                     | None => (report, updates_count)
                     end)
                  (patterns table) acc)
             ts acc2)).
  { induction ts as [|t ts IH]; intros acc1 acc2 Hacc; cbn [fold_left]; [done|].
    apply IH. revert acc1 acc2 Hacc.
    induction (patterns t) as [|p ps IHp]; intros [a1 n1] [a2 n2] Hacc; cbn [fold_left];
      [done|].
    cbn [snd] in Hacc. subst n2.
    destruct (re_search p content); by apply IHp. }
  by apply Hgen.
Qed.

(** What [update_database_service] does with a file that exists. *)
Lemma update_database_service_run report dry_run w content :
  files (fs w) !! DATABASE_SERVICE = Some content ->
  update_database_service report dry_run w =
  let report1 := fst (mark_tables content report) in
  let n := snd (mark_tables content report) in
  if (0 <? n)%nat && negb dry_run then
    if negb (str_in (txt "SAAS MIGRATION") content) then
      match re_search class_pattern content with
      | Some m =>
          match create_error (fs w) DATABASE_SERVICE with
          | Some e => (Raise e, w)
          | None =>
              (Return (n, add_service_update report1 "DatabaseService"
                            "Added migration TODO header"),
               store DATABASE_SERVICE (splice content todo_header (m_start m))
                 (Wrote DATABASE_SERVICE) w)
          end
      | None => (Return (n, report1), w)
      end
    else (Return (n, report1), w)
  else (Return (n, report1), w).
Proof.
  intros Hf. unfold update_database_service.
  rewrite bind_run, (path_exists_file _ _ _ Hf). cbv beta iota. unfold negb at 1.
  rewrite bind_run, (read_text_file _ _ _ Hf). cbv beta iota zeta.
  destruct (mark_tables content report) as [report1 n]. cbn [fst snd].
  destruct ((0 <? n)%nat && negb dry_run); [|reflexivity].
  destruct (negb (str_in _ content)); [|reflexivity].
  destruct (re_search class_pattern content) as [m|]; [|reflexivity].
  rewrite seq_run. unfold write_text.
  destruct (create_error (fs w) DATABASE_SERVICE); [reflexivity|].
  by rewrite ret_run.
Qed.

Lemma todo_header_marked : str_in (txt "SAAS MIGRATION") todo_header = true.
Proof. vm_compute. reflexivity. Qed.

(** A call that finds no file; a directory in its place makes the read
    raise. *)
Lemma update_database_service_no_file report dry_run w :
  files (fs w) !! DATABASE_SERVICE = None ->
  update_database_service report dry_run w
  = if is_dir (fs w) DATABASE_SERVICE then (Raise IsADirectoryError, w)
    else (Return (0%nat,
                  add_error report
                    ("DatabaseService not found at " +:+ path_str DATABASE_SERVICE)),
          w).
Proof.
  intros Hf. unfold update_database_service. rewrite bind_run.
  unfold path_exists, is_file. rewrite Hf.
  rewrite bool_decide_eq_false_2 by (intros [? ?]; discriminate). cbn [orb].
  destruct (is_dir (fs w) DATABASE_SERVICE) eqn:Hd; cbv beta iota; unfold negb.
  - rewrite bind_run. unfold read_text, open_error. by rewrite Hf, Hd.
  - by rewrite ret_run.
Qed.

(** A world on whose database service a call writes nothing. *)
Lemma update_database_service_idle report dry_run w :
  match files (fs w) !! DATABASE_SERVICE with
  | Some content =>
      (0 <? snd (mark_tables content report))%nat = false
      \/ str_in (txt "SAAS MIGRATION") content = true
      \/ re_search class_pattern content = None
  | None => True
  end ->
  snd (update_database_service report dry_run w) = w.
Proof.
  destruct (files (fs w) !! DATABASE_SERVICE) as [content|] eqn:Hf.
  - rewrite (update_database_service_run _ _ _ _ Hf). cbv zeta.
    intros [-> | [-> | ->]]; cbn [andb negb].
    + done.
    + by destruct (_ && _).
    + destruct (_ && _); [|done]. by destruct (negb _).
  - intros _. rewrite (update_database_service_no_file _ _ _ Hf).
    by destruct (is_dir _ _).
Qed.

(** X1: the comment block of [update_database_service] of the first
    script.  An apply call that returns has either left the world as it
    was or put the block in front of the leftmost line that starts with
    [class DatabaseService], in a text that had no [SAAS MIGRATION] in it,
    and changed no other file; after it, no further call, preview or
    apply, changes anything: the block is put in once. *)
Theorem todo_header_is_put_in_once :
  forall report w n report' w',
    update_database_service report false w = (Return (n, report'), w') ->
    (w' = w
     \/ exists content k,
          files (fs w) !! DATABASE_SERVICE = Some content
          /\ str_in (txt "SAAS MIGRATION") content = false
          /\ (k <= length content)%nat
          /\ line_start content k
          /\ starts_with (txt "class DatabaseService") (drop k content) = true
          /\ (forall j, (j < k)%nat -> line_start content j ->
                starts_with (txt "class DatabaseService") (drop j content) = false)
          /\ files (fs w') !! DATABASE_SERVICE = Some (splice content todo_header k)
          /\ (forall q, q <> DATABASE_SERVICE -> files (fs w') !! q = files (fs w) !! q))
    /\ forall report2 dry_run,
         snd (update_database_service report2 dry_run w') = w'.
Proof.
  intros report w n report' w'.
  destruct (files (fs w) !! DATABASE_SERVICE) as [content|] eqn:Hf.
  - rewrite (update_database_service_run _ _ _ _ Hf). cbv zeta.
    destruct (0 <? snd (mark_tables content report))%nat eqn:Hn; cbn [andb negb].
    2:{ intros [= _ _ <-]. split; [by left|]. intros report2 dry_run.
        apply update_database_service_idle. rewrite Hf. left.
        by rewrite (mark_tables_count content report2 report). }
    destruct (str_in (txt "SAAS MIGRATION") content) eqn:Hmark; cbn [negb].
    { intros [= _ _ <-]. split; [by left|]. intros report2 dry_run.
      apply update_database_service_idle. rewrite Hf. right. by left. }
    destruct (re_search class_pattern content) as [m|] eqn:Hm.
    2:{ intros [= _ _ <-]. split; [by left|]. intros report2 dry_run.
        apply update_database_service_idle. rewrite Hf. right. by right. }
    destruct (create_error (fs w) DATABASE_SERVICE); [discriminate|].
    intros [= _ _ <-].
    apply re_search_bol_literal in Hm as (Hk & Hline & Hstart & Hleft).
    split.
    + right. exists content, (m_start m). split_and!; try done.
      * apply store_lookup.
      * intros q Hq. by apply store_lookup_ne.
    + intros report2 dry_run. apply update_database_service_idle.
      rewrite store_lookup. right. left. apply str_in_middle, todo_header_marked.
  - rewrite (update_database_service_no_file _ _ _ Hf).
    destruct (is_dir (fs w) DATABASE_SERVICE); [discriminate|].
    intros [= _ _ <-]. split; [by left|]. intros report2 dry_run.
    apply update_database_service_idle. by rewrite Hf.
Qed.


(** What [create_organization_provider] does where something exists
    already. *)
Lemma create_organization_provider_exists report dry_run w :
  is_file (fs w) (LIB_DIR ++ ["providers"; "organization_provider.dart"])
  || is_dir (fs w) (LIB_DIR ++ ["providers"; "organization_provider.dart"]) = true ->
  create_organization_provider report dry_run w
  = (Return (false, add_warning report "organization_provider.dart already exists"), w).
Proof.
  intros He. unfold create_organization_provider. cbv zeta.
  rewrite bind_run. unfold path_exists. cbv beta iota. by rewrite He.
Qed.

(** X2: [create_organization_provider] of the first script creates the
    provider file and never overwrites one.  Where a file or a directory
    of that name exists, the call returns [False] with a warning and
    changes nothing, in either mode.  An apply call that returns has
    changed no other file and kept the text of a provider file that was
    there; when it returns [True] there was none and the file now holds
    the template.  After it, every further call is the warning. *)
Theorem organization_provider_is_created_once :
  (forall report dry_run w,
      is_file (fs w) (LIB_DIR ++ ["providers"; "organization_provider.dart"])
      || is_dir (fs w) (LIB_DIR ++ ["providers"; "organization_provider.dart"]) = true ->
      create_organization_provider report dry_run w
      = (Return (false, add_warning report "organization_provider.dart already exists"),
         w))
  /\ (forall report w b report' w',
        create_organization_provider report false w = (Return (b, report'), w') ->
        (forall q, q <> LIB_DIR ++ ["providers"; "organization_provider.dart"] ->
           files (fs w') !! q = files (fs w) !! q)
        /\ (forall c,
              files (fs w) !! (LIB_DIR ++ ["providers"; "organization_provider.dart"])
              = Some c ->
              files (fs w') !! (LIB_DIR ++ ["providers"; "organization_provider.dart"])
              = Some c)
        /\ (b = true ->
            files (fs w) !! (LIB_DIR ++ ["providers"; "organization_provider.dart"]) = None
            /\ files (fs w') !! (LIB_DIR ++ ["providers"; "organization_provider.dart"])
               = Some provider_content)
        /\ forall report2 dry_run,
             create_organization_provider report2 dry_run w'
             = (Return (false,
                        add_warning report2 "organization_provider.dart already exists"),
                w')).
Proof.
  split; [apply create_organization_provider_exists|].
  intros report w b report' w'.
  destruct (is_file (fs w) (LIB_DIR ++ ["providers"; "organization_provider.dart"])
            || is_dir (fs w) (LIB_DIR ++ ["providers"; "organization_provider.dart"]))
    eqn:He.
  - rewrite (create_organization_provider_exists _ _ _ He).
    intros [= <- _ <-]. split_and!; try done.
    intros report2 dry_run. by apply create_organization_provider_exists.
  - unfold create_organization_provider. cbv zeta.
    rewrite bind_run. unfold path_exists. cbv beta iota. rewrite He.
    rewrite seq_run. unfold write_text.
    destruct (create_error (fs w) _); [discriminate|].
    rewrite ret_run. intros [= <- _ <-].
    apply orb_false_iff in He as [Hfile _].
    unfold is_file in Hfile. apply bool_decide_eq_false_1 in Hfile.
    assert (Hnone : files (fs w) !! (LIB_DIR ++ ["providers"; "organization_provider.dart"])
                    = None).
    { destruct (files (fs w) !! _) eqn:E; [|done]. exfalso. apply Hfile. eauto. }
    clear Hfile. rename Hnone into Hfile.
    split_and!.
    + intros q Hq. by apply store_lookup_ne.
    + intros c Hc. rewrite Hfile in Hc. discriminate.
    + intros _. split; [done | apply store_lookup].
    + intros report2 dry_run. apply create_organization_provider_exists.
      unfold is_file. rewrite store_lookup.
      by rewrite bool_decide_eq_true_2 by eauto.
Qed.

(** What a call of [create_organization_provider] that returns has added
    to the report. *)
Lemma create_organization_provider_report report dry_run w b report' w' :
  create_organization_provider report dry_run w = (Return (b, report'), w') ->
  (b = false /\ exists msg, report' = add_warning report msg)
  \/ (b = true /\ exists change,
        report' = add_model_update report "organization_provider.dart" change).
Proof.
  unfold create_organization_provider. cbv zeta.
  rewrite bind_run. unfold path_exists. cbv beta iota.
  destruct (_ || _); [rewrite ret_run; intros [= <- <- _]; left; eauto|].
  destruct dry_run; [rewrite ret_run; intros [= <- <- _]; right; eauto|].
  rewrite seq_run. destruct (write_text _ _ w) as [[[]|e] w1]; [|discriminate].
  rewrite ret_run. intros [= <- <- _]; right; eauto.
Qed.

(** What a call of [update_database_service] that returns has added to
    the report: service updates, or the one error. *)
Lemma update_database_service_report report dry_run w n report' w' :
  update_database_service report dry_run w = (Return (n, report'), w') ->
  model_updates report' = model_updates report
  /\ warnings report' = warnings report
  /\ (exists l, service_updates report' = service_updates report ++ l
                /\ (length l <= 3 * length ORG_TABLES + 1)%nat)
  /\ (errors report' = errors report
      \/ errors report'
         = errors report
           ++ ["DatabaseService not found at lib/core/services/database_service.dart"]).
Proof.
  destruct (files (fs w) !! DATABASE_SERVICE) as [content|] eqn:Hf.
  - rewrite (update_database_service_run _ _ _ _ Hf). cbv zeta.
    destruct (mark_tables_report content report) as (Hm & He & Hw & l & Hs & Hl & Hn).
    assert (Hplain :
      (Return (snd (mark_tables content report), fst (mark_tables content report)), w)
      = (Return (n, report'), w') ->
      model_updates report' = model_updates report
      /\ warnings report' = warnings report
      /\ (exists l, service_updates report' = service_updates report ++ l
                    /\ (length l <= 3 * length ORG_TABLES + 1)%nat)
      /\ (errors report' = errors report
          \/ errors report'
             = errors report
               ++ ["DatabaseService not found at lib/core/services/database_service.dart"])).
    { intros [= _ <- _]. split_and!; try done; [|by left].
      exists l. split; [done | lia]. }
    destruct (_ && _); [|exact Hplain].
    destruct (negb _); [|exact Hplain].
    destruct (re_search class_pattern content); [|exact Hplain].
    destruct (create_error _ _); [discriminate|].
    intros [= _ <- _]. cbn [model_updates warnings errors service_updates add_service_update].
    split_and!; try done; [|by left].
    exists (l ++ ["DatabaseService" +:+ ": " +:+ "Added migration TODO header"]).
    rewrite Hs, <- app_assoc, length_app. cbn [length]. split; [done | lia].
  - rewrite (update_database_service_no_file _ _ _ Hf).
    destruct (is_dir _ _); [discriminate|].
    intros [= _ <- _]. cbn [model_updates warnings errors service_updates add_error].
    split_and!; try done.
    + exists []. rewrite app_nil_r. split; [done | cbn [length]; lia].
    + by right.
Qed.

(** X3: the report of the first script is append-only.  Every operation
    that takes the report returns one that holds the entries it was given,
    in their order, followed by those it added. *)
Theorem report_is_append_only :
  (forall p report dry_run w b report' w',
      add_organization_id_to_model p report dry_run w = (Return (b, report'), w') ->
      extends report report')
  /\ (forall report dry_run w n report' w',
        update_database_service report dry_run w = (Return (n, report'), w') ->
        extends report report')
  /\ (forall report dry_run w b report' w',
        create_organization_provider report dry_run w = (Return (b, report'), w') ->
        extends report report')
  /\ (forall dry_run report w report' w',
        model_batch dry_run report w = (Return report', w') ->
        extends report report').
Proof.
  assert (H1 : forall p report dry_run w b report' w',
    add_organization_id_to_model p report dry_run w = (Return (b, report'), w') ->
    extends report report').
  { intros p report dry_run w b report' w' Hrun.
    apply add_organization_id_to_model_report in Hrun
      as [(_ & msg & ->) | (_ & change & ->)].
    - apply extends_add_warning.
    - apply extends_add_model_update. }
  assert (H2 : forall report dry_run w n report' w',
    update_database_service report dry_run w = (Return (n, report'), w') ->
    extends report report').
  { intros report dry_run w n report' w' Hrun.
    apply update_database_service_report in Hrun as (Hm & Hw & (l & Hs & _) & He).
    unfold extends. rewrite Hm, Hw, Hs. split_and!; try done.
    - by apply prefix_app_r.
    - destruct He as [-> | ->]; [done | by apply prefix_app_r]. }
  assert (H3 : forall report dry_run w b report' w',
    create_organization_provider report dry_run w = (Return (b, report'), w') ->
    extends report report').
  { intros report dry_run w b report' w' Hrun.
    apply create_organization_provider_report in Hrun
      as [(_ & msg & ->) | (_ & change & ->)].
    - apply extends_add_warning.
    - apply extends_add_model_update. }
  assert (H4 : forall dry_run report w report' w',
    model_batch dry_run report w = (Return report', w') ->
    extends report report').
  { intros dry_run report w report' w'. unfold model_batch.
    apply for_fold_related; [apply extends_refl | apply extends_trans |].
    intros s x w1 s' w1' _. cbv zeta. rewrite bind_run.
    destruct (add_organization_id_to_model _ _ _ _) as [[[b r1]|e] w2] eqn:Hstep;
      [|discriminate].
    rewrite ret_run. intros [= <- _]. by eapply H1. }
  by split_and!.
Qed.

End FirstScriptUpdates.

(** ** The report of a run of the first script *)

Section FirstScriptReport.
Context `{UnicodeTable}.
Import MigrateToSaas.

(** The report after the updates of a run. *)
Lemma first_updates_report dry_run w report w' :
  first_updates dry_run w = (Return report, w') ->
  (length (model_updates report) + length (warnings report)
   = S (length MODEL_FILES_TO_UPDATE))%nat
  /\ (errors report = []
      \/ errors report
         = ["DatabaseService not found at lib/core/services/database_service.dart"])
  /\ (length (service_updates report) <= 3 * length ORG_TABLES + 1)%nat.
Proof.
  unfold first_updates. rewrite bind_run.
  destruct (model_batch dry_run new_report w) as [[r1|e] w1] eqn:Hb; [|discriminate].
  assert (Hcount : (length (model_updates r1) + length (warnings r1)
                    = length MODEL_FILES_TO_UPDATE)%nat).
  { unfold model_batch in Hb.
    apply (for_fold_counts (fun r => (length (model_updates r) + length (warnings r))%nat))
      in Hb; [exact Hb|].
    intros s x w2 s' w2'. cbv zeta. rewrite bind_run.
    destruct (add_organization_id_to_model _ _ _ _) as [[[b r2]|e] w3] eqn:Hstep;
      [|discriminate].
    rewrite ret_run. intros [= <- _]. cbn [snd].
    apply add_organization_id_to_model_report in Hstep
      as [(_ & msg & ->) | (_ & change & ->)];
      cbn [model_updates warnings add_warning add_model_update];
      rewrite length_app; cbn [length]; lia. }
  assert (Hrest : errors r1 = [] /\ service_updates r1 = []).
  { unfold model_batch in Hb.
    apply (for_fold_related
             (fun r r' => errors r' = errors r /\ service_updates r' = service_updates r))
      in Hb; [exact Hb | done | intros ? ? ? [-> ->] [-> ->]; done |].
    intros s x w2 s' w2' _. cbv zeta. rewrite bind_run.
    destruct (add_organization_id_to_model _ _ _ _) as [[[b r2]|e] w3] eqn:Hstep;
      [|discriminate].
    rewrite ret_run. intros [= <- _]. cbn [snd].
    by apply add_organization_id_to_model_report in Hstep
      as [(_ & msg & ->) | (_ & change & ->)]. }
  destruct Hrest as [He1 Hs1].
  rewrite bind_run.
  destruct (update_database_service r1 dry_run w1) as [[[n r2]|e] w2] eqn:Hd; [|discriminate].
  apply update_database_service_report in Hd as (Hm2 & Hw2 & (l & Hs2 & Hl) & He2).
  rewrite He1 in He2. rewrite Hs1 in Hs2. cbn [app] in He2, Hs2.
  cbv zeta. rewrite bind_run. cbn [snd].
  destruct (create_organization_provider r2 dry_run w2) as [[[b r3]|e] w3] eqn:Hc;
    [|discriminate].
  rewrite ret_run. intros [= <- _]. cbn [snd].
  apply create_organization_provider_report in Hc
    as [(_ & msg & ->) | (_ & change & ->)];
    cbn [model_updates warnings errors service_updates add_warning add_model_update];
    rewrite ?length_app, Hm2, Hw2, Hs2; cbn [length]; split_and!; try done; lia.
Qed.

(** X4: the report of a run of the first script that reaches its summary.
    Whatever the project holds and whatever the mode, there are as many
    model updates and warnings together as listed model files and one
    more (one entry for each model file and one for the provider file),
    the only possible error is the one about a missing
    [database_service.dart], and there are at most three service updates
    for each table and one for the comment block. *)
Theorem report_of_a_run :
  forall a timestamp w report w',
    main a timestamp w = (Return report, w') ->
    (length (model_updates report) + length (warnings report)
     = S (length MODEL_FILES_TO_UPDATE))%nat
    /\ (errors report = []
        \/ errors report
           = ["DatabaseService not found at lib/core/services/database_service.dart"])
    /\ (length (service_updates report) <= 3 * length ORG_TABLES + 1)%nat.
Proof.
  intros a timestamp w report w'. rewrite main_first_unfold.
  destruct (negb _); [discriminate|].
  rewrite bind_run. unfold path_exists at 1. cbv beta iota.
  destruct (negb _); [discriminate|].
  rewrite seq_run.
  destruct (when _ _ w) as [[[]|e] w1]; [|discriminate].
  apply first_updates_report.
Qed.

End FirstScriptReport.

Section FirstScriptSamples.
Import MigrateToSaas.

Lemma todo_header_is_put_in_once_witness :
  let r := @update_database_service ascii_table new_report false service_project in
  r = (Return (1%nat,
               {| model_updates := [];
                  service_updates :=
                    ["menu_items: Marked for organization filtering";
                     "DatabaseService: Added migration TODO header"];
                  errors := [];
                  warnings := [] |}),
       snd r)
  /\ (snd r = service_project
      \/ exists content k,
           files (fs service_project) !! DATABASE_SERVICE = Some content
           /\ str_in (txt "SAAS MIGRATION") content = false
           /\ (k <= length content)%nat
           /\ line_start content k
           /\ starts_with (txt "class DatabaseService") (drop k content) = true
           /\ (forall j, (j < k)%nat -> line_start content j ->
                 starts_with (txt "class DatabaseService") (drop j content) = false)
           /\ files (fs (snd r)) !! DATABASE_SERVICE = Some (splice content todo_header k)
           /\ (forall q, q <> DATABASE_SERVICE ->
                 files (fs (snd r)) !! q = files (fs service_project) !! q))
  /\ forall report2 dry_run,
       snd (@update_database_service ascii_table report2 dry_run (snd r)) = snd r.
Proof.
  cbv zeta.
  assert (Hrun :
    @update_database_service ascii_table new_report false service_project
    = (Return (1%nat,
               {| model_updates := [];
                  service_updates :=
                    ["menu_items: Marked for organization filtering";
                     "DatabaseService: Added migration TODO header"];
                  errors := [];
                  warnings := [] |}),
       snd (@update_database_service ascii_table new_report false service_project))).
  { rewrite (surjective_pairing (update_database_service _ _ _)) at 1.
    f_equal; vm_compute; reflexivity. }
  split; [exact Hrun|].
  exact (@todo_header_is_put_in_once ascii_table _ _ _ _ _ Hrun).
Defined.

Lemma organization_provider_is_created_once_witness :
  let r := create_organization_provider new_report false one_model in
  r = (Return (true,
               add_model_update new_report "organization_provider.dart"
                 "Created new organization provider"),
       snd r)
  /\ files (fs (snd r)) !! (LIB_DIR ++ ["providers"; "organization_provider.dart"])
     = Some provider_content
  /\ forall report2 dry_run,
       create_organization_provider report2 dry_run (snd r)
       = (Return (false, add_warning report2 "organization_provider.dart already exists"),
          snd r).
Proof.
  cbv zeta.
  assert (Hrun :
    create_organization_provider new_report false one_model
    = (Return (true,
               add_model_update new_report "organization_provider.dart"
                 "Created new organization provider"),
       snd (create_organization_provider new_report false one_model))).
  { rewrite (surjective_pairing (create_organization_provider _ _ _)) at 1.
    f_equal; vm_compute; reflexivity. }
  split; [exact Hrun|].
  destruct (proj2 organization_provider_is_created_once _ _ _ _ _ Hrun)
    as (_ & _ & Hnew & Hagain).
  split; [exact (proj2 (Hnew eq_refl)) | exact Hagain].
Defined.

Lemma report_is_append_only_witness :
  let report := add_error new_report "earlier" in
  let r := @add_organization_id_to_model ascii_table order_model report false one_model in
  r = (Return (true, add_model_update report "order_model.dart" "Added organizationId field"),
       snd r)
  /\ extends report
       (add_model_update report "order_model.dart" "Added organizationId field").
Proof.
  cbv zeta.
  assert (Hrun :
    @add_organization_id_to_model ascii_table order_model (add_error new_report "earlier")
      false one_model
    = (Return (true,
               add_model_update (add_error new_report "earlier") "order_model.dart"
                 "Added organizationId field"),
       snd (@add_organization_id_to_model ascii_table order_model
              (add_error new_report "earlier") false one_model))).
  { rewrite (surjective_pairing (add_organization_id_to_model _ _ _ _)) at 1.
    f_equal; vm_compute; reflexivity. }
  split; [exact Hrun|].
  exact (proj1 (@report_is_append_only ascii_table) _ _ _ _ _ _ _ Hrun).
Defined.

Lemma report_of_a_run_witness :
  let a := {| arg_dry_run := true; arg_apply := false; arg_report := false;
              arg_skip_backup := false |} in
  let report :=
    {| model_updates := ["organization_provider.dart: Would create new provider"];
       service_updates := [];
       errors := ["DatabaseService not found at lib/core/services/database_service.dart"];
       warnings := map (fun f => "File not found: " +:+ f) MODEL_FILES_TO_UPDATE |} in
  @main ascii_table a "20240101_120000" bare_project = (Return report, bare_project)
  /\ (length (model_updates report) + length (warnings report)
      = S (length MODEL_FILES_TO_UPDATE))%nat.
Proof.
  cbv zeta.
  assert (Hrun :
    @main ascii_table
      {| arg_dry_run := true; arg_apply := false; arg_report := false;
         arg_skip_backup := false |} "20240101_120000" bare_project
    = (Return
         {| model_updates := ["organization_provider.dart: Would create new provider"];
            service_updates := [];
            errors := ["DatabaseService not found at lib/core/services/database_service.dart"];
            warnings := map (fun f => "File not found: " +:+ f) MODEL_FILES_TO_UPDATE |},
       bare_project)).
  { vm_compute. reflexivity. }
  split; [exact Hrun|].
  exact (proj1 (@report_of_a_run ascii_table _ _ _ _ _ Hrun)).
Defined.

End FirstScriptSamples.

(** ** The provider files of the second script *)

Section ProviderFiles.
Context `{UnicodeTable}.
Import Phase2.

(** Where [re.search] finds nothing, the pattern matches at no
    position. *)
Lemma search_from_None (r : list atom) prev pos s :
  search_from r prev pos s = None ->
  forall k, (k <= length s)%nat ->
    match_here r [] (prev_of prev s k) (pos + k)%nat (drop k s) = None.
Proof.
  revert prev pos. induction s as [|c s IH]; intros prev pos; cbn [search_from].
  - destruct (match_here r [] prev pos []) as [[e ms]|] eqn:Hm; [discriminate|].
    intros _ k Hk. cbn [length] in Hk. replace k with 0%nat by lia.
    by rewrite Nat.add_0_r.
  - destruct (match_here r [] prev pos (c :: s)) as [[e ms]|] eqn:Hm; [discriminate|].
    intros Hs [|k] Hk.
    + by rewrite Nat.add_0_r.
    + cbn [length] in Hk. specialize (IH _ _ Hs k ltac:(lia)).
      rewrite Nat.add_succ_r. cbn [drop prev_of].
      destruct k; cbn [prev_of] in *; exact IH.
Qed.

Lemma re_search_bol_literal_None (s : string) content :
  re_search ([Bol] ++ lit s) content = None ->
  forall k, (k <= length content)%nat -> line_start content k ->
    starts_with (txt s) (drop k content) = false.
Proof.
  intros Hnone k Hk Hl. pose proof (search_from_None _ _ _ _ Hnone k Hk) as Hm.
  rewrite match_here_bol_literal in Hm.
  apply at_bol_line_start in Hl; [|done]. rewrite Hl in Hm. cbn [andb] in Hm.
  by destruct (starts_with (txt s) (drop k content)).
Qed.

(** What [update_provider_file] does with a file that exists. *)
Lemma update_provider_file_run p dry_run w content :
  files (fs w) !! p = Some content ->
  update_provider_file p dry_run w =
  if negb (str_in (txt "Supabase.instance.client") content) then (Return (false, 0%nat), w)
  else if str_in (txt "currentOrganizationProvider") content then (Return (false, 0%nat), w)
  else if dry_run then (Return (true, 1%nat), w)
  else
    match create_error (fs w) p with
    | Some e => (Raise e, w)
    | None =>
        (Return (true, snd (with_org_import content)),
         store p (fst (with_org_import content)) (Wrote p) w)
    end.
Proof.
  intros Hf. unfold update_provider_file.
  rewrite bind_run, (read_text_file _ _ _ Hf). cbv beta iota zeta.
  destruct (str_in (txt "Supabase.instance.client") content) eqn:Hs; cbn [negb];
    [|reflexivity].
  destruct (str_in (txt "currentOrganizationProvider") content); [reflexivity|].
  unfold with_org_import.
  destruct (negb (str_in org_import content)
            && negb (str_in (txt "organization_provider.dart") content)).
  - destruct (re_search import_pattern content) as [m|].
    + cbn [fst snd]. cbn [Nat.add Nat.ltb Nat.leb orb].
      destruct dry_run; [reflexivity|].
      rewrite seq_run. unfold write_text.
      destruct (create_error (fs w) p); [reflexivity|]. by rewrite ret_run.
    + cbn [fst snd]. rewrite Hs, orb_true_r.
      destruct dry_run; [reflexivity|].
      rewrite seq_run. unfold write_text.
      destruct (create_error (fs w) p); [reflexivity|]. by rewrite ret_run.
  - cbn [fst snd]. rewrite Hs, orb_true_r.
    destruct dry_run; [reflexivity|].
    rewrite seq_run. unfold write_text.
    destruct (create_error (fs w) p); [reflexivity|]. by rewrite ret_run.
Qed.

(** A text that has had the import put in gets no second one. *)
Lemma with_org_import_again content :
  with_org_import (fst (with_org_import content)) = (fst (with_org_import content), 0%nat).
Proof.
  unfold with_org_import at 2 3.
  destruct (negb (str_in org_import content)
            && negb (str_in (txt "organization_provider.dart") content)) eqn:Hc.
  - destruct (re_search import_pattern content) as [m|] eqn:Hm; cbn [fst].
    + unfold with_org_import, splice.
      assert (Hin : str_in org_import
                      (take (m_start m) content ++ (org_import ++ [10%N])
                         ++ drop (m_start m) content) = true).
      { rewrite <- app_assoc. apply str_in_middle.
        apply str_in_spec. exists [], []. by rewrite app_nil_r. }
      by rewrite Hin.
    + unfold with_org_import. by rewrite Hc, Hm.
  - cbn [fst]. unfold with_org_import. by rewrite Hc.
Qed.

(** Writing to a file the text that it holds leaves the file system as it
    is. *)
Lemma store_same p t e w :
  files (fs w) !! p = Some t -> fs (store p t e w) = fs w.
Proof.
  intros Hf. unfold store. cbn [fs]. destruct (fs w) as [fl ds]. cbn [files dirs] in *.
  f_equal. by apply insert_id.
Qed.

(** A file that has been written can be written again. *)
Lemma create_error_stored p t e w :
  create_error (fs w) p = None -> create_error (fs (store p t e w)) p = None.
Proof.
  unfold create_error, is_dir, store. cbn [fs dirs].
  destruct (bool_decide (p = []) || bool_decide (p ∈ dirs (fs w))); [done|].
  destruct (bool_decide (parent p = []) || bool_decide (parent p ∈ dirs (fs w))); [done|].
  by destruct (is_file (fs w) (parent p)).
Qed.

(** X5: the import line of [update_provider_file] of the second script.
    An apply call that returns has changed no file but its own, and has
    either written back the text that the file held, counting no change,
    or put [import 'organization_provider.dart';] and a line feed in
    front of the leftmost line that starts with [import ], in a text that
    did not mention [organization_provider.dart], counting one change.
    A further apply call returns too, counts no change and leaves the
    file system as the first call left it: the import is put in once. *)
Theorem provider_import_is_put_in_once :
  forall p w b n w',
    update_provider_file p false w = (Return (b, n), w') ->
    (exists content,
        files (fs w) !! p = Some content
        /\ (forall q, q <> p -> files (fs w') !! q = files (fs w) !! q)
        /\ ((n = 0%nat /\ files (fs w') !! p = Some content)
            \/ (n = 1%nat
                /\ str_in (txt "organization_provider.dart") content = false
                /\ exists k,
                     (k <= length content)%nat
                     /\ line_start content k
                     /\ starts_with (txt "import ") (drop k content) = true
                     /\ (forall j, (j < k)%nat -> line_start content j ->
                           starts_with (txt "import ") (drop j content) = false)
                     /\ files (fs w') !! p
                        = Some (splice content (org_import ++ [10%N]) k))))
    /\ exists b2 w2,
         update_provider_file p false w' = (Return (b2, 0%nat), w2)
         /\ fs w2 = fs w'.
Proof.
  intros p w b n w'.
  destruct (files (fs w) !! p) as [content|] eqn:Hf.
  2:{ unfold update_provider_file. rewrite bind_run. unfold read_text. rewrite Hf.
      discriminate. }
  rewrite (update_provider_file_run _ _ _ _ Hf).
  destruct (negb (str_in (txt "Supabase.instance.client") content)) eqn:Hs.
  { intros [= <- <- <-]. split.
    - exists content. split_and!; try done. by left.
    - exists false, w. rewrite (update_provider_file_run _ _ _ _ Hf), Hs. done. }
  destruct (str_in (txt "currentOrganizationProvider") content) eqn:Hc.
  { intros [= <- <- <-]. split.
    - exists content. split_and!; try done. by left.
    - exists false, w. rewrite (update_provider_file_run _ _ _ _ Hf), Hs, Hc. done. }
  destruct (create_error (fs w) p) eqn:Hce; [discriminate|].
  intros [= <- <- <-]. split.
  - exists content. split_and!; [done | intros q Hq; by apply store_lookup_ne |].
    rewrite store_lookup. unfold with_org_import.
    destruct (negb (str_in org_import content)
              && negb (str_in (txt "organization_provider.dart") content)) eqn:Hcond;
      [|by left].
    destruct (re_search import_pattern content) as [m|] eqn:Hm; [|by left].
    right. cbn [fst snd].
    apply andb_true_iff in Hcond as [_ Hno]. apply negb_true_iff in Hno.
    apply re_search_bol_literal in Hm as (Hk & Hline & Hstart & Hleft).
    split_and!; try done. by exists (m_start m).
  - pose proof (store_lookup p (fst (with_org_import content)) (Wrote p) w) as Hf2.
    rewrite (update_provider_file_run _ _ _ _ Hf2).
    destruct (negb (str_in (txt "Supabase.instance.client") (fst (with_org_import content)))).
    { by eexists _, _. }
    destruct (str_in (txt "currentOrganizationProvider") (fst (with_org_import content))).
    { by eexists _, _. }
    rewrite (create_error_stored _ _ _ _ Hce), with_org_import_again. cbn [fst snd].
    eexists _, _. split; [reflexivity|]. by apply store_same.
Qed.

End ProviderFiles.

Section ProviderFilesSamples.
Import Phase2.

Lemma provider_import_is_put_in_once_witness :
  let r := @update_provider_file ascii_table sizes_provider false plain_provider in
  r = (Return (true, 1%nat), snd r)
  /\ files (fs (snd r)) !! sizes_provider
     = Some (txt "// sizes
import 'organization_provider.dart';
import 'a.dart';
final c = Supabase.instance.client;
")
  /\ exists b2 w2,
       @update_provider_file ascii_table sizes_provider false (snd r)
       = (Return (b2, 0%nat), w2)
       /\ fs w2 = fs (snd r).
Proof.
  cbv zeta.
  assert (Hrun :
    @update_provider_file ascii_table sizes_provider false plain_provider
    = (Return (true, 1%nat),
       snd (@update_provider_file ascii_table sizes_provider false plain_provider))).
  { rewrite (surjective_pairing (update_provider_file _ _ _)) at 1.
    f_equal; vm_compute; reflexivity. }
  split; [exact Hrun|].
  split; [vm_compute; reflexivity|].
  exact (proj2 (@provider_import_is_put_in_once ascii_table _ _ _ _ _ Hrun)).
Defined.

End ProviderFilesSamples.

(** ** The order of the provider files *)

Section PathOrder.
Import Phase2.

Lemma string_compare_refl (a : string) : String.compare a a = Eq.
Proof.
  pose proof (String.compare_antisym a a) as Ha.
  by destruct (String.compare a a).
Qed.

Lemma string_compare_trans (a b c : string) :
  String.compare a b = Lt -> String.compare b c = Lt -> String.compare a c = Lt.
Proof.
  revert b c. induction a as [|x a IH]; intros [|y b] [|z c]; cbn; try done.
  unfold Ascii.compare.
  destruct (N.compare_spec (N_of_ascii x) (N_of_ascii y)) as [Hxy | Hxy | Hxy];
    destruct (N.compare_spec (N_of_ascii y) (N_of_ascii z)) as [Hyz | Hyz | Hyz];
    try done; intros H1 H2.
  - rewrite Hxy, Hyz, N.compare_refl. by eapply IH.
  - rewrite Hxy. by apply N.compare_lt_iff in Hyz as ->.
  - rewrite <- Hyz. by apply N.compare_lt_iff in Hxy as ->.
  - assert (Hxz : (N_of_ascii x < N_of_ascii z)%N) by lia.
    by apply N.compare_lt_iff in Hxz as ->.
Qed.

Lemma string_ltb_irrefl (a : string) : String.ltb a a = false.
Proof. unfold String.ltb. by rewrite string_compare_refl. Qed.

Lemma string_ltb_trans (a b c : string) :
  String.ltb a b = true -> String.ltb b c = true -> String.ltb a c = true.
Proof.
  unfold String.ltb. intros Hab Hbc.
  rewrite (string_compare_trans a b c); [done | |].
  - by destruct (String.compare a b).
  - by destruct (String.compare b c).
Qed.

Lemma string_ltb_total (a b : string) :
  a <> b -> String.ltb a b = false -> String.ltb b a = true.
Proof.
  unfold String.ltb. intros Hne. rewrite (String.compare_antisym b a).
  destruct (String.compare a b) eqn:Hc; try done.
  by apply String.compare_eq_iff in Hc.
Qed.

Lemma path_leb_refl (p : list string) : path_leb p p = true.
Proof. induction p as [|a p IH]; cbn; [done|]. by rewrite String.eqb_refl. Qed.

Lemma path_leb_total (p q : list string) :
  path_leb p q = false -> path_leb q p = true.
Proof.
  revert q. induction p as [|a p IH]; intros [|b q]; cbn; try done.
  rewrite (String.eqb_sym b a).
  destruct (String.eqb_spec a b) as [-> | Hne]; [apply IH|].
  by apply string_ltb_total.
Qed.

Lemma path_leb_trans (p q r : list string) :
  path_leb p q = true -> path_leb q r = true -> path_leb p r = true.
Proof.
  revert q r. induction p as [|a p IH]; intros [|b q] [|c r]; cbn; try done.
  destruct (String.eqb_spec a b) as [-> | Hab].
  - destruct (String.eqb_spec b c) as [-> | Hbc]; [apply IH | done].
  - destruct (String.eqb_spec b c) as [-> | Hbc].
    + destruct (String.eqb_spec a c) as [-> | _]; done.
    + intros H1 H2. pose proof (string_ltb_trans _ _ _ H1 H2) as H3.
      destruct (String.eqb_spec a c) as [-> | _]; [|done].
      by rewrite string_ltb_irrefl in H3.
Qed.

Lemma path_leb_antisym (p q : list string) :
  path_leb p q = true -> path_leb q p = true -> p = q.
Proof.
  revert q. induction p as [|a p IH]; intros [|b q]; cbn; try done.
  rewrite (String.eqb_sym b a).
  destruct (String.eqb_spec a b) as [-> | Hne].
  - intros H1 H2. f_equal. by apply IH.
  - intros H1 H2. pose proof (string_ltb_trans _ _ _ H1 H2) as H3.
    by rewrite string_ltb_irrefl in H3.
Qed.

Lemma insert_sorted_perm (p : list string) (l : list (list string)) :
  insert_sorted p l ≡ₚ p :: l.
Proof.
  induction l as [|q l IH]; cbn; [done|].
  destruct (path_leb p q); [done|].
  rewrite IH. apply Permutation_swap.
Qed.

Lemma sorted_perm (l : list (list string)) : sorted l ≡ₚ l.
Proof.
  induction l as [|p l IH]; cbn; [done|].
  by rewrite insert_sorted_perm, IH.
Qed.

Lemma insert_sorted_ascending (p : list string) (l : list (list string)) :
  ascending l -> ascending (insert_sorted p l).
Proof.
  induction l as [|q l IH]; cbn [insert_sorted ascending].
  - intros _. split; [by apply Forall_nil | done].
  - intros [Hq Hl]. destruct (path_leb p q) eqn:Hpq; cbn [ascending].
    + split_and!; try done. apply Forall_cons. split; [done|].
      eapply Forall_impl; [exact Hq|]. intros x Hx. cbv beta in Hx.
      by eapply path_leb_trans.
    + split; [|by apply IH].
      rewrite insert_sorted_perm. apply Forall_cons. split; [|done].
      by apply path_leb_total.
Qed.

Lemma sorted_ascending (l : list (list string)) : ascending (sorted l).
Proof.
  induction l as [|p l IH]; cbn [sorted fold_right]; [done|].
  by apply insert_sorted_ascending.
Qed.

(** Two ascending lists with the same elements are the same list. *)
Lemma ascending_unique (l k : list (list string)) :
  NoDup l -> NoDup k -> ascending l -> ascending k ->
  (forall x, x ∈ l <-> x ∈ k) -> l = k.
Proof.
  revert k. induction l as [|p l IH]; intros [|q k] Hnl Hnk Hl Hk Hiff.
  - done.
  - exfalso. eapply not_elem_of_nil, Hiff. left.
  - exfalso. eapply not_elem_of_nil, Hiff. left.
  - apply NoDup_cons in Hnl as [Hpl Hnl]. apply NoDup_cons in Hnk as [Hqk Hnk].
    destruct Hl as [Hpall Hl]. destruct Hk as [Hqall Hk].
    assert (Hpq : p = q).
    { assert (Hp : p ∈ q :: k) by (apply Hiff; left).
      assert (Hq : q ∈ p :: l) by (apply Hiff; left).
      apply elem_of_cons in Hp as [Hp | Hp]; [done|].
      apply elem_of_cons in Hq as [Hq | Hq]; [done|].
      apply path_leb_antisym.
      - exact (proj1 (Forall_forall _ _) Hpall _ Hq).
      - exact (proj1 (Forall_forall _ _) Hqall _ Hp). }
    subst q. f_equal. apply IH; try done.
    intros x. split; intros Hx.
    + assert (Hx' : x ∈ p :: k) by (apply Hiff; by right).
      apply elem_of_cons in Hx' as [-> | Hx']; [done | done].
    + assert (Hx' : x ∈ p :: l) by (apply Hiff; by right).
      apply elem_of_cons in Hx' as [-> | Hx']; [done | done].
Qed.

(** X6: the provider files that the second script updates.
    [get_provider_files] changes nothing and returns, each once and in
    ascending order of their paths, the entries of [lib/providers] whose
    name ends in [.dart] but not in [.g.dart] and is not
    [organization_provider.dart]. *)
Theorem provider_files_are_listed_once_in_order :
  forall w,
  exists l,
    get_provider_files w = (Return l, w)
    /\ NoDup l
    /\ ascending l
    /\ forall f,
         f ∈ l <->
         (is_Some (files (fs w) !! f) \/ f ∈ dirs (fs w))
         /\ f <> []
         /\ parent f = LIB_DIR ++ ["providers"]
         /\ name_ends_with ".dart" (name f) = true
         /\ name_ends_with ".g.dart" (name f) = false
         /\ name f <> "organization_provider.dart".
Proof.
  intros w. eexists. split; [reflexivity|].
  split_and!.
  - rewrite sorted_perm.
    apply NoDup_ListNoDup, List.NoDup_filter, List.NoDup_filter, NoDup_ListNoDup.
    apply NoDup_elements.
  - apply sorted_ascending.
  - intros f. rewrite sorted_perm, !list_elem_of_In, !filter_In, <- list_elem_of_In.
    rewrite elem_of_elements, elem_of_union, elem_of_dom.
    rewrite !andb_true_iff, !negb_true_iff.
    rewrite bool_decide_eq_false, bool_decide_eq_true.
    rewrite String.eqb_neq. tauto.
Qed.

End PathOrder.

(** ** The files that a run may write *)

Section WriteSets.
Context `{UnicodeTable}.

Lemma effect_create_organization_provider report dry_run :
  effect
    (fun e => e = Wrote (MigrateToSaas.LIB_DIR ++ ["providers"; "organization_provider.dart"]))
    (MigrateToSaas.create_organization_provider report dry_run).
Proof.
  unfold MigrateToSaas.create_organization_provider. cbv zeta. repeat effect_step.
Qed.

Lemma effect_first_main a timestamp :
  effect (first_run_event (MigrateToSaas.BACKUP_DIR ++ [timestamp]))
    (MigrateToSaas.main a timestamp).
Proof.
  rewrite main_first_unfold.
  destruct (negb _); [apply effect_readonly, readonly_raise|].
  apply effect_bind; [apply effect_readonly, readonly_path_exists | intros e].
  destruct (negb e); [apply effect_readonly, readonly_raise|].
  apply effect_seq.
  - apply effect_when, effect_seq; [|apply effect_ret].
    eapply effect_mono; [|apply first_backup_effect]. intros e' He. by left.
  - unfold first_updates.
    apply effect_bind; [|intros report].
    { eapply effect_mono; [|apply effect_model_batch]. intros e' He. right. by left. }
    apply effect_bind; [|intros r].
    { eapply effect_mono; [|apply effect_update_database_service].
      intros e' ->. right. right. by left. }
    cbv zeta. apply effect_bind; [|intros r'; apply effect_ret].
    eapply effect_mono; [|apply effect_create_organization_provider].
    intros e' ->. by do 3 right.
Qed.

Lemma effect_second_main a timestamp :
  effect (fun e => backup_event (Phase2.BACKUP_DIR ++ [timestamp]) e \/ second_event e)
    (Phase2.main a timestamp).
Proof.
  rewrite main_second_unfold.
  destruct (negb _); [apply effect_readonly, readonly_raise|].
  apply effect_bind; [apply effect_readonly, readonly_path_exists | intros e].
  destruct (negb e); [apply effect_readonly, readonly_raise|].
  apply effect_seq.
  - apply effect_when, effect_seq; [|apply effect_ret].
    eapply effect_mono; [|apply second_backup_effect]. intros e' He. by left.
  - eapply effect_mono; [|apply effect_second_updates]. intros e' He. by right.
Qed.

Lemma effect_update_provider_org_context p dry_run :
  effect (fun e => e = Wrote p) (Wire.update_provider_org_context p dry_run).
Proof.
  unfold Wire.update_provider_org_context. cbv zeta. repeat effect_step.
Qed.

Lemma effect_third_main a : effect third_run_event (Wire.main a).
Proof.
  unfold Wire.main. cbv zeta.
  destruct (negb _); [apply effect_readonly, readonly_raise|].
  apply effect_bind;
    [apply effect_readonly, readonly_wire_update_database_service | intros n].
  apply effect_bind; [|intros k; apply effect_ret].
  unfold Wire.update_providers. cbv zeta.
  apply effect_for_fold. intros updates provider_name Hin.
  unfold Wire.update_provider. cbv zeta.
  apply effect_bind; [apply effect_readonly, readonly_path_exists | intros e].
  destruct e; [|apply effect_ret].
  apply effect_bind; [|intros u; apply effect_ret].
  eapply effect_mono; [|apply effect_update_provider_org_context].
  intros e ->. exists provider_name. by rewrite <- app_assoc.
Qed.

(** X7: the files that a run can change.  Whatever the mode and the
    project, and whether the run ends normally or with an exception, a
    run of the first script leaves every file as it was other than the
    listed models, [database_service.dart], the provider file and what
    lies under its backup directory; a run of the second every file other
    than the provider file, the five settings models, the helper file,
    the entries of [lib/providers] named [*.dart] but not [*.g.dart], and
    what lies under its backup directory; a run of the third every file
    other than its eighteen providers. *)
Theorem runs_write_only_their_targets :
  (forall a timestamp w q,
      (forall rest, q <> (MigrateToSaas.BACKUP_DIR ++ [timestamp]) ++ rest) ->
      (forall f, f ∈ MigrateToSaas.MODEL_FILES_TO_UPDATE ->
         q <> MigrateToSaas.MODELS_DIR ++ [f]) ->
      q <> MigrateToSaas.DATABASE_SERVICE ->
      q <> MigrateToSaas.LIB_DIR ++ ["providers"; "organization_provider.dart"] ->
      files (fs (snd (MigrateToSaas.main a timestamp w))) !! q = files (fs w) !! q)
  /\ (forall a timestamp w q,
        (forall rest, q <> (Phase2.BACKUP_DIR ++ [timestamp]) ++ rest) ->
        (forall f, f ∈ Phase2.settings_files -> q <> settings_dir ++ [f]) ->
        q <> Phase2.LIB_DIR ++ ["core"; "utils"; "org_aware_helpers.dart"] ->
        (parent q = Phase2.LIB_DIR ++ ["providers"] ->
         name_ends_with ".dart" (name q) = true ->
         name_ends_with ".g.dart" (name q) = true) ->
        files (fs (snd (Phase2.main a timestamp w))) !! q = files (fs w) !! q)
  /\ (forall a w q,
        (forall provider_name, provider_name ∈ Wire.key_providers ->
           q <> Wire.LIB_DIR ++ ["providers"] ++ [provider_name]) ->
        files (fs (snd (Wire.main a w))) !! q = files (fs w) !! q).
Proof.
  split_and!.
  - intros a timestamp w q Hback Hmodels Hdb Hprov.
    apply (effect_frame _ _ _ _ (effect_first_main a timestamp)).
    intros e [[[d ->] | (src & rest & ->)] | [(f & Hf & ->) | [-> | ->]]] Ht;
      destruct Ht as [Ht | [src' Ht]]; try discriminate.
    + injection Ht as _ Ht. exact (Hback rest (eq_sym Ht)).
    + injection Ht as Ht. exact (Hmodels f Hf (eq_sym Ht)).
    + injection Ht as Ht. by apply Hdb.
    + injection Ht as Ht. by apply Hprov.
  - intros a timestamp w q Hback Hset Hhelper Hprov.
    apply (effect_frame _ _ _ _ (effect_second_main a timestamp)).
    intros e [[[d ->] | (src & rest & ->)] | [[d ->] | (p & -> & Hp)]] Ht;
      destruct Ht as [Ht | [src' Ht]]; try discriminate.
    + injection Ht as _ Ht. exact (Hback rest (eq_sym Ht)).
    + injection Ht as <-.
      destruct Hp as [-> | [(f & Hf & ->) | [(_ & Hpar & Hdart & Hgen) | ->]]].
      * specialize (Hprov eq_refl eq_refl). discriminate.
      * exact (Hset f Hf eq_refl).
      * rewrite (Hprov Hpar Hdart) in Hgen. discriminate.
      * done.
  - intros a w q Hq.
    apply (effect_frame _ _ _ _ (effect_third_main a)).
    intros e (provider_name & Hin & ->) Ht.
    destruct Ht as [Ht | [src' Ht]]; [|discriminate].
    injection Ht as <-. exact (Hq provider_name Hin eq_refl).
Qed.

(** X8: a backup changes no file of the project.  Whether the backup of
    the first or of the second script completes or ends with an
    exception, every file that does not lie under the backup directory of
    the run holds what it held before. *)
Theorem backups_leave_the_project_alone :
  (forall timestamp w q,
      (forall rest, q <> (MigrateToSaas.BACKUP_DIR ++ [timestamp]) ++ rest) ->
      files (fs (snd (MigrateToSaas.create_backup timestamp w))) !! q = files (fs w) !! q)
  /\ (forall timestamp w q,
        (forall rest, q <> (Phase2.BACKUP_DIR ++ [timestamp]) ++ rest) ->
        files (fs (snd (Phase2.create_backup timestamp w))) !! q = files (fs w) !! q).
Proof.
  split.
  - intros timestamp w q Hq.
    apply (effect_frame _ _ _ _ (first_backup_effect timestamp)).
    intros e [[d ->] | (src & rest & ->)] [Ht | [src' Ht]]; try discriminate.
    injection Ht as _ Ht. exact (Hq rest (eq_sym Ht)).
  - intros timestamp w q Hq.
    apply (effect_frame _ _ _ _ (second_backup_effect timestamp)).
    intros e [[d ->] | (src & rest & ->)] [Ht | [src' Ht]]; try discriminate.
    injection Ht as _ Ht. exact (Hq rest (eq_sym Ht)).
Qed.

End WriteSets.

(** ** The files that an apply run of the second script leaves *)

Section SecondScriptTemplates.
Context `{UnicodeTable}.
Import Phase2.

(** The members of the list of [get_provider_files]. *)
Lemma get_provider_files_elem w l w' f :
  get_provider_files w = (Return l, w') ->
  f ∈ l <->
  (is_Some (files (fs w) !! f) \/ f ∈ dirs (fs w))
  /\ f <> []
  /\ parent f = LIB_DIR ++ ["providers"]
  /\ name_ends_with ".dart" (name f) = true
  /\ name_ends_with ".g.dart" (name f) = false
  /\ name f <> "organization_provider.dart".
Proof.
  unfold get_provider_files. cbv zeta. rewrite bind_run.
  unfold glob_dart at 1. cbv beta iota. rewrite ret_run. intros [= <- _].
  rewrite sorted_perm, !list_elem_of_In, !filter_In, <- list_elem_of_In.
  rewrite elem_of_elements, elem_of_union, elem_of_dom.
  rewrite !andb_true_iff, !negb_true_iff.
  rewrite bool_decide_eq_false, bool_decide_eq_true.
  rewrite String.eqb_neq. tauto.
Qed.

(** After the provider file has been written, the second script does not
    touch it again: the loop over the providers leaves it out. *)
Lemma effect_after_organization_provider dry_run :
  effect
    (fun e => ~ touches e (LIB_DIR ++ ["providers"; "organization_provider.dart"]))
    (let* settings_updates := update_settings_models dry_run in
     let* provider_files := get_provider_files in
     let* provider_updates :=
       for_fold provider_files
         (fun provider_updates f =>
            let* r := update_provider_file f dry_run in
            mret (if fst r then (provider_updates + 1)%nat else provider_updates))
         0%nat in
     when (negb dry_run)
       (mkdir_parents (parent (LIB_DIR ++ ["core"; "utils"; "org_aware_helpers.dart"]));;
        write_text (LIB_DIR ++ ["core"; "utils"; "org_aware_helpers.dart"]) helper_content);;
     mret (settings_updates, provider_updates)).
Proof.
  apply effect_bind; [|intros settings_updates].
  { unfold update_settings_models. cbv zeta.
    apply effect_for_fold. intros updates f Hf.
    eapply effect_mono; [|apply effect_update_settings_file].
    intros e -> [Ht | [src Ht]]; discriminate. }
  eapply effect_bind_post with
    (Q := fun l => forall f, f ∈ l -> name f <> "organization_provider.dart");
    [apply effect_readonly, readonly_get_provider_files | | intros l Hl; cbv beta].
  { intros w l w' Hrun f Hf.
    apply (get_provider_files_elem _ _ _ _ Hrun) in Hf. tauto. }
  apply effect_bind; [|intros provider_updates].
  { apply effect_for_fold. intros updates f Hf.
    apply effect_bind; [|intros r; apply effect_ret].
    eapply effect_mono; [|apply effect_update_provider_file].
    intros e -> [Ht | [src Ht]]; [|discriminate].
    injection Ht as ->. by apply (Hl _ Hf). }
  apply effect_seq; [|apply effect_ret].
  apply effect_when, effect_seq.
  - eapply effect_mono; [|apply effect_mkdir_parents].
    intros e [d ->] [Ht | [src Ht]]; discriminate.
  - eapply effect_mono; [|apply effect_write_text].
    intros e -> [Ht | [src Ht]]; discriminate.
Qed.

(** X9: what an apply run of the second script leaves behind.  When the
    run returns, [organization_provider.dart] holds the new provider text,
    whatever it held before, and [org_aware_helpers.dart] holds the helper
    text. *)
Theorem second_script_leaves_its_templates :
  forall a timestamp w counts w',
    arg_dry_run a = false ->
    main a timestamp w = (Return counts, w') ->
    files (fs w') !! (LIB_DIR ++ ["providers"; "organization_provider.dart"])
    = Some new_content
    /\ files (fs w') !! (LIB_DIR ++ ["core"; "utils"; "org_aware_helpers.dart"])
       = Some helper_content.
Proof.
  intros a timestamp w counts w' Hdry. rewrite main_second_unfold, Hdry.
  destruct (negb _); [discriminate|].
  rewrite bind_run. unfold path_exists at 1. cbv beta iota.
  destruct (negb _); [discriminate|].
  rewrite seq_run.
  destruct (when _ _ w) as [[[]|e] w1]; [|discriminate].
  unfold second_updates. rewrite seq_run.
  unfold update_organization_provider at 1. cbv zeta.
  rewrite seq_run. unfold write_text at 1.
  destruct (create_error (fs w1) _); [discriminate|].
  rewrite ret_run.
  set (w2 := store (LIB_DIR ++ ["providers"; "organization_provider.dart"]) new_content
               (Wrote (LIB_DIR ++ ["providers"; "organization_provider.dart"])) w1).
  unfold create_org_aware_database_service_helper. cbv beta iota zeta.
  intros Hrest.
  pose proof (effect_frame _ _ w2 (LIB_DIR ++ ["providers"; "organization_provider.dart"])
                (effect_after_organization_provider false) (fun e He => He)) as Hkeep.
  rewrite Hrest in Hkeep. cbn [snd] in Hkeep.
  split; [rewrite Hkeep; apply store_lookup|].
  clear Hkeep. revert Hrest. rewrite bind_run.
  destruct (update_settings_models false w2) as [[n1|e] w3]; [|discriminate].
  rewrite bind_run.
  destruct (get_provider_files w3) as [[l|e] w4]; [|discriminate].
  rewrite bind_run.
  destruct (for_fold l _ 0%nat w4) as [[n2|e] w5]; [|discriminate].
  rewrite seq_run. cbn [negb when]. rewrite seq_run.
  destruct (mkdir_parents _ w5) as [[[]|e] w6]; [|discriminate].
  unfold write_text. destruct (create_error (fs w6) _); [discriminate|].
  rewrite ret_run. intros [= _ <-]. apply store_lookup.
Qed.

End SecondScriptTemplates.

Section WriteSetsSamples.

Lemma runs_write_only_their_targets_witness :
  let a := {| MigrateToSaas.arg_dry_run := false; MigrateToSaas.arg_apply := true;
              MigrateToSaas.arg_report := false; MigrateToSaas.arg_skip_backup := false |} in
  files (fs (snd (@MigrateToSaas.main ascii_table a "20240101_120000" two_models)))
    !! user_model
  = files (fs two_models) !! user_model.
Proof.
  cbv zeta.
  refine (proj1 (@runs_write_only_their_targets ascii_table) _ _ _ _ _ _ _ _).
  - intros rest Heq. cbv in Heq. discriminate.
  - intros f Hf Heq. injection Heq as <-.
    apply (bool_decide_eq_true_2 _) in Hf. vm_compute in Hf. discriminate.
  - intros Heq. cbv in Heq. discriminate.
  - intros Heq. cbv in Heq. discriminate.
Defined.

Lemma backups_leave_the_project_alone_witness :
  files (fs (snd (MigrateToSaas.create_backup "20240101_120000" two_models))) !! user_model
  = files (fs two_models) !! user_model.
Proof.
  apply (proj1 backups_leave_the_project_alone).
  intros rest Heq. cbv in Heq. discriminate.
Defined.

Lemma second_script_leaves_its_templates_witness :
  let a := {| Phase2.arg_dry_run := false; Phase2.arg_apply := true;
              Phase2.arg_skip_backup := false |} in
  let r := @Phase2.main ascii_table a "20240101_120000" wired_provider in
  r = (Return (0%nat, 1%nat), snd r)
  /\ files (fs (snd r)) !! (Phase2.LIB_DIR ++ ["providers"; "organization_provider.dart"])
     = Some Phase2.new_content
  /\ files (fs (snd r)) !! (Phase2.LIB_DIR ++ ["core"; "utils"; "org_aware_helpers.dart"])
     = Some Phase2.helper_content.
Proof.
  cbv zeta.
  assert (Hrun :
    @Phase2.main ascii_table
      {| Phase2.arg_dry_run := false; Phase2.arg_apply := true;
         Phase2.arg_skip_backup := false |} "20240101_120000" wired_provider
    = (Return (0%nat, 1%nat),
       snd (@Phase2.main ascii_table
              {| Phase2.arg_dry_run := false; Phase2.arg_apply := true;
                 Phase2.arg_skip_backup := false |} "20240101_120000" wired_provider))).
  { rewrite (surjective_pairing (Phase2.main _ _ _)) at 1.
    f_equal; vm_compute; reflexivity. }
  split; [exact Hrun|].
  exact (@second_script_leaves_its_templates ascii_table
           {| Phase2.arg_dry_run := false; Phase2.arg_apply := true;
              Phase2.arg_skip_backup := false |}
           "20240101_120000" wired_provider _ _ eq_refl Hrun).
Defined.

End WriteSetsSamples.

(** ** Occurrences of a text in a text *)

Section Occurrences.
Context `{UnicodeTable}.

(** An occurrence of [x] in a text lies on one side of a character that
    [x] does not hold. *)
Lemma occurrence_avoids (x l1 l2 pre post : list N) (c : N) :
  c ∉ x ->
  l1 ++ [c] ++ l2 = pre ++ x ++ post ->
  (exists t, l1 = pre ++ x ++ t) \/ (exists t, l2 = t ++ x ++ post).
Proof.
  intros Hc Heq. rewrite (app_assoc pre) in Heq.
  apply app_eq_inv in Heq as [(k & Hl1 & Hpost) | (k & Hpre & Hl2)].
  - left. exists k. by rewrite Hl1, <- app_assoc.
  - apply app_eq_inv in Hpre as [(k' & Hp & Hk) | (k' & Hl1 & Hx)].
    + subst k. destruct k' as [|c' k'].
      * cbn in Hl2. destruct x as [|a x].
        -- left. exists []. rewrite app_nil_r in Hp. subst pre. by rewrite app_nil_r.
        -- injection Hl2 as -> _. exfalso. apply Hc. left.
      * injection Hl2 as _ ->. right. exists k'. by rewrite <- app_assoc.
    + destruct k as [|c' k].
      * left. exists []. rewrite app_nil_r in Hx. subst k'. by rewrite app_nil_r.
      * injection Hl2 as -> _. exfalso. apply Hc. subst x.
        apply elem_of_app. right. left.
Qed.

(** Putting a line between two line feeds into a text makes no
    occurrence of a text without line feeds. *)
Lemma str_in_insert_between (x a mid b : list N) (c : N) :
  c ∉ x ->
  str_in x (a ++ b) = false ->
  str_in x mid = false ->
  str_in x (a ++ ([c] ++ mid ++ [c]) ++ b) = false.
Proof.
  intros Hc Hab Hmid.
  destruct (str_in x (a ++ ([c] ++ mid ++ [c]) ++ b)) eqn:Hin; [|done].
  apply str_in_spec in Hin as (pre & post & Heq).
  assert (Hno : forall s, str_in x s = false -> forall p q, s <> p ++ x ++ q).
  { intros s Hs p q ->. rewrite (proj2 (str_in_spec x _)) in Hs; [done | eauto]. }
  rewrite <- !app_assoc in Heq.
  destruct (occurrence_avoids _ _ _ _ _ _ Hc Heq) as [(t & ->) | (t & Heq2)].
  - exfalso. eapply (Hno _ Hab pre (t ++ b)). by rewrite <- !app_assoc.
  - assert (Heq3 : mid ++ [c] ++ b = t ++ x ++ post) by exact Heq2.
    destruct (occurrence_avoids _ _ _ _ _ _ Hc Heq3) as [(t' & ->) | (t' & ->)].
    + exfalso. by eapply (Hno _ Hmid).
    + exfalso. eapply (Hno _ Hab (a ++ t') post). by rewrite <- !app_assoc.
Qed.

(** A text in which [x ++ y] occurs has [x] in it. *)
Lemma str_in_prefix (x y s : list N) :
  str_in (x ++ y) s = true -> str_in x s = true.
Proof.
  intros Hin. apply str_in_spec in Hin as (pre & post & ->).
  apply str_in_spec. exists pre, (y ++ post). by rewrite <- app_assoc.
Qed.

Lemma find_at_shift (x s : list N) (i j : nat) :
  find_at x s i = None -> find_at x s j = None.
Proof.
  revert i j. induction s as [|c s IH]; intros i j; cbn [find_at].
  - by destruct (starts_with x []).
  - destruct (starts_with x (c :: s)); [done|]. apply IH.
Qed.

(** [rfind] finds an occurrence where there is one. *)
Lemma rfind_at_None (x s : list N) (i : nat) :
  rfind_at x s i = None <-> find_at x s i = None.
Proof.
  revert i. induction s as [|c s IH]; intros i; cbn [rfind_at find_at].
  - by destruct (starts_with x []).
  - destruct (rfind_at x s (S i)) as [j|] eqn:Hr.
    + split; [done|]. destruct (starts_with x (c :: s)); [done|].
      intros Hf. apply IH in Hf. congruence.
    + destruct (starts_with x (c :: s)); [done|]. split; [|done].
      intros _. by apply IH.
Qed.

Lemma str_rfind_minus1 (x s : list N) :
  str_rfind x s = (-1)%Z <-> str_in x s = false.
Proof.
  unfold str_rfind, str_in, index_or_minus1.
  destruct (rfind_at x s 0) as [j|] eqn:Hr.
  - split; [lia|]. destruct (find_at x s 0) eqn:Hf; [done|].
    apply rfind_at_None in Hf. congruence.
  - apply rfind_at_None in Hr. rewrite Hr. done.
Qed.

(** A match ends at or after the position where it starts. *)
Lemma match_here_forward (r : list atom) marks prev pos s e ms :
  match_here r marks prev pos s = Some (e, ms) -> (pos <= e)%nat.
Proof.
  revert marks prev pos s. induction r as [|a r IH]; intros marks prev pos s;
    cbn [match_here].
  - intros [= <- _]. lia.
  - destruct a as [k | k | k | | | ].
    + destruct s as [|c s]; [done|]. destruct (in_cls k c); [|done].
      intros Hm. apply IH in Hm. lia.
    + intros Hm. apply greedy_inv in Hm as (n & prev' & _ & _ & Hm).
      apply IH in Hm. lia.
    + intros Hm. apply lazy_inv in Hm as (n & prev' & _ & _ & Hm).
      apply IH in Hm. lia.
    + apply IH.
    + apply IH.
    + destruct (at_bol prev); [apply IH | done].
Qed.

Lemma match_here_within (r : list atom) marks prev pos s e ms :
  match_here r marks prev pos s = Some (e, ms) -> (e <= pos + length s)%nat.
Proof.
  revert marks prev pos s. induction r as [|a r IH]; intros marks prev pos s;
    cbn [match_here].
  - intros [= <- _]. lia.
  - destruct a as [k | k | k | | | ].
    + destruct s as [|c s]; [done|]. destruct (in_cls k c); [|done].
      intros Hm. apply IH in Hm. cbn [length]. lia.
    + intros Hm. apply greedy_inv in Hm as (n & prev' & Hn & _ & Hm).
      apply IH in Hm. rewrite length_drop in Hm. lia.
    + intros Hm. apply lazy_inv in Hm as (n & prev' & Hn & _ & Hm).
      apply IH in Hm. rewrite length_drop in Hm. lia.
    + apply IH.
    + apply IH.
    + destruct (at_bol prev); [apply IH | done].
Qed.

(** The bounds of what [re.search] returns. *)
Lemma re_search_bounds (r : list atom) content m :
  re_search r content = Some m ->
  (m_start m <= m_end m)%nat /\ (m_end m <= length content)%nat.
Proof.
  intros Hm. apply re_search_inv in Hm as (Hk & Hhere & _).
  split.
  - by apply match_here_forward in Hhere.
  - apply match_here_within in Hhere. rewrite length_drop in Hhere. lia.
Qed.

End Occurrences.

(** ** The providers of the third script *)

Section WireProviders.
Context `{UnicodeTable}.
Import Wire.

(** What [update_provider_org_context] does with a file that exists. *)
Lemma update_provider_org_context_run p dry_run w content :
  files (fs w) !! p = Some content ->
  update_provider_org_context p dry_run w =
  if negb (str_in (txt "Supabase.instance.client") content) then (Return false, w)
  else if str_in (txt "currentOrganizationProvider.future") content then (Return false, w)
  else if dry_run then (Return true, w)
  else
    match create_error (fs w) p with
    | Some e => (Raise e, w)
    | None =>
        (Return true,
         store p (with_todo_comment (with_import_line content)) (Wrote p) w)
    end.
Proof.
  intros Hf. unfold update_provider_org_context.
  rewrite bind_run, (read_text_file _ _ _ Hf). cbv beta iota zeta.
  destruct (negb (str_in (txt "Supabase.instance.client") content)); [reflexivity|].
  destruct (str_in (txt "currentOrganizationProvider.future") content); [reflexivity|].
  destruct dry_run; [reflexivity|].
  rewrite seq_run. unfold write_text.
  destruct (create_error (fs w) p); [reflexivity|]. by rewrite ret_run.
Qed.


(** The import step leaves the text as it is or puts a line feed and the
    import line in at one offset. *)
Lemma with_import_line_shape content :
  with_import_line content = content
  \/ exists j, with_import_line content = splice content ([10%N] ++ import_line) j.
Proof.
  unfold with_import_line.
  destruct (negb _); [|by left].
  destruct (str_in (txt "import '") content); [|by left].
  unfold re_sub_first.
  destruct (re_search quoted_import_pattern content) as [m|] eqn:Hm; [|by left].
  apply re_search_bounds in Hm as [Hse Hel].
  destruct (_ =? _)%Z.
  - right. exists (m_end m). unfold splice, group, group_start, group_end.
    rewrite <- !app_assoc, !app_assoc, take_slice by done.
    by rewrite <- !app_assoc.
  - left. unfold group, group_start, group_end.
    by rewrite app_assoc, take_slice, take_drop.
Qed.

Lemma with_import_line_keeps content :
  str_in (txt "import ") content = true ->
  str_in (txt "import ") (with_import_line content) = true.
Proof.
  intros Hin. destruct (with_import_line_shape content) as [-> | [j ->]]; [done|].
  apply str_in_middle. vm_compute. reflexivity.
Qed.

Lemma with_import_line_no_todo content :
  str_in (txt "TODO: Multi-tenant") content = false ->
  str_in (txt "TODO: Multi-tenant") (with_import_line content) = false.
Proof.
  intros Hin. destruct (with_import_line_shape content) as [-> | [j ->]]; [done|].
  unfold splice, import_line.
  apply (str_in_insert_between _ _ (txt "import 'organization_provider.dart';")).
  - apply (bool_decide_eq_false_1 _). vm_compute. reflexivity.
  - by rewrite take_drop.
  - vm_compute. reflexivity.
Qed.

(** The comment step puts the comment into a text that has an import and
    no comment yet. *)
Lemma with_todo_comment_marked content :
  str_in (txt "import ") content = true ->
  str_in (txt "TODO: Multi-tenant") content = false ->
  exists k, with_todo_comment content = splice content todo_comment k.
Proof.
  intros Himp Htodo. unfold with_todo_comment. rewrite Htodo. cbn [negb]. cbv zeta.
  destruct (str_rfind (txt "import ") content =? -1)%Z eqn:Hr.
  - apply Z.eqb_eq, str_rfind_minus1 in Hr. congruence.
  - cbn [negb]. by eexists.
Qed.

Lemma todo_comment_marked :
  str_in (txt "currentOrganizationProvider.future") todo_comment = true.
Proof. vm_compute. reflexivity. Qed.

(** A text without an import is left as it is by both steps. *)
Lemma without_import content :
  str_in (txt "import ") content = false ->
  with_todo_comment (with_import_line content) = content.
Proof.
  intros Himp.
  assert (Hq : str_in (txt "import '") content = false).
  { destruct (str_in (txt "import '") content) eqn:Hq; [|done].
    change (txt "import '") with (txt "import " ++ [39%N]) in Hq.
    apply str_in_prefix in Hq. congruence. }
  assert (H1 : with_import_line content = content).
  { unfold with_import_line. rewrite Hq. by destruct (negb _). }
  rewrite H1. unfold with_todo_comment.
  destruct (negb _); [|done]. cbv zeta.
  apply str_rfind_minus1 in Himp. rewrite Himp. done.
Qed.

(** X10: the comment of [update_provider_org_context] of the third
    script.  On a provider with an import and without the comment, an
    apply call that returns [True] has written the text, with or without
    the import line put in at one offset, with the comment put in at one
    offset, and changed no other file; after that every call returns
    [False] and changes nothing.  On a provider in which [import] does
    not occur, such a call writes back the text that it read, and so does
    the next one: the provider is reported as updated on every run. *)
Theorem todo_comment_is_put_in_once :
  (forall p w content w',
      files (fs w) !! p = Some content ->
      str_in (txt "import ") content = true ->
      str_in (txt "TODO: Multi-tenant") content = false ->
      update_provider_org_context p false w = (Return true, w') ->
      (exists content1 k,
          (content1 = content
           \/ exists j, content1 = splice content ([10%N] ++ import_line) j)
          /\ files (fs w') !! p = Some (splice content1 todo_comment k))
      /\ (forall q, q <> p -> files (fs w') !! q = files (fs w) !! q)
      /\ forall dry_run, update_provider_org_context p dry_run w' = (Return false, w'))
  /\ (forall p w content w',
        files (fs w) !! p = Some content ->
        str_in (txt "import ") content = false ->
        update_provider_org_context p false w = (Return true, w') ->
        files (fs w') !! p = Some content
        /\ exists w2,
             update_provider_org_context p false w' = (Return true, w2)
             /\ fs w2 = fs w').
Proof.
  split.
  - intros p w content w' Hf Himp Htodo.
    rewrite (update_provider_org_context_run _ _ _ _ Hf).
    destruct (negb _); [discriminate|].
    destruct (str_in (txt "currentOrganizationProvider.future") content); [discriminate|].
    destruct (create_error (fs w) p); [discriminate|].
    intros [= <-].
    destruct (with_todo_comment_marked (with_import_line content)) as [k Hk];
      [by apply with_import_line_keeps | by apply with_import_line_no_todo |].
    split_and!.
    + exists (with_import_line content), k. split; [apply with_import_line_shape|].
      by rewrite store_lookup, Hk.
    + intros q Hq. by apply store_lookup_ne.
    + intros dry_run.
      rewrite (update_provider_org_context_run _ _ _ _ (store_lookup _ _ _ _)).
      destruct (negb _); [done|].
      rewrite Hk. unfold splice. by rewrite str_in_middle by apply todo_comment_marked.
  - intros p w content w' Hf Himp.
    rewrite (update_provider_org_context_run _ _ _ _ Hf).
    destruct (negb (str_in (txt "Supabase.instance.client") content)) eqn:Hs;
      [discriminate|].
    destruct (str_in (txt "currentOrganizationProvider.future") content) eqn:Hm;
      [discriminate|].
    destruct (create_error (fs w) p) eqn:Hce; [discriminate|].
    intros [= <-]. rewrite (without_import _ Himp).
    split; [apply store_lookup|].
    rewrite (update_provider_org_context_run _ _ _ _ (store_lookup _ _ _ _)).
    rewrite Hs, Hm, (create_error_stored _ _ _ _ Hce), (without_import _ Himp).
    eexists. split; [reflexivity|]. apply store_same, store_lookup.
Qed.

End WireProviders.

(** ** Preview and apply runs of the third script *)

Section WirePreview.
Context `{UnicodeTable}.
Import Wire.

(** A round of the loop of [update_providers] in apply mode that returns
    has counted what the preview counts, and changed at most its own
    file. *)
Lemma update_provider_apply providers_dir updates provider_name w updates' w1 :
  update_provider providers_dir false updates provider_name w = (Return updates', w1) ->
  update_provider providers_dir true updates provider_name w = (Return updates', w)
  /\ dirs (fs w1) = dirs (fs w)
  /\ forall q, q <> providers_dir ++ [provider_name] ->
       files (fs w1) !! q = files (fs w) !! q.
Proof.
  unfold update_provider. cbv zeta. rewrite !bind_run.
  unfold path_exists. cbv beta iota.
  destruct (is_file (fs w) _ || is_dir (fs w) _);
    [|rewrite !ret_run; by intros [= <- <-]].
  rewrite !bind_run.
  destruct (files (fs w) !! (providers_dir ++ [provider_name])) as [content|] eqn:Hf.
  - rewrite !(update_provider_org_context_run _ _ _ _ Hf).
    destruct (negb _); [rewrite !ret_run; by intros [= <- <-]|].
    destruct (str_in _ content); [rewrite !ret_run; by intros [= <- <-]|].
    destruct (create_error (fs w) _); [discriminate|].
    rewrite !ret_run. intros [= <- <-]. split_and!; try done.
    intros q Hq. by apply store_lookup_ne.
  - unfold update_provider_org_context at 1. rewrite bind_run.
    unfold read_text. rewrite Hf. discriminate.
Qed.

(** The preview of a round looks at the file of the round and at the
    directories only. *)
Lemma update_provider_preview providers_dir updates provider_name w1 w2 updates' :
  files (fs w1) !! (providers_dir ++ [provider_name])
  = files (fs w2) !! (providers_dir ++ [provider_name]) ->
  dirs (fs w1) = dirs (fs w2) ->
  update_provider providers_dir true updates provider_name w1 = (Return updates', w1) ->
  update_provider providers_dir true updates provider_name w2 = (Return updates', w2).
Proof.
  intros Hfiles Hdirs. unfold update_provider. cbv zeta. rewrite !bind_run.
  unfold path_exists, is_file, is_dir. cbv beta iota. rewrite Hfiles, Hdirs.
  destruct (_ || _); [|rewrite !ret_run; by intros [= <-]].
  rewrite !bind_run.
  destruct (files (fs w2) !! (providers_dir ++ [provider_name])) as [content|] eqn:Hf.
  - rewrite (update_provider_org_context_run _ _ _ _ Hf).
    rewrite (update_provider_org_context_run _ _ _ _ Hfiles).
    destruct (negb _); [rewrite !ret_run; by intros [= <-]|].
    destruct (str_in _ content); rewrite !ret_run; by intros [= <-].
  - unfold update_provider_org_context at 1. rewrite bind_run.
    unfold read_text. rewrite Hfiles. discriminate.
Qed.

Lemma readonly_update_providers_round providers_dir updates provider_name :
  readonly (update_provider providers_dir true updates provider_name).
Proof.
  unfold update_provider. cbv zeta.
  apply readonly_bind; [apply readonly_path_exists | intros e].
  destruct e; [|apply readonly_ret].
  apply readonly_bind; [apply readonly_update_provider_org_context | intros u].
  apply readonly_ret.
Qed.

Lemma preview_loop_transfer providers_dir (l : list string) :
  forall updates w1 w2 n,
    (forall g, g ∈ l ->
       files (fs w1) !! (providers_dir ++ [g]) = files (fs w2) !! (providers_dir ++ [g])) ->
    dirs (fs w1) = dirs (fs w2) ->
    for_fold l (update_provider providers_dir true) updates w1 = (Return n, w1) ->
    for_fold l (update_provider providers_dir true) updates w2 = (Return n, w2).
Proof.
  induction l as [|g l IH]; intros updates w1 w2 n Hfiles Hdirs; cbn [for_fold].
  - rewrite !ret_run. by intros [= <-].
  - rewrite !bind_run.
    destruct (update_provider providers_dir true updates g w1) as [[u1|e] w1'] eqn:Hstep;
      [|discriminate].
    assert (w1' = w1) as ->.
    { pose proof (readonly_update_providers_round providers_dir updates g w1) as Hro.
      by rewrite Hstep in Hro. }
    rewrite (update_provider_preview _ _ _ _ w2 _ (Hfiles g ltac:(left)) Hdirs Hstep).
    apply IH; [|done]. intros g' Hg'. apply Hfiles. by right.
Qed.


(** The loop in apply mode, when it returns, has counted what the
    preview counts. *)
Lemma apply_loop_preview providers_dir (l : list string) :
  NoDup l ->
  forall updates w n w',
    for_fold l (update_provider providers_dir false) updates w = (Return n, w') ->
    for_fold l (update_provider providers_dir true) updates w = (Return n, w).
Proof.
  induction l as [|g l IH]; intros Hnd updates w n w'; cbn [for_fold].
  - rewrite !ret_run. by intros [= <- _].
  - apply NoDup_cons in Hnd as [Hg Hnd]. rewrite !bind_run.
    destruct (update_provider providers_dir false updates g w) as [[u1|e] w1] eqn:Hstep;
      [|discriminate].
    apply update_provider_apply in Hstep as (Hdry & Hdirs & Hframe).
    rewrite Hdry. intros Hloop. apply (IH Hnd) in Hloop.
    apply (preview_loop_transfer _ _ _ w1); [|done|done].
    intros g' Hg'. apply Hframe. intros Heq. apply app_inv_head in Heq.
    injection Heq as ->. done.
Qed.

Lemma key_providers_NoDup : NoDup key_providers.
Proof. apply (bool_decide_unpack _). vm_compute. exact I. Qed.

(** The analysis step does not look at the mode. *)
Lemma update_database_service_any_mode dry_run w :
  update_database_service dry_run w = update_database_service true w.
Proof.
  unfold update_database_service. cbv zeta. rewrite !bind_run.
  destruct (read_text _ w) as [[content|e] w1]; [|done].
  rewrite !ret_run. do 2 f_equal.
  generalize 0%nat. induction methods_to_update as [|[method_name table] l IH];
    intros changes; cbn [fold_left]; [done|].
  rewrite IH. f_equal. unfold count_method. by destruct dry_run.
Qed.

Lemma update_providers_preview w n w' :
  update_providers false w = (Return n, w') -> update_providers true w = (Return n, w).
Proof. apply apply_loop_preview, key_providers_NoDup. Qed.

(** A run in which a mode is given. *)
Lemma wire_main_run a w :
  arg_dry_run a || arg_apply a = true ->
  main a w =
  match update_database_service (arg_dry_run a) w with
  | (Return db_updates, w1) =>
      match update_providers (arg_dry_run a) w1 with
      | (Return provider_updates, w2) => (Return (db_updates, provider_updates), w2)
      | (Raise e, w2) => (Raise e, w2)
      end
  | (Raise e, w1) => (Raise e, w1)
  end.
Proof.
  intros Hmode. unfold main. rewrite Hmode. cbn [negb]. cbv zeta.
  rewrite bind_run. destruct (update_database_service _ w) as [[d|e] w1]; [|done].
  rewrite bind_run. by destruct (update_providers _ w1) as [[p|e] w2].
Qed.

(** X11: the preview of the third script counts what the apply mode
    updates.  When an apply run returns its two counters, the preview run
    on the same project returns the same counters (and changes
    nothing). *)
Theorem preview_counts_what_apply_updates :
  forall a w counts w',
    arg_dry_run a = false ->
    main a w = (Return counts, w') ->
    forall a', arg_dry_run a' = true -> main a' w = (Return counts, w).
Proof.
  intros a w counts w' Hdry Hrun a' Hdry'.
  assert (Hmode : arg_dry_run a || arg_apply a = true).
  { destruct (arg_dry_run a || arg_apply a) eqn:Hm; [done|].
    unfold main in Hrun. rewrite Hm in Hrun. discriminate. }
  rewrite (wire_main_run _ _ Hmode), Hdry in Hrun.
  rewrite wire_main_run by (by rewrite Hdry').
  rewrite Hdry'. rewrite (update_database_service_any_mode false) in Hrun.
  destruct (update_database_service true w) as [[d|e] w1] eqn:Hdb; [|discriminate].
  assert (w1 = w) as ->.
  { pose proof (readonly_wire_update_database_service true w) as Hro.
    by rewrite Hdb in Hro. }
  destruct (update_providers false w) as [[n|e] w2] eqn:Hloop; [|discriminate].
  injection Hrun as <- _.
  by rewrite (update_providers_preview _ _ _ Hloop).
Qed.


End WirePreview.

Section WireSamples.
Import Wire.

Lemma todo_comment_is_put_in_once_witness :
  let content := txt "import 'a.dart';
final c = Supabase.instance.client;
" in
  let r := @update_provider_org_context ascii_table sizes_provider false unwired_provider in
  files (fs unwired_provider) !! sizes_provider = Some content
  /\ str_in (txt "import ") content = true
  /\ str_in (txt "TODO: Multi-tenant") content = false
  /\ r = (Return true, snd r)
  /\ forall dry_run,
       @update_provider_org_context ascii_table sizes_provider dry_run (snd r)
       = (Return false, snd r).
Proof.
  cbv zeta.
  assert (Hf : files (fs unwired_provider) !! sizes_provider
               = Some (txt "import 'a.dart';
final c = Supabase.instance.client;
")) by (vm_compute; reflexivity).
  assert (Hi : str_in (txt "import ") (txt "import 'a.dart';
final c = Supabase.instance.client;
") = true) by (vm_compute; reflexivity).
  assert (Ht : str_in (txt "TODO: Multi-tenant") (txt "import 'a.dart';
final c = Supabase.instance.client;
") = false) by (vm_compute; reflexivity).
  assert (Hrun :
    @update_provider_org_context ascii_table sizes_provider false unwired_provider
    = (Return true,
       snd (@update_provider_org_context ascii_table sizes_provider false
              unwired_provider))).
  { rewrite (surjective_pairing (update_provider_org_context _ _ _)) at 1.
    f_equal; vm_compute; reflexivity. }
  split_and!; [exact Hf | exact Hi | exact Ht | exact Hrun |].
  exact (proj2 (proj2 (proj1 (@todo_comment_is_put_in_once ascii_table)
                         _ _ _ _ Hf Hi Ht Hrun))).
Defined.

Lemma preview_counts_what_apply_updates_witness :
  let a := {| arg_dry_run := false; arg_apply := true |} in
  let a' := {| arg_dry_run := true; arg_apply := false |} in
  let r := @main ascii_table a unwired_provider in
  r = (Return (0%nat, 1%nat), snd r)
  /\ @main ascii_table a' unwired_provider = (Return (0%nat, 1%nat), unwired_provider).
Proof.
  cbv zeta.
  assert (Hrun :
    @main ascii_table {| arg_dry_run := false; arg_apply := true |} unwired_provider
    = (Return (0%nat, 1%nat),
       snd (@main ascii_table {| arg_dry_run := false; arg_apply := true |}
              unwired_provider))).
  { rewrite (surjective_pairing (main _ _)) at 1.
    f_equal; vm_compute; reflexivity. }
  split; [exact Hrun|].
  exact (@preview_counts_what_apply_updates ascii_table
           {| arg_dry_run := false; arg_apply := true |} _ _ _ eq_refl Hrun
           {| arg_dry_run := true; arg_apply := false |} eq_refl).
Defined.


End WireSamples.

(** ** The layout of the backups *)

Section BackupLayout.

(** [mkdir(parents=True, exist_ok=True)] changes no file and makes
    directories on the way to its path only. *)
Lemma mkdir_from_dirs (above below : list string) (w : world) :
  files (fs (snd (mkdir_from above below w))) = files (fs w)
  /\ forall d, d ∈ dirs (fs (snd (mkdir_from above below w))) ->
       d ∈ dirs (fs w)
       \/ exists k, (0 < k <= length below)%nat /\ d = above ++ take k below.
Proof.
  revert above w. induction below as [|c below IH]; intros above w; cbn [mkdir_from].
  - rewrite ret_run. cbn [snd]. split; [done | by left].
  - destruct (is_file (fs w) (above ++ [c])); [cbn [snd]; split; [done | by left]|].
    destruct (is_dir (fs w) (above ++ [c])).
    + destruct (IH (above ++ [c]) w) as [Hf Hd]. split; [done|].
      intros d Hin. destruct (Hd d Hin) as [? | (k & Hk & ->)]; [by left|].
      right. exists (S k). cbn [length take]. split; [lia|]. by rewrite <- app_assoc.
    + destruct (IH (above ++ [c]) (add_dir (above ++ [c]) w)) as [Hf Hd]. split; [done|].
      intros d Hin. destruct (Hd d Hin) as [Hold | (k & Hk & ->)].
      * cbn [add_dir fs dirs] in Hold. apply elem_of_union in Hold as [Hnew | ?];
          [|by left].
        apply elem_of_singleton in Hnew as ->. right. exists 1%nat.
        cbn [length take]. split; [lia|]. by rewrite take_0.
      * right. exists (S k). cbn [length take]. split; [lia|]. by rewrite <- app_assoc.
Qed.

Lemma mkdir_parents_dirs (p : list string) (w : world) :
  files (fs (snd (mkdir_parents p w))) = files (fs w)
  /\ forall d, d ∈ dirs (fs (snd (mkdir_parents p w))) ->
       d ∈ dirs (fs w) \/ exists k, (0 < k <= length p)%nat /\ d = take k p.
Proof. apply (mkdir_from_dirs [] p w). Qed.

(** A copy to a path that is no directory goes to that path. *)
Lemma copy2_exact (src dst : list string) (w w2 : world) :
  is_dir (fs w) dst = false ->
  copy2 src dst w = (Return tt, w2) ->
  exists c, files (fs w) !! src = Some c /\ w2 = store dst c (Copied src dst) w.
Proof.
  intros Hd. unfold copy2. rewrite Hd.
  destruct (files (fs w) !! src) as [c|]; [|discriminate].
  destruct (create_error (fs w) dst); [discriminate|].
  intros [= <-]. by exists c.
Qed.

Lemma backed_up_into_refl bp ds w : backed_up_into bp ds w w.
Proof. split; [by left | done]. Qed.

Lemma provider_source_shape (f : list string) :
  provider_source f ->
  f = ["lib"; "core"; "services"; "database_service.dart"]
  \/ exists x, f = ["lib"; "providers"; x].
Proof.
  intros [-> | [Hne Hp]]; [by left|]. right. exists (name f).
  rewrite (path_split f Hne) at 1. by rewrite Hp.
Qed.

(** A round of the loop of the backup of the second script. *)
Lemma providers_body_exact (ts : string) (w0 w w2 : world) (f : list string) :
  (forall rest, (Phase2.BACKUP_DIR ++ [ts]) ++ rest ∉ dirs (fs w0)) ->
  provider_source f ->
  backed_up_into (Phase2.BACKUP_DIR ++ [ts]) (second_backup_dirs ts) w0 w ->
  providers_body (Phase2.BACKUP_DIR ++ [ts]) f w = (Return tt, w2) ->
  backed_up_into (Phase2.BACKUP_DIR ++ [ts]) (second_backup_dirs ts) w0 w2
  /\ (forall c, files (fs w0) !! f = Some c ->
        files (fs w2) !! ((Phase2.BACKUP_DIR ++ [ts]) ++ Phase2.relative_to_lib f) = Some c)
  /\ (forall g c, provider_source g ->
        files (fs w0) !! g = Some c ->
        files (fs w) !! ((Phase2.BACKUP_DIR ++ [ts]) ++ Phase2.relative_to_lib g) = Some c ->
        files (fs w2) !! ((Phase2.BACKUP_DIR ++ [ts]) ++ Phase2.relative_to_lib g) = Some c).
Proof.
  intros Hfresh Hsrc [Hdirs Hfiles]. unfold providers_body. cbv zeta.
  rewrite bind_run. unfold path_exists. cbv beta iota.
  assert (Hlib : forall rest, f <> (Phase2.BACKUP_DIR ++ [ts]) ++ rest).
  { intros rest Heq. destruct (provider_source_lib f Hsrc) as [t ->]. discriminate. }
  destruct (is_file (fs w) f || is_dir (fs w) f) eqn:He; cbn [when].
  2:{ rewrite ret_run. intros [= <-]. split_and!; [by split | | done].
      intros c Hc. apply orb_false_iff in He as [He _].
      unfold is_file in He. apply bool_decide_eq_false_1 in He.
      exfalso. apply He. rewrite (Hfiles f Hlib). eauto. }
  rewrite seq_run.
  destruct (mkdir_parents_dirs
              (parent ((Phase2.BACKUP_DIR ++ [ts]) ++ Phase2.relative_to_lib f)) w)
    as [Hmf Hmd].
  destruct (mkdir_parents _ w) as [[[]|e] wa]; [|discriminate].
  cbn [snd] in Hmf, Hmd.
  assert (Hmade : forall d, d ∈ dirs (fs wa) -> d ∈ dirs (fs w0) \/ d ∈ second_backup_dirs ts).
  { intros d Hd. destruct (Hmd d Hd) as [Hold | (k & Hk & ->)]; [by apply Hdirs|].
    right. unfold second_backup_dirs.
    destruct (provider_source_shape f Hsrc) as [-> | [x ->]]; cbn in Hk; cbn.
    - destruct k as [|[|[|[|[|k]]]]]; try (exfalso; lia); clear; cbn; set_solver.
    - destruct k as [|[|[|[|k]]]]; try (exfalso; lia); clear; cbn; set_solver. }
  assert (Hnodir :
    is_dir (fs wa) ((Phase2.BACKUP_DIR ++ [ts]) ++ Phase2.relative_to_lib f) = false).
  { unfold is_dir. apply orb_false_iff. split.
    - apply bool_decide_eq_false_2. discriminate.
    - apply bool_decide_eq_false_2. intros Hin.
      destruct (Hmade _ Hin) as [Hold | Hnew]; [by apply Hfresh in Hold|].
      unfold second_backup_dirs in Hnew.
      destruct (provider_source_shape f Hsrc) as [-> | [x ->]]; cbn in Hnew;
        set_unfold; intuition discriminate. }
  intros Hcopy. apply (copy2_exact _ _ _ _ Hnodir) in Hcopy as (c & Hc & ->).
  rewrite Hmf, (Hfiles f Hlib) in Hc.
  split_and!.
  - split; [done|]. intros q Hq. cbn [store fs files].
    rewrite lookup_insert_ne by (intros Heq; by apply (Hq (Phase2.relative_to_lib f))).
    rewrite Hmf. by apply Hfiles.
  - intros c' Hc'. rewrite store_lookup. congruence.
  - intros g c' Hg Hc' Hdone.
    destruct (decide ((Phase2.BACKUP_DIR ++ [ts]) ++ Phase2.relative_to_lib g
                      = (Phase2.BACKUP_DIR ++ [ts]) ++ Phase2.relative_to_lib f))
      as [Heq | Hne].
    + rewrite Heq, store_lookup. apply app_inv_head in Heq.
      destruct (provider_source_lib f Hsrc) as [t ->].
      destruct (provider_source_lib g Hg) as [t' ->].
      change (t' = t) in Heq. subst t'. congruence.
    + rewrite store_lookup_ne by done. cbn [fs files] in *. by rewrite Hmf.
Qed.


(** The loop of the backup of the second script. *)
Lemma providers_loop_exact (ts : string) (w0 : world) (l : list (list string)) :
  (forall rest, (Phase2.BACKUP_DIR ++ [ts]) ++ rest ∉ dirs (fs w0)) ->
  (forall f, f ∈ l -> provider_source f) ->
  forall w w1,
    backed_up_into (Phase2.BACKUP_DIR ++ [ts]) (second_backup_dirs ts) w0 w ->
    for_each l (providers_body (Phase2.BACKUP_DIR ++ [ts])) w = (Return tt, w1) ->
    backed_up_into (Phase2.BACKUP_DIR ++ [ts]) (second_backup_dirs ts) w0 w1
    /\ (forall f c, f ∈ l -> files (fs w0) !! f = Some c ->
          files (fs w1) !! ((Phase2.BACKUP_DIR ++ [ts]) ++ Phase2.relative_to_lib f)
          = Some c)
    /\ (forall g c, provider_source g ->
          files (fs w0) !! g = Some c ->
          files (fs w) !! ((Phase2.BACKUP_DIR ++ [ts]) ++ Phase2.relative_to_lib g)
          = Some c ->
          files (fs w1) !! ((Phase2.BACKUP_DIR ++ [ts]) ++ Phase2.relative_to_lib g)
          = Some c).
Proof.
  intros Hfresh. induction l as [|f l IH]; intros Hsrc w w1 Hinv; cbn [for_each].
  - rewrite ret_run. intros [= <-]. split_and!; try done.
    intros f c Hf. by apply not_elem_of_nil in Hf.
  - rewrite seq_run.
    destruct (providers_body _ f w) as [[[]|e] wa] eqn:Hstep; [|discriminate].
    apply (providers_body_exact ts w0) in Hstep as (Hinva & Hown & Hkeep);
      [|done|apply Hsrc; left|done].
    intros Hloop. apply IH in Hloop as (Hinv1 & Hrest & Hkeep1);
      [|intros g Hg; apply Hsrc; by right|done].
    split_and!; [done | |].
    + intros g c Hg Hc. apply elem_of_cons in Hg as [-> | Hg].
      * apply Hkeep1; [apply Hsrc; left | done | by apply Hown].
      * by apply Hrest.
    + intros g c Hg Hc Hdone. apply Hkeep1; [done | done |]. by apply Hkeep.
Qed.

(** A round of the loop of the backup of the first script. *)
Lemma models_body_exact (ts : string) (w0 w w2 : world) (f : list string) :
  (forall rest, (MigrateToSaas.BACKUP_DIR ++ [ts]) ++ rest ∉ dirs (fs w0)) ->
  f <> [] -> parent f = MigrateToSaas.MODELS_DIR ->
  backed_up_into (MigrateToSaas.BACKUP_DIR ++ [ts]) (first_backup_dirs ts) w0 w ->
  models_body ((MigrateToSaas.BACKUP_DIR ++ [ts]) ++ ["models"]) f w = (Return tt, w2) ->
  backed_up_into (MigrateToSaas.BACKUP_DIR ++ [ts]) (first_backup_dirs ts) w0 w2
  /\ (forall c, model_kept f = true -> files (fs w0) !! f = Some c ->
        files (fs w2) !! ((MigrateToSaas.BACKUP_DIR ++ [ts]) ++ ["models"; name f]) = Some c)
  /\ (forall g c, g <> [] -> parent g = MigrateToSaas.MODELS_DIR ->
        files (fs w0) !! g = Some c ->
        files (fs w) !! ((MigrateToSaas.BACKUP_DIR ++ [ts]) ++ ["models"; name g]) = Some c ->
        files (fs w2) !! ((MigrateToSaas.BACKUP_DIR ++ [ts]) ++ ["models"; name g])
        = Some c).
Proof.
  intros Hfresh Hne Hp [Hdirs Hfiles]. unfold models_body.
  assert (Hlib : forall rest, f <> (MigrateToSaas.BACKUP_DIR ++ [ts]) ++ rest).
  { intros rest Heq. rewrite (path_split f Hne), Hp in Heq. discriminate. }
  change (negb _) with (model_kept f).
  destruct (model_kept f) eqn:Hkept; cbn [when].
  2:{ rewrite ret_run. intros [= <-]. split_and!; [by split | done | done]. }
  assert (Hnodir :
    is_dir (fs w) (((MigrateToSaas.BACKUP_DIR ++ [ts]) ++ ["models"]) ++ [name f]) = false).
  { unfold is_dir. apply orb_false_iff. split.
    - apply bool_decide_eq_false_2. discriminate.
    - apply bool_decide_eq_false_2. intros Hin.
      destruct (Hdirs _ Hin) as [Hold | Hnew].
      + rewrite <- app_assoc in Hold. by apply Hfresh in Hold.
      + unfold first_backup_dirs in Hnew. cbn in Hnew.
        set_unfold. intuition discriminate. }
  intros Hcopy. apply (copy2_exact _ _ _ _ Hnodir) in Hcopy as (c & Hc & ->).
  rewrite (Hfiles f Hlib) in Hc.
  split_and!.
  - split; [done|]. intros q Hq. cbn [store fs files].
    rewrite lookup_insert_ne; [by apply Hfiles|].
    intros Heq. apply (Hq ["models"; name f]). by rewrite <- Heq, <- app_assoc.
  - intros c' _ Hc'. assert (c' = c) as -> by congruence.
    replace ((MigrateToSaas.BACKUP_DIR ++ [ts]) ++ ["models"; name f])
      with (((MigrateToSaas.BACKUP_DIR ++ [ts]) ++ ["models"]) ++ [name f])
      by (by rewrite <- app_assoc).
    apply store_lookup.
  - intros g c' Hg Hpg Hc' Hdone.
    destruct (decide (name g = name f)) as [Heq | Hneq].
    + assert (g = f) as ->.
      { rewrite (path_split g Hg), (path_split f Hne), Hpg, Hp. by rewrite Heq. }
      assert (c' = c) as -> by congruence.
      replace ((MigrateToSaas.BACKUP_DIR ++ [ts]) ++ ["models"; name f])
        with (((MigrateToSaas.BACKUP_DIR ++ [ts]) ++ ["models"]) ++ [name f])
        by (by rewrite <- app_assoc).
      apply store_lookup.
    + rewrite store_lookup_ne; [done|].
      intros Heq'. rewrite <- app_assoc in Heq'. cbn in Heq'. by injection Heq'.
Qed.

(** The loop of the backup of the first script. *)
Lemma models_loop_exact (ts : string) (w0 : world) (l : list (list string)) :
  (forall rest, (MigrateToSaas.BACKUP_DIR ++ [ts]) ++ rest ∉ dirs (fs w0)) ->
  (forall f, f ∈ l -> f <> [] /\ parent f = MigrateToSaas.MODELS_DIR) ->
  forall w w1,
    backed_up_into (MigrateToSaas.BACKUP_DIR ++ [ts]) (first_backup_dirs ts) w0 w ->
    for_each l (models_body ((MigrateToSaas.BACKUP_DIR ++ [ts]) ++ ["models"])) w
    = (Return tt, w1) ->
    backed_up_into (MigrateToSaas.BACKUP_DIR ++ [ts]) (first_backup_dirs ts) w0 w1
    /\ (forall f c, f ∈ l -> model_kept f = true -> files (fs w0) !! f = Some c ->
          files (fs w1) !! ((MigrateToSaas.BACKUP_DIR ++ [ts]) ++ ["models"; name f])
          = Some c)
    /\ (forall g c, g <> [] -> parent g = MigrateToSaas.MODELS_DIR ->
          files (fs w0) !! g = Some c ->
          files (fs w) !! ((MigrateToSaas.BACKUP_DIR ++ [ts]) ++ ["models"; name g])
          = Some c ->
          files (fs w1) !! ((MigrateToSaas.BACKUP_DIR ++ [ts]) ++ ["models"; name g])
          = Some c).
Proof.
  intros Hfresh. induction l as [|f l IH]; intros Hsrc w w1 Hinv; cbn [for_each].
  - rewrite ret_run. intros [= <-]. split_and!; try done.
    intros f c Hf. by apply not_elem_of_nil in Hf.
  - rewrite seq_run.
    destruct (models_body _ f w) as [[[]|e] wa] eqn:Hstep; [|discriminate].
    destruct (Hsrc f ltac:(left)) as [Hne Hp].
    apply (models_body_exact ts w0) in Hstep as (Hinva & Hown & Hkeep); try done.
    intros Hloop. apply IH in Hloop as (Hinv1 & Hrest & Hkeep1);
      [|intros g Hg; apply Hsrc; by right|done].
    split_and!; [done | |].
    + intros g c Hg Hk Hc. apply elem_of_cons in Hg as [-> | Hg].
      * apply Hkeep1; try done. by apply Hown.
      * by apply Hrest.
    + intros g c Hg Hpg Hc Hdone. apply Hkeep1; try done. by apply Hkeep.
Qed.

End BackupLayout.

Section BackupLayoutTheorem.

Lemma first_backup_exact (ts : string) (w w1 : world) (bp : list string) :
  (forall rest, (MigrateToSaas.BACKUP_DIR ++ [ts]) ++ rest ∉ dirs (fs w)) ->
  MigrateToSaas.create_backup ts w = (Return bp, w1) ->
  bp = MigrateToSaas.BACKUP_DIR ++ [ts]
  /\ backed_up_into (MigrateToSaas.BACKUP_DIR ++ [ts]) (first_backup_dirs ts) w w1
  /\ (forall f c,
        f <> [] -> parent f = MigrateToSaas.MODELS_DIR ->
        name_ends_with ".dart" (name f) = true -> model_kept f = true ->
        files (fs w) !! f = Some c ->
        files (fs w1) !! ((MigrateToSaas.BACKUP_DIR ++ [ts]) ++ ["models"; name f]) = Some c)
  /\ (forall c,
        files (fs w) !! MigrateToSaas.DATABASE_SERVICE = Some c ->
        files (fs w1)
          !! ((MigrateToSaas.BACKUP_DIR ++ [ts]) ++ ["services"; "database_service.dart"])
        = Some c).
Proof.
  intros Hfresh Hrun. unfold MigrateToSaas.create_backup in Hrun. cbv zeta in Hrun.
  rewrite seq_run in Hrun.
  destruct (mkdir_parents_dirs ((MigrateToSaas.BACKUP_DIR ++ [ts]) ++ ["models"]) w)
    as [Haf Had].
  destruct (mkdir_parents ((MigrateToSaas.BACKUP_DIR ++ [ts]) ++ ["models"]) w)
    as [[[]|e] wa] eqn:Ha; [|discriminate].
  cbn [snd] in Haf, Had.
  rewrite bind_run in Hrun. unfold glob_dart at 1 in Hrun. cbv beta iota in Hrun.
  set (l := List.filter _ _) in Hrun.
  rewrite seq_run in Hrun.
  change (fun model_file : list string => when _ _)
    with (models_body ((MigrateToSaas.BACKUP_DIR ++ [ts]) ++ ["models"])) in Hrun.
  destruct (for_each l (models_body ((MigrateToSaas.BACKUP_DIR ++ [ts]) ++ ["models"])) wa)
    as [[[]|e] wb] eqn:Hb; [|discriminate].
  rewrite seq_run in Hrun.
  destruct (mkdir_parents_dirs ((MigrateToSaas.BACKUP_DIR ++ [ts]) ++ ["services"]) wb)
    as [Hcf Hcd].
  destruct (mkdir_parents ((MigrateToSaas.BACKUP_DIR ++ [ts]) ++ ["services"]) wb)
    as [[[]|e] wc] eqn:Hc; [|discriminate].
  cbn [snd] in Hcf, Hcd.
  rewrite bind_run in Hrun. unfold path_exists at 1 in Hrun. cbv beta iota in Hrun.
  rewrite seq_run in Hrun.
  destruct (when _ _ wc) as [[[]|e] wd] eqn:Hd; [|discriminate].
  rewrite ret_run in Hrun. injection Hrun as <- <-.
  assert (Hinva : backed_up_into (MigrateToSaas.BACKUP_DIR ++ [ts]) (first_backup_dirs ts)
                    w wa).
  { split.
    - intros d Hin. destruct (Had d Hin) as [? | (k & Hk & ->)]; [by left|].
      right. unfold first_backup_dirs. cbn in Hk.
      destruct k as [|[|[|[|k]]]]; try (exfalso; lia); clear; cbn; set_solver.
    - intros q _. by rewrite Haf. }
  assert (Hl : forall f, f ∈ l -> f <> [] /\ parent f = MigrateToSaas.MODELS_DIR).
  { intros f Hf. apply list_elem_of_In, filter_In in Hf as [_ Hf].
    apply andb_true_iff in Hf as [Hf _]. apply andb_true_iff in Hf as [Hf1 Hf2].
    apply negb_true_iff, bool_decide_eq_false_1 in Hf1.
    by apply bool_decide_eq_true_1 in Hf2. }
  destruct (models_loop_exact ts w l Hfresh Hl wa wb Hinva Hb) as (Hinvb & Hcopied & _).
  assert (Hinvc : backed_up_into (MigrateToSaas.BACKUP_DIR ++ [ts]) (first_backup_dirs ts)
                    w wc).
  { destruct Hinvb as [Hbd Hbf]. split.
    - intros d Hin. destruct (Hcd d Hin) as [? | (k & Hk & ->)]; [by apply Hbd|].
      right. unfold first_backup_dirs. cbn in Hk.
      destruct k as [|[|[|[|k]]]]; try (exfalso; lia); clear; cbn; set_solver.
    - intros q Hq. rewrite Hcf. by apply Hbf. }
  assert (Hmodels : forall f c,
    f <> [] -> parent f = MigrateToSaas.MODELS_DIR ->
    name_ends_with ".dart" (name f) = true -> model_kept f = true ->
    files (fs w) !! f = Some c ->
    files (fs wc) !! ((MigrateToSaas.BACKUP_DIR ++ [ts]) ++ ["models"; name f]) = Some c).
  { intros f c Hne Hp Hdart Hkept Hf. rewrite Hcf. apply Hcopied; try done.
    apply list_elem_of_In, filter_In. split.
    - apply list_elem_of_In, elem_of_elements, elem_of_union. left.
      apply elem_of_dom. rewrite Haf. eauto.
    - rewrite bool_decide_eq_false_2 by done.
      by rewrite bool_decide_eq_true_2, Hdart by done. }
  split; [done|].
  destruct (is_file (fs wc) MigrateToSaas.DATABASE_SERVICE
            || is_dir (fs wc) MigrateToSaas.DATABASE_SERVICE) eqn:He; cbn [when] in Hd.
  2:{ rewrite ret_run in Hd. injection Hd as <-. split_and!; [done | done |].
      intros c Hdb. apply orb_false_iff in He as [He _].
      unfold is_file in He. apply bool_decide_eq_false_1 in He.
      exfalso. apply He. destruct Hinvc as [_ Hcfiles].
      rewrite Hcfiles; [eauto|]. intros rest. discriminate. }
  assert (Hnodir :
    is_dir (fs wc)
      (((MigrateToSaas.BACKUP_DIR ++ [ts]) ++ ["services"])
         ++ [name MigrateToSaas.DATABASE_SERVICE]) = false).
  { unfold is_dir. apply orb_false_iff. split.
    - apply bool_decide_eq_false_2. discriminate.
    - apply bool_decide_eq_false_2. intros Hin.
      destruct Hinvc as [Hcdirs _].
      destruct (Hcdirs _ Hin) as [Hold | Hnew].
      + rewrite <- app_assoc in Hold. by apply Hfresh in Hold.
      + unfold first_backup_dirs in Hnew. cbn in Hnew.
        set_unfold. intuition discriminate. }
  apply (copy2_exact _ _ _ _ Hnodir) in Hd as (c & Hc' & ->).
  destruct Hinvc as [Hcdirs Hcfiles].
  split_and!.
  - split; [done|]. intros q Hq. cbn [store fs files].
    rewrite lookup_insert_ne; [by apply Hcfiles|].
    intros Heq. apply (Hq ["services"; "database_service.dart"]). by rewrite <- Heq.
  - intros f c' Hne Hp Hdart Hkept Hf. rewrite store_lookup_ne; [by apply Hmodels|].
    discriminate.
  - intros c' Hdb. rewrite Hcfiles in Hc' by (intros rest; discriminate).
    assert (c' = c) as -> by congruence. apply store_lookup.
Qed.

Lemma second_backup_exact (ts : string) (w w1 : world) (bp : list string) :
  (forall rest, (Phase2.BACKUP_DIR ++ [ts]) ++ rest ∉ dirs (fs w)) ->
  Phase2.create_backup ts w = (Return bp, w1) ->
  bp = Phase2.BACKUP_DIR ++ [ts]
  /\ backed_up_into (Phase2.BACKUP_DIR ++ [ts]) (second_backup_dirs ts) w w1
  /\ (forall f c,
        files (fs w) !! f = Some c ->
        f = Phase2.LIB_DIR ++ ["core"; "services"; "database_service.dart"]
        \/ (f <> [] /\ parent f = Phase2.LIB_DIR ++ ["providers"]
            /\ name_ends_with ".dart" (name f) = true
            /\ name_ends_with ".g.dart" (name f) = false) ->
        files (fs w1) !! ((Phase2.BACKUP_DIR ++ [ts]) ++ Phase2.relative_to_lib f) = Some c).
Proof.
  intros Hfresh Hrun. unfold Phase2.create_backup in Hrun. cbv zeta in Hrun.
  rewrite seq_run in Hrun.
  destruct (mkdir_parents_dirs (Phase2.BACKUP_DIR ++ [ts]) w) as [Haf Had].
  destruct (mkdir_parents (Phase2.BACKUP_DIR ++ [ts]) w) as [[[]|e] wa] eqn:Ha;
    [|discriminate].
  cbn [snd] in Haf, Had.
  rewrite bind_run in Hrun. unfold glob_dart at 1 in Hrun. cbv beta iota in Hrun.
  set (entries := List.filter _ (elements _)) in Hrun.
  set (l := _ ++ List.filter _ entries) in Hrun.
  rewrite seq_run in Hrun.
  change (fun f : list string => bind (path_exists f) _)
    with (providers_body (Phase2.BACKUP_DIR ++ [ts])) in Hrun.
  destruct (for_each l (providers_body (Phase2.BACKUP_DIR ++ [ts])) wa)
    as [[[]|e] wb] eqn:Hb; [|discriminate].
  rewrite ret_run in Hrun. injection Hrun as <- <-.
  assert (Hinva : backed_up_into (Phase2.BACKUP_DIR ++ [ts]) (second_backup_dirs ts) w wa).
  { split.
    - intros d Hin. destruct (Had d Hin) as [? | (k & Hk & ->)]; [by left|].
      right. unfold second_backup_dirs. cbn in Hk.
      destruct k as [|[|[|k]]]; try (exfalso; lia); clear; cbn; set_solver.
    - intros q _. by rewrite Haf. }
  assert (Hmem : forall f, f ∈ l -> provider_source f).
  { intros f Hf. unfold l in Hf. apply elem_of_app in Hf as [Hf | Hf].
    - set_unfold. destruct Hf as [-> | [-> | []]]; [by left | right; by split].
    - apply list_elem_of_In, filter_In in Hf as [Hf _].
      unfold entries in Hf. apply filter_In in Hf as [_ Hf].
      apply andb_true_iff in Hf as [Hf _]. apply andb_true_iff in Hf as [Hf1 Hf2].
      apply negb_true_iff, bool_decide_eq_false_1 in Hf1.
      apply bool_decide_eq_true_1 in Hf2. right. by split. }
  destruct (providers_loop_exact ts w l Hfresh Hmem wa wb Hinva Hb)
    as (Hinvb & Hcopied & _).
  split_and!; [done | done |].
  intros f c Hf Hcase. apply Hcopied; [|done].
  unfold l. destruct Hcase as [-> | (Hne & Hparent & Hdart & Hgen)].
  - apply elem_of_app. left. set_solver.
  - apply elem_of_app. right. apply list_elem_of_In, filter_In. split.
    + unfold entries. apply filter_In. split.
      * apply list_elem_of_In, elem_of_elements, elem_of_union. left.
        apply elem_of_dom. rewrite Haf. eauto.
      * rewrite bool_decide_eq_false_2 by done.
        by rewrite bool_decide_eq_true_2, Hdart by done.
    + by rewrite Hgen.
Qed.

(** X13: the layout of a backup.  When the backup directory of the run is
    new (no directory of the project lies under it) and the backup
    returns, the first script has put every model other than the
    generated ones at [models/<name>] and the database service at
    [services/database_service.dart] under it, and the second script
    has put the database service and every provider other than the
    generated ones at the path they have under [lib/]; every copy holds
    the text of its source.  The backup has made no directory but its
    own, and changed no file outside its directory. *)
Theorem backups_mirror_their_sources :
  (forall ts w bp w1,
      (forall rest, (MigrateToSaas.BACKUP_DIR ++ [ts]) ++ rest ∉ dirs (fs w)) ->
      MigrateToSaas.create_backup ts w = (Return bp, w1) ->
      bp = MigrateToSaas.BACKUP_DIR ++ [ts]
      /\ backed_up_into bp (first_backup_dirs ts) w w1
      /\ (forall f c,
            f <> [] -> parent f = MigrateToSaas.MODELS_DIR ->
            name_ends_with ".dart" (name f) = true -> model_kept f = true ->
            files (fs w) !! f = Some c ->
            files (fs w1) !! (bp ++ ["models"; name f]) = Some c)
      /\ (forall c,
            files (fs w) !! MigrateToSaas.DATABASE_SERVICE = Some c ->
            files (fs w1) !! (bp ++ ["services"; "database_service.dart"]) = Some c))
  /\ (forall ts w bp w1,
        (forall rest, (Phase2.BACKUP_DIR ++ [ts]) ++ rest ∉ dirs (fs w)) ->
        Phase2.create_backup ts w = (Return bp, w1) ->
        bp = Phase2.BACKUP_DIR ++ [ts]
        /\ backed_up_into bp (second_backup_dirs ts) w w1
        /\ (forall f c,
              files (fs w) !! f = Some c ->
              f = Phase2.LIB_DIR ++ ["core"; "services"; "database_service.dart"]
              \/ (f <> [] /\ parent f = Phase2.LIB_DIR ++ ["providers"]
                  /\ name_ends_with ".dart" (name f) = true
                  /\ name_ends_with ".g.dart" (name f) = false) ->
              files (fs w1) !! (bp ++ Phase2.relative_to_lib f) = Some c)).
Proof.
  split.
  - intros ts w bp w1 Hfresh Hrun.
    destruct (first_backup_exact ts w w1 bp Hfresh Hrun) as (-> & ? & ? & ?). done.
  - intros ts w bp w1 Hfresh Hrun.
    destruct (second_backup_exact ts w w1 bp Hfresh Hrun) as (-> & ? & ?). done.
Qed.

End BackupLayoutTheorem.

Section BackupLayoutSamples.

Lemma backups_mirror_their_sources_witness :
  let r := MigrateToSaas.create_backup "20240101_120000" two_models in
  (forall rest,
      (MigrateToSaas.BACKUP_DIR ++ ["20240101_120000"]) ++ rest ∉ dirs (fs two_models))
  /\ r = (Return (MigrateToSaas.BACKUP_DIR ++ ["20240101_120000"]), snd r)
  /\ files (fs (snd r))
       !! ["migration_backup"; "20240101_120000"; "models"; "user_model.dart"]
     = Some (txt "factory User({String? a,}) = _User;").
Proof.
  cbv zeta.
  assert (Hfresh : forall rest,
    (MigrateToSaas.BACKUP_DIR ++ ["20240101_120000"]) ++ rest ∉ dirs (fs two_models)).
  { intros rest Hin. unfold two_models, world_of in Hin. cbn [fs dirs] in Hin.
    apply elem_of_list_to_set in Hin. unfold project_dirs in Hin.
    set_unfold. intuition discriminate. }
  assert (Hrun :
    MigrateToSaas.create_backup "20240101_120000" two_models
    = (Return (MigrateToSaas.BACKUP_DIR ++ ["20240101_120000"]),
       snd (MigrateToSaas.create_backup "20240101_120000" two_models))).
  { rewrite (surjective_pairing (MigrateToSaas.create_backup _ _)) at 1.
    f_equal; vm_compute; reflexivity. }
  split_and!; [exact Hfresh | exact Hrun |].
  destruct (proj1 backups_mirror_their_sources _ _ _ _ Hfresh Hrun)
    as (_ & _ & Hmodels & _).
  apply (Hmodels user_model); [discriminate | reflexivity | reflexivity | reflexivity |].
  vm_compute. reflexivity.
Defined.

End BackupLayoutSamples.

(** ** Running the first script again *)

Section FirstScriptAgain.
Context `{UnicodeTable}.
Import MigrateToSaas.

Lemma idle_at_ret {A} (a : A) (w : world) : idle_at (mret a : M A) w.
Proof. done. Qed.

Lemma idle_at_raise {A} (e : exn) (w : world) : idle_at (raise e : M A) w.
Proof. done. Qed.

Lemma idle_at_path_exists (p : list string) (w : world) : idle_at (path_exists p) w.
Proof. done. Qed.

Lemma idle_at_bind {A B} (m : M A) (f : A -> M B) (w : world) :
  idle_at m w -> (forall a, idle_at (f a) w) -> idle_at (bind m f) w.
Proof.
  unfold idle_at. intros Hm Hf. rewrite bind_run.
  destruct (m w) as [[a|e] w1]; cbn [snd] in *; subst w1; [apply Hf | done].
Qed.

Lemma idle_at_seq {A B} (m : M A) (k : M B) (w : world) :
  idle_at m w -> idle_at k w -> idle_at (m;; k) w.
Proof. intros Hm Hk. by apply (idle_at_bind m (fun _ => k)). Qed.

Lemma idle_at_for_fold {A St} (xs : list A) (body : St -> A -> M St) (acc : St)
    (w : world) :
  (forall s x, x ∈ xs -> idle_at (body s x) w) -> idle_at (for_fold xs body acc) w.
Proof.
  revert acc. induction xs as [|x xs IH]; intros acc Hbody; cbn [for_fold].
  - apply idle_at_ret.
  - apply idle_at_bind; [apply Hbody; left|].
    intros a. apply IH. intros s y Hy. apply Hbody. by right.
Qed.

(** A settled model is left as it is, in either mode. *)
Lemma model_settled_idle p report dry_run w :
  model_settled (fs w) p -> idle_at (add_organization_id_to_model p report dry_run) w.
Proof.
  unfold model_settled, idle_at.
  destruct (files (fs w) !! p) as [content|] eqn:Hf.
  - rewrite (add_organization_id_to_model_run _ _ _ _ _ Hf). unfold factory_rule.
    destruct (has_organization_id content); [done|].
    by destruct (re_search factory_pattern content).
  - intros _. unfold add_organization_id_to_model. rewrite bind_run.
    unfold path_exists. cbv beta iota. destruct (negb _); [done|].
    rewrite bind_run. unfold read_text. by rewrite Hf.
Qed.

(** A call that returns leaves its model settled and the other files as
    they were. *)
Lemma add_organization_id_to_model_settles p report w r w' :
  add_organization_id_to_model p report false w = (Return r, w') ->
  model_settled (fs w') p
  /\ forall q, q <> p -> files (fs w') !! q = files (fs w) !! q.
Proof.
  unfold model_settled.
  destruct (files (fs w) !! p) as [content|] eqn:Hf.
  - rewrite (add_organization_id_to_model_run _ _ _ _ _ Hf).
    destruct (has_organization_id content) eqn:Hg.
    { intros [= _ <-]. rewrite Hf. unfold factory_rule. by rewrite Hg. }
    destruct (re_search factory_pattern content) as [m|] eqn:Hm.
    2:{ intros [= _ <-]. rewrite Hf. unfold factory_rule. by rewrite Hg, Hm. }
    destruct (create_error (fs w) p); [discriminate|].
    intros [= _ <-]. rewrite store_lookup. split.
    + apply (factory_rule_once content). unfold factory_rule. by rewrite Hg, Hm.
    + intros q Hq. by apply store_lookup_ne.
  - unfold add_organization_id_to_model. rewrite bind_run.
    unfold path_exists. cbv beta iota. destruct (negb _).
    + rewrite ret_run. intros [= _ <-]. by rewrite Hf.
    + rewrite bind_run. unfold read_text. rewrite Hf. discriminate.
Qed.

(** The loop over the models that returns leaves every listed model
    settled. *)
Lemma model_batch_settles (l : list string) :
  NoDup l ->
  forall report w report' w',
    for_fold l
      (fun report model_file =>
         let model_path := MODELS_DIR ++ [model_file] in
         let* r := add_organization_id_to_model model_path report false in
         mret (snd r))
      report w
    = (Return report', w') ->
    (forall f, f ∈ l -> model_settled (fs w') (MODELS_DIR ++ [f]))
    /\ forall q, (forall f, f ∈ l -> q <> MODELS_DIR ++ [f]) ->
         files (fs w') !! q = files (fs w) !! q.
Proof.
  induction l as [|f l IH]; intros Hnd report w report' w'; cbn [for_fold].
  - rewrite ret_run. intros [= _ <-]. split; [|done].
    intros f Hf. by apply not_elem_of_nil in Hf.
  - apply NoDup_cons in Hnd as [Hfl Hnd]. rewrite bind_run. cbv zeta. rewrite bind_run.
    destruct (add_organization_id_to_model (MODELS_DIR ++ [f]) report false w)
      as [[r|e] w1] eqn:Hstep; [|discriminate].
    rewrite ret_run. intros Hloop.
    apply add_organization_id_to_model_settles in Hstep as [Hset1 Hframe1].
    apply (IH Hnd) in Hloop as [Hset Hframe].
    split.
    + intros g Hg. apply elem_of_cons in Hg as [-> | Hg]; [|by apply Hset].
      unfold model_settled. rewrite Hframe; [exact Hset1|].
      intros g Hg Heq. apply app_inv_head in Heq. injection Heq as ->. done.
    + intros q Hq. rewrite Hframe by (intros g Hg; apply Hq; by right).
      apply Hframe1. apply Hq. left.
Qed.

(** A settled database service is left as it is, in either mode. *)
Lemma service_settled_idle report dry_run w :
  service_settled (fs w) -> idle_at (update_database_service report dry_run) w.
Proof.
  unfold service_settled, idle_at. intros Hs.
  apply update_database_service_idle.
  destruct (files (fs w) !! DATABASE_SERVICE) as [content|]; [|done].
  by rewrite (mark_tables_count content report new_report).
Qed.

(** An apply call that returns leaves the database service settled. *)
Lemma update_database_service_settles report w r w' :
  update_database_service report false w = (Return r, w') ->
  service_settled (fs w')
  /\ forall q, q <> DATABASE_SERVICE -> files (fs w') !! q = files (fs w) !! q.
Proof.
  unfold service_settled.
  destruct (files (fs w) !! DATABASE_SERVICE) as [content|] eqn:Hf.
  - rewrite (update_database_service_run _ _ _ _ Hf). cbv zeta.
    rewrite (mark_tables_count content report new_report).
    destruct (0 <? snd (mark_tables content new_report))%nat eqn:Hn; cbn [andb negb].
    2:{ intros [= _ <-]. rewrite Hf. split; [by left | done]. }
    destruct (str_in (txt "SAAS MIGRATION") content) eqn:Hmark; cbn [negb].
    { intros [= _ <-]. rewrite Hf. split; [right; by left | done]. }
    destruct (re_search class_pattern content) as [m|] eqn:Hm.
    2:{ intros [= _ <-]. rewrite Hf. split; [right; by right | done]. }
    destruct (create_error (fs w) DATABASE_SERVICE); [discriminate|].
    intros [= _ <-]. rewrite store_lookup. split.
    + right. left. apply str_in_middle, todo_header_marked.
    + intros q Hq. by apply store_lookup_ne.
  - rewrite (update_database_service_no_file _ _ _ Hf).
    destruct (is_dir (fs w) DATABASE_SERVICE); [discriminate|].
    intros [= _ <-]. by rewrite Hf.
Qed.

(** An apply call that returns leaves the provider file in place. *)
Lemma create_organization_provider_settles report w r w' :
  create_organization_provider report false w = (Return r, w') ->
  (is_file (fs w') (LIB_DIR ++ ["providers"; "organization_provider.dart"])
   || is_dir (fs w') (LIB_DIR ++ ["providers"; "organization_provider.dart"]) = true)
  /\ forall q, q <> LIB_DIR ++ ["providers"; "organization_provider.dart"] ->
       files (fs w') !! q = files (fs w) !! q.
Proof.
  destruct (is_file (fs w) (LIB_DIR ++ ["providers"; "organization_provider.dart"])
            || is_dir (fs w) (LIB_DIR ++ ["providers"; "organization_provider.dart"]))
    eqn:He.
  - rewrite (create_organization_provider_exists _ _ _ He). by intros [= _ <-].
  - unfold create_organization_provider. cbv zeta.
    rewrite bind_run. unfold path_exists. cbv beta iota. rewrite He.
    rewrite seq_run. unfold write_text.
    destruct (create_error (fs w) _); [discriminate|].
    rewrite ret_run. intros [= _ <-]. split.
    + unfold is_file. rewrite store_lookup. by rewrite bool_decide_eq_true_2 by eauto.
    + intros q Hq. by apply store_lookup_ne.
Qed.

(** X14: running the first script again.  After an apply run that
    returned, a further run that makes no backup, preview or apply,
    changes nothing at all: every listed model is skipped or found
    without a constructor to patch, the comment block of the database
    service is in place or has no anchor, and the provider file
    exists. *)
Theorem first_script_again_changes_nothing :
  forall a timestamp w report w',
    arg_dry_run a || arg_report a = false ->
    main a timestamp w = (Return report, w') ->
    forall a' timestamp',
      arg_apply a' && negb (arg_skip_backup a') = false ->
      snd (main a' timestamp' w') = w'.
Proof.
  intros a timestamp w report w' Hdry Hrun.
  rewrite main_first_unfold, Hdry in Hrun.
  destruct (negb _); [discriminate|].
  rewrite bind_run in Hrun. unfold path_exists at 1 in Hrun. cbv beta iota in Hrun.
  destruct (negb _); [discriminate|].
  rewrite seq_run in Hrun.
  destruct (when _ _ w) as [[[]|e] w1]; [|discriminate].
  unfold first_updates in Hrun. rewrite bind_run in Hrun.
  destruct (model_batch false new_report w1) as [[r1|e] w2] eqn:Hb; [|discriminate].
  rewrite bind_run in Hrun.
  destruct (update_database_service r1 false w2) as [[r2|e] w3] eqn:Hd; [|discriminate].
  cbv zeta in Hrun. rewrite bind_run in Hrun.
  destruct (create_organization_provider (snd r2) false w3) as [[r3|e] w4] eqn:Hc;
    [|discriminate].
  rewrite ret_run in Hrun. injection Hrun as _ <-.
  apply (model_batch_settles _ model_files_NoDup) in Hb as [Hmodels _].
  apply update_database_service_settles in Hd as [Hservice Hframe3].
  apply create_organization_provider_settles in Hc as [Hprov Hframe4].
  assert (Hm4 : forall f, f ∈ MODEL_FILES_TO_UPDATE ->
                  model_settled (fs w4) (MODELS_DIR ++ [f])).
  { intros f Hf. specialize (Hmodels f Hf). unfold model_settled in *.
    rewrite Hframe4, Hframe3; [done | |].
    - intros Heq. apply (f_equal (fun p => p !! 2%nat)) in Heq. discriminate.
    - intros Heq. apply (f_equal (fun p => p !! 1%nat)) in Heq. discriminate. }
  assert (Hs4 : service_settled (fs w4)).
  { unfold service_settled in *. rewrite Hframe4; [done | discriminate]. }
  intros a' timestamp' Hback.
  change (idle_at (main a' timestamp') w4).
  rewrite main_first_unfold, Hback.
  destruct (negb (arg_dry_run a' || arg_apply a' || arg_report a'));
    [apply idle_at_raise|].
  apply idle_at_bind; [apply idle_at_path_exists | intros e].
  destruct (negb e); [apply idle_at_raise|].
  cbn [when]. apply idle_at_seq; [apply idle_at_ret|].
  unfold first_updates.
  apply idle_at_bind; [|intros r].
  { unfold model_batch. apply idle_at_for_fold. intros s f Hf. cbv zeta.
    apply idle_at_bind; [|intros ?; apply idle_at_ret].
    by apply model_settled_idle, Hm4. }
  apply idle_at_bind; [by apply service_settled_idle | intros r'].
  cbv zeta. apply idle_at_bind; [|intros ?; apply idle_at_ret].
  unfold idle_at. by rewrite create_organization_provider_exists.
Qed.

End FirstScriptAgain.

Section FirstScriptAgainSample.
Import MigrateToSaas.

Lemma first_script_again_changes_nothing_witness :
  let a := {| arg_dry_run := false; arg_apply := true; arg_report := false;
              arg_skip_backup := true |} in
  let r := @main ascii_table a "20240101_120000" one_model in
  r = (Return
         {| model_updates :=
              ["order_model.dart: Added organizationId field";
               "organization_provider.dart: Created new organization provider"];
            service_updates := [];
            errors :=
              ["DatabaseService not found at lib/core/services/database_service.dart"];
            warnings :=
              map (fun f => "File not found: " +:+ f)
                (List.filter (fun f => negb (String.eqb f "order_model.dart"))
                   MODEL_FILES_TO_UPDATE) |},
       snd r)
  /\ snd (@main ascii_table a "20240101_120500" (snd r)) = snd r.
Proof.
  cbv zeta.
  assert (Hrun :
    @main ascii_table
      {| arg_dry_run := false; arg_apply := true; arg_report := false;
         arg_skip_backup := true |} "20240101_120000" one_model
    = (Return
         {| model_updates :=
              ["order_model.dart: Added organizationId field";
               "organization_provider.dart: Created new organization provider"];
            service_updates := [];
            errors :=
              ["DatabaseService not found at lib/core/services/database_service.dart"];
            warnings :=
              map (fun f => "File not found: " +:+ f)
                (List.filter (fun f => negb (String.eqb f "order_model.dart"))
                   MODEL_FILES_TO_UPDATE) |},
       snd (@main ascii_table
              {| arg_dry_run := false; arg_apply := true; arg_report := false;
                 arg_skip_backup := true |} "20240101_120000" one_model))).
  { rewrite (surjective_pairing (main _ _ _)) at 1.
    f_equal; vm_compute; reflexivity. }
  split; [exact Hrun|].
  exact (@first_script_again_changes_nothing ascii_table
           {| arg_dry_run := false; arg_apply := true; arg_report := false;
              arg_skip_backup := true |}
           "20240101_120000" one_model _ _ eq_refl Hrun
           {| arg_dry_run := false; arg_apply := true; arg_report := false;
              arg_skip_backup := true |}
           "20240101_120500" eq_refl).
Defined.

End FirstScriptAgainSample.

(** ** Running the third script again *)

Section ThirdScriptAgain.
Context `{UnicodeTable}.
Import Wire.

Lemma keeps_readonly {A} (F : filesystem) (m : M A) : readonly m -> keeps F m.
Proof. intros Hro w <-. by rewrite Hro. Qed.

Lemma keeps_ret {A} (F : filesystem) (a : A) : keeps F (mret a : M A).
Proof. apply keeps_readonly, readonly_ret. Qed.

Lemma keeps_raise {A} (F : filesystem) (e : exn) : keeps F (raise e : M A).
Proof. apply keeps_readonly, readonly_raise. Qed.

Lemma keeps_bind {A B} (F : filesystem) (m : M A) (f : A -> M B) :
  keeps F m -> (forall a, keeps F (f a)) -> keeps F (bind m f).
Proof.
  intros Hm Hf w Hw. rewrite bind_run. specialize (Hm w Hw).
  destruct (m w) as [[a|e] w1]; cbn [snd] in *; [by apply Hf | done].
Qed.

Lemma keeps_seq {A B} (F : filesystem) (m : M A) (k : M B) :
  keeps F m -> keeps F k -> keeps F (m;; k).
Proof. intros Hm Hk. by apply (keeps_bind F m (fun _ => k)). Qed.

Lemma keeps_for_fold {A St} (F : filesystem) (xs : list A) (body : St -> A -> M St)
    (acc : St) :
  (forall s x, x ∈ xs -> keeps F (body s x)) -> keeps F (for_fold xs body acc).
Proof.
  revert acc. induction xs as [|x xs IH]; intros acc Hbody; cbn [for_fold].
  - apply keeps_ret.
  - apply keeps_bind; [apply Hbody; left|].
    intros a. apply IH. intros s y Hy. apply Hbody. by right.
Qed.

(** The text that the two steps write, when it has no marker in it, is
    left as it is by the two steps. *)
Lemma wire_text_again content :
  str_in (txt "currentOrganizationProvider.future")
    (with_todo_comment (with_import_line content)) = false ->
  with_todo_comment (with_import_line (with_todo_comment (with_import_line content)))
  = with_todo_comment (with_import_line content).
Proof.
  intros Hmark.
  assert (Htodo : with_todo_comment (with_import_line content) = with_import_line content).
  { revert Hmark. unfold with_todo_comment.
    destruct (negb (str_in (txt "TODO: Multi-tenant") (with_import_line content)));
      [|done].
    cbv zeta. destruct (negb _); [|done].
    by rewrite str_in_middle by apply todo_comment_marked. }
  rewrite Htodo.
  destruct (with_import_line_shape content) as [Hsame | [j Hj]].
  - by rewrite Hsame, Hsame, <- Hsame at 1.
  - assert (Hkeep : with_import_line (with_import_line content) = with_import_line content).
    { rewrite Hj. unfold with_import_line at 1.
      assert (Hin : str_in (txt "organization_provider.dart")
                      (splice content ([10%N] ++ import_line) j) = true).
      { unfold splice. apply str_in_middle. vm_compute. reflexivity. }
      by rewrite Hin. }
    by rewrite Hkeep.
Qed.

(** A settled provider keeps its text, in either mode. *)
Lemma provider_settled_keeps (F : filesystem) p dry_run :
  provider_settled F p -> keeps F (update_provider_org_context p dry_run).
Proof.
  unfold provider_settled. intros Hs w Hw. subst F.
  destruct (files (fs w) !! p) as [content|] eqn:Hf.
  - rewrite (update_provider_org_context_run _ _ _ _ Hf).
    destruct (str_in (txt "Supabase.instance.client") content) eqn:Hsup; cbn [negb];
      [|done].
    destruct (str_in (txt "currentOrganizationProvider.future") content) eqn:Hmark;
      [done|].
    destruct dry_run; [done|].
    destruct (create_error (fs w) p); [done|].
    destruct Hs as [? | [? | Hsame]]; [done | done |].
    cbn [snd]. rewrite Hsame. by apply store_same.
  - unfold update_provider_org_context. rewrite bind_run. unfold read_text.
    by rewrite Hf.
Qed.

(** An apply call that returns leaves its provider settled. *)
Lemma update_provider_org_context_settles p w b w' :
  update_provider_org_context p false w = (Return b, w') ->
  provider_settled (fs w') p
  /\ forall q, q <> p -> files (fs w') !! q = files (fs w) !! q.
Proof.
  unfold provider_settled.
  destruct (files (fs w) !! p) as [content|] eqn:Hf.
  - rewrite (update_provider_org_context_run _ _ _ _ Hf).
    destruct (str_in (txt "Supabase.instance.client") content) eqn:Hsup; cbn [negb].
    2:{ intros [= _ <-]. rewrite Hf. split; [by left | done]. }
    destruct (str_in (txt "currentOrganizationProvider.future") content) eqn:Hmark.
    { intros [= _ <-]. rewrite Hf. split; [right; by left | done]. }
    destruct (create_error (fs w) p); [discriminate|].
    intros [= _ <-]. rewrite store_lookup. split.
    + destruct (str_in (txt "currentOrganizationProvider.future")
                  (with_todo_comment (with_import_line content))) eqn:Hnew.
      * right. by left.
      * right. right. by apply wire_text_again.
    + intros q Hq. by apply store_lookup_ne.
  - unfold update_provider_org_context. rewrite bind_run. unfold read_text.
    rewrite Hf. discriminate.
Qed.

(** The loop of [update_providers] in apply mode that returns leaves
    every provider of its list settled. *)
Lemma update_providers_settles providers_dir (l : list string) :
  NoDup l ->
  forall updates w n w',
    for_fold l (update_provider providers_dir false) updates w = (Return n, w') ->
    forall g, g ∈ l -> provider_settled (fs w') (providers_dir ++ [g]).
Proof.
  induction l as [|f l IH]; intros Hnd updates w n w'; cbn [for_fold].
  - intros _ g Hg. by apply not_elem_of_nil in Hg.
  - apply NoDup_cons in Hnd as [Hfl Hnd]. rewrite bind_run.
    destruct (update_provider providers_dir false updates f w) as [[u1|e] w1] eqn:Hstep;
      [|discriminate].
    intros Hloop g Hg. apply elem_of_cons in Hg as [-> | Hg];
      [|by eapply (IH Hnd)].
    assert (Hset1 : provider_settled (fs w1) (providers_dir ++ [f])).
    { revert Hstep. unfold update_provider. cbv zeta. rewrite bind_run.
      unfold path_exists. cbv beta iota.
      destruct (is_file (fs w) _ || is_dir (fs w) _) eqn:He.
      - rewrite bind_run.
        destruct (update_provider_org_context _ false w) as [[b|e] w2] eqn:Hctx;
          [|discriminate].
        rewrite ret_run. intros [= _ <-].
        by apply update_provider_org_context_settles in Hctx as [? _].
      - rewrite ret_run. intros [= _ <-]. unfold provider_settled.
        apply orb_false_iff in He as [He _]. unfold is_file in He.
        apply bool_decide_eq_false_1 in He.
        destruct (files (fs w) !! (providers_dir ++ [f])); [|done].
        exfalso. apply He. eauto. }
    assert (Hkeep : files (fs w') !! (providers_dir ++ [f])
                    = files (fs w1) !! (providers_dir ++ [f])).
    { clear Hstep Hset1. revert updates w1 u1 n Hloop Hfl. clear.
      induction l as [|g l IHl]; intros updates w1 u1 n; cbn [for_fold].
      - rewrite ret_run. by intros [= _ <-].
      - rewrite bind_run.
        destruct (update_provider providers_dir false u1 g w1) as [[u2|e] w2] eqn:Hstep;
          [|discriminate].
        intros Hloop Hfl. apply not_elem_of_cons in Hfl as [Hne Hfl].
        rewrite (IHl updates w2 u2 n Hloop Hfl).
        apply update_provider_apply in Hstep as (_ & _ & Hframe).
        apply Hframe. intros Heq. apply app_inv_head in Heq. by injection Heq. }
    unfold provider_settled. by rewrite Hkeep.
Qed.

(** X15: running the third script again.  After an apply run that
    returned, a further run in either mode leaves the file system as it
    is: every provider of the list is skipped or written back with the
    text that it holds. *)
Theorem third_script_again_keeps_the_files :
  forall a w counts w',
    arg_dry_run a = false ->
    main a w = (Return counts, w') ->
    forall a', fs (snd (main a' w')) = fs w'.
Proof.
  intros a w counts w' Hdry Hrun.
  assert (Hmode : arg_dry_run a || arg_apply a = true).
  { destruct (arg_dry_run a || arg_apply a) eqn:Hm; [done|].
    unfold main in Hrun. rewrite Hm in Hrun. discriminate. }
  rewrite (wire_main_run _ _ Hmode), Hdry in Hrun.
  destruct (update_database_service false w) as [[d|e] w1] eqn:Hdb; [|discriminate].
  assert (w1 = w) as ->.
  { pose proof (readonly_wire_update_database_service false w) as Hro.
    by rewrite Hdb in Hro. }
  destruct (update_providers false w) as [[n|e] w2] eqn:Hloop; [|discriminate].
  injection Hrun as _ <-.
  pose proof (update_providers_settles _ _ key_providers_NoDup _ _ _ _ Hloop) as Hset.
  intros a'.
  assert (Hkeeps : keeps (fs w2) (main a')); [|by apply Hkeeps].
  unfold main. cbv zeta.
  destruct (negb _); [apply keeps_raise|].
  apply keeps_bind;
    [apply keeps_readonly, readonly_wire_update_database_service | intros d'].
  apply keeps_bind; [|intros p'; apply keeps_ret].
  unfold update_providers. cbv zeta.
  apply keeps_for_fold. intros updates g Hg. unfold update_provider. cbv zeta.
  apply keeps_bind; [apply keeps_readonly, readonly_path_exists | intros e].
  destruct e; [|apply keeps_ret].
  apply keeps_bind; [|intros u; apply keeps_ret].
  apply provider_settled_keeps. by apply Hset.
Qed.

End ThirdScriptAgain.

Section ThirdScriptAgainSample.
Import Wire.

Lemma third_script_again_keeps_the_files_witness :
  let a := {| arg_dry_run := false; arg_apply := true |} in
  let r := @main ascii_table a bare_provider in
  r = (Return (0%nat, 1%nat), snd r)
  /\ fs (snd (@main ascii_table a (snd r))) = fs (snd r).
Proof.
  cbv zeta.
  assert (Hrun :
    @main ascii_table {| arg_dry_run := false; arg_apply := true |} bare_provider
    = (Return (0%nat, 1%nat),
       snd (@main ascii_table {| arg_dry_run := false; arg_apply := true |}
              bare_provider))).
  { rewrite (surjective_pairing (main _ _)) at 1.
    f_equal; vm_compute; reflexivity. }
  split; [exact Hrun|].
  exact (@third_script_again_keeps_the_files ascii_table
           {| arg_dry_run := false; arg_apply := true |} _ _ _ eq_refl Hrun
           {| arg_dry_run := false; arg_apply := true |}).
Defined.

End ThirdScriptAgainSample.

(** ** Running the second script again *)

Section SecondScriptAgain.
Context `{UnicodeTable}.
Import Phase2.

(** A settled provider keeps its text, in either mode. *)
Lemma import_settled_keeps (F : filesystem) p dry_run :
  import_settled F p -> keeps F (update_provider_file p dry_run).
Proof.
  unfold import_settled. intros Hs w Hw. subst F.
  destruct (files (fs w) !! p) as [content|] eqn:Hf.
  - rewrite (update_provider_file_run _ _ _ _ Hf).
    destruct (str_in (txt "Supabase.instance.client") content) eqn:Hsup; cbn [negb];
      [|done].
    destruct (str_in (txt "currentOrganizationProvider") content) eqn:Hmark; [done|].
    destruct dry_run; [done|].
    destruct (create_error (fs w) p); [done|].
    destruct Hs as [? | [? | Hsame]]; [done | done |].
    cbn [snd]. rewrite Hsame. by apply store_same.
  - unfold update_provider_file. rewrite bind_run. unfold read_text. by rewrite Hf.
Qed.

(** An apply call that returns leaves its provider settled. *)
Lemma update_provider_file_settles p w r w' :
  update_provider_file p false w = (Return r, w') ->
  import_settled (fs w') p
  /\ dirs (fs w') = dirs (fs w)
  /\ is_Some (files (fs w) !! p)
  /\ is_Some (files (fs w') !! p)
  /\ (forall q, q <> p -> files (fs w') !! q = files (fs w) !! q).
Proof.
  unfold import_settled.
  destruct (files (fs w) !! p) as [content|] eqn:Hf.
  - rewrite (update_provider_file_run _ _ _ _ Hf).
    destruct (str_in (txt "Supabase.instance.client") content) eqn:Hsup; cbn [negb].
    2:{ intros [= _ <-]. rewrite Hf. split_and!; eauto. }
    destruct (str_in (txt "currentOrganizationProvider") content) eqn:Hmark.
    { intros [= _ <-]. rewrite Hf. split_and!; eauto. }
    destruct (create_error (fs w) p); [discriminate|].
    intros [= _ <-]. rewrite store_lookup. split_and!; eauto.
    + right. right. by rewrite with_org_import_again.
    + intros q Hq. by apply store_lookup_ne.
  - unfold update_provider_file. rewrite bind_run. unfold read_text.
    rewrite Hf. discriminate.
Qed.

(** The loop over the providers in apply mode that returns leaves every
    provider of its list settled, and the entries of the file system in
    place. *)
Lemma provider_loop_settles (l : list (list string)) :
  NoDup l ->
  forall updates w n w',
    for_fold l
      (fun provider_updates f =>
         let* r := update_provider_file f false in
         mret (if fst r then (provider_updates + 1)%nat else provider_updates))
      updates w
    = (Return n, w') ->
    (forall g, g ∈ l -> import_settled (fs w') g)
    /\ dirs (fs w') = dirs (fs w)
    /\ (forall q, is_Some (files (fs w') !! q) <-> is_Some (files (fs w) !! q))
    /\ (forall q, q ∉ l -> files (fs w') !! q = files (fs w) !! q).
Proof.
  induction l as [|f l IH]; intros Hnd updates w n w'; cbn [for_fold].
  - rewrite ret_run. intros [= _ <-]. split_and!; try done.
    intros g Hg. by apply not_elem_of_nil in Hg.
  - apply NoDup_cons in Hnd as [Hfl Hnd]. rewrite bind_run, bind_run.
    destruct (update_provider_file f false w) as [[r|e] w1] eqn:Hstep; [|discriminate].
    rewrite ret_run. intros Hloop.
    apply update_provider_file_settles in Hstep
      as (Hset1 & Hd1 & Hsome1 & Hsome1' & Hframe1).
    apply (IH Hnd) in Hloop as (Hset & Hd & Hdom & Hframe).
    split_and!.
    + intros g Hg. apply elem_of_cons in Hg as [-> | Hg]; [|by apply Hset].
      unfold import_settled. by rewrite (Hframe f Hfl).
    + congruence.
    + intros q. rewrite Hdom. destruct (decide (q = f)) as [-> | Hq].
      * done.
      * by rewrite (Hframe1 q Hq).
    + intros q Hq. apply not_elem_of_cons in Hq as [Hq1 Hq2].
      by rewrite (Hframe q Hq2), (Hframe1 q Hq1).
Qed.


Lemma keeps_bind_post {A B} (F : filesystem) (Q : A -> Prop) (m : M A) (f : A -> M B) :
  keeps F m ->
  (forall w a w1, fs w = F -> m w = (Return a, w1) -> Q a) ->
  (forall a, Q a -> keeps F (f a)) ->
  keeps F (bind m f).
Proof.
  intros Hm HQ Hf w Hw. rewrite bind_run. specialize (Hm w Hw).
  destruct (m w) as [[a|e] w1] eqn:Hrun; cbn [snd] in *; [|done].
  apply Hf; [|done]. by eapply HQ.
Qed.

(** Writing to a file the text that it holds. *)
Lemma write_same_keeps (F : filesystem) p t :
  files F !! p = Some t -> keeps F (write_text p t).
Proof.
  intros Hf w Hw. subst F. unfold write_text.
  destruct (create_error (fs w) p); [done|]. cbn [snd]. by apply store_same.
Qed.

(** After [mkdir(parents=True, exist_ok=True)] has returned, the
    directories on the way are there, and those that were there still
    are. *)
Lemma mkdir_from_returns (above below : list string) (w w' : world) :
  mkdir_from above below w = (Return tt, w') ->
  (forall k, (0 < k <= length below)%nat ->
     is_dir (fs w') (above ++ take k below) = true)
  /\ (forall d, is_dir (fs w) d = true -> is_dir (fs w') d = true).
Proof.
  revert above w. induction below as [|c below IH]; intros above w; cbn [mkdir_from].
  - rewrite ret_run. intros [= <-]. split; [|done]. cbn [length]. intros k Hk. lia.
  - destruct (is_file (fs w) (above ++ [c])); [discriminate|].
    destruct (is_dir (fs w) (above ++ [c])) eqn:Hd.
    + intros Hrun. destruct (IH _ _ Hrun) as [Hpre Hmono]. split; [|done].
      intros [|k] Hk; [lia|]. cbn [take]. destruct k as [|k].
      * rewrite take_0. by apply Hmono.
      * rewrite cons_middle, app_assoc. apply Hpre. cbn [length] in Hk. lia.
    + intros Hrun. destruct (IH _ _ Hrun) as [Hpre Hmono].
      assert (Hnew : is_dir (fs (add_dir (above ++ [c]) w)) (above ++ [c]) = true).
      { unfold is_dir, add_dir. cbn [fs dirs]. apply orb_true_iff. right.
        apply bool_decide_eq_true_2, elem_of_union. left. by apply elem_of_singleton. }
      split.
      * intros [|k] Hk; [lia|]. cbn [take]. destruct k as [|k].
        -- rewrite take_0. by apply Hmono.
        -- rewrite cons_middle, app_assoc. apply Hpre. cbn [length] in Hk. lia.
      * intros d Hdir. apply Hmono. unfold is_dir, add_dir in *. cbn [fs dirs].
        apply orb_true_iff in Hdir as [Hdir | Hdir]; apply orb_true_iff;
          [by left | right].
        apply bool_decide_eq_true_1 in Hdir.
        apply bool_decide_eq_true_2, elem_of_union. by right.
Qed.

(** ... and a further call changes nothing. *)
Lemma mkdir_from_keeps (F : filesystem) (above below : list string) :
  (forall k, (0 < k <= length below)%nat -> is_dir F (above ++ take k below) = true) ->
  keeps F (mkdir_from above below).
Proof.
  revert above. induction below as [|c below IH]; intros above Hpre; cbn [mkdir_from].
  - apply keeps_ret.
  - intros w Hw. destruct (is_file (fs w) (above ++ [c])); [done|].
    assert (Hd : is_dir (fs w) (above ++ [c]) = true).
    { rewrite Hw. specialize (Hpre 1%nat). cbn [take length] in Hpre.
      rewrite take_0 in Hpre. apply Hpre. lia. }
    rewrite Hd. apply IH; [|done].
    intros k Hk. specialize (Hpre (S k)). cbn [take length] in Hpre.
    rewrite <- app_assoc. apply Hpre. lia.
Qed.

(** A settings model to which the rule does not apply is left as it
    is. *)
Lemma settings_settled_keeps (F : filesystem) dry_run updates filename :
  model_settled F (settings_dir ++ [filename]) ->
  keeps F (update_settings_file settings_dir dry_run updates filename).
Proof.
  unfold model_settled. intros Hs w Hw. subst F.
  destruct (files (fs w) !! (settings_dir ++ [filename])) as [content|] eqn:Hf.
  - by rewrite (update_settings_file_run _ _ _ _ _ Hf), Hs.
  - unfold update_settings_file. rewrite bind_run. unfold path_exists. cbv beta iota.
    destruct (negb _); [done|]. rewrite bind_run. unfold read_text. by rewrite Hf.
Qed.

Lemma get_provider_files_NoDup w l w' :
  get_provider_files w = (Return l, w') -> NoDup l.
Proof.
  unfold get_provider_files. cbv zeta. rewrite bind_run.
  unfold glob_dart at 1. cbv beta iota. rewrite ret_run. intros [= <- _].
  rewrite sorted_perm.
  apply NoDup_ListNoDup, List.NoDup_filter, List.NoDup_filter, NoDup_ListNoDup.
  apply NoDup_elements.
Qed.


(** What an apply run of the updates of the second script leaves
    behind. *)
Lemma second_updates_settle w1 counts w' :
  second_updates false w1 = (Return counts, w') ->
  files (fs w') !! (LIB_DIR ++ ["providers"; "organization_provider.dart"])
  = Some new_content
  /\ files (fs w') !! (LIB_DIR ++ ["core"; "utils"; "org_aware_helpers.dart"])
     = Some helper_content
  /\ (forall k, (0 < k <= 3)%nat ->
        is_dir (fs w') (take k (LIB_DIR ++ ["core"; "utils"])) = true)
  /\ (forall f, f ∈ settings_files -> model_settled (fs w') (settings_dir ++ [f]))
  /\ (forall l w0 w0', fs w0 = fs w' -> get_provider_files w0 = (Return l, w0') ->
        forall g, g ∈ l -> import_settled (fs w') g).
Proof.
  unfold second_updates. rewrite seq_run.
  unfold update_organization_provider at 1. cbv zeta.
  rewrite seq_run. unfold write_text at 1.
  destruct (create_error (fs w1) _); [discriminate|].
  rewrite ret_run.
  set (w2 := store (LIB_DIR ++ ["providers"; "organization_provider.dart"]) new_content
               (Wrote (LIB_DIR ++ ["providers"; "organization_provider.dart"])) w1).
  unfold create_org_aware_database_service_helper. cbv beta iota zeta.
  intros Hrest.
  pose proof (effect_frame _ _ w2 (LIB_DIR ++ ["providers"; "organization_provider.dart"])
                (effect_after_organization_provider false) (fun e He => He)) as Hkeep.
  rewrite Hrest in Hkeep. cbn [snd] in Hkeep.
  split; [rewrite Hkeep; apply store_lookup|].
  clear Hkeep. revert Hrest. rewrite bind_run.
  destruct (update_settings_models false w2) as [[n1|e] w3] eqn:Hset; [|discriminate].
  rewrite bind_run.
  destruct (get_provider_files w3) as [[l|e] w4] eqn:Hlist; [|discriminate].
  assert (w4 = w3) as ->.
  { pose proof (readonly_get_provider_files w3) as Hro. by rewrite Hlist in Hro. }
  rewrite bind_run.
  destruct (for_fold l _ 0%nat w3) as [[n2|e] w5] eqn:Hloop; [|discriminate].
  rewrite seq_run. cbn [negb when]. rewrite seq_run.
  destruct (mkdir_parents _ w5) as [[[]|e] w6] eqn:Hmk; [|discriminate].
  unfold write_text. destruct (create_error (fs w6) _); [discriminate|].
  rewrite ret_run. intros [= _ <-].
  split; [apply store_lookup|].
  (* the directories of the helper *)
  pose proof (mkdir_parents_dirs (parent (LIB_DIR ++ ["core"; "utils"; "org_aware_helpers.dart"])) w5)
    as [Hmkf Hmkd].
  rewrite Hmk in Hmkf, Hmkd. cbn [snd] in Hmkf, Hmkd.
  unfold mkdir_parents in Hmk. apply mkdir_from_returns in Hmk as [Hpre Hmono].
  (* the loops *)
  unfold update_settings_models in Hset. cbv zeta in Hset.
  apply (update_settings_loop false _ settings_files_NoDup) in Hset
    as (Hd3 & Hframe3 & _ & _ & Hsettled).
  pose proof (get_provider_files_NoDup _ _ _ Hlist) as Hnd.
  apply (provider_loop_settles _ Hnd) in Hloop as (Himp & Hd5 & Hdom5 & Hframe5).
  split_and!.
  - intros k Hk. cbn [store fs]. apply (Hpre k). cbn. lia.
  - intros f Hf. unfold model_settled. cbn [store fs files].
    rewrite lookup_insert_ne.
    2:{ intros Heq. apply (f_equal length) in Heq. by cbn in Heq. }
    rewrite Hmkf, Hframe5.
    2:{ intros Hin. apply (get_provider_files_elem _ _ _ _ Hlist) in Hin.
        destruct Hin as (_ & _ & Hparent & _).
        unfold parent, settings_dir in Hparent. rewrite removelast_last in Hparent.
        discriminate. }
    specialize (Hsettled eq_refl f Hf). unfold settled in Hsettled.
    fold settings_dir. by destruct (files (fs w3) !! (settings_dir ++ [f])).
  - intros l' w0 w0' Hfs Hlist' g Hg.
    apply (get_provider_files_elem _ _ _ _ Hlist') in Hg.
    destruct Hg as (Hthere & Hne & Hparent & Hdart & Hgen & Hname).
    assert (Hhelper : g <> LIB_DIR ++ ["core"; "utils"; "org_aware_helpers.dart"]).
    { intros ->. discriminate. }
    assert (Hin : g ∈ l).
    { apply (get_provider_files_elem _ _ _ _ Hlist). split_and!; try done.
      rewrite Hfs in Hthere. cbn [store fs files dirs] in Hthere.
      rewrite lookup_insert_ne in Hthere by done. rewrite Hmkf in Hthere.
      destruct Hthere as [Hfile | Hdir].
      - left. by apply Hdom5.
      - right. rewrite <- Hd5. destruct (Hmkd _ Hdir) as [? | (k & Hk & ->)]; [done|].
        exfalso. cbn in Hk.
        destruct k as [|[|[|[|k]]]]; try lia; discriminate. }
    specialize (Himp g Hin). unfold import_settled in *. cbn [store fs files].
    rewrite lookup_insert_ne by done. by rewrite Hmkf.
Qed.

(** X16: the second script is run twice.  After an apply run that returned,
    a further run that makes no backup, in either mode, leaves every file
    and directory as it is: the provider template and the helper are
    written with the text that they hold, and no settings model or
    provider is changed a second time. *)
Theorem second_script_again_keeps_the_files :
  forall a timestamp w counts w',
    arg_dry_run a = false ->
    main a timestamp w = (Return counts, w') ->
    forall a' timestamp',
      arg_apply a' && negb (arg_skip_backup a') = false ->
      fs (snd (main a' timestamp' w')) = fs w'.
Proof.
  intros a timestamp w counts w' Hdry. rewrite main_second_unfold, Hdry.
  destruct (negb _); [discriminate|].
  rewrite bind_run. unfold path_exists at 1. cbv beta iota.
  destruct (negb _); [discriminate|].
  rewrite seq_run.
  destruct (when _ _ w) as [[[]|e] w1]; [|discriminate].
  intros Hrun a' timestamp' Hback.
  apply second_updates_settle in Hrun as (Horg & Hhelp & Hdirs & Hmodels & Hprov).
  assert (Hkeeps : keeps (fs w') (main a' timestamp')); [|by apply Hkeeps].
  rewrite main_second_unfold, Hback.
  destruct (negb (arg_dry_run a' || arg_apply a')); [apply keeps_raise|].
  apply keeps_bind; [apply keeps_readonly, readonly_path_exists|intros e].
  destruct (negb e); [apply keeps_raise|].
  apply keeps_seq; [apply keeps_ret|].
  unfold second_updates. apply keeps_seq.
  { unfold update_organization_provider. cbv zeta.
    destruct (arg_dry_run a'); [apply keeps_ret|].
    apply keeps_seq; [by apply write_same_keeps | apply keeps_ret]. }
  apply keeps_bind; [|intros settings_updates].
  { unfold update_settings_models. cbv zeta. apply keeps_for_fold.
    intros s f Hf. by apply settings_settled_keeps, Hmodels. }
  eapply keeps_bind_post with (Q := fun l => forall g, g ∈ l -> import_settled (fs w') g).
  { apply keeps_readonly, readonly_get_provider_files. }
  { intros w0 l w0' Hfs Hlist. by eapply Hprov. }
  intros l Hl. cbv beta.
  apply keeps_bind; [|intros provider_updates].
  { apply keeps_for_fold. intros s g Hg.
    apply keeps_bind; [by apply import_settled_keeps, Hl | intros r; apply keeps_ret]. }
  unfold create_org_aware_database_service_helper. cbv beta iota zeta.
  apply keeps_seq; [|apply keeps_ret].
  destruct (arg_dry_run a'); cbn [negb when]; [apply keeps_ret|].
  apply keeps_seq; [|by apply write_same_keeps].
  apply mkdir_from_keeps. intros k Hk. cbn [app]. apply Hdirs. cbn in Hk. lia.
Qed.

End SecondScriptAgain.

Section SecondScriptAgainSample.
Import Phase2.

Lemma second_script_again_keeps_the_files_witness :
  let a := {| arg_dry_run := false; arg_apply := true; arg_skip_backup := false |} in
  let a' := {| arg_dry_run := false; arg_apply := true; arg_skip_backup := true |} in
  let r := @main ascii_table a "20240101_120000" wired_provider in
  r = (Return (0%nat, 1%nat), snd r)
  /\ fs (snd (@main ascii_table a' "20240102_120000" (snd r))) = fs (snd r).
Proof.
  cbv zeta.
  assert (Hrun :
    @main ascii_table
      {| arg_dry_run := false; arg_apply := true; arg_skip_backup := false |}
      "20240101_120000" wired_provider
    = (Return (0%nat, 1%nat),
       snd (@main ascii_table
              {| arg_dry_run := false; arg_apply := true; arg_skip_backup := false |}
              "20240101_120000" wired_provider))).
  { rewrite (surjective_pairing (main _ _ _)) at 1.
    f_equal; vm_compute; reflexivity. }
  split; [exact Hrun|].
  exact (@second_script_again_keeps_the_files ascii_table
           {| arg_dry_run := false; arg_apply := true; arg_skip_backup := false |}
           "20240101_120000" wired_provider _ _ eq_refl Hrun
           {| arg_dry_run := false; arg_apply := true; arg_skip_backup := true |}
           "20240102_120000" eq_refl).
Defined.

End SecondScriptAgainSample.

(** ** What the runs create and what they remove *)

Section Makes.

Lemma makes_mono {A} (P Q : list string -> Prop) (m : M A) :
  (forall d, P d -> Q d) -> makes P m -> makes Q m.
Proof.
  intros HPQ Hm w. destruct (Hm w) as (Hkeep & Hnew & Hfiles).
  split_and!; [done | | done].
  intros d Hd. destruct (Hnew d Hd) as [? | ?]; [by left | right; by apply HPQ].
Qed.

Lemma makes_readonly {A} (P : list string -> Prop) (m : M A) :
  readonly m -> makes P m.
Proof. intros Hm w. rewrite (Hm w). split_and!; [done | by left | done]. Qed.

Lemma makes_ret {A} (P : list string -> Prop) (a : A) : makes P (mret a : M A).
Proof. apply makes_readonly, readonly_ret. Qed.

Lemma makes_bind {A B} (P : list string -> Prop) (m : M A) (f : A -> M B) :
  makes P m -> (forall a, makes P (f a)) -> makes P (bind m f).
Proof.
  intros Hm Hf w. rewrite bind_run.
  destruct (Hm w) as (Hkeep1 & Hnew1 & Hfiles1).
  destruct (m w) as [[a|e] w1]; cbn [snd] in *; [|done].
  destruct (Hf a w1) as (Hkeep2 & Hnew2 & Hfiles2).
  split_and!.
  - intros d Hd. by apply Hkeep2, Hkeep1.
  - intros d Hd. destruct (Hnew2 d Hd) as [Hd1 | ?]; [by apply Hnew1 | by right].
  - intros q Hq. by apply Hfiles2, Hfiles1.
Qed.

Lemma makes_seq {A B} (P : list string -> Prop) (m : M A) (k : M B) :
  makes P m -> makes P k -> makes P (m;; k).
Proof. intros Hm Hk. by apply (makes_bind P m (fun _ => k)). Qed.

Lemma makes_when (P : list string -> Prop) (b : bool) (body : M unit) :
  makes P body -> makes P (when b body).
Proof. intros Hb. destruct b; [done | apply makes_ret]. Qed.

Lemma makes_for_each {A} (P : list string -> Prop) (xs : list A) (body : A -> M unit) :
  (forall x, x ∈ xs -> makes P (body x)) -> makes P (for_each xs body).
Proof.
  induction xs as [|x xs IH]; intros Hb; cbn [for_each].
  - apply makes_ret.
  - apply makes_seq; [apply Hb; left | apply IH].
    intros y Hy. apply Hb. by right.
Qed.

Lemma makes_for_fold {A St} (P : list string -> Prop) (xs : list A)
    (body : St -> A -> M St) (acc : St) :
  (forall s x, x ∈ xs -> makes P (body s x)) -> makes P (for_fold xs body acc).
Proof.
  revert acc. induction xs as [|x xs IH]; intros acc Hb; cbn [for_fold].
  - apply makes_ret.
  - apply makes_bind; [apply Hb; left | intros s; apply IH].
    intros s' y Hy. apply Hb. by right.
Qed.

Lemma makes_store (P : list string -> Prop) p t e w :
  (forall d, d ∈ dirs (fs w) -> d ∈ dirs (fs (store p t e w)))
  /\ (forall d, d ∈ dirs (fs (store p t e w)) -> d ∈ dirs (fs w) \/ P d)
  /\ (forall q, is_Some (files (fs w) !! q) -> is_Some (files (fs (store p t e w)) !! q)).
Proof.
  split_and!; [done | by left |]. intros q Hq. cbn [store fs files].
  destruct (decide (q = p)) as [-> | Hne].
  - rewrite lookup_insert_eq. by eexists.
  - by rewrite lookup_insert_ne.
Qed.

(** Writing a file makes no directory. *)
Lemma makes_write_text (P : list string -> Prop) p t : makes P (write_text p t).
Proof.
  intros w. unfold write_text. destruct (create_error (fs w) p); cbn [snd].
  - split_and!; [done | by left | done].
  - apply makes_store.
Qed.

Lemma makes_copy2 (P : list string -> Prop) src dst : makes P (copy2 src dst).
Proof.
  intros w. unfold copy2. destruct (files (fs w) !! src); cbn [snd].
  2:{ split_and!; [done | by left | done]. }
  cbv zeta. destruct (create_error (fs w) _); cbn [snd].
  - split_and!; [done | by left | done].
  - apply makes_store.
Qed.

(** [mkdir(parents=True)] makes directories on its way only. *)
Lemma makes_mkdir_from (above below : list string) :
  makes (fun d => exists k, (0 < k <= length below)%nat /\ d = above ++ take k below)
    (mkdir_from above below).
Proof.
  intros w. destruct (mkdir_from_dirs above below w) as [Hf Hd].
  split_and!; [| done | by rewrite Hf].
  clear Hf Hd. revert above w.
  induction below as [|c below IH]; intros above w d Hin; cbn [mkdir_from].
  - by rewrite ret_run.
  - destruct (is_file (fs w) (above ++ [c])); [done|].
    destruct (is_dir (fs w) (above ++ [c])); [by apply IH|].
    apply IH. unfold add_dir. cbn [fs dirs]. apply elem_of_union. by right.
Qed.

Lemma makes_mkdir_parents (p : list string) :
  makes (fun d => exists k, (0 < k <= length p)%nat /\ d = take k p) (mkdir_parents p).
Proof. apply (makes_mkdir_from [] p). Qed.

(** The directories on the way to a place under the directory of a
    backup. *)
Lemma backup_place_prefix (backup_dir : string) (ts : string) (rest : list string)
    (n k : nat) :
  (0 < k)%nat ->
  backup_place [backup_dir] ts (take k (take n ([backup_dir] ++ [ts] ++ rest)))
  \/ take k (take n ([backup_dir] ++ [ts] ++ rest)) = [].
Proof.
  intros Hk. unfold backup_place. cbn [app].
  destruct k as [|k]; [lia|]. destruct n as [|n]; [by right|]. left.
  cbn [take]. destruct k as [|k]; [by left|]. destruct n as [|n]; [by left|].
  right. cbn [take]. by eexists.
Qed.

End Makes.

Ltac makes_step :=
  first
    [ apply makes_ret
    | apply makes_write_text
    | apply makes_copy2
    | apply makes_readonly, readonly_path_exists
    | apply makes_readonly, readonly_read_text
    | apply makes_readonly, readonly_glob_dart
    | apply makes_readonly, readonly_raise
    | apply makes_bind; [|intros ?]
    | apply makes_seq
    | apply makes_when
    | match goal with
      | |- makes _ (if ?b then _ else _) => destruct b
      | |- makes _ (match ?x with _ => _ end) => destruct x
      | |- makes _ (let '(_, _) := ?x in _) => destruct x
      end ].

Section MakesOfTheScripts.
Context `{UnicodeTable}.

Lemma makes_backup_mkdir (backup_dir ts : string) (p : list string) (n : nat) :
  makes (backup_place [backup_dir] ts)
    (mkdir_parents (take n ([backup_dir] ++ [ts] ++ p))).
Proof.
  intros w. destruct (makes_mkdir_parents (take n ([backup_dir] ++ [ts] ++ p)) w)
    as (Hkeep & Hnew & Hfiles).
  split_and!; [done | | done].
  intros d Hd. destruct (Hnew d Hd) as [? | (k & Hk & ->)]; [by left|].
  destruct (backup_place_prefix backup_dir ts p n k) as [? | Hnil]; [lia | by right |].
  exfalso. apply (f_equal length) in Hnil. rewrite length_take in Hnil.
  cbn [length] in Hnil. lia.
Qed.

Lemma makes_first_backup (ts : string) :
  makes (backup_place MigrateToSaas.BACKUP_DIR ts) (MigrateToSaas.create_backup ts).
Proof.
  unfold MigrateToSaas.create_backup. cbv zeta.
  apply makes_seq.
  { apply (makes_backup_mkdir "migration_backup" ts ["models"] 3). }
  apply makes_bind; [apply makes_readonly, readonly_glob_dart | intros l].
  apply makes_seq; [apply makes_for_each; intros f Hf; repeat makes_step|].
  apply makes_seq.
  { apply (makes_backup_mkdir "migration_backup" ts ["services"] 3). }
  repeat makes_step.
Qed.

Lemma makes_second_backup (ts : string) :
  makes (backup_place Phase2.BACKUP_DIR ts) (Phase2.create_backup ts).
Proof.
  unfold Phase2.create_backup. cbv zeta.
  apply makes_seq.
  { apply (makes_backup_mkdir "migration_backup_phase2" ts [] 2). }
  apply makes_bind; [apply makes_readonly, readonly_glob_dart | intros l].
  apply makes_seq; [|apply makes_ret].
  apply makes_for_each. intros f Hf.
  apply makes_bind; [apply makes_readonly, readonly_path_exists | intros e].
  apply makes_when, makes_seq; [|apply makes_copy2].
  unfold parent. rewrite removelast_firstn_len.
  apply (makes_backup_mkdir "migration_backup_phase2" ts (Phase2.relative_to_lib f)).
Qed.

Lemma makes_model_batch dry_run report :
  makes (fun _ => False) (model_batch dry_run report).
Proof.
  unfold model_batch. apply makes_for_fold. intros r f Hf. cbv zeta.
  unfold MigrateToSaas.add_organization_id_to_model. repeat makes_step.
Qed.

Lemma makes_update_database_service report dry_run :
  makes (fun _ => False) (MigrateToSaas.update_database_service report dry_run).
Proof. unfold MigrateToSaas.update_database_service. repeat makes_step. Qed.

Lemma makes_first_main a timestamp :
  makes (backup_place MigrateToSaas.BACKUP_DIR timestamp) (MigrateToSaas.main a timestamp).
Proof.
  rewrite main_first_unfold.
  destruct (negb _); [apply makes_readonly, readonly_raise|].
  apply makes_bind; [apply makes_readonly, readonly_path_exists | intros e].
  destruct (negb e); [apply makes_readonly, readonly_raise|].
  apply makes_seq.
  - apply makes_when, makes_seq; [apply makes_first_backup | apply makes_ret].
  - unfold first_updates.
    apply makes_bind; [|intros report].
    { eapply makes_mono; [|apply makes_model_batch]. done. }
    apply makes_bind; [|intros r].
    { eapply makes_mono; [|apply makes_update_database_service]. done. }
    cbv zeta. apply makes_bind; [|intros r'; apply makes_ret].
    unfold MigrateToSaas.create_organization_provider. cbv zeta. repeat makes_step.
Qed.

Lemma makes_second_main a timestamp :
  makes (fun d => backup_place Phase2.BACKUP_DIR timestamp d
                  \/ d ∈ [["lib"]; ["lib"; "core"]; ["lib"; "core"; "utils"]])
    (Phase2.main a timestamp).
Proof.
  rewrite main_second_unfold.
  destruct (negb _); [apply makes_readonly, readonly_raise|].
  apply makes_bind; [apply makes_readonly, readonly_path_exists | intros e].
  destruct (negb e); [apply makes_readonly, readonly_raise|].
  apply makes_seq.
  { apply makes_when, makes_seq; [|apply makes_ret].
    eapply makes_mono; [|apply makes_second_backup]. intros d Hd. by left. }
  unfold second_updates. apply makes_seq.
  { unfold Phase2.update_organization_provider. cbv zeta. repeat makes_step. }
  apply makes_bind; [|intros settings_updates].
  { unfold Phase2.update_settings_models. cbv zeta.
    apply makes_for_fold. intros s f Hf.
    unfold Phase2.update_settings_file. cbv zeta. repeat makes_step. }
  apply makes_bind;
    [apply makes_readonly, readonly_get_provider_files | intros provider_files].
  apply makes_bind; [|intros provider_updates].
  { apply makes_for_fold. intros s f Hf.
    unfold Phase2.update_provider_file. cbv zeta. repeat makes_step. }
  unfold Phase2.create_org_aware_database_service_helper. cbv beta iota zeta.
  apply makes_seq; [|apply makes_ret].
  apply makes_when, makes_seq; [|apply makes_write_text].
  eapply makes_mono; [|apply makes_mkdir_parents].
  intros d (k & Hk & ->). right. cbn in Hk.
  destruct k as [|[|[|[|k]]]]; try (exfalso; lia); clear; cbn; set_solver.
Qed.

Lemma makes_third_main a : makes (fun _ => False) (Wire.main a).
Proof.
  unfold Wire.main. cbv zeta.
  destruct (negb _); [apply makes_readonly, readonly_raise|].
  apply makes_bind;
    [apply makes_readonly, readonly_wire_update_database_service | intros n].
  apply makes_bind; [|intros k; apply makes_ret].
  unfold Wire.update_providers. cbv zeta.
  apply makes_for_fold. intros updates provider_name Hin.
  unfold Wire.update_provider. cbv zeta.
  apply makes_bind; [apply makes_readonly, readonly_path_exists | intros e].
  destruct e; [|apply makes_ret].
  apply makes_bind; [|intros u; apply makes_ret].
  unfold Wire.update_provider_org_context. cbv zeta. repeat makes_step.
Qed.

(** X17: what the runs create and what they remove.  Whatever the mode and
    the project, and however the run ends, no script removes a file or a
    directory.  The first script makes directories for its backup only
    ([migration_backup] and what lies at or under the directory of the
    run); the second for its backup and, for the helper file, [lib],
    [lib/core] and [lib/core/utils]; the third makes none. *)
Theorem runs_remove_nothing :
  (forall a timestamp,
     makes (backup_place MigrateToSaas.BACKUP_DIR timestamp)
       (MigrateToSaas.main a timestamp))
  /\ (forall a timestamp,
        makes (fun d => backup_place Phase2.BACKUP_DIR timestamp d
                        \/ d ∈ [["lib"]; ["lib"; "core"]; ["lib"; "core"; "utils"]])
          (Phase2.main a timestamp))
  /\ (forall a w,
        dirs (fs (snd (Wire.main a w))) = dirs (fs w)
        /\ forall q, is_Some (files (fs w) !! q) ->
                     is_Some (files (fs (snd (Wire.main a w))) !! q)).
Proof.
  split_and!.
  - apply makes_first_main.
  - apply makes_second_main.
  - intros a w. destruct (makes_third_main a w) as (Hkeep & Hnew & Hfiles).
    split; [|done]. apply set_eq. intros d. split; [|apply Hkeep].
    intros Hd. by destruct (Hnew d Hd).
Qed.

End MakesOfTheScripts.

(** ** The preview of the second script *)

Section SecondPreview.
Context `{UnicodeTable}.
Import Phase2.

(** The backup leaves what lies in [lib] as it is. *)
Lemma second_backup_lib (ts : string) (w : world) (rest : list string) :
  files (fs (snd (create_backup ts w))) !! ("lib" :: rest) = files (fs w) !! ("lib" :: rest)
  /\ ("lib" :: rest ∈ dirs (fs (snd (create_backup ts w))) <-> "lib" :: rest ∈ dirs (fs w)).
Proof.
  split.
  - apply (effect_frame _ _ _ _ (second_backup_effect ts)).
    intros e [[d ->] | (src & rest' & ->)] [Ht | [src' Ht]]; discriminate.
  - destruct (makes_second_backup ts w) as (Hkeep & Hnew & _).
    split; [|apply Hkeep].
    intros Hd. destruct (Hnew _ Hd) as [? | [Hb | [rest' Hb]]]; [done | |]; discriminate.
Qed.

(** The loop over the settings models in a preview. *)
Lemma dry_settings_loop (l : list string) :
  forall updates w,
    (forall f, f ∈ l -> files (fs w) !! (settings_dir ++ [f]) = None ->
       is_dir (fs w) (settings_dir ++ [f]) = false) ->
    for_fold l (update_settings_file settings_dir true) updates w
    = (Return (updates + length (List.filter (applies (fs w)) l))%nat, w).
Proof.
  induction l as [|f l IH]; intros updates w Hdirs; cbn [for_fold List.filter].
  - by rewrite ret_run, Nat.add_0_r.
  - rewrite bind_run. unfold applies at 1.
    destruct (files (fs w) !! (settings_dir ++ [f])) as [content|] eqn:Hf.
    + rewrite (update_settings_file_run _ _ _ _ _ Hf).
      destruct (factory_rule content) as [content'|] eqn:Hr.
      * rewrite bool_decide_eq_true_2 by eauto. cbn [length].
        rewrite IH by (intros g Hg; apply Hdirs; by right).
        do 2 f_equal. lia.
      * rewrite bool_decide_eq_false_2 by (intros [? ?]; discriminate).
        apply IH. intros g Hg. apply Hdirs. by right.
    + rewrite (update_settings_file_absent _ _ _ _ Hf), (Hdirs f) by (done || by left).
      apply IH. intros g Hg. apply Hdirs. by right.
Qed.

(** A provider in apply mode and in a preview. *)
Lemma update_provider_file_preview p wa w r wa1 :
  files (fs wa) !! p = files (fs w) !! p ->
  update_provider_file p false wa = (Return r, wa1) ->
  (exists r0, update_provider_file p true w = (Return r0, w) /\ fst r0 = fst r)
  /\ (forall q, q <> p -> files (fs wa1) !! q = files (fs wa) !! q).
Proof.
  intros Hsame Hrun.
  destruct (update_provider_file_settles _ _ _ _ Hrun) as (_ & _ & [c Hc] & _ & Hframe).
  split; [|done].
  rewrite (update_provider_file_run _ _ _ _ Hc) in Hrun.
  rewrite Hc in Hsame. rewrite (update_provider_file_run _ _ _ _ (eq_sym Hsame)).
  destruct (negb _); [injection Hrun as <- _; by eexists|].
  destruct (str_in (txt "currentOrganizationProvider") c);
    [injection Hrun as <- _; by eexists|].
  destruct (create_error (fs wa) p); [discriminate|].
  injection Hrun as <- _. by eexists.
Qed.

Lemma dry_provider_loop (l : list (list string)) :
  NoDup l ->
  forall updates wa w n wa',
    (forall g, g ∈ l -> files (fs wa) !! g = files (fs w) !! g) ->
    for_fold l
      (fun provider_updates f =>
         let* r := update_provider_file f false in
         mret (if fst r then (provider_updates + 1)%nat else provider_updates))
      updates wa
    = (Return n, wa') ->
    for_fold l
      (fun provider_updates f =>
         let* r := update_provider_file f true in
         mret (if fst r then (provider_updates + 1)%nat else provider_updates))
      updates w
    = (Return n, w).
Proof.
  induction l as [|f l IH]; intros Hnd updates wa w n wa' Hsame; cbn [for_fold].
  - rewrite !ret_run. by intros [= <- _].
  - apply NoDup_cons in Hnd as [Hfl Hnd]. rewrite !bind_run.
    destruct (update_provider_file f false wa) as [[r|e] wa1] eqn:Hstep; [|discriminate].
    apply (update_provider_file_preview _ _ w) in Hstep
      as [(r0 & Hdry & Hfst) Hframe]; [|apply Hsame; by left].
    rewrite Hdry, !ret_run, Hfst.
    apply (IH Hnd). intros g Hg. rewrite Hframe; [apply Hsame; by right|].
    by intros ->.
Qed.

Lemma get_provider_files_ascending w l w' :
  get_provider_files w = (Return l, w') -> ascending l.
Proof.
  unfold get_provider_files. cbv zeta. rewrite bind_run.
  unfold glob_dart at 1. cbv beta iota. rewrite ret_run. intros [= <- _].
  apply sorted_ascending.
Qed.

(** The updates in apply mode, when they return, have counted what the
    preview counts on a project with the same files and directories in
    [lib]. *)
Lemma second_updates_preview w w1 counts w' :
  (forall rest,
     files (fs w1) !! ("lib" :: rest) = files (fs w) !! ("lib" :: rest)
     /\ ("lib" :: rest ∈ dirs (fs w1) <-> "lib" :: rest ∈ dirs (fs w))) ->
  second_updates false w1 = (Return counts, w') ->
  second_updates true w = (Return counts, w).
Proof.
  intros Hlib Hrun. unfold second_updates in Hrun. rewrite seq_run in Hrun.
  unfold update_organization_provider at 1 in Hrun. cbv zeta in Hrun.
  rewrite seq_run in Hrun. unfold write_text at 1 in Hrun.
  destruct (create_error (fs w1) _); [discriminate|].
  rewrite ret_run in Hrun.
  set (w2 := store (LIB_DIR ++ ["providers"; "organization_provider.dart"]) new_content
               (Wrote (LIB_DIR ++ ["providers"; "organization_provider.dart"])) w1) in *.
  unfold create_org_aware_database_service_helper in Hrun. cbv beta iota zeta in Hrun.
  rewrite bind_run in Hrun.
  destruct (update_settings_models false w2) as [[n1|e] w3] eqn:Hset; [|discriminate].
  rewrite bind_run in Hrun.
  destruct (get_provider_files w3) as [[l|e] w4] eqn:Hlist; [|discriminate].
  assert (w4 = w3) as ->.
  { pose proof (readonly_get_provider_files w3) as Hro. by rewrite Hlist in Hro. }
  rewrite bind_run in Hrun.
  destruct (for_fold l _ 0%nat w3) as [[n2|e] w5] eqn:Hloop; [|discriminate].
  rewrite seq_run in Hrun. cbn [negb when] in Hrun. rewrite seq_run in Hrun.
  destruct (mkdir_parents _ w5) as [[[]|e] w6]; [|discriminate].
  destruct (write_text _ _ w6) as [[[]|e] w7]; [|discriminate].
  rewrite !ret_run in Hrun. injection Hrun as <- _.
  unfold second_updates. rewrite seq_run.
  unfold update_organization_provider. cbv zeta. rewrite ret_run.
  unfold create_org_aware_database_service_helper. cbv beta iota zeta.
  rewrite bind_run.
  (* the settings models *)
  unfold update_settings_models in Hset |- *. cbv zeta in Hset |- *.
  fold settings_dir in Hset |- *.
  apply (update_settings_loop false _ settings_files_NoDup) in Hset
    as (Hd3 & Hframe3 & Hfiles3 & -> & Hsettled).
  assert (Hsettings : forall f,
            files (fs w2) !! (settings_dir ++ [f]) = files (fs w) !! (settings_dir ++ [f])).
  { intros f. unfold w2. rewrite store_lookup_ne by discriminate. apply Hlib. }
  rewrite dry_settings_loop.
  2:{ intros f Hf Hnone.
      specialize (Hsettled eq_refl f Hf). unfold settled in Hsettled.
      rewrite (Hfiles3 f Hf), Hsettings, Hnone in Hsettled. cbn [fmap option_fmap option_map] in Hsettled.
      unfold is_dir in *. rewrite Hd3 in Hsettled. cbn [w2 store fs dirs] in Hsettled.
      apply orb_false_iff in Hsettled as [Hnil Hdir].
      apply orb_false_iff. split; [done|].
      apply bool_decide_eq_false_1 in Hdir. apply bool_decide_eq_false_2.
      intros Hin. apply Hdir. by apply (Hlib _). }
  assert (Happlies : List.filter (applies (fs w)) settings_files
                     = List.filter (applies (fs w2)) settings_files).
  { apply List.filter_ext. intros f. symmetry. apply applies_transfer, Hsettings. }
  rewrite Happlies. cbn [Nat.add]. rewrite bind_run.
  (* the list of the providers *)
  destruct (get_provider_files w) as [[l0|e] w0] eqn:Hlist0.
  2:{ unfold get_provider_files in Hlist0. cbv zeta in Hlist0.
      rewrite bind_run in Hlist0. unfold glob_dart at 1 in Hlist0. discriminate. }
  assert (w0 = w) as ->.
  { pose proof (readonly_get_provider_files w) as Hro. by rewrite Hlist0 in Hro. }
  assert (Hw3 : forall g, g ∈ l -> files (fs w3) !! g = files (fs w) !! g).
  { intros g Hg. apply (get_provider_files_elem _ _ _ _ Hlist) in Hg.
    destruct Hg as (_ & Hne & Hparent & _ & _ & Hname).
    rewrite Hframe3.
    2:{ intros f Hf Heq. rewrite Heq in Hparent. unfold parent, settings_dir in Hparent.
        rewrite removelast_last in Hparent. discriminate. }
    unfold w2. rewrite store_lookup_ne by (intros ->; by apply Hname).
    rewrite (path_split g Hne), Hparent. apply Hlib. }
  assert (l0 = l) as ->.
  { apply ascending_unique.
    - by eapply get_provider_files_NoDup.
    - by eapply get_provider_files_NoDup.
    - by eapply get_provider_files_ascending.
    - by eapply get_provider_files_ascending.
    - intros g. rewrite (get_provider_files_elem _ _ _ _ Hlist0),
        (get_provider_files_elem _ _ _ _ Hlist).
      split; intros (Hthere & Hne & Hparent & Hdart & Hgen & Hname); (split; [|tauto]).
      + pose proof (path_split g Hne) as Hg. rewrite Hparent in Hg.
        rewrite Hframe3.
        2:{ intros f Hf Heq. rewrite Heq in Hparent. unfold parent, settings_dir in Hparent.
            rewrite removelast_last in Hparent. discriminate. }
        rewrite Hd3. unfold w2.
        rewrite store_lookup_ne by (intros ->; by apply Hname).
        cbn [store fs dirs].
        rewrite Hg in Hthere |- *. cbn [LIB_DIR app] in *.
        destruct (Hlib ("providers" :: [name g])) as [-> Hdirs]. by rewrite Hdirs.
      + pose proof (path_split g Hne) as Hg. rewrite Hparent in Hg.
        rewrite Hframe3 in Hthere.
        2:{ intros f Hf Heq. rewrite Heq in Hparent. unfold parent, settings_dir in Hparent.
            rewrite removelast_last in Hparent. discriminate. }
        rewrite Hd3 in Hthere. unfold w2 in Hthere.
        rewrite store_lookup_ne in Hthere by (intros ->; by apply Hname).
        cbn [store fs dirs] in Hthere.
        rewrite Hg in Hthere |- *. cbn [LIB_DIR app] in *.
        destruct (Hlib ("providers" :: [name g])) as [Hf Hdirs].
        by rewrite <- Hf, <- Hdirs. }
  rewrite bind_run.
  rewrite (dry_provider_loop l (get_provider_files_NoDup _ _ _ Hlist) _ _ _ _ _ Hw3 Hloop).
  rewrite seq_run. cbn [negb when]. by rewrite !ret_run.
Qed.

(** X18: the preview of the second script.  Whenever an apply run returns
    its two counters (settings models and provider files updated), the
    preview run on the same project returns the same two counters and
    changes nothing. *)
Theorem second_preview_counts_what_apply_updates :
  forall a timestamp w counts w',
    arg_dry_run a = false ->
    main a timestamp w = (Return counts, w') ->
    forall a' timestamp',
      arg_dry_run a' = true ->
      arg_apply a' && negb (arg_skip_backup a') = false ->
      main a' timestamp' w = (Return counts, w).
Proof.
  intros a timestamp w counts w' Hdry. rewrite main_second_unfold, Hdry.
  destruct (negb _); [discriminate|].
  rewrite bind_run. unfold path_exists at 1. cbv beta iota.
  destruct (negb (is_file (fs w) LIB_DIR || is_dir (fs w) LIB_DIR)) eqn:Hlibdir;
    [discriminate|].
  rewrite seq_run. intros Hrun a' timestamp' Hdry' Hback.
  rewrite main_second_unfold, Hdry', Hback. cbn [orb negb].
  rewrite bind_run. unfold path_exists at 1. cbv beta iota. rewrite Hlibdir.
  rewrite seq_run. cbn [when]. rewrite ret_run.
  destruct (arg_apply a && negb (arg_skip_backup a)); cbn [when] in Hrun.
  - rewrite seq_run in Hrun.
    destruct (create_backup timestamp w) as [[bp|e] w1] eqn:Hb; [|discriminate].
    rewrite ret_run in Hrun.
    apply (second_updates_preview w w1 counts w'); [|done].
    intros rest. pose proof (second_backup_lib timestamp w rest) as Hlib.
    by rewrite Hb in Hlib.
  - rewrite ret_run in Hrun. by apply (second_updates_preview w w counts w').
Qed.

End SecondPreview.

Section SecondPreviewSample.
Import Phase2.

Lemma second_preview_counts_what_apply_updates_witness :
  let a := {| arg_dry_run := false; arg_apply := true; arg_skip_backup := false |} in
  let a' := {| arg_dry_run := true; arg_apply := false; arg_skip_backup := false |} in
  let r := @main ascii_table a "20240101_120000" wired_provider in
  r = (Return (0%nat, 1%nat), snd r)
  /\ @main ascii_table a' "20240102_120000" wired_provider
     = (Return (0%nat, 1%nat), wired_provider).
Proof.
  cbv zeta.
  assert (Hrun :
    @main ascii_table
      {| arg_dry_run := false; arg_apply := true; arg_skip_backup := false |}
      "20240101_120000" wired_provider
    = (Return (0%nat, 1%nat),
       snd (@main ascii_table
              {| arg_dry_run := false; arg_apply := true; arg_skip_backup := false |}
              "20240101_120000" wired_provider))).
  { rewrite (surjective_pairing (main _ _ _)) at 1.
    f_equal; vm_compute; reflexivity. }
  split; [exact Hrun|].
  exact (@second_preview_counts_what_apply_updates ascii_table
           {| arg_dry_run := false; arg_apply := true; arg_skip_backup := false |}
           "20240101_120000" wired_provider _ _ eq_refl Hrun
           {| arg_dry_run := true; arg_apply := false; arg_skip_backup := false |}
           "20240102_120000" eq_refl eq_refl).
Defined.

End SecondPreviewSample.

(** ** The preview of the first script *)

Section FirstPreview.
Context `{UnicodeTable}.
Import MigrateToSaas.

(** The backup leaves what lies in [lib] as it is. *)
Lemma first_backup_lib (ts : string) (w : world) (rest : list string) :
  files (fs (snd (create_backup ts w))) !! ("lib" :: rest) = files (fs w) !! ("lib" :: rest)
  /\ is_dir (fs (snd (create_backup ts w))) ("lib" :: rest) = is_dir (fs w) ("lib" :: rest).
Proof.
  split.
  - apply (effect_frame _ _ _ _ (first_backup_effect ts)).
    intros e [[d ->] | (src & rest' & ->)] [Ht | [src' Ht]]; discriminate.
  - destruct (makes_first_backup ts w) as (Hkeep & Hnew & _).
    unfold is_dir. f_equal. apply bool_decide_ext. split; [|apply Hkeep].
    intros Hd. destruct (Hnew _ Hd) as [? | [Hb | [rest' Hb]]]; [done | |]; discriminate.
Qed.










End FirstPreview.

Section FirstPreviewSample.
Import MigrateToSaas.


End FirstPreviewSample.

(** ** Apply runs on a project without [lib/providers] *)

Section WithoutProviders.
Context `{UnicodeTable}.

(** Nothing can be written into a directory that does not exist. *)
Lemma write_text_no_parent p t w :
  is_dir (fs w) (parent p) = false ->
  exists e, write_text p t w = (Raise e, w).
Proof.
  intros Hd. unfold write_text, create_error. rewrite Hd.
  destruct (is_dir (fs w) p); [by eexists|].
  destruct (is_file (fs w) (parent p)); by eexists.
Qed.

Lemma first_updates_without_providers w report w' :
  is_dir (fs w) (MigrateToSaas.LIB_DIR ++ ["providers"]) = false ->
  is_file (fs w) (MigrateToSaas.LIB_DIR ++ ["providers"; "organization_provider.dart"])
  || is_dir (fs w) (MigrateToSaas.LIB_DIR ++ ["providers"; "organization_provider.dart"])
  = false ->
  first_updates false w <> (Return report, w').
Proof.
  intros Hdir Hnone Hrun. unfold first_updates in Hrun. rewrite bind_run in Hrun.
  destruct (model_batch false MigrateToSaas.new_report w) as [[r1|e] w1] eqn:Hbatch;
    [|discriminate].
  rewrite bind_run in Hrun.
  destruct (MigrateToSaas.update_database_service r1 false w1) as [[r2|e] w2] eqn:Hservice;
    [|discriminate].
  cbv zeta in Hrun. rewrite bind_run in Hrun.
  (* the file system where the provider is created *)
  assert (Hfiles : files (fs w2)
                     !! (MigrateToSaas.LIB_DIR ++ ["providers"; "organization_provider.dart"])
                   = files (fs w)
                       !! (MigrateToSaas.LIB_DIR ++ ["providers"; "organization_provider.dart"])).
  { pose proof (effect_frame _ _ w1
                  (MigrateToSaas.LIB_DIR ++ ["providers"; "organization_provider.dart"])
                  (effect_update_database_service r1 false)) as H2.
    rewrite Hservice in H2. cbn [snd] in H2. rewrite H2.
    2:{ intros e -> [Ht | [src Ht]]; discriminate. }
    pose proof (effect_frame _ _ w
                  (MigrateToSaas.LIB_DIR ++ ["providers"; "organization_provider.dart"])
                  (effect_model_batch false MigrateToSaas.new_report)) as H1.
    rewrite Hbatch in H1. cbn [snd] in H1. apply H1.
    intros e (f & Hf & ->) [Ht | [src Ht]]; discriminate. }
  assert (Hdirs : dirs (fs w2) = dirs (fs w)).
  { destruct (makes_update_database_service r1 false w1) as (Hk2 & Hn2 & _).
    destruct (makes_model_batch false MigrateToSaas.new_report w) as (Hk1 & Hn1 & _).
    rewrite Hservice in Hk2, Hn2. rewrite Hbatch in Hk1, Hn1. cbn [snd] in *.
    apply set_eq. intros d. split.
    - intros Hd. destruct (Hn2 d Hd) as [Hd1 | []]. by destruct (Hn1 d Hd1).
    - intros Hd. by apply Hk2, Hk1. }
  unfold MigrateToSaas.create_organization_provider in Hrun. cbv zeta in Hrun.
  rewrite bind_run in Hrun. unfold path_exists, is_file, is_dir in Hrun, Hnone, Hdir.
  rewrite Hfiles, Hdirs, Hnone in Hrun. cbv beta iota in Hrun.
  rewrite seq_run in Hrun.
  destruct (write_text_no_parent
              (MigrateToSaas.LIB_DIR ++ ["providers"; "organization_provider.dart"])
              MigrateToSaas.provider_content w2) as [e He].
  { unfold is_dir. by rewrite Hdirs. }
  rewrite He in Hrun. discriminate.
Qed.

(** X20: apply runs need [lib/providers].  Where [lib/providers] is no
    directory (and holds no organization provider), no apply run of the
    first script returns: the provider file, which it creates as its last
    step, cannot be written.  No apply run of the second script returns
    either, and such a run leaves every file in [lib] as it was: writing
    the provider file is its first step after the backup. *)
Theorem apply_runs_need_the_providers_directory :
  (forall a timestamp w report w',
     MigrateToSaas.arg_dry_run a || MigrateToSaas.arg_report a = false ->
     is_dir (fs w) (MigrateToSaas.LIB_DIR ++ ["providers"]) = false ->
     is_file (fs w) (MigrateToSaas.LIB_DIR ++ ["providers"; "organization_provider.dart"])
     || is_dir (fs w) (MigrateToSaas.LIB_DIR ++ ["providers"; "organization_provider.dart"])
     = false ->
     MigrateToSaas.main a timestamp w <> (Return report, w'))
  /\ (forall a timestamp w,
        Phase2.arg_dry_run a = false ->
        is_dir (fs w) (Phase2.LIB_DIR ++ ["providers"]) = false ->
        (forall counts w', Phase2.main a timestamp w <> (Return counts, w'))
        /\ forall rest,
             files (fs (snd (Phase2.main a timestamp w))) !! ("lib" :: rest)
             = files (fs w) !! ("lib" :: rest)).
Proof.
  split.
  - intros a timestamp w report w' Hdry Hdir Hnone.
    rewrite main_first_unfold, Hdry.
    destruct (negb _); [discriminate|].
    rewrite bind_run. unfold path_exists at 1. cbv beta iota.
    destruct (negb _); [discriminate|].
    rewrite seq_run.
    destruct (MigrateToSaas.arg_apply a && negb (MigrateToSaas.arg_skip_backup a));
      cbn [when].
    + rewrite seq_run.
      destruct (MigrateToSaas.create_backup timestamp w) as [[bp|e] w1] eqn:Hb;
        [|discriminate].
      rewrite ret_run. apply first_updates_without_providers.
      * pose proof (first_backup_lib timestamp w ["providers"]) as [_ Hd].
        rewrite Hb in Hd. cbn [snd] in Hd. exact (eq_trans Hd Hdir).
      * pose proof (first_backup_lib timestamp w ["providers"; "organization_provider.dart"])
          as [Hf Hd].
        rewrite Hb in Hf, Hd. cbn [snd] in Hf, Hd. unfold is_file in *.
        change (MigrateToSaas.LIB_DIR ++ ["providers"; "organization_provider.dart"])
          with ["lib"; "providers"; "organization_provider.dart"] in *.
        by rewrite Hf, Hd.
    + rewrite ret_run. by apply first_updates_without_providers.
  - intros a timestamp w Hdry Hdir.
    assert (Hend : exists e w1,
              Phase2.main a timestamp w = (Raise e, w1)
              /\ forall rest,
                   files (fs w1) !! ("lib" :: rest) = files (fs w) !! ("lib" :: rest)).
    2:{ destruct Hend as (e & w1 & -> & Hlib). split; [discriminate | exact Hlib]. }
    rewrite main_second_unfold, Hdry.
    destruct (negb _); [by eexists _, _|].
    rewrite bind_run. unfold path_exists at 1. cbv beta iota.
    destruct (negb _); [by eexists _, _|].
    rewrite seq_run.
    assert (Hstop : forall w1,
              is_dir (fs w1) (Phase2.LIB_DIR ++ ["providers"]) = false ->
              exists e, second_updates false w1 = (Raise e, w1)).
    { intros w1 Hd1. unfold second_updates. rewrite seq_run.
      unfold Phase2.update_organization_provider. cbv zeta. rewrite seq_run.
      destruct (write_text_no_parent
                  (Phase2.LIB_DIR ++ ["providers"; "organization_provider.dart"])
                  Phase2.new_content w1 Hd1) as [e ->]. by eexists. }
    destruct (Phase2.arg_apply a && negb (Phase2.arg_skip_backup a)); cbn [when].
    + rewrite seq_run.
      pose proof (second_backup_lib timestamp w) as Hlib.
      destruct (Phase2.create_backup timestamp w) as [[bp|e] w1] eqn:Hb; cbn [snd] in Hlib.
      2:{ eexists _, _. split; [done|]. intros rest. apply Hlib. }
      rewrite ret_run. destruct (Hstop w1) as [e ->].
      { unfold is_dir in *. apply orb_false_iff in Hdir as [Hnil Hdir].
        apply orb_false_iff. split; [done|].
        apply bool_decide_eq_false_1 in Hdir. apply bool_decide_eq_false_2.
        intros Hin. apply Hdir. by apply (Hlib ["providers"]). }
      eexists _, _. split; [done|]. intros rest. apply Hlib.
    + rewrite ret_run. destruct (Hstop w Hdir) as [e ->]. by eexists _, _.
Qed.

End WithoutProviders.

Section WithoutProvidersSample.

Lemma apply_runs_need_the_providers_directory_witness :
  let a1 := {| MigrateToSaas.arg_dry_run := false; MigrateToSaas.arg_apply := true;
               MigrateToSaas.arg_report := false; MigrateToSaas.arg_skip_backup := false |} in
  let a2 := {| Phase2.arg_dry_run := false; Phase2.arg_apply := true;
               Phase2.arg_skip_backup := false |} in
  fst (@MigrateToSaas.main ascii_table a1 "20240101_120000" bare_lib)
  = Raise FileNotFoundError
  /\ (forall report w',
        @MigrateToSaas.main ascii_table a1 "20240101_120000" bare_lib <> (Return report, w'))
  /\ fst (@Phase2.main ascii_table a2 "20240101_120000" bare_lib) = Raise FileNotFoundError
  /\ (forall counts w',
        @Phase2.main ascii_table a2 "20240101_120000" bare_lib <> (Return counts, w')).
Proof.
  cbv zeta. split_and!.
  - vm_compute. reflexivity.
  - intros report w'.
    exact (proj1 (@apply_runs_need_the_providers_directory ascii_table)
             {| MigrateToSaas.arg_dry_run := false; MigrateToSaas.arg_apply := true;
                MigrateToSaas.arg_report := false; MigrateToSaas.arg_skip_backup := false |}
             "20240101_120000" bare_lib report w' eq_refl eq_refl eq_refl).
  - vm_compute. reflexivity.
  - exact (proj1 (proj2 (@apply_runs_need_the_providers_directory ascii_table)
             {| Phase2.arg_dry_run := false; Phase2.arg_apply := true;
                Phase2.arg_skip_backup := false |}
             "20240101_120000" bare_lib eq_refl eq_refl)).
Defined.

End WithoutProvidersSample.

(** ** The provider passes of the second and of the third script *)

Section ProviderPasses.
Context `{UnicodeTable}.

(** X21: the provider passes of the second and of the third script on the
    same file.  After an apply call of [update_provider_file] that put
    the import in, an apply call of [update_provider_org_context] that
    returns puts no second import in: it changes nothing, or it writes
    the text that it found with its comment put in.  After an apply call
    of [update_provider_org_context] that put its comment into a provider
    with an import, [update_provider_file] leaves the file alone in
    either mode, since the comment mentions
    [currentOrganizationProvider]: a provider that the third script has
    marked gets no import from the second. *)
Theorem provider_passes_do_not_repeat_each_other :
  (forall p w b w1 b' w2,
      Phase2.update_provider_file p false w = (Return (b, 1%nat), w1) ->
      Wire.update_provider_org_context p false w1 = (Return b', w2) ->
      exists content1,
        files (fs w1) !! p = Some content1
        /\ str_in Phase2.org_import content1 = true
        /\ ((b' = false /\ w2 = w1)
            \/ (b' = true /\ files (fs w2) !! p = Some (with_todo_comment content1))))
  /\ (forall p w content w',
        files (fs w) !! p = Some content ->
        str_in (txt "import ") content = true ->
        str_in (txt "TODO: Multi-tenant") content = false ->
        Wire.update_provider_org_context p false w = (Return true, w') ->
        forall dry_run,
          Phase2.update_provider_file p dry_run w' = (Return (false, 0%nat), w')).
Proof.
  split.
  - intros p w b w1 b' w2 Hrun.
    destruct (files (fs w) !! p) as [content|] eqn:Hf.
    2:{ unfold Phase2.update_provider_file in Hrun. rewrite bind_run in Hrun.
        unfold read_text in Hrun. rewrite Hf in Hrun. discriminate. }
    rewrite (update_provider_file_run _ _ _ _ Hf) in Hrun.
    destruct (negb _); [discriminate|].
    destruct (str_in (txt "currentOrganizationProvider") content); [discriminate|].
    destruct (create_error (fs w) p); [discriminate|].
    injection Hrun as _ Hn <-.
    assert (Hin : str_in Phase2.org_import (fst (with_org_import content)) = true).
    { unfold with_org_import in Hn |- *.
      destruct (negb (str_in Phase2.org_import content) && _); [|discriminate].
      destruct (re_search Phase2.import_pattern content) as [m|]; [|discriminate].
      cbn [fst]. unfold splice. rewrite <- app_assoc. apply str_in_middle.
      apply str_in_spec. exists [], []. by rewrite app_nil_r. }
    intros Hwire. exists (fst (with_org_import content)).
    rewrite store_lookup. split_and!; [done | done |].
    rewrite (update_provider_org_context_run _ _ _ (fst (with_org_import content)))
      in Hwire by apply store_lookup.
    destruct (negb (str_in (txt "Supabase.instance.client") _));
      [injection Hwire as <- <-; by left|].
    destruct (str_in (txt "currentOrganizationProvider.future") _);
      [injection Hwire as <- <-; by left|].
    destruct (create_error _ p); [discriminate|].
    injection Hwire as <- <-. right. split; [done|]. rewrite store_lookup.
    do 2 f_equal. unfold with_import_line.
    assert (Hname : str_in (txt "organization_provider.dart")
                      (fst (with_org_import content)) = true).
    { apply str_in_spec in Hin as (pre & post & ->).
      apply str_in_middle. vm_compute. reflexivity. }
    by rewrite Hname.
  - intros p w content w' Hf Himp Htodo.
    rewrite (update_provider_org_context_run _ _ _ _ Hf).
    destruct (negb _); [discriminate|].
    destruct (str_in (txt "currentOrganizationProvider.future") content); [discriminate|].
    destruct (create_error (fs w) p); [discriminate|].
    intros [= <-] dry_run.
    destruct (with_todo_comment_marked (with_import_line content)) as [k Hk];
      [by apply with_import_line_keeps | by apply with_import_line_no_todo |].
    rewrite (update_provider_file_run _ _ _ (with_todo_comment (with_import_line content)))
      by apply store_lookup.
    destruct (negb _); [done|].
    assert (Hmark : str_in (txt "currentOrganizationProvider")
                      (with_todo_comment (with_import_line content)) = true).
    { rewrite Hk. unfold splice. apply str_in_middle. vm_compute. reflexivity. }
    by rewrite Hmark.
Qed.

End ProviderPasses.

Section ProviderPassesSample.

Lemma provider_passes_do_not_repeat_each_other_witness :
  let r := @Phase2.update_provider_file ascii_table sizes_provider false plain_provider in
  let r' := @Wire.update_provider_org_context ascii_table sizes_provider false (snd r) in
  let t := @Wire.update_provider_org_context ascii_table sizes_provider false
             unwired_provider in
  (r = (Return (true, 1%nat), snd r)
   /\ r' = (Return true, snd r')
   /\ exists content1,
        files (fs (snd r)) !! sizes_provider = Some content1
        /\ str_in Phase2.org_import content1 = true
        /\ ((true = false /\ snd r' = snd r)
            \/ (true = true
                /\ files (fs (snd r')) !! sizes_provider
                   = Some (with_todo_comment content1))))
  /\ (t = (Return true, snd t)
      /\ @Phase2.update_provider_file ascii_table sizes_provider true (snd t)
         = (Return (false, 0%nat), snd t)).
Proof.
  cbv zeta.
  assert (Hrun :
    @Phase2.update_provider_file ascii_table sizes_provider false plain_provider
    = (Return (true, 1%nat),
       snd (@Phase2.update_provider_file ascii_table sizes_provider false plain_provider))).
  { rewrite (surjective_pairing (Phase2.update_provider_file _ _ _)) at 1.
    f_equal; vm_compute; reflexivity. }
  assert (Hwire :
    @Wire.update_provider_org_context ascii_table sizes_provider false
      (snd (@Phase2.update_provider_file ascii_table sizes_provider false plain_provider))
    = (Return true,
       snd (@Wire.update_provider_org_context ascii_table sizes_provider false
              (snd (@Phase2.update_provider_file ascii_table sizes_provider false
                      plain_provider))))).
  { rewrite (surjective_pairing (Wire.update_provider_org_context _ _ _)) at 1.
    f_equal; vm_compute; reflexivity. }
  assert (Hthird :
    @Wire.update_provider_org_context ascii_table sizes_provider false unwired_provider
    = (Return true,
       snd (@Wire.update_provider_org_context ascii_table sizes_provider false
              unwired_provider))).
  { rewrite (surjective_pairing (Wire.update_provider_org_context _ _ _)) at 1.
    f_equal; vm_compute; reflexivity. }
  split.
  - split; [exact Hrun|]. split; [exact Hwire|].
    exact (proj1 (@provider_passes_do_not_repeat_each_other ascii_table)
             sizes_provider plain_provider true _ true _ Hrun Hwire).
  - split; [exact Hthird|].
    refine (proj2 (@provider_passes_do_not_repeat_each_other ascii_table)
              sizes_provider unwired_provider
              (txt "import 'a.dart';
final c = Supabase.instance.client;
") _ _ _ _ Hthird true).
    + vm_compute. reflexivity.
    + vm_compute. reflexivity.
    + vm_compute. reflexivity.
Defined.

End ProviderPassesSample.

(** ** Runs that return *)

Section Succeeds.

Lemma succeeds_ret {A} (I : filesystem -> Prop) (a : A) : succeeds I (mret a : M A).
Proof. intros w Hw. by exists a, w. Qed.

Lemma succeeds_bind {A B} (I : filesystem -> Prop) (m : M A) (f : A -> M B) :
  succeeds I m -> (forall a, succeeds I (f a)) -> succeeds I (bind m f).
Proof.
  intros Hm Hf w Hw. destruct (Hm w Hw) as (a & w1 & Hrun & Hw1).
  destruct (Hf a w1 Hw1) as (b & w2 & Hrun2 & Hw2).
  exists b, w2. by rewrite bind_run, Hrun.
Qed.

Lemma succeeds_seq {A B} (I : filesystem -> Prop) (m : M A) (k : M B) :
  succeeds I m -> succeeds I k -> succeeds I (m;; k).
Proof. intros Hm Hk. by apply (succeeds_bind I m (fun _ => k)). Qed.


Lemma succeeds_mono {A} (I J : filesystem -> Prop) (m : M A) :
  (forall f, J f -> I f) ->
  (forall w a w', J (fs w) -> m w = (Return a, w') -> I (fs w') -> J (fs w')) ->
  succeeds I m -> succeeds J m.
Proof.
  intros HJI Hback Hm w Hw. destruct (Hm w (HJI _ Hw)) as (a & w' & Hrun & Hw').
  exists a, w'. split; [done|]. by eapply Hback.
Qed.



Lemma sane_of_well_formed (f : filesystem) :
  well_formed f = true -> no_dart_dirs f = true -> sane f.
Proof.
  intros Hwf Hnd. split.
  - intros rest [t Ht]. by apply (well_formed_file f _ t).
  - intros rest Hname. by apply no_dart_dirs_is_dir.
Qed.



End Succeeds.

Section ThirdScriptReturns.
Context `{UnicodeTable}.
Import Wire.




End ThirdScriptReturns.

Section FirstScriptReturns.
Context `{UnicodeTable}.
Import MigrateToSaas.







End FirstScriptReturns.

Section SecondScriptReturns.
Context `{UnicodeTable}.
Import Phase2.

(** [mkdir(parents=True, exist_ok=True)] returns when no file stands in
    its way. *)
Lemma mkdir_from_succeeds (above below : list string) (w : world) :
  (forall k, (0 < k <= length below)%nat ->
     is_file (fs w) (above ++ take k below) = false) ->
  exists w', mkdir_from above below w = (Return tt, w').
Proof.
  revert above w. induction below as [|c below IH]; intros above w Hfree; cbn [mkdir_from].
  - by eexists.
  - assert (Hc : is_file (fs w) (above ++ [c]) = false).
    { specialize (Hfree 1%nat). cbn [take length] in Hfree. rewrite take_0 in Hfree.
      apply Hfree. lia. }
    rewrite Hc.
    assert (Hrest : forall w1, files (fs w1) = files (fs w) ->
              exists w', mkdir_from (above ++ [c]) below w1 = (Return tt, w')).
    { intros w1 Hw1. apply IH. intros k Hk.
      specialize (Hfree (S k)). cbn [take length] in Hfree.
      rewrite <- app_assoc. unfold is_file in *. rewrite Hw1. apply Hfree. lia. }
    destruct (is_dir (fs w) (above ++ [c])); by apply Hrest.
Qed.





End SecondScriptReturns.

Section BackupsReturn.

Lemma succeeds_for_each {A} (I : filesystem -> Prop) (xs : list A) (body : A -> M unit) :
  (forall x, x ∈ xs -> succeeds I (body x)) -> succeeds I (for_each xs body).
Proof.
  induction xs as [|x xs IH]; intros Hb; cbn [for_each].
  - apply succeeds_ret.
  - apply succeeds_seq; [apply Hb; left | apply IH].
    intros y Hy. apply Hb. by right.
Qed.

Lemma succeeds_path_exists (I : filesystem -> Prop) (p : list string) :
  succeeds I (path_exists p).
Proof. intros w Hw. by eexists _, _. Qed.

(** The members of a [glob]. *)
Lemma glob_dart_elem (d : list string) (w : world) (l : list (list string))
    (p : list string) :
  glob_dart d w = (Return l, w) -> p ∈ l ->
  p = d ++ [name p] /\ name_ends_with ".dart" (name p) = true
  /\ is_file (fs w) p || is_dir (fs w) p = true.
Proof.
  intros [= <-] Hp. apply list_elem_of_In, filter_In in Hp as [Hp Hc].
  apply andb_true_iff in Hc as [Hc Hname].
  apply andb_true_iff in Hc as [Hroot Hparent].
  apply bool_decide_eq_true_1 in Hparent. apply negb_true_iff in Hroot.
  apply bool_decide_eq_false_1 in Hroot.
  split_and!; [| done |].
  - rewrite <- Hparent. by apply path_split.
  - apply list_elem_of_In, elem_of_elements, elem_of_union in Hp as [Hp | Hp];
      apply orb_true_iff; [left | right].
    + apply bool_decide_eq_true_2. by apply elem_of_dom.
    + unfold is_dir. apply orb_true_iff. right. by apply bool_decide_eq_true_2.
Qed.

(** A fresh backup directory. *)
Lemma backup_inv_fresh (F0 : filesystem) (root ts : string) (Pf Pd : list string -> Prop) :
  fresh_backup F0 [root] ts -> backup_inv F0 root ts Pf Pd F0.
Proof.
  intros [Hroot Hfresh]. split_and!; try done.
  - intros q Hq. destruct (Hfresh q) as [Hnone _]. cbn [app] in *.
    rewrite Hnone in Hq. by destruct Hq.
  - intros q Hq. destruct (Hfresh q) as [_ Hno]. by destruct Hno.
Qed.

(** The directories of the backup can be made. *)
Lemma backup_inv_mkdir (F0 : filesystem) (root ts : string) (Pf Pd : list string -> Prop)
    (s : list string) (w : world) :
  root <> "lib" ->
  (forall k, ~ Pf (take k s)) ->
  (forall k, Pd (take k s)) ->
  backup_inv F0 root ts Pf Pd (fs w) ->
  exists w',
    mkdir_parents ([root; ts] ++ s) w = (Return tt, w')
    /\ backup_inv F0 root ts Pf Pd (fs w')
    /\ is_dir (fs w') ([root; ts] ++ s) = true
    /\ (forall d, is_dir (fs w) d = true -> is_dir (fs w') d = true).
Proof.
  intros Hroot HPf HPd (Hfiles & Hdirs & Hfile & Hf & Hd).
  assert (Hprefix : forall k, (0 < k)%nat ->
            take k ([root; ts] ++ s) = [root]
            \/ take k ([root; ts] ++ s) = [root; ts] ++ take (k - 2) s).
  { intros k Hk. destruct k as [|[|k]]; [lia | by left | right].
    replace (S (S k) - 2)%nat with k by lia. done. }
  destruct (mkdir_from_succeeds [] ([root; ts] ++ s) w) as [w' Hmk].
  { intros k Hk. rewrite app_nil_l.
    destruct (Hprefix k) as [-> | ->]; [lia | done |].
    apply bool_decide_eq_false_2. intros Hsome. by apply (HPf (k - 2)%nat), Hf. }
  destruct (mkdir_from_returns _ _ _ _ Hmk) as [Hpre Hmono].
  destruct (mkdir_from_dirs [] ([root; ts] ++ s) w) as [Hsame Hnew].
  rewrite Hmk in Hsame, Hnew. cbn [snd] in Hsame, Hnew.
  exists w'. split_and!; [done | | | done].
  - unfold backup_inv, is_file. rewrite Hsame. split_and!; try done.
    + intros rest. rewrite <- Hdirs.
      destruct (is_dir (fs w) ("lib" :: rest)) eqn:Hold; [by apply Hmono|].
      unfold is_dir in *. apply orb_false_iff in Hold as [_ Hold].
      apply bool_decide_eq_false_1 in Hold.
      apply orb_false_iff. split; [done|]. apply bool_decide_eq_false_2.
      intros Hin. destruct (Hnew _ Hin) as [? | (k & Hk & Heq)]; [done|].
      rewrite app_nil_l in Heq.
      destruct (Hprefix k) as [Hp | Hp]; [lia | |]; rewrite Hp in Heq;
        injection Heq as Heq; by apply Hroot.
    + intros q Hin. destruct (Hnew _ Hin) as [? | (k & Hk & Heq)]; [by apply Hd|].
      rewrite app_nil_l in Heq.
      destruct (Hprefix k) as [Hp | Hp]; [lia | |]; rewrite Hp in Heq.
      * discriminate.
      * apply app_inv_head in Heq. rewrite Heq. apply HPd.
  - specialize (Hpre (length ([root; ts] ++ s))). rewrite take_ge in Hpre by lia.
    apply Hpre. rewrite length_app. cbn [length]. lia.
Qed.

(** A file of the project can be copied to a free place in the backup. *)
Lemma backup_inv_copy (F0 : filesystem) (root ts : string) (Pf Pd : list string -> Prop)
    (src r : list string) (w : world) :
  root <> "lib" ->
  Pf r -> ~ Pd r ->
  is_Some (files (fs w) !! src) ->
  is_dir (fs w) (parent ([root; ts] ++ r)) = true ->
  backup_inv F0 root ts Pf Pd (fs w) ->
  exists w',
    copy2 src ([root; ts] ++ r) w = (Return tt, w')
    /\ backup_inv F0 root ts Pf Pd (fs w')
    /\ forall d, is_dir (fs w') d = is_dir (fs w) d.
Proof.
  intros Hroot HPf HPd [c Hsrc] Hparent (Hfiles & Hdirs & Hfile & Hf & Hd).
  assert (Hdst : is_dir (fs w) ([root; ts] ++ r) = false).
  { unfold is_dir. apply orb_false_iff. split; [done|].
    apply bool_decide_eq_false_2. intros Hin. by apply HPd, Hd. }
  unfold copy2. rewrite Hsrc. cbv zeta. rewrite Hdst.
  unfold create_error. rewrite Hdst, Hparent.
  eexists. split_and!; [done | | done].
  unfold backup_inv, is_file. cbn [store fs files dirs]. split_and!; try done.
  - intros rest. rewrite lookup_insert_ne; [apply Hfiles|].
    intros Heq. injection Heq as Heq _. by apply Hroot.
  - rewrite lookup_insert_ne by discriminate. exact Hfile.
  - intros q Hq. destruct (decide (q = r)) as [-> | Hne]; [done|].
    rewrite lookup_insert_ne in Hq; [by apply Hf|].
    intros Heq. apply app_inv_head in Heq. by apply Hne.
Qed.

(** What exists in [lib] under a name that ends in [.dart] while a sane
    project is backed up is a file. *)
Lemma backup_inv_file (F0 : filesystem) (root ts : string) (Pf Pd : list string -> Prop)
    (rest : list string) (w : world) :
  sane F0 ->
  backup_inv F0 root ts Pf Pd (fs w) ->
  name_ends_with ".dart" (name ("lib" :: rest)) = true ->
  is_file (fs w) ("lib" :: rest) || is_dir (fs w) ("lib" :: rest) = true ->
  is_Some (files (fs w) !! ("lib" :: rest)).
Proof.
  intros [_ Hdart] (Hfiles & Hdirs & _) Hname He.
  rewrite Hdirs, (Hdart rest Hname), orb_false_r in He.
  by apply bool_decide_eq_true_1 in He.
Qed.

End BackupsReturn.

Section FirstBackupReturns.
Import MigrateToSaas.

(** The places of the backup of the first script. *)
Lemma first_backup_returns (ts : string) (w : world) :
  sane (fs w) ->
  fresh_backup (fs w) BACKUP_DIR ts ->
  exists w1, create_backup ts w = (Return (BACKUP_DIR ++ [ts]), w1).
Proof.
  intros Hsane Hfresh.
  set (Pf := fun q : list string =>
               (exists x, q = ["models"; x]) \/ q = ["services"; "database_service.dart"]).
  set (Pd := fun q : list string => q ∈ [[]; ["models"]; ["services"]]).
  pose proof (backup_inv_fresh (fs w) "migration_backup" ts Pf Pd Hfresh) as Hinv.
  unfold create_backup. cbv zeta. rewrite seq_run.
  (* the directory of the models *)
  destruct (backup_inv_mkdir (fs w) "migration_backup" ts Pf Pd ["models"] w)
    as (wa & Hmk & Hinva & Hdira & _); [done | | | done |].
  { intros k [[x Hx] | Hx]; destruct k as [|[|k]]; discriminate. }
  { intros k. unfold Pd. destruct k as [|[|k]]; cbn [take]; [left | right; left..]. }
  change (BACKUP_DIR ++ [ts] ++ ["models"]) with (["migration_backup"; ts] ++ ["models"]).
  change ((BACKUP_DIR ++ [ts]) ++ ["models"]) with (["migration_backup"; ts] ++ ["models"]).
  rewrite Hmk.
  (* the models *)
  rewrite bind_run.
  destruct (glob_dart MODELS_DIR wa) as [[l|e] wa'] eqn:Hglob; [|discriminate].
  assert (wa' = wa) as -> by (by injection Hglob).
  rewrite seq_run.
  destruct (succeeds_for_each
              (fun f => backup_inv (fs w) "migration_backup" ts Pf Pd f
                        /\ is_dir f (["migration_backup"; ts] ++ ["models"]) = true)
              l
              (fun model_file =>
                 when (negb (name_ends_with ".freezed.dart" (name model_file)
                             || name_ends_with ".g.dart" (name model_file)))
                   (copy2 model_file
                      ((["migration_backup"; ts] ++ ["models"]) ++ [name model_file]))))
    with (w := wa) as ([] & wb & Hloop & Hinvb & Hdirb); [| done |].
  { intros f Hf w2 [Hinv2 Hdir2].
    destruct (negb _); cbn [when]; [|by eexists _, _].
    destruct (glob_dart_elem _ _ _ _ Hglob Hf) as (Hshape & Hname & Hthere).
    assert (Hsome : is_Some (files (fs w2) !! f)).
    { destruct Hinv2 as (Hfiles2 & _). pose proof Hinva as (Hfilesa & _).
      rewrite Hshape in Hname, Hthere |- *. cbn [MODELS_DIR LIB_DIR app] in *.
      rewrite Hfiles2, <- Hfilesa.
      by apply (backup_inv_file (fs w) "migration_backup" ts Pf Pd _ wa). }
    destruct (backup_inv_copy (fs w) "migration_backup" ts Pf Pd f ["models"; name f] w2)
      as (w3 & Hcopy & Hinv3 & Hdirs3); try done.
    - left. by eexists.
    - unfold Pd. intros Hin.
      repeat (apply elem_of_cons in Hin as [Hin | Hin]; [discriminate|]).
      by apply elem_of_nil in Hin.
    - cbn [app] in Hcopy |- *.
      rewrite Hcopy. eexists _, _. split; [done|]. split; [done|].
      by rewrite Hdirs3. }
  rewrite Hloop.
  (* the directory of the service *)
  rewrite seq_run.
  destruct (backup_inv_mkdir (fs w) "migration_backup" ts Pf Pd ["services"] wb)
    as (wc & Hmkc & Hinvc & Hdirc & _); [done | | | done |].
  { intros k [[x Hx] | Hx]; destruct k as [|[|k]]; discriminate. }
  { intros k. unfold Pd. destruct k as [|[|k]]; cbn [take]; [left | right; right; left..]. }
  change ((BACKUP_DIR ++ [ts]) ++ ["services"]) with (["migration_backup"; ts] ++ ["services"]).
  rewrite Hmkc.
  (* the database service *)
  rewrite bind_run. unfold path_exists. cbv beta iota. rewrite seq_run.
  destruct (is_file (fs wc) DATABASE_SERVICE || is_dir (fs wc) DATABASE_SERVICE) eqn:He;
    cbn [when]; [|rewrite !ret_run; by eexists].
  apply (backup_inv_file (fs w) "migration_backup" ts Pf Pd
           ("core" :: "services" :: ["database_service.dart"]) wc Hsane Hinvc eq_refl) in He.
  destruct (backup_inv_copy (fs w) "migration_backup" ts Pf Pd DATABASE_SERVICE
              ["services"; "database_service.dart"] wc)
    as (wd & Hcopy & _); try done.
  - by right.
  - unfold Pd. intros Hin.
    repeat (apply elem_of_cons in Hin as [Hin | Hin]; [discriminate|]).
    by apply elem_of_nil in Hin.
  - cbn in Hcopy |- *. rewrite Hcopy, ret_run. by eexists.
Qed.

End FirstBackupReturns.

Section SecondBackupReturns.
Import Phase2.

(** A round of the loop of the backup of the second script. *)
Lemma providers_body_succeeds (F0 : filesystem) (ts : string) (f : list string) :
  sane F0 ->
  f = LIB_DIR ++ ["core"; "services"; "database_service.dart"]
  \/ (exists x, f = ["lib"; "providers"; x] /\ name_ends_with ".dart" x = true) ->
  succeeds
    (backup_inv F0 "migration_backup_phase2" ts
       (fun q => q = ["core"; "services"; "database_service.dart"]
                 \/ exists x, q = ["providers"; x])
       (fun q => q ∈ [[]; ["core"]; ["core"; "services"]; ["providers"]]))
    (providers_body (BACKUP_DIR ++ [ts]) f).
Proof.
  intros Hsane Hshape w Hinv.
  set (Pf := fun q : list string =>
               q = ["core"; "services"; "database_service.dart"]
               \/ exists x, q = ["providers"; x]) in *.
  set (Pd := fun q : list string =>
               q ∈ [[]; ["core"]; ["core"; "services"]; ["providers"]]) in *.
  unfold providers_body. cbv zeta. rewrite bind_run. unfold path_exists. cbv beta iota.
  destruct (is_file (fs w) f || is_dir (fs w) f) eqn:He; cbn [when]; [|by eexists _, _].
  rewrite seq_run.
  destruct Hshape as [-> | (x & -> & Hname)].
  - apply (backup_inv_file F0 "migration_backup_phase2" ts Pf Pd
             ("core" :: "services" :: ["database_service.dart"]) w Hsane Hinv eq_refl) in He.
    destruct (backup_inv_mkdir F0 "migration_backup_phase2" ts Pf Pd ["core"; "services"] w)
      as (wa & Hmk & Hinva & Hdira & _); [done | | | done |].
    { intros k [Hx | [x Hx]]; destruct k as [|[|[|k]]]; discriminate. }
    { intros k. unfold Pd.
      destruct k as [|[|[|k]]]; cbn [take]; [left | right; left | right; right; left..]. }
    cbn in Hmk |- *. rewrite Hmk.
    destruct (backup_inv_copy F0 "migration_backup_phase2" ts Pf Pd
                ["lib"; "core"; "services"; "database_service.dart"]
                ["core"; "services"; "database_service.dart"] wa)
      as (wb & Hcopy & Hinvb & _); try done.
    + by left.
    + unfold Pd. intros Hin.
      repeat (apply elem_of_cons in Hin as [Hin | Hin]; [discriminate|]).
      by apply elem_of_nil in Hin.
    + destruct Hinva as (Hfa & _). destruct Hinv as (Hf0 & _).
      rewrite (Hfa ["core"; "services"; "database_service.dart"]).
      by rewrite <- (Hf0 ["core"; "services"; "database_service.dart"]).
    + cbn in Hcopy. rewrite Hcopy. by eexists _, _.
  - assert (Hdart : name_ends_with ".dart" (name ["lib"; "providers"; x]) = true) by done.
    apply (backup_inv_file F0 "migration_backup_phase2" ts Pf Pd
             ("providers" :: [x]) w Hsane Hinv Hdart) in He.
    destruct (backup_inv_mkdir F0 "migration_backup_phase2" ts Pf Pd ["providers"] w)
      as (wa & Hmk & Hinva & Hdira & _); [done | | | done |].
    { intros k [Hx | [y Hx]]; destruct k as [|[|k]]; discriminate. }
    { intros k. unfold Pd.
      destruct k as [|[|k]]; cbn [take]; [left | right; right; right; left..]. }
    cbn in Hmk |- *. rewrite Hmk.
    destruct (backup_inv_copy F0 "migration_backup_phase2" ts Pf Pd
                ["lib"; "providers"; x] ["providers"; x] wa)
      as (wb & Hcopy & Hinvb & _); try done.
    + right. by eexists.
    + unfold Pd. intros Hin.
      repeat (apply elem_of_cons in Hin as [Hin | Hin]; [discriminate|]).
      by apply elem_of_nil in Hin.
    + destruct Hinva as (Hfa & _). destruct Hinv as (Hf0 & _).
      rewrite (Hfa ["providers"; x]). by rewrite <- (Hf0 ["providers"; x]).
    + cbn in Hcopy. rewrite Hcopy. by eexists _, _.
Qed.

Lemma second_backup_returns (ts : string) (w : world) :
  sane (fs w) ->
  fresh_backup (fs w) BACKUP_DIR ts ->
  exists w1, create_backup ts w = (Return (BACKUP_DIR ++ [ts]), w1).
Proof.
  intros Hsane Hfresh.
  set (Pf := fun q : list string =>
               q = ["core"; "services"; "database_service.dart"]
               \/ exists x, q = ["providers"; x]).
  set (Pd := fun q : list string =>
               q ∈ [[]; ["core"]; ["core"; "services"]; ["providers"]]).
  pose proof (backup_inv_fresh (fs w) "migration_backup_phase2" ts Pf Pd Hfresh) as Hinv.
  unfold create_backup. cbv zeta. rewrite seq_run.
  destruct (backup_inv_mkdir (fs w) "migration_backup_phase2" ts Pf Pd [] w)
    as (wa & Hmk & Hinva & _); [done | | | done |].
  { intros k [Hx | [x Hx]]; destruct k; discriminate. }
  { intros k. unfold Pd. destruct k; cbn [take]; left. }
  change (BACKUP_DIR ++ [ts]) with (["migration_backup_phase2"; ts] ++ []) at 1.
  rewrite Hmk.
  rewrite bind_run.
  destruct (glob_dart (LIB_DIR ++ ["providers"]) wa) as [[l|e] wa'] eqn:Hglob;
    [|discriminate].
  assert (wa' = wa) as -> by (by injection Hglob).
  rewrite seq_run.
  destruct (succeeds_for_each
              (backup_inv (fs w) "migration_backup_phase2" ts Pf Pd)
              ([LIB_DIR ++ ["core"; "services"; "database_service.dart"];
                LIB_DIR ++ ["providers"; "organization_provider.dart"]]
                 ++ List.filter (fun f => negb (name_ends_with ".g.dart" (name f))) l)
              (providers_body (BACKUP_DIR ++ [ts])))
    with (w := wa) as ([] & wb & Hloop & _); [| done |].
  { intros f Hf. apply providers_body_succeeds; [done|].
    apply elem_of_app in Hf as [Hf | Hf].
    - apply elem_of_cons in Hf as [-> | Hf]; [by left|].
      apply list_elem_of_singleton in Hf as ->. right. by eexists.
    - apply list_elem_of_In, filter_In in Hf as [Hf _]. apply list_elem_of_In in Hf.
      destruct (glob_dart_elem _ _ _ _ Hglob Hf) as (Hshape & Hname & _).
      right. exists (name f). split; [exact Hshape | exact Hname]. }
  unfold providers_body in Hloop. rewrite Hloop, ret_run. by eexists.
Qed.

End SecondBackupReturns.

Section RunsReturn.
Context `{UnicodeTable}.

(** X22: the backups return.  In a project in which every file lies in a
    directory and no directory is named like a Dart file, and in which
    the backup directory of the run does not exist yet (and the backup
    directory of the script is no file), [create_backup] of the first and
    of the second script returns the path of the backup of the run:
    missing models, providers or services are passed over, and no
    directory or copy fails. *)
Theorem backups_return_in_a_fresh_directory :
  (forall timestamp w,
      well_formed (fs w) = true ->
      no_dart_dirs (fs w) = true ->
      fresh_backup (fs w) MigrateToSaas.BACKUP_DIR timestamp ->
      exists w1,
        MigrateToSaas.create_backup timestamp w
        = (Return (MigrateToSaas.BACKUP_DIR ++ [timestamp]), w1))
  /\ (forall timestamp w,
        well_formed (fs w) = true ->
        no_dart_dirs (fs w) = true ->
        fresh_backup (fs w) Phase2.BACKUP_DIR timestamp ->
        exists w1,
          Phase2.create_backup timestamp w
          = (Return (Phase2.BACKUP_DIR ++ [timestamp]), w1)).
Proof.
  split; intros timestamp w Hwf Hnd Hfresh.
  - apply first_backup_returns; [by apply sane_of_well_formed | done].
  - apply second_backup_returns; [by apply sane_of_well_formed | done].
Qed.





End RunsReturn.

Section RunsReturnSamples.

(** Nothing in the sample projects lies at or under a backup directory. *)
Lemma samples_fresh (fl : list (list string * string)) (root ts : string) :
  Forall (fun p => exists rest, p.1 = "lib" :: rest) fl ->
  root <> "lib" ->
  fresh_backup (fs (world_of fl project_dirs)) [root] ts.
Proof.
  intros Hfl Hroot. split.
  - unfold is_file, world_of. cbn [fs files]. apply bool_decide_eq_false_2.
    intros [t Ht]. apply elem_of_list_to_map_2, list_elem_of_fmap in Ht as ([p s] & Heq & Hin).
    injection Heq as Hp _. apply (proj1 (Forall_forall _ _) Hfl) in Hin as [rest Hrest].
    cbn [fst] in Hrest. congruence.
  - intros rest. split.
    + unfold world_of. cbn [fs files]. apply not_elem_of_list_to_map_1.
      intros Hin. apply list_elem_of_fmap in Hin as ([p t] & Heq & Hin).
      apply list_elem_of_fmap in Hin as ([p' s] & Heq' & Hin).
      injection Heq' as -> _. cbn [fst] in Heq.
      apply (proj1 (Forall_forall _ _) Hfl) in Hin as [rest' Hrest].
      cbn [fst] in Hrest. rewrite Hrest in Heq. injection Heq as Heq _. by apply Hroot.
    + unfold world_of, project_dirs. cbn [fs dirs]. intros Hin.
      apply elem_of_list_to_set in Hin.
      repeat (apply elem_of_cons in Hin as [Hin | Hin];
              [injection Hin as Hin _; by apply Hroot|]).
      by apply elem_of_nil in Hin.
Qed.

Lemma backups_return_in_a_fresh_directory_witness :
  well_formed (fs two_models) = true
  /\ no_dart_dirs (fs two_models) = true
  /\ (exists w1,
        MigrateToSaas.create_backup "20240101_120000" two_models
        = (Return ["migration_backup"; "20240101_120000"], w1))
  /\ (exists w1,
        Phase2.create_backup "20240101_120000" plain_provider
        = (Return ["migration_backup_phase2"; "20240101_120000"], w1)).
Proof.
  split_and!.
  - vm_compute. reflexivity.
  - vm_compute. reflexivity.
  - apply (proj1 backups_return_in_a_fresh_directory "20240101_120000" two_models).
    + vm_compute. reflexivity.
    + vm_compute. reflexivity.
    + apply samples_fresh; [|discriminate].
      repeat constructor; by eexists.
  - apply (proj2 backups_return_in_a_fresh_directory "20240101_120000" plain_provider).
    + vm_compute. reflexivity.
    + vm_compute. reflexivity.
    + apply samples_fresh; [|discriminate].
      repeat constructor; by eexists.
Defined.


End RunsReturnSamples.
